(** * OSAL shared layer: a shallow embedding of the resource wrappers

    This development embeds the parts of the OSAL shared layer that the
    specification's testable properties talk about, and the functions
    around them:

    - [os-shared-idmap.h]: the handle codec;
    - [osapi-timebase.c]: the time base servicing thread, the time base
      API and [OS_Milli2Ticks];
    - [osapi-queue.c], [osapi-binsem.c]: the queue and binary semaphore
      API;
    - [osapi-filesys.c]: the volume API and [OS_TranslatePath];
    - [osapi-common.c]: [OS_API_Init], [OS_DeleteAllObjects],
      [OS_IdleLoop] and [OS_ApplicationShutdown];
    - [os-impl-binsem.c], [os-impl-tasks.c] (VxWorks): the binary
      semaphore adapter, and the creation and the delay of a task.

    C integers are modelled as [Z] with the wrap-around written out,
    tables as lists indexed by slot number, NUL-terminated strings as
    [string], pointers that may be NULL as [option].  Every function is a
    state-passing function; loops whose termination is not syntactic take
    a fuel argument and return [None] when it runs out.  Mutual exclusion
    (the global table locks, the per-timebase lock) is outside this
    sequential embedding: every API call is one atomic transition.

    The object ID manager ([osapi-idmap.c]) and the configuration and
    public headers are not part of the tree: the former is modelled from
    the specification, the latter are parameters or, where only a
    numbering is needed, fixed values.  The common table and the internal
    table of a type are C arrays of the same size; where the embedding
    meets a slot that one of the two lists does not have, it leaves
    everything as it is. *)

From Stdlib Require Import ZArith Lia Bool List Ascii.
From stdpp Require Import base tactics option list numbers strings.

Local Open Scope Z_scope.

(** ** Fixed-width integers *)

Module CInt.

Definition INT_MAX : Z := 2147483647.
Definition UINT32_MAX : Z := 4294967295.

(** Conversion of a mathematical value to [uint32], [int32], [uint64]. *)
Definition to_uint32 (z : Z) : Z := z mod 2 ^ 32.
Definition to_int32 (z : Z) : Z := (z + 2 ^ 31) mod 2 ^ 32 - 2 ^ 31.
Definition to_uint64 (z : Z) : Z := z mod 2 ^ 64.

Definition is_uint32 (z : Z) : Prop := 0 <= z < 2 ^ 32.
Definition is_int32 (z : Z) : Prop := - 2 ^ 31 <= z < 2 ^ 31.

End CInt.
Export CInt.

(** ** Status codes *)

Module Status.

(** Modelled from the spec: the numeric values of the status codes live
    in the public header [osapi-error.h], which is not part of the tree.
    Sections 6.2 and 7 of the specification fix [OS_SUCCESS = 0] and
    pairwise distinct, stable, negative error codes; nothing below relies
    on more than that. *)
Definition OS_SUCCESS : Z := 0.
Definition OS_ERROR : Z := -1.
Definition OS_INVALID_POINTER : Z := -2.
Definition OS_SEM_FAILURE : Z := -6.
Definition OS_SEM_TIMEOUT : Z := -7.
Definition OS_QUEUE_EMPTY : Z := -8.
Definition OS_QUEUE_FULL : Z := -9.
Definition OS_QUEUE_TIMEOUT : Z := -10.
Definition OS_QUEUE_INVALID_SIZE : Z := -11.
Definition OS_ERR_NAME_TOO_LONG : Z := -13.
Definition OS_ERR_NO_FREE_IDS : Z := -14.
Definition OS_ERR_NAME_TAKEN : Z := -15.
Definition OS_ERR_INVALID_ID : Z := -16.
Definition OS_ERR_NAME_NOT_FOUND : Z := -17.
Definition OS_TIMER_ERR_INVALID_ARGS : Z := -29.
Definition OS_ERR_OBJECT_IN_USE : Z := -33.
Definition OS_ERR_INCORRECT_OBJ_STATE : Z := -35.
Definition OS_FS_ERR_PATH_TOO_LONG : Z := -103.
Definition OS_FS_ERR_NAME_TOO_LONG : Z := -104.
Definition OS_FS_ERR_DEVICE_NOT_FREE : Z := -107.
Definition OS_FS_ERR_PATH_INVALID : Z := -108.

End Status.
Export Status.

(** ** Object identifiers and the common table (os-shared-idmap.h) *)

Module IdMap.

(** [osal_id_t]: an opaque 32-bit value. *)
Definition osal_id_t : Type := Z.

Definition OS_OBJECT_ID_UNDEFINED : osal_id_t := 0.
Definition OS_OBJECT_ID_RESERVED : osal_id_t := 0xFFFFFFFF.
Definition OS_OBJECT_EXCL_REQ_FLAG : Z := 0x0001.

(** Modelled from the spec: the field layout constants and the resource
    type numbers come from the public header [osapi-idmap.h], which is
    not part of the tree.  Section 6.3 puts the resource type in the
    upper bits and the serial number in the lower bits of the 32-bit
    handle; section 3.1 lists the resource types. *)
Definition OS_OBJECT_TYPE_SHIFT : Z := 16.
Definition OS_OBJECT_INDEX_MASK : Z := 0xFFFF.

Definition OS_OBJECT_TYPE_UNDEFINED : Z := 0.
Definition OS_OBJECT_TYPE_OS_TASK : Z := 1.
Definition OS_OBJECT_TYPE_OS_QUEUE : Z := 2.
Definition OS_OBJECT_TYPE_OS_COUNTSEM : Z := 3.
Definition OS_OBJECT_TYPE_OS_BINSEM : Z := 4.
Definition OS_OBJECT_TYPE_OS_MUTEX : Z := 5.
Definition OS_OBJECT_TYPE_OS_STREAM : Z := 6.
Definition OS_OBJECT_TYPE_OS_DIR : Z := 7.
Definition OS_OBJECT_TYPE_OS_TIMEBASE : Z := 8.
Definition OS_OBJECT_TYPE_OS_TIMECB : Z := 9.
Definition OS_OBJECT_TYPE_OS_MODULE : Z := 10.
Definition OS_OBJECT_TYPE_OS_FILESYS : Z := 11.
Definition OS_OBJECT_TYPE_OS_CONSOLE : Z := 12.
Definition OS_OBJECT_TYPE_USER : Z := 16.

Definition OS_ObjectIdToSerialNumber_Impl (id : osal_id_t) : Z :=
  Z.land id OS_OBJECT_INDEX_MASK.

Definition OS_ObjectIdToType_Impl (id : osal_id_t) : Z :=
  Z.shiftr id OS_OBJECT_TYPE_SHIFT.

Definition OS_ObjectIdCompose_Impl (idtype idserial : Z) : osal_id_t :=
  to_uint32 (Z.lor (Z.shiftl idtype OS_OBJECT_TYPE_SHIFT) idserial).

Definition OS_ObjectIdEqual (a b : osal_id_t) : bool := a =? b.
Definition OS_ObjectIdDefined (a : osal_id_t) : bool := negb (a =? 0).

(** [struct OS_common_record].  [name_entry] points into the internal
    record of the same slot; the embedding keeps the string it points
    to ([None] for a NULL pointer). *)
Record OS_common_record_t : Type := mk_common {
  name_entry : option string;
  active_id : osal_id_t;
  creator : osal_id_t;
  refcount : Z;
  flags : Z
}.

Definition common_zero : OS_common_record_t :=
  mk_common None OS_OBJECT_ID_UNDEFINED OS_OBJECT_ID_UNDEFINED 0 0.

Inductive OS_lock_mode_t : Type :=
| OS_LOCK_MODE_NONE
| OS_LOCK_MODE_GLOBAL
| OS_LOCK_MODE_EXCLUSIVE
| OS_LOCK_MODE_REFCOUNT.

Definition set_refcount (r : OS_common_record_t) (n : Z) : OS_common_record_t :=
  mk_common (name_entry r) (active_id r) (creator r) n (flags r).

Definition set_flags (r : OS_common_record_t) (f : Z) : OS_common_record_t :=
  mk_common (name_entry r) (active_id r) (creator r) (refcount r) f.

Definition set_active_id (r : OS_common_record_t) (id : osal_id_t) : OS_common_record_t :=
  mk_common (name_entry r) id (creator r) (refcount r) (flags r).

(** Modelled from the spec: [OS_ObjectIdToArrayIndex] is defined in
    [osapi-idmap.c], which is not part of the tree.  Sections 3.1 and
    4.A: the low part of the serial number carries the slot index, the
    rest is a generation count; the conversion fails when the handle's
    type is not the expected one or the type has no slots.  The capacity
    is the length of the type's table. *)
Definition OS_ObjectIdToArrayIndex (idtype : Z) (capacity : nat) (id : osal_id_t)
  : Z * nat :=
  if negb (OS_ObjectIdToType_Impl id =? idtype) then (OS_ERR_INVALID_ID, 0%nat)
  else if (capacity =? 0)%nat then (OS_ERR_INVALID_ID, 0%nat)
  else (OS_SUCCESS, Z.to_nat (OS_ObjectIdToSerialNumber_Impl id mod Z.of_nat capacity)).

(** Modelled from the spec: the lock-mode policy applied to a record
    that a lookup has resolved (section 4.D.1; [osapi-idmap.c] is not
    part of the tree).  [NONE] and [GLOBAL] leave the record alone;
    [REFCOUNT] adds one reference; [EXCLUSIVE] needs [refcount = 0] and
    otherwise leaves the exclusive-request flag set and, no other thread
    being there to drop the reference during the bounded retries, fails
    with [OS_ERR_OBJECT_IN_USE]. *)
Definition OS_ObjectIdConvertLock (lock_mode : OS_lock_mode_t) (r : OS_common_record_t)
  : Z * OS_common_record_t :=
  match lock_mode with
  | OS_LOCK_MODE_NONE | OS_LOCK_MODE_GLOBAL => (OS_SUCCESS, r)
  | OS_LOCK_MODE_REFCOUNT => (OS_SUCCESS, set_refcount r (refcount r + 1))
  | OS_LOCK_MODE_EXCLUSIVE =>
      if refcount r =? 0 then (OS_SUCCESS, r)
      else (OS_ERR_OBJECT_IN_USE, set_flags r (Z.lor (flags r) OS_OBJECT_EXCL_REQ_FLAG))
  end.

(** Modelled from the spec: [OS_ObjectIdGetById] (section 4.D.4;
    [osapi-idmap.c] is not part of the tree): check the type, compute
    the slot, check that the slot's [active_id] is the handle, apply
    the lock mode.  Returns the status, the slot and the table. *)
Definition OS_ObjectIdGetById (lock_mode : OS_lock_mode_t) (idtype : Z) (id : osal_id_t)
    (tbl : list OS_common_record_t) : Z * nat * list OS_common_record_t :=
  match OS_ObjectIdToArrayIndex idtype (length tbl) id with
  | (rc, idx) =>
      if negb (rc =? OS_SUCCESS) then (OS_ERR_INVALID_ID, 0%nat, tbl)
      else
        match tbl !! idx with
        | None => (OS_ERR_INVALID_ID, 0%nat, tbl)
        | Some r =>
            if negb (OS_ObjectIdEqual (active_id r) id) then (OS_ERR_INVALID_ID, 0%nat, tbl)
            else
              let '(rc', r') := OS_ObjectIdConvertLock lock_mode r in
              (rc', idx, <[idx := r']> tbl)
        end
  end.

(** Modelled from the spec: the search of [OS_ObjectIdGetBySearch]
    (section 4.D.5; [osapi-idmap.c] is not part of the tree): walk the
    slots in order, the first active slot on which the match function
    holds wins; no match is [OS_ERR_NAME_NOT_FOUND]; the lock mode is
    applied after the match. *)
Fixpoint OS_ObjectIdSearch (MatchFunc : nat -> OS_common_record_t -> bool)
    (i : nat) (tbl : list OS_common_record_t) : option nat :=
  match tbl with
  | [] => None
  | r :: tbl' =>
      if OS_ObjectIdDefined (active_id r) && negb (active_id r =? OS_OBJECT_ID_RESERVED)
         && MatchFunc i r
      then Some i
      else OS_ObjectIdSearch MatchFunc (S i) tbl'
  end.

(** Modelled from the spec: [OS_ObjectIdGetBySearch] itself, the search
    followed by the lock-mode policy.  Returns the status, the slot of
    the record found and the table. *)
Definition OS_ObjectIdGetBySearch (lock_mode : OS_lock_mode_t)
    (MatchFunc : nat -> OS_common_record_t -> bool)
    (tbl : list OS_common_record_t) : Z * nat * list OS_common_record_t :=
  match OS_ObjectIdSearch MatchFunc 0 tbl with
  | None => (OS_ERR_NAME_NOT_FOUND, 0%nat, tbl)
  | Some idx =>
      match tbl !! idx with
      | None => (OS_ERR_NAME_NOT_FOUND, 0%nat, tbl)
      | Some r =>
          let '(rc', r') := OS_ObjectIdConvertLock lock_mode r in
          (rc', idx, <[idx := r']> tbl)
      end
  end.

(** Modelled from the spec: [OS_ObjectNameMatch], the built-in
    name-equality predicate of get-by-name (section 4.D.5). *)
Definition OS_ObjectNameMatch (name : string) (i : nat) (r : OS_common_record_t) : bool :=
  match name_entry r with
  | Some n => bool_decide (n = name)
  | None => false
  end.

(** Modelled from the spec: [OS_ObjectIdGetByName], the search with the
    name-equality predicate (section 4.D.5). *)
Definition OS_ObjectIdGetByName (lock_mode : OS_lock_mode_t) (name : string)
    (tbl : list OS_common_record_t) : Z * nat * list OS_common_record_t :=
  OS_ObjectIdGetBySearch lock_mode (OS_ObjectNameMatch name) tbl.

(** Modelled from the spec: [OS_ObjectIdFindByName] (section 4.E,
    GetIdByName: a find-by-name that retains nothing; [osapi-idmap.c] is
    not part of the tree).  Returns the status and the handle found. *)
Definition OS_ObjectIdFindByName (name : string) (tbl : list OS_common_record_t)
  : Z * osal_id_t :=
  match OS_ObjectIdSearch (OS_ObjectNameMatch name) 0 tbl with
  | None => (OS_ERR_NAME_NOT_FOUND, OS_OBJECT_ID_UNDEFINED)
  | Some idx =>
      match tbl !! idx with
      | None => (OS_ERR_NAME_NOT_FOUND, OS_OBJECT_ID_UNDEFINED)
      | Some r => (OS_SUCCESS, active_id r)
      end
  end.

(** Modelled from the spec: the slot scan of allocate-new (section 4.D.2,
    steps 3 and 4; [osapi-idmap.c] is not part of the tree): advance the
    serial counter, at most once per slot, until it names a free slot;
    the counter restarts from the slot number when it would leave the
    serial field. *)
Fixpoint OS_ObjectIdFindNext (n : nat) (idvalue : Z) (tbl : list OS_common_record_t)
  : option (Z * nat) :=
  match n with
  | O => None
  | S n' =>
      let idvalue := idvalue + 1 in
      let local_id := Z.to_nat (idvalue mod Z.of_nat (length tbl)) in
      let idvalue := if OS_OBJECT_INDEX_MASK <=? idvalue then Z.of_nat local_id else idvalue in
      match tbl !! local_id with
      | None => None
      | Some r =>
          if OS_ObjectIdDefined (active_id r) then OS_ObjectIdFindNext n' idvalue tbl
          else Some (idvalue, local_id)
      end
  end.

(** A type's share of the common table: the serial counter and the
    records. *)
Record OS_objtype_state_t : Type := mk_objtype {
  last_id_issued : Z;
  records : list OS_common_record_t
}.

(** Modelled from the spec: [OS_ObjectIdAllocateNew] (section 4.D.2;
    [osapi-idmap.c] is not part of the tree).  [self] is the handle of
    the calling task. *)
Definition OS_ObjectIdAllocateNew (name : string) (self : osal_id_t)
    (ots : OS_objtype_state_t) : Z * nat * OS_objtype_state_t :=
  if negb (String.eqb name "")
     && bool_decide (is_Some (OS_ObjectIdSearch (OS_ObjectNameMatch name) 0 (records ots)))
  then (OS_ERR_NAME_TAKEN, 0%nat, ots)
  else
    match OS_ObjectIdFindNext (length (records ots)) (last_id_issued ots) (records ots) with
    | None => (OS_ERR_NO_FREE_IDS, 0%nat, ots)
    | Some (serial, idx) =>
        (OS_SUCCESS, idx,
         mk_objtype serial
           (<[idx := mk_common None OS_OBJECT_ID_RESERVED self 0 0]> (records ots)))
    end.

(** Modelled from the spec: [OS_ObjectIdFinalizeNew] (section 4.D.3).
    [outid] is the caller's handle variable, [None] when the pointer is
    NULL. *)
Definition OS_ObjectIdFinalizeNew (operation_status : Z) (idtype : Z) (idx : nat)
    (ots : OS_objtype_state_t) (outid : option osal_id_t)
  : Z * OS_objtype_state_t * option osal_id_t :=
  match records ots !! idx with
  | None => (operation_status, ots, outid)
  | Some r =>
      let id :=
        if operation_status =? OS_SUCCESS
        then OS_ObjectIdCompose_Impl idtype (last_id_issued ots)
        else OS_OBJECT_ID_UNDEFINED in
      (operation_status,
       mk_objtype (last_id_issued ots) (<[idx := set_active_id r id]> (records ots)),
       match outid with Some _ => Some id | None => None end)
  end.

(** Modelled from the spec: [OS_ObjectIdFinalizeDelete] (section 4.D.6). *)
Definition OS_ObjectIdFinalizeDelete (operation_status : Z) (idx : nat)
    (tbl : list OS_common_record_t) : Z * list OS_common_record_t :=
  if operation_status =? OS_SUCCESS
  then (operation_status, <[idx := common_zero]> tbl)
  else (operation_status, tbl).

(** Modelled from the spec: [OS_ObjectIdRefcountDecr] (section 4.D.6;
    [osapi-idmap.c] is not part of the tree): a reference is dropped
    from a record that has one; without the assertion of the section, a
    record that has none is left alone and reported as being in the
    wrong state. *)
Definition OS_ObjectIdRefcountDecr (idx : nat) (tbl : list OS_common_record_t)
  : Z * list OS_common_record_t :=
  match tbl !! idx with
  | None => (OS_ERR_INVALID_ID, tbl)
  | Some r =>
      if 0 <? refcount r
      then (OS_SUCCESS, <[idx := set_refcount r (refcount r - 1)]> tbl)
      else (OS_ERR_INCORRECT_OBJ_STATE, tbl)
  end.

End IdMap.
Export IdMap.

(** ** Compile-time configuration (osconfig.h)

    The configuration header is not part of the tree; its constants are
    the fields of a class, and every definition below is generic in it. *)

Class OsConfig : Type := {
  OS_MAX_API_NAME : nat;
  OS_MAX_PATH_LEN : nat;
  OS_MAX_LOCAL_PATH_LEN : nat;
  OS_MAX_FILE_NAME : nat;
  OS_FS_DEV_NAME_LEN : nat
}.

(** A configuration to run the functions with. *)
Definition sample_config : OsConfig := {|
  OS_MAX_API_NAME := 20;
  OS_MAX_PATH_LEN := 64;
  OS_MAX_LOCAL_PATH_LEN := 128;
  OS_MAX_FILE_NAME := 20;
  OS_FS_DEV_NAME_LEN := 32
|}.

(** [strncpy (dst, src, n)] into a zeroed buffer of more than [n] bytes,
    read back as a string. *)
Definition strncpy (src : string) (n : nat) : string := String.substring 0 n src.

(** ** Time bases (osapi-timebase.c) *)

Module TimeBase.

(** What the servicing thread does to the outside world, most recent
    event first: application callbacks, the yield of the spin-loop guard,
    and its one-time debug warning. *)
Inductive Event : Type :=
| EvCallback (fn : nat) (timer_id : osal_id_t) (arg : Z)
| EvTaskDelay (ms : Z)
| EvDebugWarning.

Definition is_callback (e : Event) : bool :=
  match e with EvCallback _ _ _ => true | _ => false end.

(** Number of callback invocations recorded in a trace. *)
Fixpoint fired (tr : list Event) : nat :=
  match tr with
  | [] => O
  | e :: tr' => if is_callback e then S (fired tr') else fired tr'
  end.

(** [OS_timecb_internal_record_t] (section 3.4 of the specification; the
    header os-shared-time.h is not part of the tree).  [wait_time] and
    [interval_time] are [int32], [backlog_resets] is [uint32],
    [callback_ptr] is [None] for a NULL function pointer, [next_ref] is
    the slot of the next record of the ring. *)
Record OS_timecb_internal_record_t : Type := mk_timecb {
  timebase_ref : nat;
  callback_ptr : option nat;
  callback_arg : Z;
  interval_time : Z;
  wait_time : Z;
  backlog_resets : Z;
  next_ref : nat
}.

Definition set_wait_time (cb : OS_timecb_internal_record_t) (w : Z) :=
  mk_timecb (timebase_ref cb) (callback_ptr cb) (callback_arg cb) (interval_time cb)
            w (backlog_resets cb) (next_ref cb).

Definition set_backlog_resets (cb : OS_timecb_internal_record_t) (b : Z) :=
  mk_timecb (timebase_ref cb) (callback_ptr cb) (callback_arg cb) (interval_time cb)
            (wait_time cb) b (next_ref cb).

(** [OS_timebase_internal_record_t]: [freerun_time] is [uint32],
    [first_cb] is the handle of some member of the callback ring,
    [external_sync] is [None] for a NULL sync function. *)
Record OS_timebase_internal_record_t : Type := mk_timebase {
  timebase_name : string;
  external_sync : option nat;
  accuracy_usec : Z;
  first_cb : osal_id_t;
  freerun_time : Z;
  nominal_start_time : Z;
  nominal_interval_time : Z
}.

Definition timebase_zero : OS_timebase_internal_record_t :=
  mk_timebase "" None 0 OS_OBJECT_ID_UNDEFINED 0 0 0.

Definition set_freerun_time (tb : OS_timebase_internal_record_t) (f : Z) :=
  mk_timebase (timebase_name tb) (external_sync tb) (accuracy_usec tb) (first_cb tb)
              f (nominal_start_time tb) (nominal_interval_time tb).

Definition set_nominal (tb : OS_timebase_internal_record_t) (s i : Z) :=
  mk_timebase (timebase_name tb) (external_sync tb) (accuracy_usec tb) (first_cb tb)
              (freerun_time tb) s i.

Definition OS_TIMEBASE_SPIN_LIMIT : Z := 4.

(** The tables of the time base and timer callback types, and the trace
    of the servicing thread. *)
Record State : Type := mk_state {
  OS_global_timebase_table : OS_objtype_state_t;
  OS_timebase_table : list OS_timebase_internal_record_t;
  OS_global_timecb_table : list OS_common_record_t;
  OS_timecb_table : list OS_timecb_internal_record_t;
  trace : list Event
}.

Definition set_global_timebase_table (st : State) (g : OS_objtype_state_t) : State :=
  mk_state g (OS_timebase_table st) (OS_global_timecb_table st) (OS_timecb_table st) (trace st).

Definition set_timebase_table (st : State) (t : list OS_timebase_internal_record_t) : State :=
  mk_state (OS_global_timebase_table st) t (OS_global_timecb_table st) (OS_timecb_table st)
           (trace st).

Definition set_timecb_table (st : State) (t : list OS_timecb_internal_record_t) : State :=
  mk_state (OS_global_timebase_table st) (OS_timebase_table st) (OS_global_timecb_table st) t
           (trace st).

Definition set_trace (st : State) (tr : list Event) : State :=
  mk_state (OS_global_timebase_table st) (OS_timebase_table st) (OS_global_timecb_table st)
           (OS_timecb_table st) tr.

(** *** The servicing thread *)

(** The inner loop of the ring walk,
    [while (timecb->wait_time <= 0) { ... }], for one callback record.
    [saved_wait_time] is the record's wait time before the tick was
    subtracted.  Additions and negations of [int32] values are reduced
    back to [int32]. *)
Fixpoint timecb_while (fuel : nat) (curr_cb_public_id : osal_id_t) (saved_wait_time : Z)
    (timecb : OS_timecb_internal_record_t) (tr : list Event)
  : option (OS_timecb_internal_record_t * list Event) :=
  if negb (wait_time timecb <=? 0) then Some (timecb, tr)
  else
    match fuel with
    | O => None
    | S fuel' =>
        let timecb :=
          set_wait_time timecb (to_int32 (wait_time timecb + interval_time timecb)) in
        let timecb :=
          if wait_time timecb <? to_int32 (- interval_time timecb)
          then set_wait_time
                 (set_backlog_resets timecb (to_uint32 (backlog_resets timecb + 1)))
                 (to_int32 (- interval_time timecb))
          else timecb in
        let tr :=
          match callback_ptr timecb with
          | Some fn =>
              if 0 <? saved_wait_time
              then EvCallback fn curr_cb_public_id (callback_arg timecb) :: tr
              else tr
          | None => tr
          end in
        if interval_time timecb <=? 0 then Some (timecb, tr)
        else timecb_while fuel' curr_cb_public_id saved_wait_time timecb tr
    end.

(** The body of the [do ... while] for one record: save the wait time,
    subtract the tick ([int32 -= uint32], reduced back to [int32]), run
    the inner loop. *)
Definition timecb_tick (fuel : nat) (tick_time : Z) (curr_cb_public_id : osal_id_t)
    (timecb : OS_timecb_internal_record_t) (tr : list Event)
  : option (OS_timecb_internal_record_t * list Event) :=
  let saved_wait_time := wait_time timecb in
  let timecb := set_wait_time timecb (to_int32 (wait_time timecb - tick_time)) in
  timecb_while fuel curr_cb_public_id saved_wait_time timecb tr.

(** [do { ... curr_cb_local_id = timecb->next_ref; }
     while (curr_cb_local_id != timer_id);]
    [fuel] bounds the inner loop of each record, [n] the number of
    records visited.  A slot outside the tables has no value. *)
Fixpoint timecb_ring (fuel n : nat) (tick_time : Z) (timer_id curr_cb_local_id : nat)
    (gtbl : list OS_common_record_t)
    (tbl : list OS_timecb_internal_record_t) (tr : list Event)
  : option (list OS_timecb_internal_record_t * list Event) :=
  match n with
  | O => None
  | S n' =>
      g ← gtbl !! curr_cb_local_id;
      timecb ← tbl !! curr_cb_local_id;
      '(timecb', tr') ← timecb_tick fuel tick_time (active_id g) timecb tr;
      let tbl' := <[curr_cb_local_id := timecb']> tbl in
      if negb (next_ref timecb' =? timer_id)%nat
      then timecb_ring fuel n' tick_time timer_id (next_ref timecb') gtbl tbl' tr'
      else Some (tbl', tr')
  end.

(** The spin-loop guard at the top of the thread's loop. *)
Definition spin_guard (tick_time spin_cycles : Z) (tr : list Event) : Z * list Event :=
  if negb (tick_time =? 0) then (0, tr)
  else if spin_cycles <? OS_TIMEBASE_SPIN_LIMIT then (to_uint32 (spin_cycles + 1), tr)
  else
    let tr := EvTaskDelay 10 :: tr in
    if spin_cycles =? OS_TIMEBASE_SPIN_LIMIT
    then (to_uint32 (spin_cycles + 1), EvDebugWarning :: tr)
    else (spin_cycles, tr).

(** One turn of the thread's [while (1)] loop, from the value
    [tick_time] that the sync function returned.  The boolean tells
    whether the loop goes on ([false] after the [break]). *)
Definition OS_TimeBase_CallbackThread_tick (fuel : nat) (timebase_id : osal_id_t)
    (local_id : nat) (tick_time : Z) (spin_cycles : Z) (st : State)
  : option (bool * Z * State) :=
  let '(spin_cycles, tr) := spin_guard tick_time spin_cycles (trace st) in
  record ← records (OS_global_timebase_table st) !! local_id;
  timebase ← OS_timebase_table st !! local_id;
  if negb (OS_ObjectIdEqual timebase_id (active_id record))
  then Some (false, spin_cycles, set_trace st tr)
  else
    let timebase := set_freerun_time timebase (to_uint32 (freerun_time timebase + tick_time)) in
    let st := set_timebase_table st (<[local_id := timebase]> (OS_timebase_table st)) in
    match OS_ObjectIdToArrayIndex OS_OBJECT_TYPE_OS_TIMECB
            (length (OS_global_timecb_table st)) (first_cb timebase) with
    | (rc, timer_id) =>
        if rc =? 0 then
          '(tbl, tr) ← timecb_ring fuel fuel tick_time timer_id timer_id
                         (OS_global_timecb_table st) (OS_timecb_table st) tr;
          Some (true, spin_cycles, set_trace (set_timecb_table st tbl) tr)
        else Some (true, spin_cycles, set_trace st tr)
    end.

(** The [while (1)] loop over the successive values of the sync
    function. *)
Fixpoint OS_TimeBase_CallbackThread_loop (fuel : nat) (timebase_id : osal_id_t)
    (local_id : nat) (ticks : list Z) (spin_cycles : Z) (st : State) : option State :=
  match ticks with
  | [] => Some st
  | tick_time :: ticks' =>
      '(go_on, spin_cycles, st) ←
        OS_TimeBase_CallbackThread_tick fuel timebase_id local_id tick_time spin_cycles st;
      if go_on : bool
      then OS_TimeBase_CallbackThread_loop fuel timebase_id local_id ticks' spin_cycles st
      else Some st
  end.

(** [OS_TimeBase_CallbackThread], run for as long as [ticks] lasts (the
    registration of the task with the adapter is not modelled). *)
Definition OS_TimeBase_CallbackThread (fuel : nat) (timebase_id : osal_id_t)
    (ticks : list Z) (st : State) : option State :=
  match OS_ObjectIdGetById OS_LOCK_MODE_GLOBAL OS_OBJECT_TYPE_OS_TIMEBASE timebase_id
          (records (OS_global_timebase_table st)) with
  | (rc, local_id, _) =>
      if negb (rc =? 0) then Some st
      else OS_TimeBase_CallbackThread_loop fuel timebase_id local_id ticks 0 st
  end.

(** The successive visits of the ring walk to one record, one per tick. *)
Fixpoint timecb_ticks (fuel : nat) (ticks : list Z) (curr_cb_public_id : osal_id_t)
    (timecb : OS_timecb_internal_record_t) (tr : list Event)
  : option (OS_timecb_internal_record_t * list Event) :=
  match ticks with
  | [] => Some (timecb, tr)
  | tick_time :: ticks' =>
      '(timecb, tr) ← timecb_tick fuel tick_time curr_cb_public_id timecb tr;
      timecb_ticks fuel ticks' curr_cb_public_id timecb tr
  end.

(** *** The public API *)

(** [OS_timebase_prop_t], the output of [OS_TimeBaseGetInfo]. *)
Record OS_timebase_prop_t : Type := mk_timebase_prop {
  prop_name : string;
  prop_creator : osal_id_t;
  prop_nominal_interval_time : Z;
  prop_freerun_time : Z;
  prop_accuracy : Z
}.

(** The result of [memset (timebase_prop, 0, sizeof (OS_timebase_prop_t))]. *)
Definition timebase_prop_zero : OS_timebase_prop_t := mk_timebase_prop "" 0 0 0 0.

(** The platform adapter's side of the time base API, over an adapter
    state [P] of its own. *)
Class TimeBaseAdapter (P : Type) : Type := {
  OS_TimeBaseCreate_Impl : nat -> State -> P -> Z * P;
  OS_TimeBaseSet_Impl : nat -> Z -> Z -> P -> Z * P;
  OS_TimeBaseDelete_Impl : nat -> P -> Z * P;
  OS_TimeBaseGetInfo_Impl : nat -> OS_timebase_prop_t -> P -> Z * OS_timebase_prop_t
}.

Section API.

Context `{OsConfig} {P : Type} `{TimeBaseAdapter P}.

(** [self] is the value of [OS_TaskGetId_Impl ()], the handle of the
    calling task. *)
Variable self : osal_id_t.

(** [OS_SharedGlobalVars.MicroSecPerTick]. *)
Variable MicroSecPerTick : Z.

Definition set_name_entry (ots : OS_objtype_state_t) (idx : nat) (n : string)
  : OS_objtype_state_t :=
  match records ots !! idx with
  | None => ots
  | Some r =>
      mk_objtype (last_id_issued ots)
        (<[idx := mk_common (Some n) (active_id r) (creator r) (refcount r) (flags r)]>
           (records ots))
  end.

Definition OS_TimeBaseCreate (timer_id : option osal_id_t) (timebase_name : option string)
    (external_sync : option nat) (st : State) (p : P)
  : Z * option osal_id_t * State * P :=
  match timer_id, timebase_name with
  | Some _, Some name =>
      if (OS_MAX_API_NAME <=? String.length name)%nat
      then (OS_ERR_NAME_TOO_LONG, timer_id, st, p)
      else if OS_ObjectIdToType_Impl self =? OS_OBJECT_TYPE_OS_TIMEBASE
      then (OS_ERR_INCORRECT_OBJ_STATE, timer_id, st, p)
      else
        match OS_ObjectIdAllocateNew name self (OS_global_timebase_table st) with
        | (return_code, local_id, ots) =>
            if return_code =? OS_SUCCESS then
              let stored_name := strncpy name (OS_MAX_API_NAME - 1) in
              let entry :=
                mk_timebase stored_name external_sync
                  (match external_sync with None => MicroSecPerTick | Some _ => 0 end)
                  OS_OBJECT_ID_UNDEFINED 0 0 0 in
              let st :=
                set_timebase_table
                  (set_global_timebase_table st
                     (set_name_entry ots local_id stored_name))
                  (<[local_id := entry]> (OS_timebase_table st)) in
              let '(return_code, p) := OS_TimeBaseCreate_Impl local_id st p in
              let '(return_code, ots, timer_id) :=
                OS_ObjectIdFinalizeNew return_code OS_OBJECT_TYPE_OS_TIMEBASE local_id
                  (OS_global_timebase_table st) timer_id in
              (return_code, timer_id, set_global_timebase_table st ots, p)
            else (return_code, timer_id, st, p)
        end
  | _, _ => (OS_INVALID_POINTER, timer_id, st, p)
  end.

Definition OS_TimeBaseSet (timer_id : osal_id_t) (start_time interval_time : Z)
    (st : State) (p : P) : Z * State * P :=
  if (1000000000 <=? interval_time) || (1000000000 <=? start_time)
  then (OS_TIMER_ERR_INVALID_ARGS, st, p)
  else if OS_ObjectIdToType_Impl self =? OS_OBJECT_TYPE_OS_TIMEBASE
  then (OS_ERR_INCORRECT_OBJ_STATE, st, p)
  else
    match OS_ObjectIdGetById OS_LOCK_MODE_GLOBAL OS_OBJECT_TYPE_OS_TIMEBASE timer_id
            (records (OS_global_timebase_table st)) with
    | (return_code, local_id, tbl) =>
        if return_code =? OS_SUCCESS then
          let '(return_code, p) := OS_TimeBaseSet_Impl local_id start_time interval_time p in
          if return_code =? OS_SUCCESS then
            match OS_timebase_table st !! local_id with
            | Some tb =>
                (return_code,
                 set_timebase_table st
                   (<[local_id := set_nominal tb start_time interval_time]>
                      (OS_timebase_table st)), p)
            | None => (return_code, st, p)
            end
          else (return_code, st, p)
        else (return_code, st, p)
    end.

Definition OS_TimeBaseDelete (timer_id : osal_id_t) (st : State) (p : P) : Z * State * P :=
  if OS_ObjectIdToType_Impl self =? OS_OBJECT_TYPE_OS_TIMEBASE
  then (OS_ERR_INCORRECT_OBJ_STATE, st, p)
  else
    match OS_ObjectIdGetById OS_LOCK_MODE_EXCLUSIVE OS_OBJECT_TYPE_OS_TIMEBASE timer_id
            (records (OS_global_timebase_table st)) with
    | (return_code, local_id, tbl) =>
        let ots := mk_objtype (last_id_issued (OS_global_timebase_table st)) tbl in
        if return_code =? OS_SUCCESS then
          let '(return_code, p) := OS_TimeBaseDelete_Impl local_id p in
          let '(return_code, tbl) := OS_ObjectIdFinalizeDelete return_code local_id tbl in
          (return_code,
           set_global_timebase_table st
             (mk_objtype (last_id_issued (OS_global_timebase_table st)) tbl), p)
        else (return_code, set_global_timebase_table st ots, p)
    end.

Definition OS_TimeBaseGetIdByName (timer_id : option osal_id_t)
    (timebase_name : option string) (st : State) : Z * option osal_id_t :=
  match timer_id, timebase_name with
  | Some _, Some name =>
      if OS_ObjectIdToType_Impl self =? OS_OBJECT_TYPE_OS_TIMEBASE
      then (OS_ERR_INCORRECT_OBJ_STATE, timer_id)
      else
        let '(return_code, id) :=
          OS_ObjectIdFindByName name (records (OS_global_timebase_table st)) in
        (return_code, if return_code =? OS_SUCCESS then Some id else timer_id)
  | _, _ => (OS_INVALID_POINTER, timer_id)
  end.

(** [timebase_prop] is what the caller's structure holds before the call
    ([None] for a NULL pointer); the result carries what it holds
    afterwards. *)
Definition OS_TimeBaseGetInfo (timebase_id : osal_id_t)
    (timebase_prop : option OS_timebase_prop_t) (st : State) (p : P)
  : Z * option OS_timebase_prop_t :=
  match timebase_prop with
  | None => (OS_INVALID_POINTER, None)
  | Some prop =>
      if OS_ObjectIdToType_Impl self =? OS_OBJECT_TYPE_OS_TIMEBASE
      then (OS_ERR_INCORRECT_OBJ_STATE, Some prop)
      else
        let prop := timebase_prop_zero in
        match OS_ObjectIdGetById OS_LOCK_MODE_GLOBAL OS_OBJECT_TYPE_OS_TIMEBASE timebase_id
                (records (OS_global_timebase_table st)) with
        | (return_code, local_id, tbl) =>
            if return_code =? OS_SUCCESS then
              match tbl !! local_id, OS_timebase_table st !! local_id with
              | Some record, Some tb =>
                  let prop :=
                    mk_timebase_prop
                      (strncpy (default "" (name_entry record)) (OS_MAX_API_NAME - 1))
                      (creator record) (nominal_interval_time tb) (freerun_time tb)
                      (accuracy_usec tb) in
                  let '(return_code, prop) := OS_TimeBaseGetInfo_Impl local_id prop p in
                  (return_code, Some prop)
              | _, _ => (return_code, Some prop)
              end
            else (return_code, Some prop)
        end
  end.

(** [freerun_val] is the caller's variable before the call; the result
    carries its value afterwards. *)
Definition OS_TimeBaseGetFreeRun (timebase_id : osal_id_t) (freerun_val : Z) (st : State)
  : Z * Z :=
  match OS_ObjectIdGetById OS_LOCK_MODE_NONE OS_OBJECT_TYPE_OS_TIMEBASE timebase_id
          (records (OS_global_timebase_table st)) with
  | (return_code, local_id, _) =>
      if return_code =? OS_SUCCESS then
        match OS_timebase_table st !! local_id with
        | Some tb => (return_code, freerun_time tb)
        | None => (return_code, freerun_val)
        end
      else (return_code, freerun_val)
  end.

End API.

(** [OS_Milli2Ticks]: [TicksPerSecond] is the field of
    [OS_SharedGlobalVars], a 32-bit integer converted to [uint64] by the
    multiplication; the result is the status and the value stored in
    [*ticks]. *)
Definition num_of_ticks (milli_seconds TicksPerSecond : Z) : Z :=
  to_uint64 (to_uint64 (to_uint64 milli_seconds * to_uint64 TicksPerSecond) + 999) / 1000.

Definition OS_Milli2Ticks (TicksPerSecond : Z) (milli_seconds : Z) : Z * Z :=
  if num_of_ticks milli_seconds TicksPerSecond <=? INT_MAX
  then (OS_SUCCESS, to_int32 (num_of_ticks milli_seconds TicksPerSecond))
  else (OS_ERROR, 0).

End TimeBase.

(** ** Message queues (osapi-queue.c) *)

Module Queue.

Record OS_queue_internal_record_t : Type := mk_queue {
  queue_name : string;
  max_size : Z;
  max_depth : Z
}.

(** [OS_queue_prop_t], the output of [OS_QueueGetInfo]. *)
Record OS_queue_prop_t : Type := mk_queue_prop {
  prop_name : string;
  prop_creator : osal_id_t
}.

Definition queue_prop_zero : OS_queue_prop_t := mk_queue_prop "" 0.

Record State : Type := mk_state {
  OS_global_queue_table : list OS_common_record_t;
  OS_queue_table : list OS_queue_internal_record_t
}.

(** The platform adapter's queue operations over its own state [P].
    [OS_QueueGet_Impl local_id data size size_copied timeout] receives
    what the caller's buffer and counter hold and returns what they hold
    afterwards. *)
Class QueueAdapter (P : Type) : Type := {
  OS_QueueGet_Impl : nat -> list Z -> Z -> Z -> Z -> P -> Z * list Z * Z * P;
  OS_QueuePut_Impl : nat -> list Z -> Z -> Z -> P -> Z * P
}.

Section API.

Context `{OsConfig} {P : Type} `{QueueAdapter P}.

(** [data] and [size_copied] are the caller's buffer and counter
    ([None] for a NULL pointer). *)
Definition OS_QueueGet (queue_id : osal_id_t) (data : option (list Z)) (size : Z)
    (size_copied : option Z) (timeout : Z) (st : State) (p : P)
  : Z * option (list Z) * option Z * P :=
  match data, size_copied with
  | Some buf, Some copied =>
      match OS_ObjectIdGetById OS_LOCK_MODE_NONE OS_OBJECT_TYPE_OS_QUEUE queue_id
              (OS_global_queue_table st) with
      | (return_code, local_id, _) =>
          if return_code =? OS_SUCCESS then
            match OS_queue_table st !! local_id with
            | Some q =>
                if size <? max_size q
                then (OS_QUEUE_INVALID_SIZE, Some buf, Some 0, p)
                else
                  let '(return_code, buf, copied, p) :=
                    OS_QueueGet_Impl local_id buf size copied timeout p in
                  (return_code, Some buf, Some copied, p)
            | None => (return_code, data, size_copied, p)
            end
          else (return_code, data, size_copied, p)
      end
  | _, _ => (OS_INVALID_POINTER, data, size_copied, p)
  end.

Definition OS_QueuePut (queue_id : osal_id_t) (data : option (list Z)) (size flags : Z)
    (st : State) (p : P) : Z * P :=
  match data with
  | Some buf =>
      match OS_ObjectIdGetById OS_LOCK_MODE_NONE OS_OBJECT_TYPE_OS_QUEUE queue_id
              (OS_global_queue_table st) with
      | (return_code, local_id, _) =>
          if return_code =? OS_SUCCESS
          then OS_QueuePut_Impl local_id buf size flags p
          else (return_code, p)
      end
  | None => (OS_INVALID_POINTER, p)
  end.

Definition OS_QueueGetInfo (queue_id : osal_id_t) (queue_prop : option OS_queue_prop_t)
    (st : State) : Z * option OS_queue_prop_t :=
  match queue_prop with
  | None => (OS_INVALID_POINTER, None)
  | Some _ =>
      let prop := queue_prop_zero in
      match OS_ObjectIdGetById OS_LOCK_MODE_GLOBAL OS_OBJECT_TYPE_OS_QUEUE queue_id
              (OS_global_queue_table st) with
      | (return_code, local_id, tbl) =>
          if return_code =? OS_SUCCESS then
            match tbl !! local_id with
            | Some record =>
                (return_code,
                 Some (mk_queue_prop
                         (strncpy (default "" (name_entry record)) (OS_MAX_API_NAME - 1))
                         (creator record)))
            | None => (return_code, Some prop)
            end
          else (return_code, Some prop)
      end
  end.

End API.

(** *** Creation, deletion, lookup by name *)

Definition queue_zero : OS_queue_internal_record_t := mk_queue "" 0 0.

(** [OS_QueueAPI_Init]: [memset (OS_queue_table, 0, sizeof (OS_queue_table))]. *)
Definition OS_QueueAPI_Init (st : State) : Z * State :=
  (OS_SUCCESS,
   mk_state (OS_global_queue_table st) (replicate (length (OS_queue_table st)) queue_zero)).

(** The adapter's side of creation and deletion.  [OS_QueueCreate_Impl
    local_id flags] reads the queue table. *)
Class QueueLifecycleAdapter (P : Type) : Type := {
  OS_QueueCreate_Impl : nat -> Z -> State -> P -> Z * P;
  OS_QueueDelete_Impl : nat -> P -> Z * P
}.

Section Lifecycle.

Context `{OsConfig} {P : Type} `{QueueLifecycleAdapter P}.

(** [OS_QUEUE_MAX_DEPTH], from the configuration header. *)
Variable OS_QUEUE_MAX_DEPTH : Z.

(** [self] is the handle of the calling task, which the ID manager
    records as the creator. *)
Variable self : osal_id_t.

(** [queue_id] is the caller's handle variable ([None] for a NULL
    pointer); [last_id] is the serial counter that the ID manager keeps
    for the queue type.  The result carries both as they are after the
    call. *)
Definition OS_QueueCreate (queue_id : option osal_id_t) (queue_name : option string)
    (queue_depth data_size flags : Z) (last_id : Z) (st : State) (p : P)
  : Z * option osal_id_t * Z * State * P :=
  match queue_name, queue_id with
  | Some name, Some _ =>
      if (OS_MAX_API_NAME <=? String.length name)%nat
      then (OS_ERR_NAME_TOO_LONG, queue_id, last_id, st, p)
      else if OS_QUEUE_MAX_DEPTH <? queue_depth
      then (OS_QUEUE_INVALID_SIZE, queue_id, last_id, st, p)
      else
        match OS_ObjectIdAllocateNew name self
                (mk_objtype last_id (OS_global_queue_table st)) with
        | (return_code, local_id, ots) =>
            if return_code =? OS_SUCCESS then
              let ots := TimeBase.set_name_entry ots local_id name in
              let st :=
                mk_state (records ots)
                  (<[local_id := mk_queue name data_size queue_depth]> (OS_queue_table st)) in
              let '(return_code, p) := OS_QueueCreate_Impl local_id flags st p in
              let '(return_code, ots, queue_id) :=
                OS_ObjectIdFinalizeNew return_code OS_OBJECT_TYPE_OS_QUEUE local_id ots
                  queue_id in
              (return_code, queue_id, last_id_issued ots,
               mk_state (records ots) (OS_queue_table st), p)
            else (return_code, queue_id, last_id, st, p)
        end
  | _, _ => (OS_INVALID_POINTER, queue_id, last_id, st, p)
  end.

Definition OS_QueueDelete (queue_id : osal_id_t) (st : State) (p : P) : Z * State * P :=
  match OS_ObjectIdGetById OS_LOCK_MODE_EXCLUSIVE OS_OBJECT_TYPE_OS_QUEUE queue_id
          (OS_global_queue_table st) with
  | (return_code, local_id, tbl) =>
      if return_code =? OS_SUCCESS then
        let '(return_code, p) := OS_QueueDelete_Impl local_id p in
        let '(return_code, tbl) := OS_ObjectIdFinalizeDelete return_code local_id tbl in
        (return_code, mk_state tbl (OS_queue_table st), p)
      else (return_code, mk_state tbl (OS_queue_table st), p)
  end.

Definition OS_QueueGetIdByName (queue_id : option osal_id_t) (queue_name : option string)
    (st : State) : Z * option osal_id_t :=
  match queue_id, queue_name with
  | Some _, Some name =>
      let '(return_code, id) := OS_ObjectIdFindByName name (OS_global_queue_table st) in
      (return_code, if return_code =? OS_SUCCESS then Some id else queue_id)
  | _, _ => (OS_INVALID_POINTER, queue_id)
  end.

End Lifecycle.

End Queue.

(** ** Binary semaphores (osapi-binsem.c) *)

Module BinSem.

(** [OS_bin_sem_prop_t], the output of [OS_BinSemGetInfo]. *)
Record OS_bin_sem_prop_t : Type := mk_bin_sem_prop {
  prop_name : string;
  prop_creator : osal_id_t;
  prop_value : Z
}.

Definition bin_sem_prop_zero : OS_bin_sem_prop_t := mk_bin_sem_prop "" 0 0.

Record State : Type := mk_state {
  OS_global_bin_sem_table : list OS_common_record_t
}.

Class BinSemAdapter (P : Type) : Type := {
  OS_BinSemTimedWait_Impl : nat -> Z -> P -> Z * P;
  OS_BinSemGetInfo_Impl : nat -> OS_bin_sem_prop_t -> P -> Z * OS_bin_sem_prop_t
}.

Section API.

Context `{OsConfig} {P : Type} `{BinSemAdapter P}.

Definition OS_BinSemTimedWait (sem_id : osal_id_t) (msecs : Z) (st : State) (p : P)
  : Z * P :=
  match OS_ObjectIdGetById OS_LOCK_MODE_NONE OS_OBJECT_TYPE_OS_BINSEM sem_id
          (OS_global_bin_sem_table st) with
  | (return_code, local_id, _) =>
      if return_code =? OS_SUCCESS
      then OS_BinSemTimedWait_Impl local_id msecs p
      else (return_code, p)
  end.

Definition OS_BinSemGetInfo (sem_id : osal_id_t) (bin_prop : option OS_bin_sem_prop_t)
    (st : State) (p : P) : Z * option OS_bin_sem_prop_t :=
  match bin_prop with
  | None => (OS_INVALID_POINTER, None)
  | Some _ =>
      let prop := bin_sem_prop_zero in
      match OS_ObjectIdGetById OS_LOCK_MODE_GLOBAL OS_OBJECT_TYPE_OS_BINSEM sem_id
              (OS_global_bin_sem_table st) with
      | (return_code, local_id, tbl) =>
          if return_code =? OS_SUCCESS then
            match tbl !! local_id with
            | Some record =>
                let prop :=
                  mk_bin_sem_prop
                    (strncpy (default "" (name_entry record)) (OS_MAX_API_NAME - 1))
                    (creator record) (prop_value prop) in
                let '(return_code, prop) := OS_BinSemGetInfo_Impl local_id prop p in
                (return_code, Some prop)
            | None => (return_code, Some prop)
            end
          else (return_code, Some prop)
      end
  end.

End API.

(** *** Creation, deletion, give, take, flush, lookup by name *)

(** The adapter's side of the remaining operations.  The name buffer of
    [OS_bin_sem_table] is kept by [name_entry]. *)
Class BinSemLifecycleAdapter (P : Type) : Type := {
  OS_BinSemCreate_Impl : nat -> Z -> Z -> P -> Z * P;
  OS_BinSemDelete_Impl : nat -> P -> Z * P;
  OS_BinSemGive_Impl : nat -> P -> Z * P;
  OS_BinSemFlush_Impl : nat -> P -> Z * P;
  OS_BinSemTake_Impl : nat -> P -> Z * P
}.

Section Lifecycle.

Context `{OsConfig} {P : Type} `{BinSemLifecycleAdapter P}.

(** [self] is the handle of the calling task. *)
Variable self : osal_id_t.

(** [sem_id] is the caller's handle variable ([None] for a NULL pointer),
    [last_id] the serial counter of the semaphore type. *)
Definition OS_BinSemCreate (sem_id : option osal_id_t) (sem_name : option string)
    (sem_initial_value options : Z) (last_id : Z) (st : State) (p : P)
  : Z * option osal_id_t * Z * State * P :=
  match sem_id, sem_name with
  | Some _, Some name =>
      if (OS_MAX_API_NAME <=? String.length name)%nat
      then (OS_ERR_NAME_TOO_LONG, sem_id, last_id, st, p)
      else
        match OS_ObjectIdAllocateNew name self
                (mk_objtype last_id (OS_global_bin_sem_table st)) with
        | (return_code, local_id, ots) =>
            if return_code =? OS_SUCCESS then
              let ots := TimeBase.set_name_entry ots local_id name in
              let '(return_code, p) :=
                OS_BinSemCreate_Impl local_id sem_initial_value options p in
              let '(return_code, ots, sem_id) :=
                OS_ObjectIdFinalizeNew return_code OS_OBJECT_TYPE_OS_BINSEM local_id ots
                  sem_id in
              (return_code, sem_id, last_id_issued ots, mk_state (records ots), p)
            else (return_code, sem_id, last_id, st, p)
        end
  | _, _ => (OS_INVALID_POINTER, sem_id, last_id, st, p)
  end.

Definition OS_BinSemDelete (sem_id : osal_id_t) (st : State) (p : P) : Z * State * P :=
  match OS_ObjectIdGetById OS_LOCK_MODE_EXCLUSIVE OS_OBJECT_TYPE_OS_BINSEM sem_id
          (OS_global_bin_sem_table st) with
  | (return_code, local_id, tbl) =>
      if return_code =? OS_SUCCESS then
        let '(return_code, p) := OS_BinSemDelete_Impl local_id p in
        let '(return_code, tbl) := OS_ObjectIdFinalizeDelete return_code local_id tbl in
        (return_code, mk_state tbl, p)
      else (return_code, mk_state tbl, p)
  end.

Definition OS_BinSemGive (sem_id : osal_id_t) (st : State) (p : P) : Z * P :=
  match OS_ObjectIdGetById OS_LOCK_MODE_NONE OS_OBJECT_TYPE_OS_BINSEM sem_id
          (OS_global_bin_sem_table st) with
  | (return_code, local_id, _) =>
      if return_code =? OS_SUCCESS
      then OS_BinSemGive_Impl local_id p
      else (return_code, p)
  end.

Definition OS_BinSemFlush (sem_id : osal_id_t) (st : State) (p : P) : Z * P :=
  match OS_ObjectIdGetById OS_LOCK_MODE_NONE OS_OBJECT_TYPE_OS_BINSEM sem_id
          (OS_global_bin_sem_table st) with
  | (return_code, local_id, _) =>
      if return_code =? OS_SUCCESS
      then OS_BinSemFlush_Impl local_id p
      else (return_code, p)
  end.

Definition OS_BinSemTake (sem_id : osal_id_t) (st : State) (p : P) : Z * P :=
  match OS_ObjectIdGetById OS_LOCK_MODE_NONE OS_OBJECT_TYPE_OS_BINSEM sem_id
          (OS_global_bin_sem_table st) with
  | (return_code, local_id, _) =>
      if return_code =? OS_SUCCESS
      then OS_BinSemTake_Impl local_id p
      else (return_code, p)
  end.

Definition OS_BinSemGetIdByName (sem_id : option osal_id_t) (sem_name : option string)
    (st : State) : Z * option osal_id_t :=
  match sem_id, sem_name with
  | Some _, Some name =>
      let '(return_code, id) := OS_ObjectIdFindByName name (OS_global_bin_sem_table st) in
      (return_code, if return_code =? OS_SUCCESS then Some id else sem_id)
  | _, _ => (OS_INVALID_POINTER, sem_id)
  end.

End Lifecycle.

End BinSem.

(** ** The VxWorks binary semaphore adapter (os-impl-binsem.c) *)

Module VxWorks.

(** The adapter's state: [OS_impl_bin_sem_table] (the kernel semaphore
    of each slot) and the kernel's own state [K]. *)
Record ImplState (K : Type) : Type := mk_impl {
  OS_impl_bin_sem_table : list Z;
  kernel : K
}.
Arguments mk_impl {K} _ _.
Arguments OS_impl_bin_sem_table {K} _.
Arguments kernel {K} _.

Section Impl.

Context {K : Type}.

(** [OS_VxWorks_GenericSemTake (vxid, ticks)], from the adapter's common
    code, which is not part of the tree: any function of the kernel
    state. *)
Variable OS_VxWorks_GenericSemTake : Z -> Z -> K -> Z * K.

(** [OS_SharedGlobalVars.TicksPerSecond]. *)
Variable TicksPerSecond : Z.

Definition OS_BinSemTimedWait_Impl (sem_id : nat) (msecs : Z) (p : ImplState K)
  : Z * ImplState K :=
  let '(status, ticks) := TimeBase.OS_Milli2Ticks TicksPerSecond msecs in
  if status =? OS_SUCCESS then
    let '(status, k) :=
      OS_VxWorks_GenericSemTake (default 0 (OS_impl_bin_sem_table p !! sem_id)) ticks
        (kernel p) in
    (status, mk_impl (OS_impl_bin_sem_table p) k)
  else (status, p).

Definition OS_BinSemGetInfo_Impl (sem_id : nat) (bin_prop : BinSem.OS_bin_sem_prop_t)
    (p : ImplState K) : Z * BinSem.OS_bin_sem_prop_t :=
  (OS_SUCCESS, bin_prop).

Definition adapter : BinSem.BinSemAdapter (ImplState K) := {|
  BinSem.OS_BinSemTimedWait_Impl := OS_BinSemTimedWait_Impl;
  BinSem.OS_BinSemGetInfo_Impl := OS_BinSemGetInfo_Impl
|}.

End Impl.

(** *** Creation, deletion, give, take, flush *)

Section Lifecycle.

Context {K : Type}.

(** The kernel's semaphore calls and the adapter's common give and take
    (os-impl-common, not part of the tree), as functions of the kernel
    state.  [semBInitialize slot options initial] stands for the call on
    the static memory [OS_impl_bin_sem_table[slot].bmem]; it returns the
    new [SEM_ID], zero on failure. *)
Variable semBInitialize : nat -> Z -> Z -> K -> Z * K.
Variable semFlush : Z -> K -> Z * K.
Variable OS_VxWorks_GenericSemGive : Z -> K -> Z * K.
Variable OS_VxWorks_GenericSemTake : Z -> Z -> K -> Z * K.

(** Constants of the kernel's headers. *)
Variable SEM_Q_PRIORITY : Z.
Variable WAIT_FOREVER : Z.
Variable OK : Z.

(** [OS_VxWorks_BinSemAPI_Impl_Init]: the table is zeroed. *)
Definition OS_VxWorks_BinSemAPI_Impl_Init (p : ImplState K) : Z * ImplState K :=
  (OS_SUCCESS, mk_impl (replicate (length (OS_impl_bin_sem_table p)) 0) (kernel p)).

Definition OS_BinSemCreate_Impl (sem_id : nat) (sem_initial_value options : Z)
    (p : ImplState K) : Z * ImplState K :=
  let '(tmp_sem_id, k) :=
    semBInitialize sem_id SEM_Q_PRIORITY sem_initial_value (kernel p) in
  if tmp_sem_id =? 0 then (OS_SEM_FAILURE, mk_impl (OS_impl_bin_sem_table p) k)
  else (OS_SUCCESS, mk_impl (<[sem_id := tmp_sem_id]> (OS_impl_bin_sem_table p)) k).

Definition OS_BinSemDelete_Impl (sem_id : nat) (p : ImplState K) : Z * ImplState K :=
  (OS_SUCCESS, mk_impl (<[sem_id := 0]> (OS_impl_bin_sem_table p)) (kernel p)).

Definition OS_BinSemGive_Impl (sem_id : nat) (p : ImplState K) : Z * ImplState K :=
  let '(status, k) :=
    OS_VxWorks_GenericSemGive (default 0 (OS_impl_bin_sem_table p !! sem_id)) (kernel p) in
  (status, mk_impl (OS_impl_bin_sem_table p) k).

Definition OS_BinSemFlush_Impl (sem_id : nat) (p : ImplState K) : Z * ImplState K :=
  let '(status, k) := semFlush (default 0 (OS_impl_bin_sem_table p !! sem_id)) (kernel p) in
  (if negb (status =? OK) then OS_SEM_FAILURE else OS_SUCCESS,
   mk_impl (OS_impl_bin_sem_table p) k).

Definition OS_BinSemTake_Impl (sem_id : nat) (p : ImplState K) : Z * ImplState K :=
  let '(status, k) :=
    OS_VxWorks_GenericSemTake (default 0 (OS_impl_bin_sem_table p !! sem_id)) WAIT_FOREVER
      (kernel p) in
  (status, mk_impl (OS_impl_bin_sem_table p) k).

Definition lifecycle_adapter : BinSem.BinSemLifecycleAdapter (ImplState K) := {|
  BinSem.OS_BinSemCreate_Impl := OS_BinSemCreate_Impl;
  BinSem.OS_BinSemDelete_Impl := OS_BinSemDelete_Impl;
  BinSem.OS_BinSemGive_Impl := OS_BinSemGive_Impl;
  BinSem.OS_BinSemFlush_Impl := OS_BinSemFlush_Impl;
  BinSem.OS_BinSemTake_Impl := OS_BinSemTake_Impl
|}.

End Lifecycle.

End VxWorks.

(** ** The VxWorks task adapter (os-impl-tasks.c) *)

Module VxWorksTasks.

(** The fields of an [OS_task_table] entry that the adapter reads
    (os-shared-task.h is not part of the tree): [priority] and
    [stack_size] are [uint32], [stack_pointer] is an address, zero for
    NULL. *)
Record OS_task_internal_record_t : Type := mk_task {
  priority : Z;
  stack_size : Z;
  stack_pointer : Z
}.

Definition task_zero : OS_task_internal_record_t := mk_task 0 0 0.

(** [OS_impl_task_internal_record_t] (os-impl-tasks.h is not part of the
    tree).  The TCB is the static memory of the slot; [vxid] is the
    kernel's task id, [heap_block] the address of the stack obtained
    from [malloc], zero for NULL, and [heap_block_size] its size, taken
    to be a [long] like the value it is compared with. *)
Record OS_impl_task_internal_record_t : Type := mk_impl_task {
  vxid : Z;
  heap_block : Z;
  heap_block_size : Z
}.

Definition impl_task_zero : OS_impl_task_internal_record_t := mk_impl_task 0 0 0.

Definition set_vxid (lrec : OS_impl_task_internal_record_t) (v : Z) :=
  mk_impl_task v (heap_block lrec) (heap_block_size lrec).

Definition set_heap_block (lrec : OS_impl_task_internal_record_t) (b : Z) :=
  mk_impl_task (vxid lrec) b (heap_block_size lrec).

Definition set_heap_block_size (lrec : OS_impl_task_internal_record_t) (n : Z) :=
  mk_impl_task (vxid lrec) (heap_block lrec) n.

(** The tables the adapter works on, and the kernel's own state [K]. *)
Record ImplState (K : Type) : Type := mk_impl {
  OS_global_task_table : list OS_common_record_t;
  OS_task_table : list OS_task_internal_record_t;
  OS_impl_task_table : list OS_impl_task_internal_record_t;
  kernel : K
}.
Arguments mk_impl {K} _ _ _ _.
Arguments OS_global_task_table {K} _.
Arguments OS_task_table {K} _.
Arguments OS_impl_task_table {K} _.
Arguments kernel {K} _.

Definition set_impl {K : Type} (p : ImplState K)
    (t : list OS_impl_task_internal_record_t) (k : K) : ImplState K :=
  mk_impl (OS_global_task_table p) (OS_task_table p) t k.

Section Impl.

Context {K : Type}.

(** The width of [long] on the target, and the conversion of a
    mathematical value to [long]. *)
Variable LONG_BITS : Z.

Definition to_long (z : Z) : Z :=
  (z + 2 ^ (LONG_BITS - 1)) mod 2 ^ LONG_BITS - 2 ^ (LONG_BITS - 1).

(** The kernel and C library calls, as functions of the kernel state.
    [taskInit slot name priority options stack_base stack_size arg]
    stands for the call on the TCB of the slot, with
    [OS_VxWorks_TaskEntry] as the entry point; [tcb_address slot] is the
    address of that TCB. *)
Variable malloc : Z -> K -> Z * K.
Variable free : Z -> K -> K.
Variable taskInit : nat -> option string -> Z -> Z -> Z -> Z -> Z -> K -> Z * K.
Variable taskActivate : Z -> K -> K.
Variable taskDelete : Z -> K -> Z * K.
Variable taskDelay : Z -> K -> Z * K.
Variable taskPrioritySet : Z -> Z -> K -> Z * K.
Variable taskIdSelf : K -> Z.
Variable tcb_address : nat -> Z.

(** Constants of the kernel's and of the public headers. *)
Variable OK : Z.
Variable VX_FP_TASK : Z.
Variable OS_FP_ENABLED : Z.

(** [OS_SharedGlobalVars.TicksPerSecond]. *)
Variable TicksPerSecond : Z.

(** The stack macros, as the file defines them when the kernel's header
    does not. *)
Definition VX_IMPL_STACK_ALIGN_SIZE : Z := 16.

Definition VX_IMPL_STACK_ROUND_DOWN (x : Z) : Z :=
  Z.land x (Z.lnot (VX_IMPL_STACK_ALIGN_SIZE - 1)).

Definition VX_IMPL_STACK_ROUND_UP (x : Z) : Z :=
  Z.land (to_long (x + (VX_IMPL_STACK_ALIGN_SIZE - 1)))
         (Z.lnot (VX_IMPL_STACK_ALIGN_SIZE - 1)).

(** [OS_VxWorks_TaskAPI_Impl_Init]: the table is zeroed. *)
Definition OS_VxWorks_TaskAPI_Impl_Init (p : ImplState K) : Z * ImplState K :=
  (OS_SUCCESS,
   set_impl p (replicate (length (OS_impl_task_table p)) impl_task_zero) (kernel p)).

(** The body of [if (userstackbase == 0) { ... }] in
    [OS_TaskCreate_Impl]: the stack comes from the heap block of the
    slot, which is allocated again when it is too small.  Returns
    [actualsz], [userstackbase], the slot's record and the kernel
    state. *)
Definition stack_from_heap (actualsz : Z) (lrec : OS_impl_task_internal_record_t) (k : K)
  : Z * Z * OS_impl_task_internal_record_t * K :=
  let actualsz := to_long (actualsz + VX_IMPL_STACK_ALIGN_SIZE) in
  let actualsz := VX_IMPL_STACK_ROUND_UP actualsz in
  let '(lrec, k) :=
    if heap_block_size lrec <? actualsz then
      let '(lrec, k) :=
        if negb (heap_block lrec =? 0)
        then (set_heap_block_size lrec 0, free (heap_block lrec) k)
        else (lrec, k) in
      let '(block, k) := malloc actualsz k in
      let lrec := set_heap_block lrec block in
      (if negb (block =? 0) then set_heap_block_size lrec actualsz else lrec, k)
    else (lrec, k) in
  (actualsz, to_long (heap_block lrec), lrec, k).

(** The rounding of the stack to the alignment, for a stack that grows
    downward: returns [actualstackbase] and [actualsz] as they are
    passed to [taskInit]. *)
Definition stack_layout (userstackbase actualsz : Z) : Z * Z :=
  let actualstackbase := userstackbase in
  let actualstackbase := VX_IMPL_STACK_ROUND_UP actualstackbase in
  let actualsz := to_long (actualsz - to_long (actualstackbase - userstackbase)) in
  let actualsz := VX_IMPL_STACK_ROUND_DOWN actualsz in
  let actualstackbase := to_long (actualstackbase + actualsz) in
  (actualstackbase, actualsz).

(** [OS_TaskCreate_Impl]; a slot that a table does not have reads as
    zero. *)
Definition OS_TaskCreate_Impl (task_id : nat) (flags : Z) (p : ImplState K)
  : Z * ImplState K :=
  let lrec := default impl_task_zero (OS_impl_task_table p !! task_id) in
  let task := default task_zero (OS_task_table p !! task_id) in
  let record := default common_zero (OS_global_task_table p !! task_id) in
  let vxflags := 0 in
  let vxflags :=
    if negb (Z.land flags OS_FP_ENABLED =? 0) then Z.lor vxflags VX_FP_TASK else vxflags in
  let vxpri := to_int32 (priority task) in
  let actualsz := to_long (stack_size task) in
  let userstackbase := to_long (stack_pointer task) in
  let '(actualsz, userstackbase, lrec, k) :=
    if userstackbase =? 0
    then stack_from_heap actualsz lrec (kernel p)
    else (actualsz, userstackbase, lrec, kernel p) in
  if userstackbase =? 0
  then (OS_ERROR, set_impl p (<[task_id := lrec]> (OS_impl_task_table p)) k)
  else
    let '(actualstackbase, actualsz) := stack_layout userstackbase actualsz in
    let '(status, k) :=
      taskInit task_id (name_entry record) vxpri vxflags actualstackbase actualsz
        (to_int32 (active_id record)) k in
    if negb (status =? OK)
    then (OS_ERROR, set_impl p (<[task_id := lrec]> (OS_impl_task_table p)) k)
    else
      let lrec := set_vxid lrec (tcb_address task_id) in
      let k := taskActivate (vxid lrec) k in
      (OS_SUCCESS, set_impl p (<[task_id := lrec]> (OS_impl_task_table p)) k).

Definition OS_TaskDelete_Impl (task_id : nat) (p : ImplState K) : Z * ImplState K :=
  let lrec := default impl_task_zero (OS_impl_task_table p !! task_id) in
  let '(status, k) := taskDelete (vxid lrec) (kernel p) in
  if negb (status =? OK) then (OS_ERROR, set_impl p (OS_impl_task_table p) k)
  else (OS_SUCCESS, set_impl p (<[task_id := set_vxid lrec 0]> (OS_impl_task_table p)) k).

Definition OS_TaskDelay_Impl (milli_second : Z) (k : K) : Z * K :=
  let '(status, sys_ticks) := TimeBase.OS_Milli2Ticks TicksPerSecond milli_second in
  if negb (status =? OS_SUCCESS) then (OS_ERROR, k)
  else
    let '(status, k) := taskDelay sys_ticks k in
    if negb (status =? OK) then (OS_ERROR, k) else (OS_SUCCESS, k).

Definition OS_TaskSetPriority_Impl (task_id : nat) (new_priority : Z) (p : ImplState K)
  : Z * ImplState K :=
  let lrec := default impl_task_zero (OS_impl_task_table p !! task_id) in
  let '(status, k) := taskPrioritySet (vxid lrec) new_priority (kernel p) in
  (if negb (status =? OK) then OS_ERROR else OS_SUCCESS, set_impl p (OS_impl_task_table p) k).

Definition OS_TaskMatch_Impl (task_id : nat) (p : ImplState K) : Z :=
  let lrec := default impl_task_zero (OS_impl_task_table p !! task_id) in
  if negb (taskIdSelf (kernel p) =? vxid lrec) then OS_ERROR else OS_SUCCESS.

End Impl.

End VxWorksTasks.

(** ** File systems (osapi-filesys.c) *)

Module FileSys.

(** Modelled from the spec: the flag bits of a file system record come
    from the header os-shared-filesys.h, which is not part of the tree;
    section 3.3 names the four flags of the bitmap. *)
Definition OS_FILESYS_FLAG_IS_READY : Z := 0x01.
Definition OS_FILESYS_FLAG_IS_FIXED : Z := 0x02.
Definition OS_FILESYS_FLAG_IS_MOUNTED_SYSTEM : Z := 0x10.
Definition OS_FILESYS_FLAG_IS_MOUNTED_VIRTUAL : Z := 0x20.

(** [OS_filesys_internal_record_t] (section 3.3). *)
Record OS_filesys_internal_record_t : Type := mk_filesys {
  device_name : string;
  volume_name : string;
  system_mountpt : string;
  virtual_mountpt : string;
  address : option Z;
  blocksize : Z;
  numblocks : Z;
  flags : Z;
  fstype : Z
}.

Definition set_mounted (r : OS_filesys_internal_record_t) (f : Z) (mountpoint : string) :=
  mk_filesys (device_name r) (volume_name r) (system_mountpt r) mountpoint (address r)
             (blocksize r) (numblocks r) f (fstype r).

Definition set_fs_flags (r : OS_filesys_internal_record_t) (f : Z) :=
  mk_filesys (device_name r) (volume_name r) (system_mountpt r) (virtual_mountpt r)
             (address r) (blocksize r) (numblocks r) f (fstype r).

Record State : Type := mk_state {
  OS_global_filesys_table : list OS_common_record_t;
  OS_filesys_table : list OS_filesys_internal_record_t
}.

(** The platform adapter's volume operations over its own state [P]. *)
Class FileSysAdapter (P : Type) : Type := {
  OS_FileSysMountVolume_Impl : nat -> State -> P -> Z * P;
  OS_FileSysUnmountVolume_Impl : nat -> State -> P -> Z * P
}.

(** *** C strings and buffers *)

Definition slash : Ascii.ascii := "/"%char.
Definition NUL : Ascii.ascii := Ascii.zero.

(** [strrchr (s, c)]: the part of [s] that starts at the last [c]. *)
Fixpoint strrchr (s : string) (c : Ascii.ascii) : option string :=
  match s with
  | EmptyString => None
  | String d s' =>
      match strrchr s' c with
      | Some r => Some r
      | None => if Ascii.eqb d c then Some s else None
      end
  end.

(** [&s[n]] for [n] not past the end of [s]. *)
Definition string_from (n : nat) (s : string) : string :=
  String.substring n (String.length s - n) s.

(** [memcpy (&buf[pos], src, strlen (src))] on a buffer given by its
    bytes; bytes the buffer did not hold before read as NUL. *)
Fixpoint write_at (pos : nat) (src buf : string) : string :=
  match pos with
  | O => String.append src (string_from (String.length src) buf)
  | S pos' =>
      match buf with
      | EmptyString => String NUL (write_at pos' src EmptyString)
      | String c buf' => String c (write_at pos' src buf')
      end
  end.

(** The C string held by a buffer: its bytes up to the first NUL. *)
Fixpoint cstring (buf : string) : string :=
  match buf with
  | EmptyString => EmptyString
  | String c buf' => if Ascii.eqb c NUL then EmptyString else String c (cstring buf')
  end.

(** [OS_FileSys_FindVirtMountPoint], the match function of the searches
    by virtual mount point; [ref] is the path looked for. *)
Definition OS_FileSys_FindVirtMountPoint (tbl : list OS_filesys_internal_record_t)
    (ref : string) (local_id : nat) (obj : OS_common_record_t) : bool :=
  match tbl !! local_id with
  | None => false
  | Some rec =>
      if Z.land (flags rec) OS_FILESYS_FLAG_IS_MOUNTED_VIRTUAL =? 0 then false
      else
        let mplen := String.length (virtual_mountpt rec) in
        (0 <? mplen)%nat
        && String.prefix (virtual_mountpt rec) ref
        && match String.get mplen ref with
           | Some c => Ascii.eqb c slash
           | None => true
           end
  end.

Section API.

Context `{OsConfig} {P : Type} `{FileSysAdapter P}.

(** The slot that [OS_ObjectIdToArrayIndex (LOCAL_OBJID_TYPE,
    global->active_id, &local_id)] stores for the record found at slot
    [gidx] of the common table. *)
Definition local_id_of (gtbl : list OS_common_record_t) (gidx : nat) : nat :=
  snd (OS_ObjectIdToArrayIndex OS_OBJECT_TYPE_OS_FILESYS (length gtbl)
         (active_id (default common_zero (gtbl !! gidx)))).

Definition OS_mount (devname mountpoint : option string) (st : State) (p : P)
  : Z * State * P :=
  match devname, mountpoint with
  | Some dev, Some mp =>
      if (OS_FS_DEV_NAME_LEN <=? String.length dev)%nat
         || (OS_MAX_PATH_LEN <=? String.length mp)%nat
      then (OS_FS_ERR_PATH_TOO_LONG, st, p)
      else
        match OS_ObjectIdGetByName OS_LOCK_MODE_EXCLUSIVE dev (OS_global_filesys_table st)
        with
        | (return_code, gidx, gtbl) =>
            let st := mk_state gtbl (OS_filesys_table st) in
            let '(return_code, st, p) :=
              if return_code =? OS_SUCCESS then
                let local_id := local_id_of gtbl gidx in
                match OS_filesys_table st !! local_id with
                | None => (return_code, st, p)
                | Some local =>
                    let '(return_code, p) :=
                      if negb (Z.land (flags local) (Z.lnot OS_FILESYS_FLAG_IS_FIXED)
                               =? OS_FILESYS_FLAG_IS_READY)
                      then (OS_ERR_INCORRECT_OBJ_STATE, p)
                      else if String.eqb (system_mountpt local) ""
                      then (OS_FS_ERR_PATH_INVALID, p)
                      else OS_FileSysMountVolume_Impl local_id st p in
                    if return_code =? OS_SUCCESS then
                      (return_code,
                       mk_state gtbl
                         (<[local_id :=
                              set_mounted local
                                (Z.lor (flags local)
                                   (Z.lor OS_FILESYS_FLAG_IS_MOUNTED_SYSTEM
                                      OS_FILESYS_FLAG_IS_MOUNTED_VIRTUAL)) mp]>
                            (OS_filesys_table st)), p)
                    else (return_code, st, p)
                end
              else (return_code, st, p) in
            (if negb (return_code =? OS_SUCCESS) then OS_ERR_NAME_NOT_FOUND else return_code,
             st, p)
        end
  | _, _ => (OS_INVALID_POINTER, st, p)
  end.

Definition OS_unmount (mountpoint : option string) (st : State) (p : P) : Z * State * P :=
  match mountpoint with
  | Some mp =>
      if (OS_MAX_PATH_LEN <=? String.length mp)%nat
      then (OS_FS_ERR_PATH_TOO_LONG, st, p)
      else
        match OS_ObjectIdGetBySearch OS_LOCK_MODE_EXCLUSIVE
                (OS_FileSys_FindVirtMountPoint (OS_filesys_table st) mp)
                (OS_global_filesys_table st)
        with
        | (return_code, gidx, gtbl) =>
            let st := mk_state gtbl (OS_filesys_table st) in
            let '(return_code, st, p) :=
              if return_code =? OS_SUCCESS then
                let local_id := local_id_of gtbl gidx in
                match OS_filesys_table st !! local_id with
                | None => (return_code, st, p)
                | Some local =>
                    let '(return_code, p) :=
                      if negb (Z.land (flags local) (Z.lnot OS_FILESYS_FLAG_IS_FIXED)
                               =? Z.lor OS_FILESYS_FLAG_IS_READY
                                    (Z.lor OS_FILESYS_FLAG_IS_MOUNTED_SYSTEM
                                       OS_FILESYS_FLAG_IS_MOUNTED_VIRTUAL))
                      then (OS_ERR_INCORRECT_OBJ_STATE, p)
                      else OS_FileSysUnmountVolume_Impl local_id st p in
                    if return_code =? OS_SUCCESS then
                      (return_code,
                       mk_state gtbl
                         (<[local_id :=
                              set_fs_flags local
                                (Z.land (flags local)
                                   (Z.lnot (Z.lor OS_FILESYS_FLAG_IS_MOUNTED_SYSTEM
                                              OS_FILESYS_FLAG_IS_MOUNTED_VIRTUAL)))]>
                            (OS_filesys_table st)), p)
                    else (return_code, st, p)
                end
              else (return_code, st, p) in
            (if negb (return_code =? OS_SUCCESS) then OS_ERR_NAME_NOT_FOUND else return_code,
             st, p)
        end
  | None => (OS_INVALID_POINTER, st, p)
  end.

(** The part of [OS_TranslatePath] that follows the search: [local] is
    the record found.  Returns the status and the bytes of the output
    buffer. *)
Definition translate_found (VirtualPath LocalPath : string)
    (local : OS_filesys_internal_record_t) : Z * string :=
  let VirtPathLen := String.length VirtualPath in
  if negb (Z.land (flags local) OS_FILESYS_FLAG_IS_MOUNTED_SYSTEM =? 0) then
    let SysMountPointLen := String.length (system_mountpt local) in
    let VirtPathBegin := String.length (virtual_mountpt local) in
    let LocalPath :=
      if (SysMountPointLen <? OS_MAX_LOCAL_PATH_LEN)%nat
      then write_at 0 (system_mountpt local) LocalPath
      else LocalPath in
    if (VirtPathLen <? VirtPathBegin)%nat then (OS_FS_ERR_PATH_INVALID, LocalPath)
    else
      let VirtPathLen := (VirtPathLen - VirtPathBegin)%nat in
      if (SysMountPointLen + VirtPathLen <? OS_MAX_LOCAL_PATH_LEN)%nat then
        (OS_SUCCESS,
         write_at (SysMountPointLen + VirtPathLen) (String NUL EmptyString)
           (write_at SysMountPointLen
              (String.substring VirtPathBegin VirtPathLen VirtualPath) LocalPath))
      else (OS_FS_ERR_PATH_TOO_LONG, LocalPath)
  else (OS_ERR_INCORRECT_OBJ_STATE, LocalPath).

(** [LocalPath] is the caller's output buffer, given by its bytes
    ([None] for a NULL pointer); the result carries the bytes it holds
    afterwards. *)
Definition OS_TranslatePath (VirtualPath LocalPath : option string) (st : State)
  : Z * option string :=
  match VirtualPath, LocalPath with
  | Some vp, Some lp =>
      if (OS_MAX_PATH_LEN <=? String.length vp)%nat then (OS_FS_ERR_PATH_TOO_LONG, LocalPath)
      else
        match strrchr vp slash with
        | None => (OS_FS_ERR_PATH_INVALID, LocalPath)
        | Some name_ptr =>
            let name_ptr := string_from 1 name_ptr in
            if (OS_MAX_FILE_NAME <=? String.length name_ptr)%nat
            then (OS_FS_ERR_NAME_TOO_LONG, LocalPath)
            else if negb (bool_decide (String.get 0 vp = Some slash))
            then (OS_FS_ERR_PATH_INVALID, LocalPath)
            else
              match OS_ObjectIdGetBySearch OS_LOCK_MODE_GLOBAL
                      (OS_FileSys_FindVirtMountPoint (OS_filesys_table st) vp)
                      (OS_global_filesys_table st)
              with
              | (return_code, gidx, gtbl) =>
                  if negb (return_code =? OS_SUCCESS)
                  then (OS_FS_ERR_PATH_INVALID, LocalPath)
                  else
                    match OS_filesys_table st !! local_id_of gtbl gidx with
                    | None => (return_code, LocalPath)
                    | Some local =>
                        let '(return_code, lp) := translate_found vp lp local in
                        (return_code, Some lp)
                    end
              end
        end
  | _, _ => (OS_INVALID_POINTER, LocalPath)
  end.

End API.

(** *** Volumes: creation, removal, queries *)

(** [OS_statvfs_t], the output of the adapter's volume statistics, and
    [os_fsinfo_t], the output of [OS_GetFsInfo]. *)
Record OS_statvfs_t : Type := mk_statvfs {
  block_size : Z;
  total_blocks : Z;
  blocks_free : Z
}.

Record os_fsinfo_t : Type := mk_fsinfo {
  MaxFds : Z;
  FreeFds : Z;
  MaxVolumes : Z;
  FreeVolumes : Z
}.

(** A record after [memset]: every field zero. *)
Definition filesys_zero : OS_filesys_internal_record_t :=
  mk_filesys "" "" "" "" None 0 0 0 0.

Definition set_fstype (r : OS_filesys_internal_record_t) (t : Z) :=
  mk_filesys (device_name r) (volume_name r) (system_mountpt r) (virtual_mountpt r)
             (address r) (blocksize r) (numblocks r) (flags r) t.

(** [local->flags |= f] on the record of slot [local_id]. *)
Definition or_flags (local_id : nat) (f : Z) (tbl : list OS_filesys_internal_record_t)
  : list OS_filesys_internal_record_t :=
  match tbl !! local_id with
  | Some local => <[local_id := set_fs_flags local (Z.lor (flags local) f)]> tbl
  | None => tbl
  end.

(** The adapter's volume operations.  Starting a volume may write the
    internal records (the place where an adapter leaves the system
    mount point of the volume); the other operations read them. *)
Class FileSysVolumeAdapter (P : Type) : Type := {
  OS_FileSysStartVolume_Impl :
    nat -> State -> P -> Z * list OS_filesys_internal_record_t * P;
  OS_FileSysStopVolume_Impl : nat -> State -> P -> Z * P;
  OS_FileSysFormatVolume_Impl : nat -> State -> P -> Z * P;
  OS_FileSysStatVolume_Impl : nat -> State -> P -> Z * OS_statvfs_t * P;
  OS_FileSysCheckVolume_Impl : nat -> bool -> State -> P -> Z * P
}.

Definition OS_FILESYS_RAMDISK_VOLNAME_PREFIX : string := "RAM".

(** [local->address != NULL || strncmp (local->volume_name, "RAM", 3) == 0]. *)
Definition ramdisk_hint (local : OS_filesys_internal_record_t) : bool :=
  bool_decide (is_Some (address local))
  || String.prefix OS_FILESYS_RAMDISK_VOLNAME_PREFIX (volume_name local).

(** [OS_FileSysAPI_Init]: [memset (OS_filesys_table, 0, ...)]. *)
Definition OS_FileSysAPI_Init (st : State) : Z * State :=
  (OS_SUCCESS,
   mk_state (OS_global_filesys_table st)
     (replicate (length (OS_filesys_table st)) filesys_zero)).

(** The loops of [OS_GetFsInfo]: the number of slots of a common table
    whose handle is undefined, counted in a [uint32] from [n]. *)
Fixpoint count_free (tbl : list OS_common_record_t) (n : Z) : Z :=
  match tbl with
  | [] => n
  | r :: tbl' =>
      count_free tbl' (if negb (OS_ObjectIdDefined (active_id r)) then to_uint32 (n + 1) else n)
  end.

(** [OS_GetFsInfo]; the tables have [OS_MAX_NUM_OPEN_FILES] and
    [OS_MAX_FILE_SYSTEMS] slots. *)
Definition OS_GetFsInfo (filesys_info : option os_fsinfo_t)
    (OS_global_stream_table : list OS_common_record_t) (st : State)
  : Z * option os_fsinfo_t :=
  match filesys_info with
  | None => (OS_INVALID_POINTER, None)
  | Some _ =>
      (OS_SUCCESS,
       Some (mk_fsinfo (Z.of_nat (length OS_global_stream_table))
               (count_free OS_global_stream_table 0)
               (Z.of_nat (length (OS_global_filesys_table st)))
               (count_free (OS_global_filesys_table st) 0)))
  end.

Section Volumes.

Context `{OsConfig} {P : Type} `{FileSysAdapter P} `{FileSysVolumeAdapter P}.

(** Constants of headers that are not part of the tree: the sizes of
    the volume name and of the physical drive name, and the file system
    types.  The buffers [device_name], [system_mountpt] and
    [virtual_mountpt] of a record have [OS_FS_DEV_NAME_LEN],
    [OS_MAX_LOCAL_PATH_LEN] and [OS_MAX_PATH_LEN] bytes. *)
Variable OS_FS_VOL_NAME_LEN : nat.
Variable OS_FS_PHYS_NAME_LEN : nat.
Variable OS_FILESYS_TYPE_UNKNOWN : Z.
Variable OS_FILESYS_TYPE_FS_BASED : Z.
Variable OS_FILESYS_TYPE_VOLATILE_DISK : Z.

(** [self] is the handle of the calling task. *)
Variable self : osal_id_t.

(** [OS_FileSys_Initialize]; [last_id] is the serial counter of the file
    system type, returned as it is after the call. *)
Definition OS_FileSys_Initialize (address : option Z) (fsdevname fsvolname : option string)
    (blocksize numblocks : Z) (should_format : bool) (last_id : Z) (st : State) (p : P)
  : Z * Z * State * P :=
  match fsdevname, fsvolname with
  | Some dev, Some vol =>
      if String.eqb dev "" || String.eqb vol ""
      then (OS_FS_ERR_PATH_INVALID, last_id, st, p)
      else if (OS_FS_DEV_NAME_LEN <=? String.length dev)%nat
              || (OS_FS_VOL_NAME_LEN <=? String.length vol)%nat
      then (OS_FS_ERR_PATH_TOO_LONG, last_id, st, p)
      else
        match OS_ObjectIdAllocateNew dev self
                (mk_objtype last_id (OS_global_filesys_table st)) with
        | (return_code, local_id, ots) =>
            if return_code =? OS_SUCCESS then
              let ots := TimeBase.set_name_entry ots local_id dev in
              let local := mk_filesys dev vol "" "" address blocksize numblocks 0 0 in
              let local :=
                if (fstype local =? OS_FILESYS_TYPE_UNKNOWN) && ramdisk_hint local
                then set_fstype local OS_FILESYS_TYPE_VOLATILE_DISK
                else local in
              let st := mk_state (records ots) (<[local_id := local]> (OS_filesys_table st)) in
              let '(return_code, tbl, p) := OS_FileSysStartVolume_Impl local_id st p in
              let st := mk_state (records ots) tbl in
              let '(return_code, st, p) :=
                if return_code =? OS_SUCCESS then
                  let '(return_code, p) :=
                    if should_format then OS_FileSysFormatVolume_Impl local_id st p
                    else (return_code, p) in
                  if return_code =? OS_SUCCESS
                  then (return_code,
                        mk_state (records ots)
                          (or_flags local_id OS_FILESYS_FLAG_IS_READY (OS_filesys_table st)),
                        p)
                  else (return_code, st, snd (OS_FileSysStopVolume_Impl local_id st p))
                else (return_code, st, p) in
              let '(return_code, ots, _) :=
                OS_ObjectIdFinalizeNew return_code OS_OBJECT_TYPE_OS_FILESYS local_id ots
                  None in
              (return_code, last_id_issued ots,
               mk_state (records ots) (OS_filesys_table st), p)
            else (return_code, last_id, st, p)
        end
  | _, _ => (OS_INVALID_POINTER, last_id, st, p)
  end.

(** [filesys_id] is the caller's handle variable ([None] for a NULL
    pointer, which the function accepts). *)
Definition OS_FileSysAddFixedMap (filesys_id : option osal_id_t)
    (phys_path virt_path : option string) (last_id : Z) (st : State) (p : P)
  : Z * option osal_id_t * Z * State * P :=
  match phys_path, virt_path with
  | Some phys, Some virt =>
      if (OS_MAX_LOCAL_PATH_LEN <=? String.length phys)%nat
         || (OS_MAX_PATH_LEN <=? String.length virt)%nat
      then (OS_ERR_NAME_TOO_LONG, filesys_id, last_id, st, p)
      else
        let dev_name :=
          match strrchr phys slash with
          | None => phys
          | Some s => string_from 1 s
          end in
        if (OS_FS_DEV_NAME_LEN <=? String.length dev_name)%nat
        then (OS_ERR_NAME_TOO_LONG, filesys_id, last_id, st, p)
        else
          match OS_ObjectIdAllocateNew dev_name self
                  (mk_objtype last_id (OS_global_filesys_table st)) with
          | (return_code, local_id, ots) =>
              if return_code =? OS_SUCCESS then
                let local :=
                  mk_filesys (strncpy dev_name (OS_FS_DEV_NAME_LEN - 1))
                    (strncpy dev_name (OS_FS_VOL_NAME_LEN - 1))
                    (strncpy phys (OS_MAX_LOCAL_PATH_LEN - 1))
                    (strncpy virt (OS_MAX_PATH_LEN - 1))
                    None 0 0 OS_FILESYS_FLAG_IS_FIXED OS_FILESYS_TYPE_FS_BASED in
                let ots := TimeBase.set_name_entry ots local_id (device_name local) in
                let st :=
                  mk_state (records ots) (<[local_id := local]> (OS_filesys_table st)) in
                let '(return_code, tbl, p) := OS_FileSysStartVolume_Impl local_id st p in
                let st := mk_state (records ots) tbl in
                let '(return_code, st, p) :=
                  if return_code =? OS_SUCCESS then
                    let st :=
                      mk_state (records ots)
                        (or_flags local_id OS_FILESYS_FLAG_IS_READY (OS_filesys_table st)) in
                    let '(return_code, p) := OS_FileSysMountVolume_Impl local_id st p in
                    (return_code, st, p)
                  else (return_code, st, p) in
                let st :=
                  if return_code =? OS_SUCCESS
                  then mk_state (records ots)
                         (or_flags local_id
                            (Z.lor OS_FILESYS_FLAG_IS_MOUNTED_SYSTEM
                               OS_FILESYS_FLAG_IS_MOUNTED_VIRTUAL) (OS_filesys_table st))
                  else st in
                let '(return_code, ots, filesys_id) :=
                  OS_ObjectIdFinalizeNew return_code OS_OBJECT_TYPE_OS_FILESYS local_id ots
                    filesys_id in
                (return_code, filesys_id, last_id_issued ots,
                 mk_state (records ots) (OS_filesys_table st), p)
              else (return_code, filesys_id, last_id, st, p)
          end
  | _, _ => (OS_INVALID_POINTER, filesys_id, last_id, st, p)
  end.

(** The mapping of the historic error code that ends [OS_mkfs] and
    [OS_initfs]. *)
Definition device_not_free (return_code : Z) : Z :=
  if (return_code =? OS_ERR_INCORRECT_OBJ_STATE) || (return_code =? OS_ERR_NO_FREE_IDS)
  then OS_FS_ERR_DEVICE_NOT_FREE
  else return_code.

Definition OS_mkfs (address : option Z) (devname volname : option string)
    (blocksize numblocks : Z) (last_id : Z) (st : State) (p : P) : Z * Z * State * P :=
  let '(return_code, last_id, st, p) :=
    OS_FileSys_Initialize address devname volname blocksize numblocks true last_id st p in
  (device_not_free return_code, last_id, st, p).

Definition OS_initfs (address : option Z) (devname volname : option string)
    (blocksize numblocks : Z) (last_id : Z) (st : State) (p : P) : Z * Z * State * P :=
  let '(return_code, last_id, st, p) :=
    OS_FileSys_Initialize address devname volname blocksize numblocks false last_id st p in
  (device_not_free return_code, last_id, st, p).

Definition OS_rmfs (devname : option string) (st : State) (p : P) : Z * State * P :=
  match devname with
  | Some dev =>
      if (OS_MAX_API_NAME <=? String.length dev)%nat
      then (OS_FS_ERR_PATH_TOO_LONG, st, p)
      else
        match OS_ObjectIdGetByName OS_LOCK_MODE_EXCLUSIVE dev (OS_global_filesys_table st)
        with
        | (return_code, gidx, gtbl) =>
            let st := mk_state gtbl (OS_filesys_table st) in
            if return_code =? OS_SUCCESS then
              let local_id := local_id_of gtbl gidx in
              let '(return_code, p) := OS_FileSysStopVolume_Impl local_id st p in
              if return_code =? OS_SUCCESS then
                match gtbl !! gidx with
                | Some global =>
                    (return_code,
                     mk_state (<[gidx := set_active_id global OS_OBJECT_ID_UNDEFINED]> gtbl)
                       (OS_filesys_table st), p)
                | None => (return_code, st, p)
                end
              else (return_code, st, p)
            else (OS_ERR_NAME_NOT_FOUND, st, p)
        end
  | None => (OS_INVALID_POINTER, st, p)
  end.

(** [OS_fsBlocksFree]: the count of free blocks comes back through the
    [int32] return value. *)
Definition OS_fsBlocksFree (name : option string) (st : State) (p : P) : Z * P :=
  match name with
  | Some n =>
      if (OS_MAX_PATH_LEN <=? String.length n)%nat then (OS_FS_ERR_PATH_TOO_LONG, p)
      else
        match OS_ObjectIdGetBySearch OS_LOCK_MODE_GLOBAL
                (OS_FileSys_FindVirtMountPoint (OS_filesys_table st) n)
                (OS_global_filesys_table st)
        with
        | (return_code, gidx, gtbl) =>
            if return_code =? OS_SUCCESS then
              let local_id := local_id_of gtbl gidx in
              let '(return_code, statfs, p) := OS_FileSysStatVolume_Impl local_id st p in
              (if return_code =? OS_SUCCESS then to_int32 (blocks_free statfs)
               else return_code, p)
            else (OS_FS_ERR_PATH_INVALID, p)
        end
  | None => (OS_INVALID_POINTER, p)
  end.

(** [bytes_free] is the caller's [uint64] variable ([None] for a NULL
    pointer). *)
Definition OS_fsBytesFree (name : option string) (bytes_free : option Z) (st : State) (p : P)
  : Z * option Z * P :=
  match name, bytes_free with
  | Some n, Some _ =>
      if (OS_MAX_PATH_LEN <=? String.length n)%nat
      then (OS_FS_ERR_PATH_TOO_LONG, bytes_free, p)
      else
        match OS_ObjectIdGetBySearch OS_LOCK_MODE_GLOBAL
                (OS_FileSys_FindVirtMountPoint (OS_filesys_table st) n)
                (OS_global_filesys_table st)
        with
        | (return_code, gidx, gtbl) =>
            if return_code =? OS_SUCCESS then
              let local_id := local_id_of gtbl gidx in
              let '(return_code, statfs, p) := OS_FileSysStatVolume_Impl local_id st p in
              (return_code,
               if return_code =? OS_SUCCESS
               then Some (to_uint64 (to_uint64 (blocks_free statfs)
                                     * to_uint64 (block_size statfs)))
               else bytes_free, p)
            else (OS_FS_ERR_PATH_INVALID, bytes_free, p)
        end
  | _, _ => (OS_INVALID_POINTER, bytes_free, p)
  end.

(** [OS_chkfs]: the record is held by a reference while the adapter
    checks the volume. *)
Definition OS_chkfs (name : option string) (repair : bool) (st : State) (p : P)
  : Z * State * P :=
  match name with
  | Some n =>
      if (OS_MAX_PATH_LEN <=? String.length n)%nat then (OS_FS_ERR_PATH_TOO_LONG, st, p)
      else
        match OS_ObjectIdGetBySearch OS_LOCK_MODE_REFCOUNT
                (OS_FileSys_FindVirtMountPoint (OS_filesys_table st) n)
                (OS_global_filesys_table st)
        with
        | (return_code, gidx, gtbl) =>
            let st := mk_state gtbl (OS_filesys_table st) in
            if return_code =? OS_SUCCESS then
              let local_id := local_id_of gtbl gidx in
              let '(return_code, p) := OS_FileSysCheckVolume_Impl local_id repair st p in
              let '(_, gtbl) := OS_ObjectIdRefcountDecr gidx gtbl in
              (return_code, mk_state gtbl (OS_filesys_table st), p)
            else (return_code, st, p)
        end
  | None => (OS_INVALID_POINTER, st, p)
  end.

(** [PhysDriveName] is the caller's buffer ([None] for a NULL pointer);
    the result carries the string it holds afterwards. *)
Definition OS_FS_GetPhysDriveName (PhysDriveName MountPoint : option string) (st : State)
  : Z * option string :=
  match MountPoint, PhysDriveName with
  | Some mp, Some _ =>
      if (OS_MAX_PATH_LEN <=? String.length mp)%nat
      then (OS_FS_ERR_PATH_TOO_LONG, PhysDriveName)
      else
        match OS_ObjectIdGetBySearch OS_LOCK_MODE_GLOBAL
                (OS_FileSys_FindVirtMountPoint (OS_filesys_table st) mp)
                (OS_global_filesys_table st)
        with
        | (return_code, gidx, gtbl) =>
            if return_code =? OS_SUCCESS then
              match OS_filesys_table st !! local_id_of gtbl gidx with
              | Some local =>
                  if negb (Z.land (flags local) OS_FILESYS_FLAG_IS_MOUNTED_SYSTEM =? 0)
                  then (return_code,
                        Some (strncpy (system_mountpt local) (OS_FS_PHYS_NAME_LEN - 1)))
                  else (OS_ERR_INCORRECT_OBJ_STATE, PhysDriveName)
              | None => (return_code, PhysDriveName)
              end
            else (OS_ERR_NAME_NOT_FOUND, PhysDriveName)
        end
  | _, _ => (OS_INVALID_POINTER, PhysDriveName)
  end.

End Volumes.

End FileSys.

(** ** Initialization and teardown (osapi-common.c) *)

Module Common.

(** [OS_SharedGlobalVars_t]; the event handler and the debug level play
    no part in the functions below. *)
Record OS_SharedGlobalVars_t : Type := mk_globals {
  Initialized : bool;
  PrintfEnabled : bool;
  ShutdownFlag : Z;
  MicroSecPerTick : Z;
  TicksPerSecond : Z
}.

(** The initial value of [OS_SharedGlobalVars]. *)
Definition OS_SharedGlobalVars_init : OS_SharedGlobalVars_t :=
  mk_globals false false 0 0 0.

Definition set_Initialized (g : OS_SharedGlobalVars_t) (b : bool) : OS_SharedGlobalVars_t :=
  mk_globals b (PrintfEnabled g) (ShutdownFlag g) (MicroSecPerTick g) (TicksPerSecond g).

(** The whole process: the shared globals, and everything else (the
    tables of every resource type, the platform adapter's state). *)
Record World (T : Type) : Type := mk_world {
  OS_SharedGlobalVars : OS_SharedGlobalVars_t;
  tables : T
}.
Arguments mk_world {T} _ _.
Arguments OS_SharedGlobalVars {T} _.
Arguments tables {T} _.

(** The functions of the other units that [osapi-common.c] calls, each a
    transition of the world that returns a status.  [OS_ForEachObject
    creator_id callback arg] threads the value behind [arg] through the
    calls of [callback]. *)
Class Subsystems (T : Type) : Type := {
  OS_ObjectIdInit : World T -> Z * World T;
  OS_API_Impl_Init : Z -> World T -> Z * World T;
  OS_TaskAPI_Init : World T -> Z * World T;
  OS_QueueAPI_Init : World T -> Z * World T;
  OS_BinSemAPI_Init : World T -> Z * World T;
  OS_CountSemAPI_Init : World T -> Z * World T;
  OS_MutexAPI_Init : World T -> Z * World T;
  OS_ModuleAPI_Init : World T -> Z * World T;
  OS_TimeBaseAPI_Init : World T -> Z * World T;
  OS_TimerCbAPI_Init : World T -> Z * World T;
  OS_FileAPI_Init : World T -> Z * World T;
  OS_DirAPI_Init : World T -> Z * World T;
  OS_FileSysAPI_Init : World T -> Z * World T;
  OS_ConsoleAPI_Init : World T -> Z * World T;
  OS_NetworkAPI_Init : World T -> Z * World T;
  OS_SocketAPI_Init : World T -> Z * World T;
  OS_ForEachObject :
    osal_id_t -> (osal_id_t -> Z -> World T -> Z * World T) -> Z -> World T -> Z * World T;
  OS_IdentifyObject : osal_id_t -> Z;
  OS_TaskDelete : osal_id_t -> World T -> Z * World T;
  OS_QueueDelete : osal_id_t -> World T -> Z * World T;
  OS_BinSemDelete : osal_id_t -> World T -> Z * World T;
  OS_CountSemDelete : osal_id_t -> World T -> Z * World T;
  OS_MutSemDelete : osal_id_t -> World T -> Z * World T;
  OS_ModuleUnload : osal_id_t -> World T -> Z * World T;
  OS_TimeBaseDelete : osal_id_t -> World T -> Z * World T;
  OS_TimerDelete : osal_id_t -> World T -> Z * World T;
  OS_close : osal_id_t -> World T -> Z * World T;
  OS_DirectoryClose : osal_id_t -> World T -> Z * World T;
  OS_TaskDelay : Z -> World T -> Z * World T
}.

Section Common.

Context {T : Type} `{Subsystems T}.

Definition set_globals (w : World T) (g : OS_SharedGlobalVars_t) : World T :=
  mk_world g (tables w).

(** The [switch (idtype)] of [OS_API_Init]; [return_code] is the status
    of the adapter's init, kept by the [default] branch. *)
Definition shared_layer_init (idtype : Z) (return_code : Z) (w : World T) : Z * World T :=
  if idtype =? OS_OBJECT_TYPE_OS_TASK then OS_TaskAPI_Init w
  else if idtype =? OS_OBJECT_TYPE_OS_QUEUE then OS_QueueAPI_Init w
  else if idtype =? OS_OBJECT_TYPE_OS_BINSEM then OS_BinSemAPI_Init w
  else if idtype =? OS_OBJECT_TYPE_OS_COUNTSEM then OS_CountSemAPI_Init w
  else if idtype =? OS_OBJECT_TYPE_OS_MUTEX then OS_MutexAPI_Init w
  else if idtype =? OS_OBJECT_TYPE_OS_MODULE then OS_ModuleAPI_Init w
  else if idtype =? OS_OBJECT_TYPE_OS_TIMEBASE then OS_TimeBaseAPI_Init w
  else if idtype =? OS_OBJECT_TYPE_OS_TIMECB then OS_TimerCbAPI_Init w
  else if idtype =? OS_OBJECT_TYPE_OS_STREAM then OS_FileAPI_Init w
  else if idtype =? OS_OBJECT_TYPE_OS_DIR then OS_DirAPI_Init w
  else if idtype =? OS_OBJECT_TYPE_OS_FILESYS then OS_FileSysAPI_Init w
  else if idtype =? OS_OBJECT_TYPE_OS_CONSOLE then OS_ConsoleAPI_Init w
  else (return_code, w).

(** [for (idtype = 0; idtype < OS_OBJECT_TYPE_USER; ++idtype) { ... }],
    with [n] turns left. *)
Fixpoint init_loop (n : nat) (idtype : Z) (return_code : Z) (w : World T) : Z * World T :=
  match n with
  | O => (return_code, w)
  | S n' =>
      let '(return_code, w) := OS_API_Impl_Init idtype w in
      if negb (return_code =? OS_SUCCESS) then (return_code, w)
      else
        let '(return_code, w) := shared_layer_init idtype return_code w in
        if negb (return_code =? OS_SUCCESS) then (return_code, w)
        else init_loop n' (idtype + 1) return_code w
  end.

(** [OS_API_Init]; the debug messages are not modelled. *)
Definition OS_API_Init (w : World T) : Z * World T :=
  if Initialized (OS_SharedGlobalVars w) then (OS_ERROR, w)
  else
    let w := set_globals w (set_Initialized (OS_SharedGlobalVars w) true) in
    let '(return_code, w) := OS_ObjectIdInit w in
    if negb (return_code =? OS_SUCCESS) then (return_code, w)
    else
      let '(return_code, w) :=
        init_loop (Z.to_nat OS_OBJECT_TYPE_USER) 0 return_code w in
      let '(return_code, w) :=
        if return_code =? OS_SUCCESS then OS_NetworkAPI_Init w else (return_code, w) in
      let '(return_code, w) :=
        if return_code =? OS_SUCCESS then OS_SocketAPI_Init w else (return_code, w) in
      let return_code :=
        if (return_code =? OS_SUCCESS)
           && ((MicroSecPerTick (OS_SharedGlobalVars w) =? 0)
               || (TicksPerSecond (OS_SharedGlobalVars w) =? 0))
        then OS_ERROR
        else return_code in
      (return_code, w).

Definition OS_OBJECT_CREATOR_ANY : osal_id_t := OS_OBJECT_ID_UNDEFINED.

(** [OS_CleanUpObject]; [ObjectCount] is the [uint32] behind [arg]. *)
Definition OS_CleanUpObject (object_id : osal_id_t) (ObjectCount : Z) (w : World T)
  : Z * World T :=
  let ObjectCount := to_uint32 (ObjectCount + 1) in
  let idtype := OS_IdentifyObject object_id in
  (ObjectCount,
   if idtype =? OS_OBJECT_TYPE_OS_TASK then snd (OS_TaskDelete object_id w)
   else if idtype =? OS_OBJECT_TYPE_OS_QUEUE then snd (OS_QueueDelete object_id w)
   else if idtype =? OS_OBJECT_TYPE_OS_BINSEM then snd (OS_BinSemDelete object_id w)
   else if idtype =? OS_OBJECT_TYPE_OS_COUNTSEM then snd (OS_CountSemDelete object_id w)
   else if idtype =? OS_OBJECT_TYPE_OS_MUTEX then snd (OS_MutSemDelete object_id w)
   else if idtype =? OS_OBJECT_TYPE_OS_MODULE then snd (OS_ModuleUnload object_id w)
   else if idtype =? OS_OBJECT_TYPE_OS_TIMEBASE then snd (OS_TimeBaseDelete object_id w)
   else if idtype =? OS_OBJECT_TYPE_OS_TIMECB then snd (OS_TimerDelete object_id w)
   else if idtype =? OS_OBJECT_TYPE_OS_STREAM then snd (OS_close object_id w)
   else if idtype =? OS_OBJECT_TYPE_OS_DIR then snd (OS_DirectoryClose object_id w)
   else w).

(** The [while (true)] loop of [OS_DeleteAllObjects].  The result is
    [ObjectCount], [TryCount] and the world at the [break]; the list is
    a ghost: the [ObjectCount] of every pass made, first pass first. *)
Fixpoint delete_loop (fuel : nat) (TryCount : Z) (counts : list Z) (w : World T)
  : option (Z * Z * list Z * World T) :=
  match fuel with
  | O => None
  | S fuel' =>
      let ObjectCount := 0 in
      let TryCount := to_uint32 (TryCount + 1) in
      let '(ObjectCount, w) :=
        OS_ForEachObject OS_OBJECT_CREATOR_ANY OS_CleanUpObject ObjectCount w in
      let counts := counts ++ [ObjectCount] in
      if (ObjectCount =? 0) || (4 <? TryCount) then Some (ObjectCount, TryCount, counts, w)
      else delete_loop fuel' TryCount counts (snd (OS_TaskDelay 5 w))
  end.

(** The trailing [while (ObjectCount > 0 && TryCount < 5);]: its body is
    empty, so once entered it is never left. *)
Fixpoint trailing_spin (fuel : nat) (ObjectCount TryCount : Z) : option unit :=
  if (0 <? ObjectCount) && (TryCount <? 5) then
    match fuel with
    | O => None
    | S fuel' => trailing_spin fuel' ObjectCount TryCount
    end
  else Some tt.

Definition OS_DeleteAllObjects (fuel : nat) (w : World T) : option (World T) :=
  '(ObjectCount, TryCount, _, w) ← delete_loop fuel 0 [] w;
  _ ← trailing_spin fuel ObjectCount TryCount;
  Some w.

End Common.

(** *** Shutdown *)

Definition set_ShutdownFlag (g : OS_SharedGlobalVars_t) (v : Z) : OS_SharedGlobalVars_t :=
  mk_globals (Initialized g) (PrintfEnabled g) v (MicroSecPerTick g) (TicksPerSecond g).

Section Shutdown.

Context {T : Type}.

(** The adapter's idle primitive and its wake hook. *)
Variable OS_IdleLoop_Impl : World T -> World T.
Variable OS_ApplicationShutdown_Impl : World T -> World T.

(** [OS_SHUTDOWN_MAGIC_NUMBER], from a header that is not part of the
    tree. *)
Variable OS_SHUTDOWN_MAGIC_NUMBER : Z.

(** [OS_IdleLoop]: [while (ShutdownFlag != OS_SHUTDOWN_MAGIC_NUMBER)
    OS_IdleLoop_Impl ();], with [fuel] turns at most. *)
Fixpoint OS_IdleLoop (fuel : nat) (w : World T) : option (World T) :=
  if negb (ShutdownFlag (OS_SharedGlobalVars w) =? OS_SHUTDOWN_MAGIC_NUMBER) then
    match fuel with
    | O => None
    | S fuel' => OS_IdleLoop fuel' (OS_IdleLoop_Impl w)
    end
  else Some w.

(** [OS_ApplicationShutdown]; [flag] is a [uint8], compared with
    [true]. *)
Definition OS_ApplicationShutdown (flag : Z) (w : World T) : World T :=
  let w :=
    if flag =? 1
    then mk_world (set_ShutdownFlag (OS_SharedGlobalVars w) OS_SHUTDOWN_MAGIC_NUMBER)
           (tables w)
    else w in
  OS_ApplicationShutdown_Impl w.

End Shutdown.

End Common.

(** * Properties *)

(** ** Fixed-width integers *)

Lemma to_int32_id z : is_int32 z -> to_int32 z = z.
Proof.
  unfold is_int32, to_int32. intros Hz.
  rewrite Z.mod_small by lia. lia.
Qed.

Lemma to_uint32_id z : is_uint32 z -> to_uint32 z = z.
Proof. unfold is_uint32, to_uint32. intros Hz. now rewrite Z.mod_small. Qed.

Lemma to_uint64_id z : 0 <= z < 2 ^ 64 -> to_uint64 z = z.
Proof. unfold to_uint64. intros Hz. now rewrite Z.mod_small. Qed.

Lemma to_int32_range z : is_int32 (to_int32 z).
Proof.
  unfold is_int32, to_int32.
  pose proof (Z.mod_pos_bound (z + 2 ^ 31) (2 ^ 32) ltac:(lia)). lia.
Qed.

Lemma to_uint32_range z : is_uint32 (to_uint32 z).
Proof. unfold is_uint32, to_uint32. apply Z.mod_pos_bound. lia. Qed.

Lemma to_uint32_add_l a b : to_uint32 (to_uint32 a + b) = to_uint32 (a + b).
Proof. unfold to_uint32. now rewrite Zplus_mod_idemp_l. Qed.

(** ** The timer callback engine *)

Section TimerEngine.

Import TimeBase.

(** A record whose wait time is positive is left alone by the inner
    loop, whatever the fuel. *)
Lemma timecb_while_pos fuel id saved cb tr :
  0 < wait_time cb -> timecb_while fuel id saved cb tr = Some (cb, tr).
Proof.
  intros Hw. destruct fuel; simpl; destruct (Z.leb_spec (wait_time cb) 0); auto; lia.
Qed.

(** One turn of the inner loop on an [int32]-representable record with a
    callback, entered from a positive saved wait time. *)
Lemma timecb_while_turn fuel id saved tref fn arg iv w bl nx tr :
  w <= 0 -> is_int32 w -> 0 <= iv < 2 ^ 31 -> 0 < saved ->
  timecb_while (S fuel) id saved (mk_timecb tref (Some fn) arg iv w bl nx) tr =
  let w1 := w + iv in
  let cb1 :=
    if w1 <? - iv then mk_timecb tref (Some fn) arg iv (- iv) (to_uint32 (bl + 1)) nx
    else mk_timecb tref (Some fn) arg iv w1 bl nx in
  if iv <=? 0 then Some (cb1, EvCallback fn id arg :: tr)
  else timecb_while fuel id saved cb1 (EvCallback fn id arg :: tr).
Proof.
  intros Hw Hr Hiv Hs. unfold is_int32 in Hr.
  cbn [timecb_while wait_time set_wait_time interval_time backlog_resets set_backlog_resets
       callback_ptr callback_arg timebase_ref next_ref].
  destruct (Z.leb_spec w 0); [|lia]. cbn [negb].
  rewrite !to_int32_id by (unfold is_int32; lia).
  destruct (Z.ltb_spec 0 saved); [|lia].
  destruct (Z.ltb_spec (w + iv) (- iv)); cbn; reflexivity.
Qed.

(** The same turn entered from a saved wait time that is not positive:
    no callback. *)
Lemma timecb_while_turn_quiet fuel id saved tref cp arg iv w bl nx tr :
  w <= 0 -> is_int32 w -> 0 <= iv < 2 ^ 31 -> saved <= 0 ->
  timecb_while (S fuel) id saved (mk_timecb tref cp arg iv w bl nx) tr =
  let w1 := w + iv in
  let cb1 :=
    if w1 <? - iv then mk_timecb tref cp arg iv (- iv) (to_uint32 (bl + 1)) nx
    else mk_timecb tref cp arg iv w1 bl nx in
  if iv <=? 0 then Some (cb1, tr)
  else timecb_while fuel id saved cb1 tr.
Proof.
  intros Hw Hr Hiv Hs. unfold is_int32 in Hr.
  cbn [timecb_while wait_time set_wait_time interval_time backlog_resets set_backlog_resets
       callback_ptr callback_arg timebase_ref next_ref].
  destruct (Z.leb_spec w 0); [|lia]. cbn [negb].
  rewrite !to_int32_id by (unfold is_int32; lia).
  destruct (Z.ltb_spec 0 saved); [lia|].
  destruct (Z.ltb_spec (w + iv) (- iv)); destruct cp; cbn; reflexivity.
Qed.

(** A tick shorter than the wait time only shortens the wait. *)
Lemma timecb_tick_early fuel id tick cb tr :
  0 < wait_time cb < 2 ^ 31 -> 0 <= tick < wait_time cb ->
  timecb_tick fuel tick id cb tr = Some (set_wait_time cb (wait_time cb - tick), tr).
Proof.
  intros Hw Ht. unfold timecb_tick.
  rewrite to_int32_id by (unfold is_int32; lia).
  apply timecb_while_pos. simpl. lia.
Qed.

(** The tick that exhausts the wait time of a one-shot record calls the
    callback once and leaves the wait time at zero. *)
Lemma timecb_tick_oneshot fuel id tick tref fn arg w bl nx tr :
  0 < w <= tick -> tick < 2 ^ 31 ->
  exists bl',
    timecb_tick (S fuel) tick id (mk_timecb tref (Some fn) arg 0 w bl nx) tr =
    Some (mk_timecb tref (Some fn) arg 0 0 bl' nx, EvCallback fn id arg :: tr).
Proof.
  intros Hw Ht. unfold timecb_tick, set_wait_time.
  cbn [wait_time interval_time backlog_resets callback_ptr callback_arg
       timebase_ref next_ref].
  rewrite to_int32_id by (unfold is_int32; lia).
  rewrite timecb_while_turn by (unfold is_int32; lia). cbv zeta.
  rewrite Z.add_0_r. change (- 0) with 0. change (0 <=? 0) with true. cbv iota.
  destruct (Z.ltb_spec (w - tick) 0).
  - eauto.
  - replace (w - tick) with 0 by lia. eauto.
Qed.

(** A one-shot record that has fired stays silent, with its wait time
    at zero. *)
Lemma timecb_tick_disarmed fuel id tick tref cp arg bl nx tr :
  0 <= tick < 2 ^ 31 ->
  exists bl',
    timecb_tick (S fuel) tick id (mk_timecb tref cp arg 0 0 bl nx) tr =
    Some (mk_timecb tref cp arg 0 0 bl' nx, tr).
Proof.
  intros Ht. unfold timecb_tick, set_wait_time.
  cbn [wait_time interval_time backlog_resets callback_ptr callback_arg
       timebase_ref next_ref].
  rewrite to_int32_id by (unfold is_int32; lia).
  rewrite timecb_while_turn_quiet by (unfold is_int32; lia). cbv zeta.
  rewrite Z.add_0_r. change (- 0) with 0. change (0 <=? 0) with true. cbv iota.
  destruct (Z.ltb_spec (0 - tick) 0).
  - eauto.
  - replace (0 - tick) with 0 by lia. eauto.
Qed.

(** The tick that exhausts the wait time of a periodic record calls the
    callback between one and three times and leaves a positive wait time
    of at most one interval; when the tick ends before the following
    interval does, the callback is called once and no time is lost. *)
Lemma timecb_tick_periodic fuel id tick tref fn arg iv w bl nx tr :
  0 < iv < 2 ^ 31 -> 0 < w <= tick -> tick < 2 ^ 31 ->
  exists w' bl' tr',
    timecb_tick (S (S (S fuel))) tick id (mk_timecb tref (Some fn) arg iv w bl nx) tr =
    Some (mk_timecb tref (Some fn) arg iv w' bl' nx, tr')
    /\ 0 < w' <= iv
    /\ (fired tr + 1 <= fired tr' <= fired tr + 3)%nat
    /\ (tick < w + iv -> tr' = EvCallback fn id arg :: tr /\ w' = w - tick + iv /\ bl' = bl).
Proof.
  intros Hiv Hw Ht. unfold timecb_tick, set_wait_time.
  cbn [wait_time interval_time backlog_resets callback_ptr callback_arg
       timebase_ref next_ref].
  rewrite to_int32_id by (unfold is_int32; lia).
  rewrite timecb_while_turn by (unfold is_int32; lia). cbv zeta.
  destruct (Z.leb_spec iv 0); [lia|].
  destruct (Z.ltb_spec (w - tick + iv) (- iv)).
  - (* backlog clamped at one interval *)
    rewrite timecb_while_turn by (unfold is_int32; lia). cbv zeta.
    destruct (Z.leb_spec iv 0); [lia|].
    destruct (Z.ltb_spec (- iv + iv) (- iv)); [lia|].
    rewrite timecb_while_turn by (unfold is_int32; lia). cbv zeta.
    destruct (Z.leb_spec iv 0); [lia|].
    destruct (Z.ltb_spec (- iv + iv + iv) (- iv)); [lia|].
    rewrite timecb_while_pos by (simpl; lia).
    do 3 eexists. split; [reflexivity|]. simpl. repeat split; try lia.
  - destruct (Z.ltb_spec 0 (w - tick + iv)).
    + rewrite timecb_while_pos by (simpl; lia).
      do 3 eexists. split; [reflexivity|]. simpl. repeat split; try lia.
    + rewrite timecb_while_turn by (unfold is_int32; lia). cbv zeta.
      destruct (Z.leb_spec iv 0); [lia|].
      destruct (Z.ltb_spec (w - tick + iv + iv) (- iv)); [lia|].
      destruct (Z.ltb_spec 0 (w - tick + iv + iv)).
      * rewrite timecb_while_pos by (simpl; lia).
        do 3 eexists. split; [reflexivity|]. simpl. repeat split; try lia.
      * rewrite timecb_while_turn by (unfold is_int32; lia). cbv zeta.
        destruct (Z.leb_spec iv 0); [lia|].
        destruct (Z.ltb_spec (w - tick + iv + iv + iv) (- iv)); [lia|].
        rewrite timecb_while_pos by (simpl; lia).
        do 3 eexists. split; [reflexivity|]. simpl. repeat split; try lia.
Qed.

(** The time covered by a sequence of ticks. *)
Definition total (ticks : list Z) : Z := fold_right Z.add 0 ticks.

Definition tick_ok (t : Z) : Prop := 0 <= t < 2 ^ 31.

Lemma total_nonneg ticks : Forall tick_ok ticks -> 0 <= total ticks.
Proof. induction 1 as [|t ticks Ht _ IH]; simpl; unfold tick_ok in *; lia. Qed.

Lemma timecb_ticks_disarmed fuel id ticks tref cp arg nx tr :
  Forall tick_ok ticks ->
  forall bl, exists bl',
    timecb_ticks (S fuel) ticks id (mk_timecb tref cp arg 0 0 bl nx) tr =
    Some (mk_timecb tref cp arg 0 0 bl' nx, tr).
Proof.
  induction 1 as [|t ticks Ht _ IH]; intros bl; simpl.
  - eauto.
  - destruct (timecb_tick_disarmed fuel id t tref cp arg bl nx tr Ht) as [bl1 ->].
    simpl. apply IH.
Qed.

(** A one-shot record, over any sequence of ticks: one call if the
    ticks cover the wait time, none otherwise. *)
Lemma timecb_ticks_oneshot fuel id ticks tref fn arg nx :
  Forall tick_ok ticks ->
  forall w bl tr, 0 < w < 2 ^ 31 ->
  exists w' bl' tr',
    timecb_ticks (S fuel) ticks id (mk_timecb tref (Some fn) arg 0 w bl nx) tr =
    Some (mk_timecb tref (Some fn) arg 0 w' bl' nx, tr')
    /\ fired tr' = (fired tr + if (w <=? total ticks)%Z then 1 else 0)%nat.
Proof.
  induction 1 as [|t ticks Ht Hts IH]; intros w bl tr Hw; simpl.
  - do 3 eexists. split; [reflexivity|].
    destruct (Z.leb_spec w 0); lia.
  - unfold tick_ok in Ht. destruct (Z.lt_ge_cases t w) as [Hlt|Hge].
    + rewrite timecb_tick_early by (simpl; lia). simpl. unfold set_wait_time. simpl.
      destruct (IH (w - t) bl tr ltac:(lia)) as (w' & bl' & tr' & -> & Hf).
      do 3 eexists. split; [reflexivity|]. rewrite Hf.
      destruct (Z.leb_spec (w - t) (total ticks)), (Z.leb_spec w (t + total ticks)); lia.
    + destruct (timecb_tick_oneshot fuel id t tref fn arg w bl nx tr ltac:(lia) ltac:(lia))
        as [bl1 ->].
      simpl.
      destruct (timecb_ticks_disarmed fuel id ticks tref (Some fn) arg nx
                  (EvCallback fn id arg :: tr) Hts bl1) as [bl2 ->].
      do 3 eexists. split; [reflexivity|]. simpl.
      pose proof (total_nonneg ticks Hts).
      destruct (Z.leb_spec w (t + total ticks)); lia.
Qed.

(** A periodic record, over any sequence of ticks: the run goes
    through, with at most three calls per tick. *)
Lemma timecb_ticks_periodic fuel id ticks tref fn arg iv nx :
  0 < iv < 2 ^ 31 ->
  Forall tick_ok ticks ->
  forall w bl tr, 0 < w < 2 ^ 31 ->
  exists w' bl' tr',
    timecb_ticks (S (S (S fuel))) ticks id (mk_timecb tref (Some fn) arg iv w bl nx) tr =
    Some (mk_timecb tref (Some fn) arg iv w' bl' nx, tr')
    /\ 0 < w' < 2 ^ 31
    /\ (fired tr <= fired tr' <= fired tr + 3 * length ticks)%nat.
Proof.
  intros Hiv. induction 1 as [|t ticks Ht Hts IH]; intros w bl tr Hw; simpl.
  - do 3 eexists. split; [reflexivity|]. lia.
  - unfold tick_ok in Ht. destruct (Z.lt_ge_cases t w) as [Hlt|Hge].
    + rewrite timecb_tick_early by (simpl; lia). simpl. unfold set_wait_time. simpl.
      destruct (IH (w - t) bl tr ltac:(lia)) as (w' & bl' & tr' & -> & Hw' & Hf).
      do 3 eexists. split; [reflexivity|]. lia.
    + destruct (timecb_tick_periodic fuel id t tref fn arg iv w bl nx tr Hiv
                  ltac:(lia) ltac:(lia)) as (w1 & bl1 & tr1 & -> & Hw1 & Hf1 & _).
      simpl.
      destruct (IH w1 bl1 tr1 ltac:(lia)) as (w' & bl' & tr' & -> & Hw' & Hf).
      do 3 eexists. split; [reflexivity|]. lia.
Qed.

(** A periodic record whose ticks are never longer than its interval:
    one call for the expiry of the wait time and one for every full
    interval after it. *)
Lemma timecb_ticks_periodic_exact fuel id ticks tref fn arg iv nx :
  0 < iv < 2 ^ 31 ->
  Forall (fun t => 0 <= t <= iv) ticks ->
  forall w bl tr, 0 < w < 2 ^ 31 ->
  exists w' bl' tr',
    timecb_ticks (S (S (S fuel))) ticks id (mk_timecb tref (Some fn) arg iv w bl nx) tr =
    Some (mk_timecb tref (Some fn) arg iv w' bl' nx, tr')
    /\ Z.of_nat (fired tr') =
       Z.of_nat (fired tr)
       + (if total ticks <? w then 0 else (total ticks - w) / iv + 1).
Proof.
  intros Hiv. induction 1 as [|t ticks Ht Hts IH]; intros w bl tr Hw; simpl.
  - do 3 eexists. split; [reflexivity|].
    destruct (Z.ltb_spec 0 w); lia.
  - destruct (Z.lt_ge_cases t w) as [Hlt|Hge].
    + rewrite timecb_tick_early by (simpl; lia). simpl. unfold set_wait_time. simpl.
      destruct (IH (w - t) bl tr ltac:(lia)) as (w' & bl' & tr' & -> & Hf).
      do 3 eexists. split; [reflexivity|]. rewrite Hf.
      destruct (Z.ltb_spec (total ticks) (w - t)), (Z.ltb_spec (t + total ticks) w);
        try lia.
      replace (t + total ticks - w) with (total ticks - (w - t)) by lia. reflexivity.
    + destruct (timecb_tick_periodic fuel id t tref fn arg iv w bl nx tr Hiv
                  ltac:(lia) ltac:(lia)) as (w1 & bl1 & tr1 & -> & Hw1 & _ & Hone).
      destruct (Hone ltac:(lia)) as (-> & -> & ->).
      simpl.
      destruct (IH (w - t + iv) bl (EvCallback fn id arg :: tr) ltac:(lia))
        as (w' & bl' & tr' & -> & Hf).
      do 3 eexists. split; [reflexivity|]. rewrite Hf. simpl fired.
      assert (Hnn : 0 <= total ticks).
      { clear -Hts. induction Hts; simpl; lia. }
      destruct (Z.ltb_spec (total ticks) (w - t + iv)), (Z.ltb_spec (t + total ticks) w);
        try lia.
      * rewrite (Z.div_small (t + total ticks - w) iv) by lia. lia.
      * replace (t + total ticks - w) with (total ticks - (w - t + iv) + 1 * iv) by lia.
        rewrite Z.div_add by lia. lia.
Qed.

(** C1 (as amended).  A timer callback record with a callback, armed
    with a positive wait time, processed with ticks that fit an [int]:
    - a tick shorter than the wait time calls nothing and shortens the
      wait;
    - a one-shot record (interval zero) is called exactly once, on the
      tick that exhausts its wait time, and over any run of ticks it is
      called once if the ticks cover the wait time and never otherwise;
    - a periodic record is called at least once and at most three times
      on a tick that exhausts its wait time (the missed intervals are
      caught up, the backlog being cut at one interval), and exactly
      once when the tick ends before the next interval does; when no
      tick is longer than the interval, a run of ticks calls it once for
      the expiry of the wait time and once for every full interval
      after it. *)
Theorem timer_edge_triggering
    (cb : OS_timecb_internal_record_t) (fn : nat) (id : osal_id_t)
    (fuel : nat) (tick : Z) (ticks : list Z) :
  callback_ptr cb = Some fn ->
  0 < wait_time cb < 2 ^ 31 ->
  0 <= interval_time cb < 2 ^ 31 ->
  tick_ok tick ->
  Forall tick_ok ticks ->
  (3 <= fuel)%nat ->
  (exists cb' tr',
      timecb_tick fuel tick id cb [] = Some (cb', tr')
      /\ interval_time cb' = interval_time cb
      /\ (tick < wait_time cb -> tr' = [] /\ wait_time cb' = wait_time cb - tick)
      /\ (wait_time cb <= tick -> interval_time cb = 0 ->
          fired tr' = 1%nat /\ wait_time cb' = 0)
      /\ (wait_time cb <= tick -> 0 < interval_time cb ->
          (1 <= fired tr' <= 3)%nat /\ 0 < wait_time cb' <= interval_time cb)
      /\ (wait_time cb <= tick < wait_time cb + interval_time cb ->
          fired tr' = 1%nat /\ wait_time cb' = wait_time cb - tick + interval_time cb))
  /\
  (exists cb' tr',
      timecb_ticks fuel ticks id cb [] = Some (cb', tr')
      /\ (interval_time cb = 0 ->
          fired tr' = if wait_time cb <=? total ticks then 1%nat else 0%nat)
      /\ (0 < interval_time cb -> (fired tr' <= 3 * length ticks)%nat)
      /\ (0 < interval_time cb -> Forall (fun t => t <= interval_time cb) ticks ->
          Z.of_nat (fired tr') =
          if total ticks <? wait_time cb then 0
          else (total ticks - wait_time cb) / interval_time cb + 1)).
Proof.
  destruct cb as [tref cp arg iv w bl nx]. simpl.
  intros -> Hw Hiv Ht Hts Hfuel.
  destruct fuel as [|[|[|fuel]]]; try lia. clear Hfuel.
  unfold tick_ok in Ht. split.
  - destruct (Z.lt_ge_cases tick w) as [Hlt|Hge].
    + rewrite timecb_tick_early by (simpl; lia).
      do 2 eexists. split; [reflexivity|]. simpl. repeat split; lia.
    + destruct (Z.eq_dec iv 0) as [->|Hnz].
      * destruct (timecb_tick_oneshot (S (S fuel)) id tick tref fn arg w bl nx []
                    ltac:(lia) ltac:(lia)) as [bl' ->].
        do 2 eexists. split; [reflexivity|]. simpl. repeat split; lia.
      * destruct (timecb_tick_periodic fuel id tick tref fn arg iv w bl nx []
                    ltac:(lia) ltac:(lia) ltac:(lia))
          as (w' & bl' & tr' & -> & Hw' & Hf & Hone).
        do 2 eexists. split; [reflexivity|]. simpl in *.
        split; [reflexivity|]. split; [intros; lia|]. split; [intros; lia|].
        split; [intros; lia|].
        intros Hlt. destruct (Hone ltac:(lia)) as (-> & -> & _). split; reflexivity.
  - destruct (Z.eq_dec iv 0) as [->|Hnz].
    + destruct (timecb_ticks_oneshot (S (S fuel)) id ticks tref fn arg nx Hts w bl []
                  ltac:(lia)) as (w' & bl' & tr' & -> & Hf).
      do 2 eexists. split; [reflexivity|]. simpl in Hf.
      split; [intros _; rewrite Hf; destruct (w <=? total ticks); reflexivity|].
      split; intros; lia.
    + destruct (timecb_ticks_periodic fuel id ticks tref fn arg iv nx ltac:(lia) Hts w bl []
                  ltac:(lia)) as (w' & bl' & tr' & Hrun & Hw' & Hf).
      rewrite Hrun. do 2 eexists. split; [reflexivity|]. simpl in Hf.
      split; [intros; lia|]. split; [intros; lia|].
      intros _ Hle.
      assert (Hexact : Forall (fun t => 0 <= t <= iv) ticks).
      { clear -Hts Hle. induction Hts as [|t l Ht _ IH]; inversion Hle; subst;
          constructor; unfold tick_ok in *; try lia. now apply IH. }
      destruct (timecb_ticks_periodic_exact fuel id ticks tref fn arg iv nx ltac:(lia)
                  Hexact w bl [] ltac:(lia)) as (w2 & bl2 & tr2 & Hrun2 & Hf2).
      rewrite Hrun in Hrun2. injection Hrun2 as _ _ <-. exact Hf2.
Qed.

(** Scenario S6: a one-shot timer with [wait = 2500] on a time base with
    a tick of 1000 is called once in four ticks, and not on the first. *)
Lemma timer_edge_triggering_witness :
  (exists cb' tr',
      timecb_ticks 3 [1000; 1000; 1000; 1000] 589825
        (mk_timecb 0 (Some 0%nat) 0 0 2500 0 0) [] = Some (cb', tr')
      /\ fired tr' = 1%nat)
  /\ (exists cb',
        timecb_tick 3 1000 589825 (mk_timecb 0 (Some 0%nat) 0 0 2500 0 0) []
        = Some (cb', []) /\ wait_time cb' = 1500).
Proof.
  destruct (timer_edge_triggering (mk_timecb 0 (Some 0%nat) 0 0 2500 0 0) 0%nat 589825 3
              1000 [1000; 1000; 1000; 1000] eq_refl ltac:(simpl; lia) ltac:(simpl; lia)
              ltac:(unfold tick_ok; lia)
              ltac:(repeat constructor; unfold tick_ok; lia) ltac:(lia))
    as [(cb1 & tr1 & Htick & _ & Hearly & _) (cb' & tr' & Hrun & Hone & _)].
  split.
  - exists cb', tr'. split; [exact Hrun|]. rewrite (Hone eq_refl). reflexivity.
  - destruct (Hearly ltac:(simpl; lia)) as [-> Hw]. exists cb1. split; [exact Htick|].
    rewrite Hw. reflexivity.
Defined.

(** A time base at slot 1 with one timer of wait time [w] and interval
    [iv], alone on its ring. *)
Definition one_timer_state (w iv : Z) : State :=
  mk_state
    (mk_objtype 1
       [common_zero; mk_common (Some "tb") (OS_ObjectIdCompose_Impl 8 1) 65537 0 0])
    [timebase_zero; mk_timebase "tb" None 1000 (OS_ObjectIdCompose_Impl 9 1) 0 0 0]
    [common_zero; mk_common (Some "t") (OS_ObjectIdCompose_Impl 9 1) 65537 0 0]
    [mk_timecb 0 None 0 0 0 0 0; mk_timecb 1 (Some 0%nat) 0 iv w 0 1]
    [].

(** C1, counterexample: a periodic timer armed with [wait = 5] and
    [interval = 5] is called twice while the servicing thread processes
    one tick of 10.  (And a tick that does not fit an [int] can arm a
    one-shot timer again: armed with [wait = 1], it is called on the
    first and on the third of the ticks 1, 4294967295, 1.) *)
Lemma periodic_timer_called_twice_in_one_tick :
  exists st' st'',
    OS_TimeBase_CallbackThread 3 (OS_ObjectIdCompose_Impl 8 1) [10] (one_timer_state 5 5)
    = Some st'
    /\ fired (trace st') = 2%nat
    /\ ~ (fired (trace st') <= 1)%nat
    /\ OS_TimeBase_CallbackThread 3 (OS_ObjectIdCompose_Impl 8 1) [1; 4294967295; 1]
         (one_timer_state 1 0) = Some st''
    /\ fired (trace st'') = 2%nat.
Proof.
  do 2 eexists. split; [vm_compute; reflexivity|]. simpl.
  split; [reflexivity|]. split; [lia|].
  split; [vm_compute; reflexivity|]. reflexivity.
Qed.

(** *** The ring walk goes through *)

Definition timecb_int32 (cb : OS_timecb_internal_record_t) : Prop :=
  is_int32 (wait_time cb) /\ is_int32 (interval_time cb).

(** What the inner loop and the tick leave alone in a record. *)
Definition same_links (cb cb' : OS_timecb_internal_record_t) : Prop :=
  next_ref cb' = next_ref cb /\ interval_time cb' = interval_time cb
  /\ callback_ptr cb' = callback_ptr cb.

(** Three turns are enough for the inner loop, whatever the record
    holds: a record without a positive interval leaves after one turn,
    and a positive interval brings a wait time that was cut at minus one
    interval above zero in three. *)
Lemma timecb_while_total fuel id saved cb tr :
  timecb_int32 cb ->
  exists cb' tr',
    timecb_while (S (S (S fuel))) id saved cb tr = Some (cb', tr')
    /\ same_links cb cb' /\ timecb_int32 cb'.
Proof.
  destruct cb as [tref cp arg iv w bl nx]. unfold timecb_int32, same_links.
  cbn [wait_time interval_time next_ref callback_ptr].
  intros [Hw Hiv].
  set (ev := fun t : list Event =>
               match cp with
               | Some fn => if 0 <? saved then EvCallback fn id arg :: t else t
               | None => t
               end).
  assert (Hturn : forall f w0 bl0 t, w0 <= 0 ->
    timecb_while (S f) id saved (mk_timecb tref cp arg iv w0 bl0 nx) t =
    let cb1 :=
      if to_int32 (w0 + iv) <? to_int32 (- iv)
      then mk_timecb tref cp arg iv (to_int32 (- iv)) (to_uint32 (bl0 + 1)) nx
      else mk_timecb tref cp arg iv (to_int32 (w0 + iv)) bl0 nx in
    if iv <=? 0 then Some (cb1, ev t) else timecb_while f id saved cb1 (ev t)).
  { intros f w0 bl0 t Hw0.
    cbn [timecb_while wait_time set_wait_time interval_time backlog_resets
         set_backlog_resets callback_ptr callback_arg timebase_ref next_ref].
    destruct (Z.leb_spec w0 0); [|lia]. cbn [negb].
    destruct (Z.ltb_spec (to_int32 (w0 + iv)) (to_int32 (- iv))); reflexivity. }
  destruct (Z.lt_ge_cases 0 w) as [Hpos|Hneg].
  { rewrite timecb_while_pos by (simpl; lia). do 2 eexists.
    split; [reflexivity|]. simpl. split; [repeat split|split; assumption]. }
  rewrite Hturn by lia. cbv zeta.
  destruct (Z.leb_spec iv 0) as [Hiv0|Hiv0].
  { destruct (to_int32 (w + iv) <? to_int32 (- iv));
      do 2 eexists; (split; [reflexivity|]); simpl;
      (split; [repeat split|split; auto using to_int32_range]). }
  unfold is_int32 in Hw, Hiv.
  rewrite !to_int32_id by (unfold is_int32; lia).
  assert (Hgo : forall f w0 bl0 t, - iv <= w0 < 2 ^ 31 ->
    exists cb' tr',
      timecb_while (S (S f)) id saved (mk_timecb tref cp arg iv w0 bl0 nx) t = Some (cb', tr')
      /\ (next_ref cb' = nx /\ interval_time cb' = iv /\ callback_ptr cb' = cp)
      /\ is_int32 (wait_time cb') /\ is_int32 (interval_time cb')).
  { intros f w0 bl0 t Hw0.
    destruct (Z.lt_ge_cases 0 w0).
    { rewrite timecb_while_pos by (simpl; lia). do 2 eexists.
      split; [reflexivity|]. simpl. unfold is_int32. repeat split; lia. }
    rewrite Hturn by lia. cbv zeta.
    destruct (Z.leb_spec iv 0); [lia|].
    rewrite !to_int32_id by (unfold is_int32; lia).
    destruct (Z.ltb_spec (w0 + iv) (- iv)); [lia|].
    destruct (Z.lt_ge_cases 0 (w0 + iv)).
    { rewrite timecb_while_pos by (simpl; lia). do 2 eexists.
      split; [reflexivity|]. simpl. unfold is_int32. repeat split; lia. }
    rewrite Hturn by lia. cbv zeta.
    destruct (Z.leb_spec iv 0); [lia|].
    rewrite !to_int32_id by (unfold is_int32; lia).
    destruct (Z.ltb_spec (w0 + iv + iv) (- iv)); [lia|].
    rewrite timecb_while_pos by (simpl; lia). do 2 eexists.
    split; [reflexivity|]. simpl. unfold is_int32. repeat split; lia. }
  destruct (Z.ltb_spec (w + iv) (- iv)); apply Hgo; lia.
Qed.

Lemma timecb_tick_total fuel tick id cb tr :
  timecb_int32 cb ->
  exists cb' tr',
    timecb_tick (S (S (S fuel))) tick id cb tr = Some (cb', tr')
    /\ same_links cb cb' /\ timecb_int32 cb'.
Proof.
  intros [Hw Hiv]. unfold timecb_tick.
  destruct (timecb_while_total fuel id (wait_time cb)
              (set_wait_time cb (to_int32 (wait_time cb - tick))) tr)
    as (cb' & tr' & Hrun & Hsame & Hok).
  { split; simpl; auto using to_int32_range. }
  exists cb', tr'. split; [exact Hrun|]. split; [|exact Hok].
  destruct Hsame as (H1 & H2 & H3). unfold set_wait_time in H1, H2, H3.
  simpl in H1, H2, H3. repeat split; assumption.
Qed.

(** [ring_path links timer_id curr path]: following the links from slot
    [curr] comes back to [timer_id] after the slots of [path], [curr]
    first. *)
Inductive ring_path (links : list nat) (timer_id : nat) : nat -> list nat -> Prop :=
| ring_path_last curr :
    links !! curr = Some timer_id -> ring_path links timer_id curr [curr]
| ring_path_next curr nxt path :
    links !! curr = Some nxt -> nxt <> timer_id ->
    ring_path links timer_id nxt path -> ring_path links timer_id curr (curr :: path).

Lemma timecb_ring_total fuel tick timer_id gtbl links :
  forall curr path, ring_path links timer_id curr path ->
  forall m tbl tr,
    (length path <= m)%nat ->
    next_ref <$> tbl = links ->
    (length tbl <= length gtbl)%nat ->
    Forall timecb_int32 tbl ->
    exists tbl' tr',
      timecb_ring (S (S (S fuel))) m tick timer_id curr gtbl tbl tr = Some (tbl', tr')
      /\ next_ref <$> tbl' = links
      /\ length tbl' = length tbl
      /\ Forall timecb_int32 tbl'.
Proof.
  induction 1 as [curr Hl|curr nxt path Hl Hne Hpath IH];
    intros m tbl tr Hm Hlinks Hlen Hok; simpl in Hm.
  - destruct m as [|m]; [lia|].
    rewrite <- Hlinks in Hl. rewrite list_lookup_fmap in Hl.
    destruct (tbl !! curr) as [cb|] eqn:Hcb; [|discriminate]. simpl in Hl.
    destruct (lookup_lt_is_Some_2 gtbl curr) as [g Hg].
    { apply lookup_lt_Some in Hcb. lia. }
    destruct (timecb_tick_total fuel tick (active_id g) cb tr) as (cb' & tr' & Hrun & Hsame & Hok').
    { eapply Forall_lookup_1; eauto. }
    destruct Hsame as (Hnx & _ & _).
    cbn [timecb_ring]. rewrite Hg, Hcb. cbn [mbind option_bind]. rewrite Hrun. cbn [mbind option_bind].
    assert (Hnext : next_ref cb' = timer_id) by congruence.
    rewrite Hnext, Nat.eqb_refl. cbn [negb].
    do 2 eexists. split; [reflexivity|]. split; [|split].
    + rewrite list_fmap_insert, <- Hlinks. apply list_insert_id.
      rewrite list_lookup_fmap, Hcb. simpl. congruence.
    + apply length_insert.
    + apply Forall_insert; auto.
  - destruct m as [|m]; [lia|].
    rewrite <- Hlinks in Hl. rewrite list_lookup_fmap in Hl.
    destruct (tbl !! curr) as [cb|] eqn:Hcb; [|discriminate]. simpl in Hl.
    destruct (lookup_lt_is_Some_2 gtbl curr) as [g Hg].
    { apply lookup_lt_Some in Hcb. lia. }
    destruct (timecb_tick_total fuel tick (active_id g) cb tr) as (cb' & tr' & Hrun & Hsame & Hok').
    { eapply Forall_lookup_1; eauto. }
    destruct Hsame as (Hnx & _ & _).
    cbn [timecb_ring]. rewrite Hg, Hcb. cbn [mbind option_bind]. rewrite Hrun. cbn [mbind option_bind].
    assert (Hnext : next_ref cb' = nxt) by congruence.
    rewrite Hnext. destruct (Nat.eqb_spec nxt timer_id); [contradiction|]. cbn [negb].
    assert (Hlinks' : next_ref <$> <[curr := cb']> tbl = links).
    { rewrite list_fmap_insert, <- Hlinks. apply list_insert_id.
      rewrite list_lookup_fmap, Hcb. simpl. congruence. }
    destruct (IH m (<[curr := cb']> tbl) tr' ltac:(lia) Hlinks')
      as (tbl' & tr'' & Hr & Hl' & Hlen' & Hok'').
    { rewrite length_insert. lia. }
    { apply Forall_insert; auto. }
    exists tbl', tr''. split; [exact Hr|]. split; [exact Hl'|]. split; [|exact Hok''].
    rewrite Hlen'. apply length_insert.
Qed.

(** *** The ring walk visits every record of the ring once *)

(** The inner loop only adds events in front of the trace, and does not
    look at the trace it is given. *)
Lemma timecb_while_trace fuel id saved :
  forall cb tr cb' tr',
    timecb_while fuel id saved cb tr = Some (cb', tr') ->
    next_ref cb' = next_ref cb
    /\ exists evs, tr' = evs ++ tr
         /\ forall tr2, timecb_while fuel id saved cb tr2 = Some (cb', evs ++ tr2).
Proof.
  induction fuel as [|fuel IH]; intros cb tr cb' tr' Hrun.
  - simpl in *. destruct (negb (wait_time cb <=? 0)); [|discriminate].
    injection Hrun as <- <-. split; [reflexivity|]. exists []. split; [reflexivity|].
    intros tr2. reflexivity.
  - cbn [timecb_while] in *. destruct (negb (wait_time cb <=? 0)).
    { injection Hrun as <- <-. split; [reflexivity|]. exists []. split; [reflexivity|].
      intros tr2. reflexivity. }
    set (cb1 := if _ <? _ then _ else _) in *.
    assert (Hnx : next_ref cb1 = next_ref cb).
    { subst cb1. destruct (_ <? _); reflexivity. }
    set (ev := fun t : list Event =>
                 match callback_ptr cb1 with
                 | Some fn =>
                     if 0 <? saved then EvCallback fn id (callback_arg cb1) :: t else t
                 | None => t
                 end).
    assert (Hev : exists e, forall t, ev t = e ++ t).
    { subst ev. cbv beta. destruct (callback_ptr cb1); [destruct (0 <? saved)|].
      - eexists [_]. reflexivity.
      - exists []. reflexivity.
      - exists []. reflexivity. }
    destruct Hev as [e He].
    change (match callback_ptr cb1 with
            | Some fn =>
                if 0 <? saved then EvCallback fn id (callback_arg cb1) :: tr else tr
            | None => tr
            end) with (ev tr) in Hrun.
    destruct (interval_time cb1 <=? 0).
    + injection Hrun as <- <-. split; [exact Hnx|]. exists e. split; [apply He|].
      intros tr2. fold (ev tr2). now rewrite He.
    + apply IH in Hrun as (Hnx' & evs & -> & Hpar).
      split; [congruence|]. exists (evs ++ e). split; [now rewrite He, app_assoc|].
      intros tr2. fold (ev tr2). rewrite He, Hpar, app_assoc. reflexivity.
Qed.

Lemma timecb_tick_trace fuel tick id cb tr cb' tr' :
  timecb_tick fuel tick id cb tr = Some (cb', tr') ->
  next_ref cb' = next_ref cb
  /\ exists evs, tr' = evs ++ tr /\ timecb_tick fuel tick id cb [] = Some (cb', evs).
Proof.
  unfold timecb_tick. intros Hrun.
  apply timecb_while_trace in Hrun as (Hnx & evs & -> & Hpar).
  split; [exact Hnx|]. exists evs. split; [reflexivity|].
  rewrite Hpar, app_nil_r. reflexivity.
Qed.

(** The visit of the ring walk to slot [i]. *)
Definition timecb_visit (fuel : nat) (tick_time : Z) (gtbl : list OS_common_record_t)
    (i : nat) (tbl : list OS_timecb_internal_record_t) (tr : list Event)
  : option (list OS_timecb_internal_record_t * list Event) :=
  g ← gtbl !! i;
  timecb ← tbl !! i;
  '(timecb', tr') ← timecb_tick fuel tick_time (active_id g) timecb tr;
  Some (<[i := timecb']> tbl, tr').

(** The visits to the slots of [path], in order. *)
Fixpoint timecb_visits (fuel : nat) (tick_time : Z) (gtbl : list OS_common_record_t)
    (path : list nat) (tbl : list OS_timecb_internal_record_t) (tr : list Event)
  : option (list OS_timecb_internal_record_t * list Event) :=
  match path with
  | [] => Some (tbl, tr)
  | i :: path' =>
      '(tbl', tr') ← timecb_visit fuel tick_time gtbl i tbl tr;
      timecb_visits fuel tick_time gtbl path' tbl' tr'
  end.

(** On a ring, the [do ... while] loop is the sequence of the visits to
    the slots of the ring, whatever they hold. *)
Lemma timecb_ring_visits fuel tick timer_id gtbl links :
  forall curr path, ring_path links timer_id curr path ->
  forall m tbl tr,
    (length path <= m)%nat ->
    next_ref <$> tbl = links ->
    timecb_ring fuel m tick timer_id curr gtbl tbl tr
    = timecb_visits fuel tick gtbl path tbl tr.
Proof.
  induction 1 as [curr Hl|curr nxt path Hl Hne Hpath IH];
    intros m tbl tr Hm Hlinks; simpl in Hm; (destruct m as [|m]; [lia|]);
    cbn [timecb_ring timecb_visits]; unfold timecb_visit;
    rewrite <- Hlinks, list_lookup_fmap in Hl;
    (destruct (gtbl !! curr) as [g|]; [|reflexivity]);
    (destruct (tbl !! curr) as [cb|] eqn:Hcb; [|discriminate]);
    simpl in Hl; cbn [mbind option_bind];
    (destruct (timecb_tick fuel tick (active_id g) cb tr) as [[cb' tr']|] eqn:Hrun;
       [|reflexivity]);
    cbn [mbind option_bind];
    destruct (timecb_tick_trace _ _ _ _ _ _ _ Hrun) as [Hnx _].
  - assert (Hnext : next_ref cb' = timer_id) by congruence.
    rewrite Hnext, Nat.eqb_refl. reflexivity.
  - assert (Hnext : next_ref cb' = nxt) by congruence.
    rewrite Hnext. destruct (Nat.eqb_spec nxt timer_id); [contradiction|]. cbn [negb].
    apply IH; [lia|].
    rewrite list_fmap_insert, <- Hlinks. apply list_insert_id.
    rewrite list_lookup_fmap, Hcb. simpl. congruence.
Qed.

Lemma ring_path_unique links timer_id curr p1 :
  ring_path links timer_id curr p1 ->
  forall p2, ring_path links timer_id curr p2 -> p1 = p2.
Proof.
  induction 1 as [curr Hl|curr nxt path Hl Hne Hpath IH]; intros p2 H2;
    inversion H2; subst; try reflexivity; try congruence.
  f_equal. apply IH. congruence.
Qed.

Lemma ring_path_from links timer_id curr path :
  ring_path links timer_id curr path ->
  forall i, i ∈ path ->
  exists p', ring_path links timer_id i p' /\ (length p' <= length path)%nat.
Proof.
  induction 1 as [curr Hl|curr nxt path Hl Hne Hpath IH]; intros i Hi.
  - apply list_elem_of_singleton in Hi as ->.
    exists [curr]. split; [now constructor|reflexivity].
  - apply elem_of_cons in Hi as [->|Hi].
    + exists (curr :: path). split; [econstructor; eauto|reflexivity].
    + destruct (IH i Hi) as (p' & Hp' & Hlen). exists p'. split; [exact Hp'|simpl; lia].
Qed.

(** A ring closes before it comes back to a slot already visited. *)
Lemma ring_path_NoDup links timer_id curr path :
  ring_path links timer_id curr path -> NoDup path.
Proof.
  induction 1 as [curr Hl|curr nxt path Hl Hne Hpath IH].
  - apply NoDup_singleton.
  - constructor; [|exact IH]. intros Hin.
    destruct (ring_path_from _ _ _ _ Hpath curr Hin) as (p' & Hp' & Hlen).
    assert (Hfull : ring_path links timer_id curr (curr :: path))
      by (econstructor; eauto).
    rewrite (ring_path_unique _ _ _ _ Hp' _ Hfull) in Hlen. simpl in Hlen. lia.
Qed.

(** Visits to distinct slots: a slot off the path keeps its record; a
    slot on the path holds what [timecb_tick] makes of the record it
    held, and the calls of that [timecb_tick] are a segment of the
    trace. *)
Lemma timecb_visits_once fuel tick gtbl :
  forall path tbl tr tbl' tr',
    NoDup path ->
    timecb_visits fuel tick gtbl path tbl tr = Some (tbl', tr') ->
    (forall i, i ∉ path -> tbl' !! i = tbl !! i)
    /\ (forall i, i ∈ path ->
        exists g cb cb' evs later earlier,
          gtbl !! i = Some g /\ tbl !! i = Some cb
          /\ timecb_tick fuel tick (active_id g) cb [] = Some (cb', evs)
          /\ tbl' !! i = Some cb'
          /\ tr' = later ++ evs ++ earlier).
Proof.
  induction path as [|j path IH]; intros tbl tr tbl' tr' Hnd Hrun.
  - injection Hrun as <- <-. split; [reflexivity|].
    intros i Hi. now apply elem_of_nil in Hi.
  - apply NoDup_cons in Hnd as [Hj Hnd]. cbn [timecb_visits] in Hrun.
    unfold timecb_visit in Hrun.
    destruct (gtbl !! j) as [g|] eqn:Hg; [|discriminate].
    destruct (tbl !! j) as [cb|] eqn:Hcb; [|discriminate].
    cbn [mbind option_bind] in Hrun.
    destruct (timecb_tick fuel tick (active_id g) cb tr) as [[cb1 tr1]|] eqn:Htick;
      [|discriminate].
    cbn [mbind option_bind] in Hrun.
    destruct (timecb_tick_trace _ _ _ _ _ _ _ Htick) as (_ & evs & -> & Hevs).
    destruct (IH _ _ _ _ Hnd Hrun) as [Hoff Hon]. split.
    + intros i Hi. apply not_elem_of_cons in Hi as [Hij Hi].
      rewrite (Hoff i Hi). now apply list_lookup_insert_ne.
    + intros i Hi. apply elem_of_cons in Hi as [->|Hi].
      * exists g, cb, cb1, evs.
        assert (Hlast : tbl' !! j = Some cb1).
        { rewrite (Hoff j Hj). apply list_lookup_insert_eq.
          eapply lookup_lt_Some; eauto. }
        assert (Hseg : exists later, tr' = later ++ evs ++ tr).
        { clear -Hrun. revert Hrun. generalize (<[j:=cb1]> tbl) (evs ++ tr).
          induction path as [|k path IHp]; intros t0 r0 Hrun.
          - injection Hrun as _ <-. exists []. reflexivity.
          - cbn [timecb_visits] in Hrun. unfold timecb_visit in Hrun.
            destruct (gtbl !! k) as [gk|]; [|discriminate].
            destruct (t0 !! k) as [ck|]; [|discriminate].
            cbn [mbind option_bind] in Hrun.
            destruct (timecb_tick fuel tick (active_id gk) ck r0) as [[c1 r1]|] eqn:Hk;
              [|discriminate].
            cbn [mbind option_bind] in Hrun.
            destruct (timecb_tick_trace _ _ _ _ _ _ _ Hk) as (_ & e & -> & _).
            destruct (IHp _ _ Hrun) as [later ->].
            exists (later ++ e). now rewrite <- app_assoc. }
        destruct Hseg as [later ->].
        exists later, tr. repeat split; auto.
      * destruct (Hon i Hi) as (g' & cb' & cb'' & evs' & later & earlier & Hg' & Hcb' & Ht & Hl & ->).
        assert (Hij : j <> i) by (intros ->; contradiction).
        rewrite list_lookup_insert_ne in Hcb' by exact Hij.
        exists g', cb', cb'', evs', later, earlier. repeat split; auto.
Qed.

(** One walk of a ring: every record of the ring goes through
    [timecb_tick] exactly once, and the other records are not touched. *)
Lemma timecb_ring_each_once fuel m tick timer_id gtbl tbl tr path tbl' tr' :
  ring_path (next_ref <$> tbl) timer_id timer_id path ->
  (length path <= m)%nat ->
  timecb_ring fuel m tick timer_id timer_id gtbl tbl tr = Some (tbl', tr') ->
  NoDup path
  /\ (forall i, i ∉ path -> tbl' !! i = tbl !! i)
  /\ (forall i, i ∈ path ->
      exists g cb cb' evs later earlier,
        gtbl !! i = Some g /\ tbl !! i = Some cb
        /\ timecb_tick fuel tick (active_id g) cb [] = Some (cb', evs)
        /\ tbl' !! i = Some cb'
        /\ tr' = later ++ evs ++ earlier).
Proof.
  intros Hpath Hm Hrun.
  rewrite (timecb_ring_visits fuel tick timer_id gtbl _ _ _ Hpath m tbl tr Hm eq_refl)
    in Hrun.
  pose proof (ring_path_NoDup _ _ _ _ Hpath) as Hnd.
  split; [exact Hnd|]. exact (timecb_visits_once fuel tick gtbl path tbl tr tbl' tr' Hnd Hrun).
Qed.

(** *** The free-running counter *)

(** The free-running counter of the time base at slot [local_id]. *)
Definition freerun_of (st : State) (local_id : nat) : Z :=
  default 0 (freerun_time <$> OS_timebase_table st !! local_id).

(** [timebase_id] names the live time base of slot [local_id], whose
    counter is a [uint32], and the callback ring of that time base, if it
    has one, closes within [fuel] records of [int32] fields. *)
Definition live_timebase (fuel : nat) (timebase_id : osal_id_t) (local_id : nat)
    (st : State) : Prop :=
  OS_ObjectIdToArrayIndex OS_OBJECT_TYPE_OS_TIMEBASE
    (length (records (OS_global_timebase_table st))) timebase_id = (OS_SUCCESS, local_id)
  /\ (exists record,
        records (OS_global_timebase_table st) !! local_id = Some record
        /\ active_id record = timebase_id)
  /\ (length (OS_timecb_table st) <= length (OS_global_timecb_table st))%nat
  /\ Forall timecb_int32 (OS_timecb_table st)
  /\ exists tb,
       OS_timebase_table st !! local_id = Some tb
       /\ is_uint32 (freerun_time tb)
       /\ forall rc timer_id,
            OS_ObjectIdToArrayIndex OS_OBJECT_TYPE_OS_TIMECB
              (length (OS_global_timecb_table st)) (first_cb tb) = (rc, timer_id) ->
            rc = 0 ->
            exists path, (length path <= fuel)%nat
              /\ ring_path (next_ref <$> OS_timecb_table st) timer_id timer_id path.

Lemma OS_ObjectIdToArrayIndex_status idtype capacity id :
  fst (OS_ObjectIdToArrayIndex idtype capacity id) = OS_SUCCESS
  \/ fst (OS_ObjectIdToArrayIndex idtype capacity id) = OS_ERR_INVALID_ID.
Proof.
  unfold OS_ObjectIdToArrayIndex.
  destruct (negb _); [right; reflexivity|].
  destruct (_ =? _)%nat; [right|left]; reflexivity.
Qed.

(** A lookup in mode [NONE] or [GLOBAL] of a handle that names its slot
    succeeds and leaves the table as it is. *)
Lemma OS_ObjectIdGetById_live lock_mode idtype id tbl idx r :
  lock_mode = OS_LOCK_MODE_NONE \/ lock_mode = OS_LOCK_MODE_GLOBAL ->
  OS_ObjectIdToArrayIndex idtype (length tbl) id = (OS_SUCCESS, idx) ->
  tbl !! idx = Some r -> active_id r = id ->
  OS_ObjectIdGetById lock_mode idtype id tbl = (OS_SUCCESS, idx, tbl).
Proof.
  intros Hmode Hidx Hr Hid. unfold OS_ObjectIdGetById. rewrite Hidx.
  change (negb (OS_SUCCESS =? OS_SUCCESS)) with false. cbv iota. rewrite Hr.
  unfold OS_ObjectIdEqual. rewrite Hid, Z.eqb_refl. cbn [negb].
  destruct Hmode as [-> | ->]; cbn [OS_ObjectIdConvertLock];
    rewrite list_insert_id by assumption; reflexivity.
Qed.

(** One turn of the thread's loop on a live time base goes through,
    keeps the time base live and adds the tick to its counter. *)
Lemma OS_TimeBase_CallbackThread_tick_live fuel timebase_id local_id tick spin st :
  live_timebase (S (S (S fuel))) timebase_id local_id st ->
  exists spin' st',
    OS_TimeBase_CallbackThread_tick (S (S (S fuel))) timebase_id local_id tick spin st
    = Some (true, spin', st')
    /\ live_timebase (S (S (S fuel))) timebase_id local_id st'
    /\ freerun_of st' local_id = to_uint32 (freerun_of st local_id + tick).
Proof.
  intros (Hidx & (record & Hrec & Hid) & Hlen & Hok & tb & Htb & Hfr & Hring).
  unfold OS_TimeBase_CallbackThread_tick.
  destruct (spin_guard tick spin (trace st)) as [spin' tr1].
  rewrite Hrec, Htb. cbn [mbind option_bind].
  unfold OS_ObjectIdEqual. rewrite Hid, Z.eqb_refl. cbn [negb].
  cbn [first_cb set_freerun_time set_timebase_table OS_global_timecb_table OS_timecb_table
       OS_timebase_table].
  assert (Hlive : forall tbl tr,
    next_ref <$> tbl = next_ref <$> OS_timecb_table st ->
    length tbl = length (OS_timecb_table st) ->
    Forall timecb_int32 tbl ->
    let st' :=
      mk_state (OS_global_timebase_table st)
        (<[local_id := set_freerun_time tb (to_uint32 (freerun_time tb + tick))]>
           (OS_timebase_table st))
        (OS_global_timecb_table st) tbl tr in
    live_timebase (S (S (S fuel))) timebase_id local_id st'
    /\ freerun_of st' local_id = to_uint32 (freerun_of st local_id + tick)).
  { intros tbl tr Hl Hn Hf. cbv zeta. split.
    - unfold live_timebase. cbn [OS_global_timebase_table OS_timebase_table
        OS_global_timecb_table OS_timecb_table].
      split; [exact Hidx|]. split; [eauto|]. split; [lia|]. split; [exact Hf|].
      exists (set_freerun_time tb (to_uint32 (freerun_time tb + tick))).
      split.
      + apply list_lookup_insert_eq. eapply lookup_lt_Some; eauto.
      + cbn [first_cb freerun_time set_freerun_time]. rewrite Hl.
        split; [apply to_uint32_range|exact Hring].
    - unfold freerun_of. cbn [OS_timebase_table].
      rewrite list_lookup_insert_eq by (eapply lookup_lt_Some; eauto).
      rewrite Htb. reflexivity. }
  destruct (OS_ObjectIdToArrayIndex OS_OBJECT_TYPE_OS_TIMECB
              (length (OS_global_timecb_table st)) (first_cb tb)) as [rc timer_id] eqn:Hcb.
  destruct (Z.eqb_spec rc 0) as [->|Hrc].
  - destruct (Hring 0 timer_id eq_refl eq_refl) as (n & Hn & Hpath).
    destruct (timecb_ring_total fuel tick timer_id (OS_global_timecb_table st)
                (next_ref <$> OS_timecb_table st) timer_id n Hpath
                (S (S (S fuel))) (OS_timecb_table st) tr1 Hn eq_refl Hlen Hok)
      as (tbl' & tr' & Hrun & Hl' & Hn' & Hok').
    rewrite Hrun. cbn [mbind option_bind].
    do 2 eexists. split; [reflexivity|].
    apply (Hlive tbl' tr' Hl' Hn' Hok').
  - do 2 eexists. split; [reflexivity|].
    apply (Hlive (OS_timecb_table st) tr1 eq_refl eq_refl Hok).
Qed.

Lemma OS_TimeBase_CallbackThread_loop_live fuel timebase_id local_id ticks :
  forall spin st,
    live_timebase (S (S (S fuel))) timebase_id local_id st ->
    exists st',
      OS_TimeBase_CallbackThread_loop (S (S (S fuel))) timebase_id local_id ticks spin st
      = Some st'
      /\ live_timebase (S (S (S fuel))) timebase_id local_id st'
      /\ freerun_of st' local_id = to_uint32 (freerun_of st local_id + total ticks).
Proof.
  induction ticks as [|t ticks IH]; intros spin st Hlive.
  - exists st. split; [reflexivity|]. split; [exact Hlive|].
    simpl. rewrite Z.add_0_r. symmetry. apply to_uint32_id.
    destruct Hlive as (_ & _ & _ & _ & tb & Htb & Hfr & _).
    unfold freerun_of. rewrite Htb. exact Hfr.
  - destruct (OS_TimeBase_CallbackThread_tick_live fuel timebase_id local_id t spin st Hlive)
      as (spin1 & st1 & Htick & Hlive1 & Hfree1).
    destruct (IH spin1 st1 Hlive1) as (st' & Hloop & Hlive' & Hfree').
    exists st'. cbn [OS_TimeBase_CallbackThread_loop]. rewrite Htick.
    cbn [mbind option_bind]. split; [exact Hloop|]. split; [exact Hlive'|].
    rewrite Hfree', Hfree1. cbn [total fold_right]. fold (total ticks).
    rewrite to_uint32_add_l. f_equal. lia.
Qed.

(** C8 (as amended).  On a live time base the servicing thread
    processes every tick, and after any sequence of ticks the value that
    [OS_TimeBaseGetFreeRun] reads back is the counter's earlier value plus
    the sum of the ticks, reduced modulo [2 ^ 32] (the counter is a
    [uint32]); as long as that sum stays below [2 ^ 32] the counter is
    exactly the sum and does not decrease. *)
Theorem freerun_time_accumulates
    (fuel : nat) (timebase_id : osal_id_t) (local_id : nat) (ticks : list Z) (st : State) :
  live_timebase fuel timebase_id local_id st ->
  (3 <= fuel)%nat ->
  Forall is_uint32 ticks ->
  exists st',
    OS_TimeBase_CallbackThread fuel timebase_id ticks st = Some st'
    /\ (forall v, OS_TimeBaseGetFreeRun timebase_id v st
                  = (OS_SUCCESS, freerun_of st local_id))
    /\ (forall v, OS_TimeBaseGetFreeRun timebase_id v st'
                  = (OS_SUCCESS, to_uint32 (freerun_of st local_id + total ticks)))
    /\ (freerun_of st local_id + total ticks < 2 ^ 32 ->
        freerun_of st' local_id = freerun_of st local_id + total ticks
        /\ freerun_of st local_id <= freerun_of st' local_id).
Proof.
  intros Hlive Hfuel Hticks.
  destruct fuel as [|[|[|fuel]]]; try lia. clear Hfuel.
  assert (Hread : forall s, live_timebase (S (S (S fuel))) timebase_id local_id s ->
            forall v, OS_TimeBaseGetFreeRun timebase_id v s
                      = (OS_SUCCESS, freerun_of s local_id)).
  { intros s (Hidx & (record & Hrec & Hid) & _ & _ & tb & Htb & _) v.
    unfold OS_TimeBaseGetFreeRun.
    rewrite (OS_ObjectIdGetById_live OS_LOCK_MODE_NONE _ _ _ _ _ (or_introl eq_refl)
               Hidx Hrec Hid).
    change (OS_SUCCESS =? OS_SUCCESS) with true. cbv iota.
    unfold freerun_of. rewrite Htb. reflexivity. }
  destruct (OS_TimeBase_CallbackThread_loop_live fuel timebase_id local_id ticks 0 st Hlive)
    as (st' & Hloop & Hlive' & Hfree).
  exists st'. split; [|split; [|split]].
  - unfold OS_TimeBase_CallbackThread.
    destruct Hlive as (Hidx & (record & Hrec & Hid) & _).
    rewrite (OS_ObjectIdGetById_live OS_LOCK_MODE_GLOBAL _ _ _ _ _ (or_intror eq_refl)
               Hidx Hrec Hid).
    change (negb (OS_SUCCESS =? 0)) with false. cbv iota. exact Hloop.
  - apply Hread, Hlive.
  - intros v. rewrite (Hread st' Hlive' v), Hfree. reflexivity.
  - intros Hsum.
    assert (Hnn : 0 <= total ticks).
    { clear -Hticks. induction Hticks as [|t l Ht _ IH]; simpl; unfold is_uint32 in *; lia. }
    assert (Hfr : is_uint32 (freerun_of st local_id)).
    { destruct Hlive as (_ & _ & _ & _ & tb & Htb & Hfr & _).
      unfold freerun_of. rewrite Htb. exact Hfr. }
    rewrite Hfree, to_uint32_id by (unfold is_uint32 in *; lia). lia.
Qed.

Lemma one_timer_state_live w iv :
  is_int32 w -> is_int32 iv ->
  live_timebase 3 (OS_ObjectIdCompose_Impl 8 1) 1 (one_timer_state w iv).
Proof.
  intros Hw Hiv. unfold live_timebase, one_timer_state.
  split; [reflexivity|]. split; [eexists; split; reflexivity|].
  split; [simpl; lia|]. split.
  - repeat constructor; simpl; unfold is_int32 in *; lia.
  - eexists. split; [reflexivity|]. split; [simpl; unfold is_uint32; lia|].
    intros rc timer_id Hidx _. vm_compute in Hidx. injection Hidx as _ <-.
    exists [1%nat]. split; [simpl; lia|]. apply ring_path_last. reflexivity.
Qed.

(** A time base with one periodic timer, over three ticks of 1000. *)
Lemma freerun_time_accumulates_witness :
  exists st',
    OS_TimeBase_CallbackThread 3 (OS_ObjectIdCompose_Impl 8 1) [1000; 1000; 1000]
      (one_timer_state 1000 1000) = Some st'
    /\ (forall v, OS_TimeBaseGetFreeRun (OS_ObjectIdCompose_Impl 8 1) v
                    (one_timer_state 1000 1000)
                  = (OS_SUCCESS, freerun_of (one_timer_state 1000 1000) 1))
    /\ (forall v, OS_TimeBaseGetFreeRun (OS_ObjectIdCompose_Impl 8 1) v st'
                  = (OS_SUCCESS,
                     to_uint32 (freerun_of (one_timer_state 1000 1000) 1
                                + total [1000; 1000; 1000])))
    /\ (freerun_of (one_timer_state 1000 1000) 1 + total [1000; 1000; 1000] < 2 ^ 32 ->
        freerun_of st' 1
        = freerun_of (one_timer_state 1000 1000) 1 + total [1000; 1000; 1000]
        /\ freerun_of (one_timer_state 1000 1000) 1 <= freerun_of st' 1).
Proof.
  apply (freerun_time_accumulates 3 (OS_ObjectIdCompose_Impl 8 1) 1 [1000; 1000; 1000]
           (one_timer_state 1000 1000)).
  - apply one_timer_state_live; unfold is_int32; lia.
  - lia.
  - repeat constructor; unfold is_uint32; lia.
Defined.

(** A time base at slot 1 without timers, as [OS_TimeBaseCreate] leaves
    it: the counter starts at zero. *)
Definition idle_timebase_state : State :=
  mk_state
    (mk_objtype 1
       [common_zero; mk_common (Some "tb") (OS_ObjectIdCompose_Impl 8 1) 65537 0 0])
    [timebase_zero; mk_timebase "tb" None 1000 OS_OBJECT_ID_UNDEFINED 0 0 0]
    [] [] [].

(** C8, counterexample: with a tick of one second (1000000 microseconds)
    the counter reads 4294000000 after 4294 ticks and 32704 after 4295:
    it has decreased, and it is not the sum of the ticks. *)
Lemma freerun_time_wraps :
  exists st1 st2,
    OS_TimeBase_CallbackThread 3 (OS_ObjectIdCompose_Impl 8 1) (repeat 1000000 4294)
      idle_timebase_state = Some st1
    /\ OS_TimeBase_CallbackThread 3 (OS_ObjectIdCompose_Impl 8 1) (repeat 1000000 4295)
         idle_timebase_state = Some st2
    /\ OS_TimeBaseGetFreeRun (OS_ObjectIdCompose_Impl 8 1) 0 st1 = (OS_SUCCESS, 4294000000)
    /\ OS_TimeBaseGetFreeRun (OS_ObjectIdCompose_Impl 8 1) 0 st2 = (OS_SUCCESS, 32704)
    /\ 32704 < 4294000000
    /\ 32704 <> total (repeat 1000000 4295).
Proof.
  do 2 eexists.
  split; [vm_compute; reflexivity|].
  split; [vm_compute; reflexivity|].
  split; [vm_compute; reflexivity|].
  split; [vm_compute; reflexivity|].
  split; [lia|]. vm_compute. discriminate.
Qed.

End TimerEngine.

(** ** Milliseconds to ticks *)

Section Milli2Ticks.

Import TimeBase.

(** With 32-bit operands the 64-bit computation does not wrap. *)
Lemma num_of_ticks_exact ms tps :
  is_uint32 ms -> is_uint32 tps ->
  num_of_ticks ms tps = (ms * tps + 999) / 1000.
Proof.
  unfold is_uint32, num_of_ticks. intros Hms Htps.
  assert (Hprod : 0 <= ms * tps <= (2 ^ 32 - 1) * (2 ^ 32 - 1)).
  { split; [apply Z.mul_nonneg_nonneg; lia|].
    apply Z.mul_le_mono_nonneg; lia. }
  rewrite (to_uint64_id ms), (to_uint64_id tps) by lia.
  rewrite (to_uint64_id (ms * tps)) by lia.
  rewrite to_uint64_id by lia. reflexivity.
Qed.

(** C5 (as amended).  For a [uint32] number of milliseconds and a
    non-negative 32-bit tick rate, [OS_Milli2Ticks] computes the exact ceiling
    of [ms * TicksPerSecond / 1000]; when that value fits an [int] it is
    the tick count handed to the platform; when it does not, nothing is
    capped: [OS_Milli2Ticks] fails with [OS_ERROR] and stores 0, and the
    VxWorks timed wait returns [OS_ERROR] without taking the semaphore. *)
Theorem OS_Milli2Ticks_ceiling_or_error
    {K : Type} (OS_VxWorks_GenericSemTake : Z -> Z -> K -> Z * K)
    (TicksPerSecond msecs : Z) (sem_id : nat) (p : VxWorks.ImplState K) :
  is_uint32 msecs ->
  is_uint32 TicksPerSecond ->
  let exact := (msecs * TicksPerSecond + 999) / 1000 in
  num_of_ticks msecs TicksPerSecond = exact
  /\ 1000 * (exact - 1) < msecs * TicksPerSecond <= 1000 * exact
  /\ (exact <= INT_MAX ->
      OS_Milli2Ticks TicksPerSecond msecs = (OS_SUCCESS, exact)
      /\ VxWorks.OS_BinSemTimedWait_Impl OS_VxWorks_GenericSemTake TicksPerSecond
           sem_id msecs p
         = (let '(status, k) :=
              OS_VxWorks_GenericSemTake
                (default 0 (VxWorks.OS_impl_bin_sem_table p !! sem_id)) exact
                (VxWorks.kernel p) in
            (status, VxWorks.mk_impl (VxWorks.OS_impl_bin_sem_table p) k)))
  /\ (INT_MAX < exact ->
      OS_Milli2Ticks TicksPerSecond msecs = (OS_ERROR, 0)
      /\ VxWorks.OS_BinSemTimedWait_Impl OS_VxWorks_GenericSemTake TicksPerSecond
           sem_id msecs p = (OS_ERROR, p)).
Proof.
  intros Hms Htps exact.
  pose proof (num_of_ticks_exact msecs TicksPerSecond Hms Htps) as Hn.
  fold exact in Hn.
  assert (Hnn : 0 <= msecs * TicksPerSecond).
  { unfold is_uint32 in Hms, Htps. apply Z.mul_nonneg_nonneg; lia. }
  assert (Hceil : 1000 * (exact - 1) < msecs * TicksPerSecond <= 1000 * exact).
  { subst exact. set (x := msecs * TicksPerSecond) in *.
    pose proof (Z.div_mod (x + 999) 1000 ltac:(lia)).
    pose proof (Z.mod_pos_bound (x + 999) 1000 ltac:(lia)). lia. }
  split; [exact Hn|]. split; [exact Hceil|].
  unfold VxWorks.OS_BinSemTimedWait_Impl, OS_Milli2Ticks. rewrite Hn.
  split; intros Hcmp.
  - destruct (Z.leb_spec exact INT_MAX); [|lia].
    rewrite to_int32_id by (unfold is_int32, INT_MAX in *; lia).
    split; reflexivity.
  - destruct (Z.leb_spec exact INT_MAX); [lia|].
    split; reflexivity.
Qed.

(** A semaphore take that records the tick counts it is called with. *)
Definition recording_take (vxid ticks : Z) (k : list Z) : Z * list Z :=
  (OS_SUCCESS, ticks :: k).

(** One semaphore, never taken. *)
Definition vx_idle : VxWorks.ImplState (list Z) := VxWorks.mk_impl [7] [].

Lemma OS_Milli2Ticks_ceiling_or_error_witness :
  let exact := (1500 * 100 + 999) / 1000 in
  num_of_ticks 1500 100 = exact
  /\ 1000 * (exact - 1) < 1500 * 100 <= 1000 * exact
  /\ (exact <= INT_MAX ->
      OS_Milli2Ticks 100 1500 = (OS_SUCCESS, exact)
      /\ VxWorks.OS_BinSemTimedWait_Impl recording_take 100 0 1500 vx_idle
         = (let '(status, k) :=
              recording_take
                (default 0 (VxWorks.OS_impl_bin_sem_table vx_idle !! 0%nat))
                exact (VxWorks.kernel vx_idle) in
            (status,
             VxWorks.mk_impl (VxWorks.OS_impl_bin_sem_table vx_idle) k)))
  /\ (INT_MAX < exact ->
      OS_Milli2Ticks 100 1500 = (OS_ERROR, 0)
      /\ VxWorks.OS_BinSemTimedWait_Impl recording_take 100 0 1500 vx_idle
         = (OS_ERROR, vx_idle)).
Proof.
  apply (OS_Milli2Ticks_ceiling_or_error recording_take 100 1500 0 vx_idle).
  - unfold is_uint32. lia.
  - unfold is_uint32. lia.
Defined.

(** C5, counterexample: with 1000 ticks per second, a wait of
    4294967295 ms needs 4294967295 ticks, more than [INT_MAX]; the tick
    count stored is 0, not [INT_MAX], the status is [OS_ERROR], and the
    timed wait never reaches the kernel. *)
Lemma OS_Milli2Ticks_not_capped :
  INT_MAX < (4294967295 * 1000 + 999) / 1000
  /\ OS_Milli2Ticks 1000 4294967295 = (OS_ERROR, 0)
  /\ snd (OS_Milli2Ticks 1000 4294967295) <> INT_MAX
  /\ VxWorks.OS_BinSemTimedWait_Impl recording_take 1000 0 4294967295
       vx_idle = (OS_ERROR, vx_idle).
Proof.
  split; [vm_compute; reflexivity|].
  split; [vm_compute; reflexivity|].
  split; [vm_compute; discriminate|].
  vm_compute; reflexivity.
Qed.

End Milli2Ticks.

(** ** Handle lookups *)

Lemma OS_ObjectIdGetById_status lock_mode idtype id tbl :
  lock_mode = OS_LOCK_MODE_NONE \/ lock_mode = OS_LOCK_MODE_GLOBAL ->
  fst (fst (OS_ObjectIdGetById lock_mode idtype id tbl)) = OS_SUCCESS
  \/ OS_ObjectIdGetById lock_mode idtype id tbl = (OS_ERR_INVALID_ID, 0%nat, tbl).
Proof.
  intros Hmode. unfold OS_ObjectIdGetById.
  destruct (OS_ObjectIdToArrayIndex idtype (length tbl) id) as [rc idx].
  destruct (negb (rc =? OS_SUCCESS)); [right; reflexivity|].
  destruct (tbl !! idx) as [r|]; [|right; reflexivity].
  destruct (negb (OS_ObjectIdEqual (active_id r) id)); [right; reflexivity|].
  left. destruct Hmode as [-> | ->]; reflexivity.
Qed.

(** ** Queues *)

Section QueueProperties.

Import Queue.

(** C4.  On a valid queue handle with non-null [data] and [size_copied],
    a buffer smaller than the queue's [max_size] is refused with
    [OS_QUEUE_INVALID_SIZE]: 0 is stored in [*size_copied], the buffer
    is not written, and the adapter's state is what it was, whatever
    the adapter: its get operation is not called and no message is
    consumed. *)
Theorem OS_QueueGet_rejects_small_buffer
    {P : Type} `{QueueAdapter P}
    (queue_id : osal_id_t) (buf : list Z) (size copied timeout : Z)
    (st : State) (p : P) (local_id : nat) (gtbl : list OS_common_record_t)
    (q : OS_queue_internal_record_t) :
  OS_ObjectIdGetById OS_LOCK_MODE_NONE OS_OBJECT_TYPE_OS_QUEUE queue_id
    (OS_global_queue_table st) = (OS_SUCCESS, local_id, gtbl) ->
  OS_queue_table st !! local_id = Some q ->
  size < max_size q ->
  OS_QueueGet queue_id (Some buf) size (Some copied) timeout st p
  = (OS_QUEUE_INVALID_SIZE, Some buf, Some 0, p).
Proof.
  intros Hid Hq Hsize. unfold OS_QueueGet. rewrite Hid.
  change (OS_SUCCESS =? OS_SUCCESS) with true. cbv iota. rewrite Hq.
  destruct (Z.ltb_spec size (max_size q)); [reflexivity|lia].
Qed.

(** A platform queue as a list of messages, oldest first. *)
Definition fifo_get (local_id : nat) (buf : list Z) (size copied timeout : Z)
    (msgs : list (list Z)) : Z * list Z * Z * list (list Z) :=
  match msgs with
  | [] => (OS_QUEUE_EMPTY, buf, copied, msgs)
  | m :: msgs' => (OS_SUCCESS, m, Z.of_nat (length m), msgs')
  end.

Definition fifo_put (local_id : nat) (buf : list Z) (size flags : Z)
    (msgs : list (list Z)) : Z * list (list Z) :=
  (OS_SUCCESS, msgs ++ [buf]).

Definition fifo_adapter : QueueAdapter (list (list Z)) :=
  {| OS_QueueGet_Impl := fifo_get; OS_QueuePut_Impl := fifo_put |}.

(** The queue of scenario S2: messages of 8 bytes, at slot 1. *)
Definition s2_queue_state : State :=
  mk_state
    [common_zero; mk_common (Some "q") (OS_ObjectIdCompose_Impl 2 1) 65537 0 0]
    [mk_queue "" 0 0; mk_queue "q" 8 4].

Definition s2_message : list Z := [17; 18; 19; 20; 21; 22; 23; 24].

(** Scenario S2: after two puts, a get with a buffer of 4 bytes. *)
Lemma OS_QueueGet_rejects_small_buffer_witness :
  @OS_QueueGet _ fifo_adapter (OS_ObjectIdCompose_Impl 2 1) (Some [0; 0; 0; 0]) 4
    (Some 99) 0 s2_queue_state [s2_message; s2_message]
  = (OS_QUEUE_INVALID_SIZE, Some [0; 0; 0; 0], Some 0, [s2_message; s2_message]).
Proof.
  apply (@OS_QueueGet_rejects_small_buffer _ fifo_adapter (OS_ObjectIdCompose_Impl 2 1)
           [0; 0; 0; 0] 4 99 0 s2_queue_state [s2_message; s2_message] 1
           (OS_global_queue_table s2_queue_state) (mk_queue "q" 8 4)).
  - reflexivity.
  - reflexivity.
  - simpl. lia.
Defined.

End QueueProperties.

(** ** Object information *)

Section GetInfo.

(** An adapter that does nothing and reports success. *)
Definition null_timebase_adapter : TimeBase.TimeBaseAdapter unit :=
  {| TimeBase.OS_TimeBaseCreate_Impl := fun _ _ p => (OS_SUCCESS, p);
     TimeBase.OS_TimeBaseSet_Impl := fun _ _ _ p => (OS_SUCCESS, p);
     TimeBase.OS_TimeBaseDelete_Impl := fun _ p => (OS_SUCCESS, p);
     TimeBase.OS_TimeBaseGetInfo_Impl := fun _ prop _ => (OS_SUCCESS, prop) |}.

(** C10 (as amended).  With a non-null output structure, when the handle
    lookup fails [OS_QueueGetInfo] and [OS_BinSemGetInfo] return
    [OS_ERR_INVALID_ID] and leave the structure zero-filled, whatever it
    held; [OS_TimeBaseGetInfo] does the same when the caller is not a
    time base servicing task, and when it is, returns
    [OS_ERR_INCORRECT_OBJ_STATE] before the structure is cleared, so that
    the structure keeps what it held. *)
Theorem GetInfo_failed_lookup
    `{OsConfig} {PB : Type} `{BinSem.BinSemAdapter PB}
    {PT : Type} `{TimeBase.TimeBaseAdapter PT}
    (self queue_id sem_id timebase_id : osal_id_t)
    (queue_prop : Queue.OS_queue_prop_t) (bin_prop : BinSem.OS_bin_sem_prop_t)
    (timebase_prop : TimeBase.OS_timebase_prop_t)
    (qst : Queue.State) (bst : BinSem.State) (pb : PB) (tst : TimeBase.State) (pt : PT) :
  fst (fst (OS_ObjectIdGetById OS_LOCK_MODE_GLOBAL OS_OBJECT_TYPE_OS_QUEUE queue_id
              (Queue.OS_global_queue_table qst))) <> OS_SUCCESS ->
  fst (fst (OS_ObjectIdGetById OS_LOCK_MODE_GLOBAL OS_OBJECT_TYPE_OS_BINSEM sem_id
              (BinSem.OS_global_bin_sem_table bst))) <> OS_SUCCESS ->
  fst (fst (OS_ObjectIdGetById OS_LOCK_MODE_GLOBAL OS_OBJECT_TYPE_OS_TIMEBASE timebase_id
              (records (TimeBase.OS_global_timebase_table tst)))) <> OS_SUCCESS ->
  Queue.OS_QueueGetInfo queue_id (Some queue_prop) qst
  = (OS_ERR_INVALID_ID, Some Queue.queue_prop_zero)
  /\ BinSem.OS_BinSemGetInfo sem_id (Some bin_prop) bst pb
     = (OS_ERR_INVALID_ID, Some BinSem.bin_sem_prop_zero)
  /\ TimeBase.OS_TimeBaseGetInfo self timebase_id (Some timebase_prop) tst pt
     = if OS_ObjectIdToType_Impl self =? OS_OBJECT_TYPE_OS_TIMEBASE
       then (OS_ERR_INCORRECT_OBJ_STATE, Some timebase_prop)
       else (OS_ERR_INVALID_ID, Some TimeBase.timebase_prop_zero).
Proof.
  intros Hq Hb Ht.
  destruct (OS_ObjectIdGetById_status OS_LOCK_MODE_GLOBAL OS_OBJECT_TYPE_OS_QUEUE queue_id
              (Queue.OS_global_queue_table qst) (or_intror eq_refl)) as [Hq'|Hq'];
    [contradiction|].
  destruct (OS_ObjectIdGetById_status OS_LOCK_MODE_GLOBAL OS_OBJECT_TYPE_OS_BINSEM sem_id
              (BinSem.OS_global_bin_sem_table bst) (or_intror eq_refl)) as [Hb'|Hb'];
    [contradiction|].
  destruct (OS_ObjectIdGetById_status OS_LOCK_MODE_GLOBAL OS_OBJECT_TYPE_OS_TIMEBASE
              timebase_id (records (TimeBase.OS_global_timebase_table tst))
              (or_intror eq_refl)) as [Ht'|Ht']; [contradiction|].
  split; [|split].
  - unfold Queue.OS_QueueGetInfo. rewrite Hq'. reflexivity.
  - unfold BinSem.OS_BinSemGetInfo. rewrite Hb'. reflexivity.
  - unfold TimeBase.OS_TimeBaseGetInfo.
    destruct (OS_ObjectIdToType_Impl self =? OS_OBJECT_TYPE_OS_TIMEBASE); [reflexivity|].
    rewrite Ht'. reflexivity.
Qed.

Definition stale_queue_prop : Queue.OS_queue_prop_t := Queue.mk_queue_prop "old" 65537.
Definition stale_bin_sem_prop : BinSem.OS_bin_sem_prop_t :=
  BinSem.mk_bin_sem_prop "old" 65537 1.
Definition stale_timebase_prop : TimeBase.OS_timebase_prop_t :=
  TimeBase.mk_timebase_prop "old" 65537 1000 123456 10.

(** Handles of deleted objects, looked up from an ordinary task. *)
Lemma GetInfo_failed_lookup_witness :
  @Queue.OS_QueueGetInfo sample_config (OS_ObjectIdCompose_Impl 2 2)
    (Some stale_queue_prop) s2_queue_state
  = (OS_ERR_INVALID_ID, Some Queue.queue_prop_zero)
  /\ @BinSem.OS_BinSemGetInfo sample_config _
       (VxWorks.adapter recording_take 100) (OS_ObjectIdCompose_Impl 4 1)
       (Some stale_bin_sem_prop) (BinSem.mk_state [common_zero; common_zero]) vx_idle
     = (OS_ERR_INVALID_ID, Some BinSem.bin_sem_prop_zero)
  /\ @TimeBase.OS_TimeBaseGetInfo sample_config _ null_timebase_adapter
       65537 (OS_ObjectIdCompose_Impl 8 2) (Some stale_timebase_prop)
       (one_timer_state 5 5) tt
     = if OS_ObjectIdToType_Impl 65537 =? OS_OBJECT_TYPE_OS_TIMEBASE
       then (OS_ERR_INCORRECT_OBJ_STATE, Some stale_timebase_prop)
       else (OS_ERR_INVALID_ID, Some TimeBase.timebase_prop_zero).
Proof.
  apply (@GetInfo_failed_lookup sample_config _
           (VxWorks.adapter recording_take 100) _ null_timebase_adapter
           65537 (OS_ObjectIdCompose_Impl 2 2) (OS_ObjectIdCompose_Impl 4 1)
           (OS_ObjectIdCompose_Impl 8 2) stale_queue_prop stale_bin_sem_prop
           stale_timebase_prop s2_queue_state (BinSem.mk_state [common_zero; common_zero])
           vx_idle (one_timer_state 5 5) tt).
  - vm_compute. discriminate.
  - vm_compute. discriminate.
  - vm_compute. discriminate.
Defined.

(** C10, counterexample: [OS_TimeBaseGetInfo] called from the servicing
    task of a time base (here on that time base's own, valid handle)
    returns an error and leaves the caller's structure as it was, not
    zero-filled. *)
Lemma OS_TimeBaseGetInfo_keeps_stale_output :
  @TimeBase.OS_TimeBaseGetInfo sample_config _ null_timebase_adapter
    (OS_ObjectIdCompose_Impl 8 1) (OS_ObjectIdCompose_Impl 8 1) (Some stale_timebase_prop)
    (one_timer_state 5 5) tt
  = (OS_ERR_INCORRECT_OBJ_STATE, Some stale_timebase_prop)
  /\ stale_timebase_prop <> TimeBase.timebase_prop_zero.
Proof.
  split; [vm_compute; reflexivity|]. discriminate.
Qed.

End GetInfo.

(** ** The time base API in a callback context *)

Section CallbackContext.

Import TimeBase.

(** C9 (as amended).  Called from a task whose handle has resource type
    time base, with arguments that pass the checks made first (non-null
    pointers, a name shorter than [OS_MAX_API_NAME], start and interval
    below 1000000000), [OS_TimeBaseCreate], [OS_TimeBaseSet],
    [OS_TimeBaseDelete], [OS_TimeBaseGetIdByName] and
    [OS_TimeBaseGetInfo] fail with [OS_ERR_INCORRECT_OBJ_STATE] and leave
    the tables, the adapter and the caller's outputs as they were.
    [OS_TimeBaseGetFreeRun] makes no such check: on a live time base it
    reads the counter. *)
Theorem timebase_api_rejected_in_callback_context
    `{OsConfig} {P : Type} `{TimeBaseAdapter P}
    (self : osal_id_t) (MicroSecPerTick : Z) (id0 timer_id : osal_id_t) (name : string)
    (external_sync : option nat) (start_time interval_time : Z)
    (prop : OS_timebase_prop_t) (fuel local_id : nat) (v : Z) (st : State) (p : P) :
  OS_ObjectIdToType_Impl self = OS_OBJECT_TYPE_OS_TIMEBASE ->
  (String.length name < OS_MAX_API_NAME)%nat ->
  start_time < 1000000000 ->
  interval_time < 1000000000 ->
  OS_TimeBaseCreate self MicroSecPerTick (Some id0) (Some name) external_sync st p
  = (OS_ERR_INCORRECT_OBJ_STATE, Some id0, st, p)
  /\ OS_TimeBaseSet self timer_id start_time interval_time st p
     = (OS_ERR_INCORRECT_OBJ_STATE, st, p)
  /\ OS_TimeBaseDelete self timer_id st p = (OS_ERR_INCORRECT_OBJ_STATE, st, p)
  /\ OS_TimeBaseGetIdByName self (Some id0) (Some name) st
     = (OS_ERR_INCORRECT_OBJ_STATE, Some id0)
  /\ OS_TimeBaseGetInfo self timer_id (Some prop) st p
     = (OS_ERR_INCORRECT_OBJ_STATE, Some prop)
  /\ (live_timebase fuel timer_id local_id st ->
      OS_TimeBaseGetFreeRun timer_id v st = (OS_SUCCESS, freerun_of st local_id)).
Proof.
  intros Hself Hname Hstart Hinterval.
  assert (Hctx : (OS_ObjectIdToType_Impl self =? OS_OBJECT_TYPE_OS_TIMEBASE) = true)
    by (rewrite Hself; reflexivity).
  repeat split.
  - unfold OS_TimeBaseCreate.
    destruct (Nat.leb_spec OS_MAX_API_NAME (String.length name)); [lia|].
    rewrite Hctx. reflexivity.
  - unfold OS_TimeBaseSet.
    destruct (Z.leb_spec 1000000000 interval_time); [lia|].
    destruct (Z.leb_spec 1000000000 start_time); [lia|].
    cbn [orb]. rewrite Hctx. reflexivity.
  - unfold OS_TimeBaseDelete. rewrite Hctx. reflexivity.
  - unfold OS_TimeBaseGetIdByName. rewrite Hctx. reflexivity.
  - unfold OS_TimeBaseGetInfo. rewrite Hctx. reflexivity.
  - intros (Hidx & (record & Hrec & Hid) & _ & _ & tb & Htb & _).
    unfold OS_TimeBaseGetFreeRun.
    rewrite (OS_ObjectIdGetById_live OS_LOCK_MODE_NONE _ _ _ _ _ (or_introl eq_refl)
               Hidx Hrec Hid).
    change (OS_SUCCESS =? OS_SUCCESS) with true. cbv iota.
    unfold freerun_of. rewrite Htb. reflexivity.
Qed.

(** The servicing task of the time base of [one_timer_state] calling
    the API on its own time base. *)
Lemma timebase_api_rejected_in_callback_context_witness :
  let self := OS_ObjectIdCompose_Impl 8 1 in
  let st := one_timer_state 5 5 in
  @OS_TimeBaseCreate sample_config _ null_timebase_adapter self 1000 (Some 0) (Some "tb2")
    None st tt
  = (OS_ERR_INCORRECT_OBJ_STATE, Some 0, st, tt)
  /\ @OS_TimeBaseSet _ null_timebase_adapter self self 1000 1000 st tt
     = (OS_ERR_INCORRECT_OBJ_STATE, st, tt)
  /\ @OS_TimeBaseDelete _ null_timebase_adapter self self st tt
     = (OS_ERR_INCORRECT_OBJ_STATE, st, tt)
  /\ OS_TimeBaseGetIdByName self (Some 0) (Some "tb2") st
     = (OS_ERR_INCORRECT_OBJ_STATE, Some 0)
  /\ @OS_TimeBaseGetInfo sample_config _ null_timebase_adapter self self
       (Some stale_timebase_prop) st tt
     = (OS_ERR_INCORRECT_OBJ_STATE, Some stale_timebase_prop)
  /\ (live_timebase 3 self 1 st ->
      OS_TimeBaseGetFreeRun self 7 st = (OS_SUCCESS, freerun_of st 1)).
Proof.
  apply (@timebase_api_rejected_in_callback_context sample_config _ null_timebase_adapter
           (OS_ObjectIdCompose_Impl 8 1) 1000 0 (OS_ObjectIdCompose_Impl 8 1) "tb2" None
           1000 1000 stale_timebase_prop 3 1 7 (one_timer_state 5 5) tt).
  - reflexivity.
  - simpl. lia.
  - lia.
  - lia.
Defined.

(** C9, counterexample: from the servicing task of a time base,
    [OS_TimeBaseGetFreeRun] succeeds, and [OS_TimeBaseSet] with an
    interval out of range fails with [OS_TIMER_ERR_INVALID_ARGS]; neither
    returns [OS_ERR_INCORRECT_OBJ_STATE]. *)
Lemma OS_TimeBaseGetFreeRun_allowed_in_callback_context :
  let self := OS_ObjectIdCompose_Impl 8 1 in
  OS_ObjectIdToType_Impl self = OS_OBJECT_TYPE_OS_TIMEBASE
  /\ OS_TimeBaseGetFreeRun self 7 (one_timer_state 5 5) = (OS_SUCCESS, 0)
  /\ OS_SUCCESS <> OS_ERR_INCORRECT_OBJ_STATE
  /\ @OS_TimeBaseSet _ null_timebase_adapter self self 1000 1000000000
       (one_timer_state 5 5) tt
     = (OS_TIMER_ERR_INVALID_ARGS, one_timer_state 5 5, tt)
  /\ OS_TIMER_ERR_INVALID_ARGS <> OS_ERR_INCORRECT_OBJ_STATE.
Proof.
  cbv zeta. split; [reflexivity|]. split; [vm_compute; reflexivity|].
  split; [discriminate|]. split; [vm_compute; reflexivity|]. discriminate.
Qed.

End CallbackContext.

(** ** File systems *)

Section FileSysProperties.

Import FileSys.

(** An adapter whose volume operations always succeed. *)
Definition null_filesys_adapter : FileSysAdapter unit :=
  {| OS_FileSysMountVolume_Impl := fun _ _ p => (OS_SUCCESS, p);
     OS_FileSysUnmountVolume_Impl := fun _ _ p => (OS_SUCCESS, p) |}.

(** C3.  Once the pointer and length checks of [OS_mount] have passed:
    if no device of that name can be obtained, or its flags without the
    FIXED bit are not exactly READY, or its system mount point is empty,
    or the adapter's mount fails, the call returns
    [OS_ERR_NAME_NOT_FOUND], whatever the inner status was, and the file
    system record is unchanged; if the adapter's mount succeeds the call
    returns [OS_SUCCESS], sets MOUNTED_SYSTEM and MOUNTED_VIRTUAL in the
    record and stores the virtual mount point given.  [OS_unmount]
    likewise, once its checks have passed: if no record is mounted at
    that mount point or the record cannot be obtained, or its flags
    without the FIXED bit are not exactly READY, MOUNTED_SYSTEM and
    MOUNTED_VIRTUAL, or the adapter's unmount fails, the call returns
    [OS_ERR_NAME_NOT_FOUND], whatever the inner status was, and the file
    system record is unchanged; if the adapter's unmount succeeds the
    call returns [OS_SUCCESS] and clears MOUNTED_SYSTEM and
    MOUNTED_VIRTUAL in the record.  Neither call returns a status other
    than these two. *)
Theorem OS_mount_failures_are_name_not_found
    `{OsConfig} {P : Type} `{FileSysAdapter P}
    (dev mp : string) (st : State) (p : P) :
  (String.length dev < OS_FS_DEV_NAME_LEN)%nat ->
  (String.length mp < OS_MAX_PATH_LEN)%nat ->
  (let '(rc0, gidx, gtbl) :=
     OS_ObjectIdGetByName OS_LOCK_MODE_EXCLUSIVE dev (OS_global_filesys_table st) in
   let st0 := mk_state gtbl (OS_filesys_table st) in
   let local_id := local_id_of gtbl gidx in
   (rc0 <> OS_SUCCESS ->
    OS_mount (Some dev) (Some mp) st p = (OS_ERR_NAME_NOT_FOUND, st0, p))
   /\ (rc0 = OS_SUCCESS ->
       forall local, OS_filesys_table st !! local_id = Some local ->
       let ready :=
         Z.land (flags local) (Z.lnot OS_FILESYS_FLAG_IS_FIXED) =? OS_FILESYS_FLAG_IS_READY in
       (ready = false ->
        OS_mount (Some dev) (Some mp) st p = (OS_ERR_NAME_NOT_FOUND, st0, p))
       /\ (ready = true -> system_mountpt local = "" ->
           OS_mount (Some dev) (Some mp) st p = (OS_ERR_NAME_NOT_FOUND, st0, p))
       /\ (ready = true -> system_mountpt local <> "" ->
           let '(rc1, p1) := OS_FileSysMountVolume_Impl local_id st0 p in
           (rc1 <> OS_SUCCESS ->
            OS_mount (Some dev) (Some mp) st p = (OS_ERR_NAME_NOT_FOUND, st0, p1))
           /\ (rc1 = OS_SUCCESS ->
               OS_mount (Some dev) (Some mp) st p
               = (OS_SUCCESS,
                  mk_state gtbl
                    (<[local_id :=
                         set_mounted local
                           (Z.lor (flags local)
                              (Z.lor OS_FILESYS_FLAG_IS_MOUNTED_SYSTEM
                                 OS_FILESYS_FLAG_IS_MOUNTED_VIRTUAL)) mp]>
                       (OS_filesys_table st)), p1)))))
  /\ (fst (fst (OS_mount (Some dev) (Some mp) st p)) = OS_SUCCESS
      \/ fst (fst (OS_mount (Some dev) (Some mp) st p)) = OS_ERR_NAME_NOT_FOUND)
  /\ (fst (fst (OS_unmount (Some mp) st p)) = OS_SUCCESS
      \/ fst (fst (OS_unmount (Some mp) st p)) = OS_ERR_NAME_NOT_FOUND)
  /\ (let '(rc0, gidx, gtbl) :=
        OS_ObjectIdGetBySearch OS_LOCK_MODE_EXCLUSIVE
          (OS_FileSys_FindVirtMountPoint (OS_filesys_table st) mp)
          (OS_global_filesys_table st) in
      let st0 := mk_state gtbl (OS_filesys_table st) in
      let local_id := local_id_of gtbl gidx in
      (rc0 <> OS_SUCCESS ->
       OS_unmount (Some mp) st p = (OS_ERR_NAME_NOT_FOUND, st0, p))
      /\ (rc0 = OS_SUCCESS ->
          forall local, OS_filesys_table st !! local_id = Some local ->
          let mounted :=
            Z.land (flags local) (Z.lnot OS_FILESYS_FLAG_IS_FIXED)
            =? Z.lor OS_FILESYS_FLAG_IS_READY
                 (Z.lor OS_FILESYS_FLAG_IS_MOUNTED_SYSTEM
                    OS_FILESYS_FLAG_IS_MOUNTED_VIRTUAL) in
          (mounted = false ->
           OS_unmount (Some mp) st p = (OS_ERR_NAME_NOT_FOUND, st0, p))
          /\ (mounted = true ->
              let '(rc1, p1) := OS_FileSysUnmountVolume_Impl local_id st0 p in
              (rc1 <> OS_SUCCESS ->
               OS_unmount (Some mp) st p = (OS_ERR_NAME_NOT_FOUND, st0, p1))
              /\ (rc1 = OS_SUCCESS ->
                  OS_unmount (Some mp) st p
                  = (OS_SUCCESS,
                     mk_state gtbl
                       (<[local_id :=
                            set_fs_flags local
                              (Z.land (flags local)
                                 (Z.lnot (Z.lor OS_FILESYS_FLAG_IS_MOUNTED_SYSTEM
                                            OS_FILESYS_FLAG_IS_MOUNTED_VIRTUAL)))]>
                          (OS_filesys_table st)), p1))))).
Proof.
  intros Hdev Hmp.
  assert (Hlen : (OS_FS_DEV_NAME_LEN <=? String.length dev)%nat
                 || (OS_MAX_PATH_LEN <=? String.length mp)%nat = false).
  { destruct (Nat.leb_spec OS_FS_DEV_NAME_LEN (String.length dev)); [lia|].
    destruct (Nat.leb_spec OS_MAX_PATH_LEN (String.length mp)); [lia|]. reflexivity. }
  split; [|split; [|split]].
  - unfold OS_mount. rewrite Hlen.
    destruct (OS_ObjectIdGetByName OS_LOCK_MODE_EXCLUSIVE dev (OS_global_filesys_table st))
      as [[rc0 gidx] gtbl].
    cbn [OS_filesys_table]. split.
    + intros Hrc. apply Z.eqb_neq in Hrc. rewrite Hrc. cbn [negb]. rewrite ?Hrc.
      reflexivity.
    + intros -> local Hlocal. change (OS_SUCCESS =? OS_SUCCESS) with true. cbv iota.
      rewrite Hlocal. cbv zeta.
      destruct (Z.land (flags local) (Z.lnot OS_FILESYS_FLAG_IS_FIXED)
                =? OS_FILESYS_FLAG_IS_READY) eqn:Hready; cbn [negb].
      * split; [discriminate|]. split.
        -- intros _ ->. reflexivity.
        -- intros _ Hsys. destruct (String.eqb_spec (system_mountpt local) "");
             [contradiction|].
           destruct (OS_FileSysMountVolume_Impl (local_id_of gtbl gidx)
                       (mk_state gtbl (OS_filesys_table st)) p) as [rc1 p1].
           split.
           ++ intros Hrc. apply Z.eqb_neq in Hrc. rewrite Hrc. cbn [negb]. rewrite ?Hrc.
              reflexivity.
           ++ intros ->. reflexivity.
      * split; [reflexivity|]. split; discriminate.
  - unfold OS_mount. rewrite Hlen.
    destruct (OS_ObjectIdGetByName OS_LOCK_MODE_EXCLUSIVE dev (OS_global_filesys_table st))
      as [[rc0 gidx] gtbl].
    lazymatch goal with
    | |- fst (fst (match ?e with _ => _ end)) = _ \/ _ => destruct e as [[rc s'] p']
    end.
    destruct (Z.eqb_spec rc OS_SUCCESS) as [->|]; [left|right]; reflexivity.
  - unfold OS_unmount.
    destruct (Nat.leb_spec OS_MAX_PATH_LEN (String.length mp)); [lia|].
    destruct (OS_ObjectIdGetBySearch _ _ _) as [[rc0 gidx] gtbl].
    lazymatch goal with
    | |- fst (fst (match ?e with _ => _ end)) = _ \/ _ => destruct e as [[rc s'] p']
    end.
    destruct (Z.eqb_spec rc OS_SUCCESS) as [->|]; [left|right]; reflexivity.
  - unfold OS_unmount.
    destruct (Nat.leb_spec OS_MAX_PATH_LEN (String.length mp)); [lia|].
    destruct (OS_ObjectIdGetBySearch OS_LOCK_MODE_EXCLUSIVE
                (OS_FileSys_FindVirtMountPoint (OS_filesys_table st) mp)
                (OS_global_filesys_table st)) as [[rc0 gidx] gtbl].
    cbn [OS_filesys_table]. split.
    + intros Hrc. apply Z.eqb_neq in Hrc. rewrite Hrc. cbn [negb]. rewrite ?Hrc.
      reflexivity.
    + intros -> local Hlocal. change (OS_SUCCESS =? OS_SUCCESS) with true. cbv iota.
      rewrite Hlocal. cbv zeta.
      destruct (Z.land (flags local) (Z.lnot OS_FILESYS_FLAG_IS_FIXED)
                =? Z.lor OS_FILESYS_FLAG_IS_READY
                     (Z.lor OS_FILESYS_FLAG_IS_MOUNTED_SYSTEM
                        OS_FILESYS_FLAG_IS_MOUNTED_VIRTUAL)) eqn:Hmounted; cbn [negb].
      * split; [discriminate|]. intros _.
        destruct (OS_FileSysUnmountVolume_Impl (local_id_of gtbl gidx)
                    (mk_state gtbl (OS_filesys_table st)) p) as [rc1 p1].
        split.
        -- intros Hrc. apply Z.eqb_neq in Hrc. rewrite Hrc. cbn [negb]. rewrite ?Hrc.
           reflexivity.
        -- intros ->. reflexivity.
      * split; [reflexivity|discriminate].
Qed.

(** The RAM disk of scenario S3 after [mkfs]: device [ram0] at slot 1,
    READY, with the system mount point chosen by the adapter. *)
Definition s3_ready_state : State :=
  mk_state
    [common_zero; mk_common (Some "ram0") (OS_ObjectIdCompose_Impl 11 1) 65537 0 0]
    [mk_filesys "" "" "" "" None 0 0 0 0;
     mk_filesys "ram0" "RAM0" "/ram0" "" None 512 200 OS_FILESYS_FLAG_IS_READY 0].

(** The same after [mount ("ram0", "/cf")]. *)
Definition s3_mounted_state : State :=
  mk_state
    [common_zero; mk_common (Some "ram0") (OS_ObjectIdCompose_Impl 11 1) 65537 0 0]
    [mk_filesys "" "" "" "" None 0 0 0 0;
     mk_filesys "ram0" "RAM0" "/ram0" "/cf" None 512 200 49 0].

Example s3_mount :
  @OS_mount sample_config _ null_filesys_adapter (Some "ram0") (Some "/cf")
    s3_ready_state tt = (OS_SUCCESS, s3_mounted_state, tt).
Proof. vm_compute. reflexivity. Qed.

(** An adapter whose volume operations always fail, with [OS_ERROR]. *)
Definition failing_filesys_adapter : FileSysAdapter unit :=
  {| OS_FileSysMountVolume_Impl := fun _ _ p => (OS_ERROR, p);
     OS_FileSysUnmountVolume_Impl := fun _ _ p => (OS_ERROR, p) |}.

(** Scenario S3: [mount ("ram0", "/cf")] on the RAM disk succeeds, and
    an [unmount ("/cf")] before it finds nothing mounted.  Once the disk
    is mounted, a second mount sees the wrong flag state
    ([OS_ERR_INCORRECT_OBJ_STATE] inside) and an unmount on the failing
    adapter sees [OS_ERROR]: both return [OS_ERR_NAME_NOT_FOUND] and
    leave the tables as they are. *)
Lemma OS_mount_failures_are_name_not_found_witness :
  @OS_mount sample_config _ null_filesys_adapter (Some "ram0") (Some "/cf")
    s3_ready_state tt = (OS_SUCCESS, s3_mounted_state, tt)
  /\ fst (fst (@OS_unmount sample_config _ null_filesys_adapter (Some "/cf")
                 s3_ready_state tt)) = OS_ERR_NAME_NOT_FOUND
  /\ @OS_mount sample_config _ failing_filesys_adapter (Some "ram0") (Some "/cf")
       s3_mounted_state tt = (OS_ERR_NAME_NOT_FOUND, s3_mounted_state, tt)
  /\ @OS_FileSysUnmountVolume_Impl _ failing_filesys_adapter 1 s3_mounted_state tt
     = (OS_ERROR, tt)
  /\ @OS_unmount sample_config _ failing_filesys_adapter (Some "/cf") s3_mounted_state tt
     = (OS_ERR_NAME_NOT_FOUND, s3_mounted_state, tt).
Proof.
  destruct (@OS_mount_failures_are_name_not_found sample_config _ null_filesys_adapter
              "ram0" "/cf" s3_ready_state tt ltac:(simpl; lia) ltac:(simpl; lia))
    as (Hcases & _ & Hunmount & _).
  destruct (@OS_mount_failures_are_name_not_found sample_config _ failing_filesys_adapter
              "ram0" "/cf" s3_mounted_state tt ltac:(simpl; lia) ltac:(simpl; lia))
    as (Hmasked & _ & _ & Hfails).
  split; [|split; [|split; [|split; [reflexivity|]]]].
  - vm_compute in Hcases. destruct Hcases as [_ Hfound].
    destruct (Hfound eq_refl _ eq_refl) as (_ & _ & Hready).
    destruct (Hready eq_refl ltac:(discriminate)) as [_ Hok].
    exact (Hok eq_refl).
  - destruct Hunmount as [Hu|Hu]; [|exact Hu]. vm_compute in Hu. discriminate.
  - cbn in Hmasked. destruct Hmasked as [_ Hfound].
    destruct (Hfound eq_refl _ eq_refl) as (Hstate & _).
    exact (Hstate eq_refl).
  - cbn in Hfails. destruct Hfails as [_ Hfound].
    destruct (Hfound eq_refl _ eq_refl) as (_ & Hmounted).
    destruct (Hmounted eq_refl) as [Hfail _].
    exact (Hfail ltac:(discriminate)).
Defined.

(** *** Path translation *)

(** [c] does not occur in [s]. *)
Definition no_char (c : Ascii.ascii) (s : string) : Prop :=
  forall i, String.get i s <> Some c.

Lemma no_char_cons c d s : no_char c (String d s) -> d <> c /\ no_char c s.
Proof.
  intros Hno. split.
  - intros ->. apply (Hno 0%nat). reflexivity.
  - intros i. apply (Hno (S i)).
Qed.

Lemma strrchr_no_char s c : no_char c s -> strrchr s c = None.
Proof.
  induction s as [|d s IH]; intros Hno; [reflexivity|].
  apply no_char_cons in Hno as [Hd Hs]. simpl. rewrite (IH Hs).
  destruct (Ascii.eqb_spec d c); [contradiction|reflexivity].
Qed.

(** [strrchr] finds the last occurrence: what follows it is free of the
    character. *)
Lemma strrchr_last pre name c :
  no_char c name ->
  strrchr (String.append pre (String c name)) c = Some (String c name).
Proof.
  intros Hno. induction pre as [|d pre IH]; simpl.
  - rewrite (strrchr_no_char name c Hno). now rewrite Ascii.eqb_refl.
  - now rewrite IH.
Qed.

Lemma substring_all s : String.substring 0 (String.length s) s = s.
Proof. induction s as [|d s IH]; simpl; [reflexivity|now rewrite IH]. Qed.

Lemma string_from_1 c name : string_from 1 (String c name) = name.
Proof.
  unfold string_from. cbn [String.length].
  replace (S (String.length name) - 1)%nat with (String.length name) by lia.
  cbn [String.substring]. apply substring_all.
Qed.

(** C2 (as amended).  For non-null pointers and a virtual path shorter
    than [OS_MAX_PATH_LEN], whatever the file system table holds:
    - a path without ['/'] fails with [OS_FS_ERR_PATH_INVALID];
    - otherwise, [name] being what follows the last ['/']: a [name] of
      [OS_MAX_FILE_NAME] characters or more fails with
      [OS_FS_ERR_NAME_TOO_LONG]; a shorter one (the empty one included)
      fails with [OS_FS_ERR_PATH_INVALID] when the path does not start
      with ['/'], or when it does and no mounted file system's virtual
      mount point is a prefix of the path.
    In each of these cases the output buffer is not written. *)
Theorem OS_TranslatePath_validation
    `{OsConfig} (vp lp : string) (st : State) :
  (String.length vp < OS_MAX_PATH_LEN)%nat ->
  (no_char slash vp ->
   OS_TranslatePath (Some vp) (Some lp) st = (OS_FS_ERR_PATH_INVALID, Some lp))
  /\ (forall pre name,
        vp = String.append pre (String slash name) -> no_char slash name ->
        ((OS_MAX_FILE_NAME <= String.length name)%nat ->
         OS_TranslatePath (Some vp) (Some lp) st = (OS_FS_ERR_NAME_TOO_LONG, Some lp))
        /\ ((String.length name < OS_MAX_FILE_NAME)%nat ->
            String.get 0 vp <> Some slash ->
            OS_TranslatePath (Some vp) (Some lp) st = (OS_FS_ERR_PATH_INVALID, Some lp))
        /\ ((String.length name < OS_MAX_FILE_NAME)%nat ->
            String.get 0 vp = Some slash ->
            OS_ObjectIdSearch (OS_FileSys_FindVirtMountPoint (OS_filesys_table st) vp) 0
              (OS_global_filesys_table st) = None ->
            OS_TranslatePath (Some vp) (Some lp) st = (OS_FS_ERR_PATH_INVALID, Some lp))).
Proof.
  intros Hlen.
  assert (Hl : (OS_MAX_PATH_LEN <=? String.length vp)%nat = false)
    by (apply Nat.leb_gt; exact Hlen).
  split.
  - intros Hno. unfold OS_TranslatePath. rewrite Hl, (strrchr_no_char vp slash Hno).
    reflexivity.
  - intros pre name Hvp Hno.
    assert (Hr : strrchr vp slash = Some (String slash name))
      by (rewrite Hvp; apply strrchr_last; exact Hno).
    unfold OS_TranslatePath. rewrite Hl, Hr, string_from_1.
    split; [|split].
    + intros Hname. apply Nat.leb_le in Hname. rewrite Hname. reflexivity.
    + intros Hname Hfirst. apply Nat.leb_gt in Hname. rewrite Hname.
      rewrite bool_decide_eq_false_2 by exact Hfirst. reflexivity.
    + intros Hname Hfirst Hsearch. apply Nat.leb_gt in Hname. rewrite Hname.
      rewrite bool_decide_eq_true_2 by exact Hfirst. cbn [negb].
      unfold OS_ObjectIdGetBySearch. rewrite Hsearch. reflexivity.
Qed.

(** Scenario S3: ["cf/x"] has no leading slash. *)
Lemma OS_TranslatePath_validation_witness :
  @OS_TranslatePath sample_config (Some "cf/x") (Some "") s3_mounted_state
  = (OS_FS_ERR_PATH_INVALID, Some "").
Proof.
  destruct (@OS_TranslatePath_validation sample_config "cf/x" "" s3_mounted_state
              ltac:(simpl; lia)) as [_ Hparts].
  assert (Hname : no_char slash "x").
  { intros [|[|i]]; simpl; discriminate. }
  destruct (Hparts "cf" "x" eq_refl Hname) as (_ & Hslash & _).
  apply Hslash; [simpl; lia|simpl; discriminate].
Defined.

Example s3_translate :
  exists buf,
    @OS_TranslatePath sample_config (Some "/cf/data/x.bin") (Some "") s3_mounted_state
    = (OS_SUCCESS, Some buf)
    /\ cstring buf = "/ram0/data/x.bin".
Proof. eexists. split; vm_compute; reflexivity. Qed.

Example s3_no_leading_slash :
  @OS_TranslatePath sample_config (Some "cf/x") (Some "") s3_mounted_state
  = (OS_FS_ERR_PATH_INVALID, Some "").
Proof. vm_compute. reflexivity. Qed.

(** C2, counterexample: with ["/cf"] mounted, the path ["/cf/"], which
    has no file name after its last ['/'], is accepted and translated to
    the system mount point followed by ['/']. *)
Lemma OS_TranslatePath_accepts_empty_file_name :
  exists buf,
    @OS_TranslatePath sample_config (Some "/cf/") (Some "") s3_mounted_state
    = (OS_SUCCESS, Some buf)
    /\ cstring buf = "/ram0/"
    /\ OS_SUCCESS <> OS_FS_ERR_PATH_INVALID
    /\ strrchr "/cf/" slash = Some "/".
Proof.
  eexists. split; [vm_compute; reflexivity|]. split; [vm_compute; reflexivity|].
  split; [discriminate|reflexivity].
Qed.

End FileSysProperties.

(** ** Initialization and teardown *)

Section CommonProperties.

Import Common.

(** *** A small world to run the functions on

    The world is the list of live objects.  Every init succeeds, the
    adapter's init sets the tick globals; a delete removes the object,
    except that a time base cannot be deleted while a timer is left. *)
Definition toy_ok (w : World (list osal_id_t)) : Z * World (list osal_id_t) :=
  (OS_SUCCESS, w).

Definition toy_impl_init (idtype : Z) (w : World (list osal_id_t))
  : Z * World (list osal_id_t) :=
  (OS_SUCCESS,
   mk_world
     (mk_globals (Initialized (OS_SharedGlobalVars w)) (PrintfEnabled (OS_SharedGlobalVars w))
        (ShutdownFlag (OS_SharedGlobalVars w)) 10000 100)
     (tables w)).

Definition toy_delete (object_id : osal_id_t) (w : World (list osal_id_t))
  : Z * World (list osal_id_t) :=
  (OS_SUCCESS,
   mk_world (OS_SharedGlobalVars w) (filter (fun id => id <> object_id) (tables w))).

Definition toy_timebase_delete (object_id : osal_id_t) (w : World (list osal_id_t))
  : Z * World (list osal_id_t) :=
  if existsb (fun id => OS_ObjectIdToType_Impl id =? OS_OBJECT_TYPE_OS_TIMECB) (tables w)
  then (OS_ERR_OBJECT_IN_USE, w)
  else toy_delete object_id w.

Definition toy_for_each (creator_id : osal_id_t)
    (callback : osal_id_t -> Z -> World (list osal_id_t) -> Z * World (list osal_id_t))
    (arg : Z) (w : World (list osal_id_t)) : Z * World (list osal_id_t) :=
  fold_left (fun acc id => callback id (fst acc) (snd acc)) (tables w) (arg, w).

Definition toy_subsystems : Subsystems (list osal_id_t) := {|
  OS_ObjectIdInit := toy_ok;
  OS_API_Impl_Init := toy_impl_init;
  OS_TaskAPI_Init := toy_ok;
  OS_QueueAPI_Init := toy_ok;
  OS_BinSemAPI_Init := toy_ok;
  OS_CountSemAPI_Init := toy_ok;
  OS_MutexAPI_Init := toy_ok;
  OS_ModuleAPI_Init := toy_ok;
  OS_TimeBaseAPI_Init := toy_ok;
  OS_TimerCbAPI_Init := toy_ok;
  OS_FileAPI_Init := toy_ok;
  OS_DirAPI_Init := toy_ok;
  OS_FileSysAPI_Init := toy_ok;
  OS_ConsoleAPI_Init := toy_ok;
  OS_NetworkAPI_Init := toy_ok;
  OS_SocketAPI_Init := toy_ok;
  OS_ForEachObject := toy_for_each;
  OS_IdentifyObject := OS_ObjectIdToType_Impl;
  OS_TaskDelete := toy_delete;
  OS_QueueDelete := toy_delete;
  OS_BinSemDelete := toy_delete;
  OS_CountSemDelete := toy_delete;
  OS_MutSemDelete := toy_delete;
  OS_ModuleUnload := toy_delete;
  OS_TimeBaseDelete := toy_timebase_delete;
  OS_TimerDelete := toy_delete;
  OS_close := toy_delete;
  OS_DirectoryClose := toy_delete;
  OS_TaskDelay := fun _ => toy_ok
|}.

(** A queue, a time base and a timer on that time base. *)
Definition toy_world : World (list osal_id_t) :=
  mk_world OS_SharedGlobalVars_init
    [OS_ObjectIdCompose_Impl 2 1; OS_ObjectIdCompose_Impl 8 1; OS_ObjectIdCompose_Impl 9 1].

Example toy_delete_all_passes :
  @delete_loop _ toy_subsystems 5 0 [] toy_world
  = Some (0, 3, [3; 1; 0], mk_world OS_SharedGlobalVars_init []).
Proof. vm_compute. reflexivity. Qed.

(** *** Teardown *)

Section Teardown.

Context {T : Type} `{Subsystems T}.

Lemma delete_loop_bounded fuel :
  forall TryCount counts (w : World T),
    0 <= TryCount <= 4 -> 5 - TryCount <= Z.of_nat fuel ->
    exists ObjectCount TryCount' more w',
      delete_loop fuel TryCount counts w
      = Some (ObjectCount, TryCount', counts ++ more ++ [ObjectCount], w')
      /\ TryCount < TryCount' <= 5
      /\ Z.of_nat (length more) + 1 = TryCount' - TryCount
      /\ Forall (fun c => c <> 0) more
      /\ (ObjectCount = 0 \/ TryCount' = 5).
Proof.
  induction fuel as [|fuel IH]; intros TryCount counts w Htc Hfuel; [lia|].
  cbn [delete_loop].
  rewrite (to_uint32_id (TryCount + 1)) by (unfold is_uint32; lia).
  destruct (OS_ForEachObject OS_OBJECT_CREATOR_ANY OS_CleanUpObject 0 w) as [oc w1].
  destruct (Z.eqb_spec oc 0) as [->|Hoc]; cbn [orb].
  - exists 0, (TryCount + 1), [], w1. split; [reflexivity|].
    simpl. repeat split; auto; lia.
  - destruct (Z.ltb_spec 4 (TryCount + 1)).
    + exists oc, (TryCount + 1), [], w1. split; [reflexivity|].
      simpl. repeat split; auto; lia.
    + destruct (IH (TryCount + 1) (counts ++ [oc]) (snd (OS_TaskDelay 5 w1))
                  ltac:(lia) ltac:(lia)) as (oc' & tc' & more & w' & Hrun & Htc' & Hlen & Hnz & Hend).
      exists oc', tc', (oc :: more), w'. rewrite Hrun.
      split; [now rewrite <- app_assoc|].
      split; [lia|]. split; [simpl length; lia|]. split; [constructor; auto|exact Hend].
Qed.

(** C6.  [OS_DeleteAllObjects] terminates: with fuel for five turns the
    main loop ends after at most five passes, every pass before the last
    has visited some object, and at the [break] either the last pass has
    visited none or five passes have been made; so the condition of the
    trailing loop is false, that loop is not entered, and the function
    returns. *)
Theorem OS_DeleteAllObjects_terminates (fuel : nat) (w : World T) :
  (5 <= fuel)%nat ->
  exists ObjectCount TryCount earlier w',
    delete_loop fuel 0 [] w = Some (ObjectCount, TryCount, earlier ++ [ObjectCount], w')
    /\ 1 <= TryCount <= 5
    /\ Z.of_nat (length (earlier ++ [ObjectCount])) = TryCount
    /\ Forall (fun c => c <> 0) earlier
    /\ (ObjectCount = 0 \/ TryCount = 5)
    /\ (0 <? ObjectCount) && (TryCount <? 5) = false
    /\ (forall n, trailing_spin n ObjectCount TryCount = Some tt)
    /\ OS_DeleteAllObjects fuel w = Some w'.
Proof.
  intros Hfuel.
  destruct (delete_loop_bounded fuel 0 [] w ltac:(lia) ltac:(lia))
    as (oc & tc & more & w' & Hrun & Htc & Hlen & Hnz & Hend).
  simpl in Hrun.
  assert (Hcond : (0 <? oc) && (tc <? 5) = false).
  { destruct Hend as [-> | ->]; [reflexivity|]. now rewrite andb_false_r. }
  exists oc, tc, more, w'. split; [exact Hrun|].
  split; [lia|]. split; [rewrite length_app; simpl length; lia|].
  split; [exact Hnz|]. split; [exact Hend|]. split; [exact Hcond|].
  split.
  - intros n. destruct n; simpl; rewrite Hcond; reflexivity.
  - unfold OS_DeleteAllObjects. rewrite Hrun. cbn [mbind option_bind].
    destruct fuel; simpl; rewrite Hcond; reflexivity.
Qed.

End Teardown.

Lemma OS_DeleteAllObjects_terminates_witness :
  exists ObjectCount TryCount earlier w',
    @delete_loop _ toy_subsystems 5 0 [] toy_world
    = Some (ObjectCount, TryCount, earlier ++ [ObjectCount], w')
    /\ 1 <= TryCount <= 5
    /\ Z.of_nat (length (earlier ++ [ObjectCount])) = TryCount
    /\ Forall (fun c => c <> 0) earlier
    /\ (ObjectCount = 0 \/ TryCount = 5)
    /\ (0 <? ObjectCount) && (TryCount <? 5) = false
    /\ (forall n, trailing_spin n ObjectCount TryCount = Some tt)
    /\ @OS_DeleteAllObjects _ toy_subsystems 5 toy_world = Some w'.
Proof.
  apply (@OS_DeleteAllObjects_terminates _ toy_subsystems 5 toy_world). lia.
Defined.

(** *** Initialization *)

Section Init.

Context {T : Type} `{Subsystems T}.

(** A transition that leaves the [Initialized] flag alone. *)
Definition keeps_Initialized (f : World T -> Z * World T) : Prop :=
  forall w, Initialized (OS_SharedGlobalVars (snd (f w))) = Initialized (OS_SharedGlobalVars w).

(** None of the init functions that [OS_API_Init] calls touches the
    [Initialized] flag. *)
Definition inits_keep_Initialized : Prop :=
  keeps_Initialized OS_ObjectIdInit
  /\ (forall idtype, keeps_Initialized (OS_API_Impl_Init idtype))
  /\ Forall keeps_Initialized
       [OS_TaskAPI_Init; OS_QueueAPI_Init; OS_BinSemAPI_Init; OS_CountSemAPI_Init;
        OS_MutexAPI_Init; OS_ModuleAPI_Init; OS_TimeBaseAPI_Init; OS_TimerCbAPI_Init;
        OS_FileAPI_Init; OS_DirAPI_Init; OS_FileSysAPI_Init; OS_ConsoleAPI_Init;
        OS_NetworkAPI_Init; OS_SocketAPI_Init].

Lemma shared_layer_init_keeps idtype return_code :
  inits_keep_Initialized -> keeps_Initialized (shared_layer_init idtype return_code).
Proof.
  intros (_ & _ & Hall) w. unfold shared_layer_init.
  repeat match goal with
         | |- context [if ?b then _ else _] =>
             destruct b;
             [match goal with
              | |- context [snd (?f w)] =>
                  apply (proj1 (Forall_forall _ _) Hall f); repeat constructor
              end|]
         end.
  reflexivity.
Qed.

Lemma init_loop_keeps n :
  inits_keep_Initialized ->
  forall idtype return_code, keeps_Initialized (init_loop n idtype return_code).
Proof.
  intros Hk. induction n as [|n IH]; intros idtype return_code w; [reflexivity|].
  cbn [init_loop].
  pose proof (proj1 (proj2 Hk) idtype w) as K1.
  destruct (OS_API_Impl_Init idtype w) as [rc1 w1]. cbn [snd] in K1.
  destruct (negb (rc1 =? OS_SUCCESS)); [exact K1|].
  pose proof (shared_layer_init_keeps idtype rc1 Hk w1) as K2.
  destruct (shared_layer_init idtype rc1 w1) as [rc2 w2]. cbn [snd] in K2.
  destruct (negb (rc2 =? OS_SUCCESS)); [cbn [snd]; congruence|].
  rewrite IH. congruence.
Qed.

(** C7.  [OS_API_Init] refuses a second call: when the [Initialized]
    flag is set it returns [OS_ERROR] and the whole world (the shared
    globals, every table, the adapter) is what it was, whatever the
    subsystems are, so that no init function has run.  Provided the init
    functions leave the flag alone, the flag is set after any call, so a
    call that follows another one is refused. *)
Theorem OS_API_Init_rejects_second_call (w : World T) :
  inits_keep_Initialized ->
  (Initialized (OS_SharedGlobalVars w) = true -> OS_API_Init w = (OS_ERROR, w))
  /\ Initialized (OS_SharedGlobalVars (snd (OS_API_Init w))) = true
  /\ OS_API_Init (snd (OS_API_Init w)) = (OS_ERROR, snd (OS_API_Init w)).
Proof.
  intros Hk.
  assert (Hguard : forall w0 : World T,
            Initialized (OS_SharedGlobalVars w0) = true -> OS_API_Init w0 = (OS_ERROR, w0)).
  { intros w0 Hi. unfold OS_API_Init. rewrite Hi. reflexivity. }
  assert (Hset : Initialized (OS_SharedGlobalVars (snd (OS_API_Init w))) = true).
  { destruct (Initialized (OS_SharedGlobalVars w)) eqn:Hi.
    - rewrite (Hguard w Hi). exact Hi.
    - unfold OS_API_Init. rewrite Hi.
      set (w0 := set_globals w (set_Initialized (OS_SharedGlobalVars w) true)).
      assert (H0i : Initialized (OS_SharedGlobalVars w0) = true) by reflexivity.
      pose proof (proj1 Hk w0) as K1.
      destruct (OS_ObjectIdInit w0) as [rc1 w1]. cbn [snd] in K1.
      destruct (negb (rc1 =? OS_SUCCESS)); [cbn [snd]; congruence|].
      pose proof (init_loop_keeps (Z.to_nat OS_OBJECT_TYPE_USER) Hk 0 rc1 w1) as K2.
      destruct (init_loop (Z.to_nat OS_OBJECT_TYPE_USER) 0 rc1 w1) as [rc2 w2].
      cbn [snd] in K2.
      destruct Hk as (_ & _ & Hall).
      assert (Hnet : keeps_Initialized OS_NetworkAPI_Init)
        by (apply (proj1 (Forall_forall _ _) Hall); repeat constructor).
      assert (Hsock : keeps_Initialized OS_SocketAPI_Init)
        by (apply (proj1 (Forall_forall _ _) Hall); repeat constructor).
      assert (K3 : forall rc (w3 : World T),
                Initialized (OS_SharedGlobalVars
                  (snd (if rc =? OS_SUCCESS then OS_NetworkAPI_Init w3 else (rc, w3))))
                = Initialized (OS_SharedGlobalVars w3)).
      { intros rc w3. destruct (rc =? OS_SUCCESS); [apply Hnet|reflexivity]. }
      assert (K4 : forall rc (w3 : World T),
                Initialized (OS_SharedGlobalVars
                  (snd (if rc =? OS_SUCCESS then OS_SocketAPI_Init w3 else (rc, w3))))
                = Initialized (OS_SharedGlobalVars w3)).
      { intros rc w3. destruct (rc =? OS_SUCCESS); [apply Hsock|reflexivity]. }
      specialize (K3 rc2 w2).
      destruct (if rc2 =? OS_SUCCESS then OS_NetworkAPI_Init w2 else (rc2, w2)) as [rc3 w3].
      specialize (K4 rc3 w3).
      destruct (if rc3 =? OS_SUCCESS then OS_SocketAPI_Init w3 else (rc3, w3)) as [rc4 w4].
      cbn [snd] in *. congruence. }
  split; [apply Hguard|]. split; [exact Hset|]. apply Hguard, Hset.
Qed.

End Init.

Lemma toy_inits_keep_Initialized : @inits_keep_Initialized _ toy_subsystems.
Proof.
  split; [intros w; reflexivity|]. split; [intros idtype w; reflexivity|].
  repeat constructor.
Qed.

(** The first call on a fresh world succeeds and sets the flag; the
    second is refused. *)
Lemma OS_API_Init_rejects_second_call_witness :
  (Initialized (OS_SharedGlobalVars toy_world) = true ->
   @OS_API_Init _ toy_subsystems toy_world = (OS_ERROR, toy_world))
  /\ Initialized (OS_SharedGlobalVars (snd (@OS_API_Init _ toy_subsystems toy_world))) = true
  /\ @OS_API_Init _ toy_subsystems (snd (@OS_API_Init _ toy_subsystems toy_world))
     = (OS_ERROR, snd (@OS_API_Init _ toy_subsystems toy_world)).
Proof.
  apply (@OS_API_Init_rejects_second_call _ toy_subsystems toy_world).
  exact toy_inits_keep_Initialized.
Defined.

Example toy_first_init :
  fst (@OS_API_Init _ toy_subsystems toy_world) = OS_SUCCESS.
Proof. vm_compute. reflexivity. Qed.

End CommonProperties.

(** ** The handle codec *)

Section CodecProperties.

(** A serial number below the type field and a type above it do not
    overlap: the [|] of the codec is an addition. *)
Lemma lor_shiftl_16 a s :
  0 <= a -> 0 <= s < 2 ^ 16 -> Z.lor (Z.shiftl a 16) s = a * 2 ^ 16 + s.
Proof.
  intros Ha Hs.
  assert (Hland : Z.land (Z.shiftl a 16) s = 0).
  { apply Z.bits_inj'. intros n Hn. rewrite Z.land_spec, Z.bits_0.
    destruct (Z.lt_ge_cases n 16) as [Hlt|Hge].
    - rewrite Z.shiftl_spec_low by lia. reflexivity.
    - rewrite <- (Z.mod_small s (2 ^ 16)) by lia.
      rewrite Z.mod_pow2_bits_high by lia. apply andb_false_r. }
  rewrite <- Z.lxor_lor by exact Hland.
  rewrite <- Z.add_nocarry_lxor by exact Hland.
  rewrite Z.shiftl_mul_pow2 by lia. reflexivity.
Qed.

Lemma OS_ObjectIdCompose_value idtype idserial :
  0 <= idtype < 2 ^ 16 -> 0 <= idserial <= OS_OBJECT_INDEX_MASK ->
  OS_ObjectIdCompose_Impl idtype idserial = idtype * 2 ^ 16 + idserial.
Proof.
  unfold OS_ObjectIdCompose_Impl, OS_OBJECT_INDEX_MASK, OS_OBJECT_TYPE_SHIFT.
  intros Ht Hs. rewrite lor_shiftl_16 by lia.
  apply to_uint32_id. unfold is_uint32. lia.
Qed.

Lemma OS_ObjectIdToType_value id : OS_ObjectIdToType_Impl id = id / 2 ^ 16.
Proof. unfold OS_ObjectIdToType_Impl, OS_OBJECT_TYPE_SHIFT. apply Z.shiftr_div_pow2. lia. Qed.

Lemma OS_ObjectIdToSerialNumber_value id :
  OS_ObjectIdToSerialNumber_Impl id = id mod 2 ^ 16.
Proof.
  unfold OS_ObjectIdToSerialNumber_Impl, OS_OBJECT_INDEX_MASK.
  change 65535 with (Z.ones 16). apply Z.land_ones. lia.
Qed.

Lemma OS_ObjectIdCompose_type idtype idserial :
  0 <= idtype < 2 ^ 16 -> 0 <= idserial <= OS_OBJECT_INDEX_MASK ->
  OS_ObjectIdToType_Impl (OS_ObjectIdCompose_Impl idtype idserial) = idtype.
Proof.
  intros Ht Hs. rewrite OS_ObjectIdCompose_value, OS_ObjectIdToType_value by assumption.
  unfold OS_OBJECT_INDEX_MASK in Hs.
  rewrite Z.div_add_l by lia. rewrite Z.div_small by lia. lia.
Qed.

Lemma OS_ObjectIdCompose_serial idtype idserial :
  0 <= idtype < 2 ^ 16 -> 0 <= idserial <= OS_OBJECT_INDEX_MASK ->
  OS_ObjectIdToSerialNumber_Impl (OS_ObjectIdCompose_Impl idtype idserial) = idserial.
Proof.
  intros Ht Hs. rewrite OS_ObjectIdCompose_value, OS_ObjectIdToSerialNumber_value by assumption.
  unfold OS_OBJECT_INDEX_MASK in Hs.
  rewrite Z.add_comm, Z.mod_add by lia. apply Z.mod_small. lia.
Qed.

Lemma OS_ObjectIdCompose_defined idtype idserial :
  0 <= idtype < 2 ^ 16 -> 0 <= idserial <= OS_OBJECT_INDEX_MASK ->
  0 < idtype ->
  OS_ObjectIdDefined (OS_ObjectIdCompose_Impl idtype idserial) = true.
Proof.
  intros Ht Hs Hlt. rewrite OS_ObjectIdCompose_value by assumption.
  unfold OS_ObjectIdDefined, OS_OBJECT_INDEX_MASK in *.
  destruct (Z.eqb_spec (idtype * 2 ^ 16 + idserial) 0); [lia|reflexivity].
Qed.

Lemma OS_ObjectIdCompose_not_reserved idtype idserial :
  0 <= idtype < 2 ^ 16 -> 0 <= idserial <= OS_OBJECT_INDEX_MASK ->
  idtype < 0xFFFF ->
  OS_ObjectIdEqual (OS_ObjectIdCompose_Impl idtype idserial) OS_OBJECT_ID_RESERVED = false.
Proof.
  intros Ht Hs Hlt. rewrite OS_ObjectIdCompose_value by assumption.
  unfold OS_ObjectIdEqual, OS_OBJECT_ID_RESERVED, OS_OBJECT_INDEX_MASK in *.
  apply Z.eqb_neq. lia.
Qed.

(** X1.  Composing a handle from a resource type and a serial number
    that fit their 16-bit fields and taking it apart again gives the
    type and the serial number back; and a handle of a type other than
    0 and 0xFFFF is neither the undefined handle nor the reserved
    sentinel. *)
Theorem OS_ObjectIdCompose_roundtrip (idtype idserial : Z) :
  0 <= idtype < 2 ^ 16 -> 0 <= idserial <= OS_OBJECT_INDEX_MASK ->
  OS_ObjectIdToType_Impl (OS_ObjectIdCompose_Impl idtype idserial) = idtype
  /\ OS_ObjectIdToSerialNumber_Impl (OS_ObjectIdCompose_Impl idtype idserial) = idserial
  /\ (0 < idtype ->
      OS_ObjectIdDefined (OS_ObjectIdCompose_Impl idtype idserial) = true)
  /\ (idtype < 0xFFFF ->
      OS_ObjectIdEqual (OS_ObjectIdCompose_Impl idtype idserial) OS_OBJECT_ID_RESERVED
      = false).
Proof.
  intros Ht Hs.
  split; [now apply OS_ObjectIdCompose_type|].
  split; [now apply OS_ObjectIdCompose_serial|].
  split; [now apply OS_ObjectIdCompose_defined|now apply OS_ObjectIdCompose_not_reserved].
Qed.

Lemma OS_ObjectIdCompose_roundtrip_witness :
  OS_ObjectIdToType_Impl (OS_ObjectIdCompose_Impl OS_OBJECT_TYPE_OS_QUEUE 7)
  = OS_OBJECT_TYPE_OS_QUEUE
  /\ OS_ObjectIdToSerialNumber_Impl (OS_ObjectIdCompose_Impl OS_OBJECT_TYPE_OS_QUEUE 7) = 7.
Proof.
  destruct (OS_ObjectIdCompose_roundtrip OS_OBJECT_TYPE_OS_QUEUE 7
              ltac:(unfold OS_OBJECT_TYPE_OS_QUEUE; lia)
              ltac:(unfold OS_OBJECT_INDEX_MASK; lia)) as (Ht & Hs & _).
  split; assumption.
Defined.

(** X2.  Every 32-bit handle is the composition of its type and its
    serial number, so two handles are equal exactly when they agree on
    both. *)
Theorem OS_ObjectId_decompose (a b : osal_id_t) :
  is_uint32 a -> is_uint32 b ->
  OS_ObjectIdCompose_Impl (OS_ObjectIdToType_Impl a) (OS_ObjectIdToSerialNumber_Impl a) = a
  /\ (OS_ObjectIdEqual a b = true <->
      OS_ObjectIdToType_Impl a = OS_ObjectIdToType_Impl b
      /\ OS_ObjectIdToSerialNumber_Impl a = OS_ObjectIdToSerialNumber_Impl b).
Proof.
  assert (Hdec : forall x, is_uint32 x ->
            OS_ObjectIdCompose_Impl (OS_ObjectIdToType_Impl x)
              (OS_ObjectIdToSerialNumber_Impl x) = x).
  { intros x Hx. unfold is_uint32 in Hx.
    rewrite OS_ObjectIdToType_value, OS_ObjectIdToSerialNumber_value.
    pose proof (Z.mod_pos_bound x (2 ^ 16) ltac:(lia)) as Hm.
    assert (0 <= x / 2 ^ 16 < 2 ^ 16).
    { split; [apply Z.div_pos; lia|]. apply Z.div_lt_upper_bound; lia. }
    rewrite OS_ObjectIdCompose_value by (unfold OS_OBJECT_INDEX_MASK; lia).
    pose proof (Z.div_mod x (2 ^ 16) ltac:(lia)). lia. }
  intros Ha Hb. split; [now apply Hdec|].
  unfold OS_ObjectIdEqual. rewrite Z.eqb_eq. split.
  - intros ->. split; reflexivity.
  - intros [Ht Hs]. rewrite <- (Hdec a Ha), <- (Hdec b Hb), Ht, Hs. reflexivity.
Qed.

Lemma OS_ObjectId_decompose_witness :
  OS_ObjectIdCompose_Impl (OS_ObjectIdToType_Impl 0x8002a) (OS_ObjectIdToSerialNumber_Impl 0x8002a)
  = 0x8002a.
Proof.
  apply (OS_ObjectId_decompose 0x8002a 0x8002a); unfold is_uint32; lia.
Defined.

End CodecProperties.

(** ** Allocation and lookup *)

Section IdManagerProperties.

(** The slot scan of allocate-new ends on a free slot, with a serial
    number that fits its field and names that slot. *)
Lemma OS_ObjectIdFindNext_spec tbl :
  Z.of_nat (length tbl) <= 65536 ->
  forall n idvalue serial idx,
    0 <= idvalue ->
    OS_ObjectIdFindNext n idvalue tbl = Some (serial, idx) ->
    0 <= serial <= OS_OBJECT_INDEX_MASK
    /\ Z.to_nat (serial mod Z.of_nat (length tbl)) = idx
    /\ exists r, tbl !! idx = Some r /\ OS_ObjectIdDefined (active_id r) = false.
Proof.
  intros Hlen. induction n as [|n IH]; intros idvalue serial idx Hid Hrun; [discriminate|].
  cbn [OS_ObjectIdFindNext] in Hrun.
  set (local_id := Z.to_nat ((idvalue + 1) mod Z.of_nat (length tbl))) in *.
  set (idvalue' := if OS_OBJECT_INDEX_MASK <=? idvalue + 1 then Z.of_nat local_id
                   else idvalue + 1) in *.
  destruct (tbl !! local_id) as [r|] eqn:Hr; [|discriminate].
  pose proof (lookup_lt_Some _ _ _ Hr) as Hlt.
  assert (Hpos : 0 < Z.of_nat (length tbl)) by lia.
  assert (Hloc : Z.of_nat local_id = (idvalue + 1) mod Z.of_nat (length tbl)).
  { unfold local_id. rewrite Z2Nat.id; [reflexivity|]. apply Z.mod_pos_bound. lia. }
  assert (Hid' : 0 <= idvalue' <= OS_OBJECT_INDEX_MASK
                 /\ Z.to_nat (idvalue' mod Z.of_nat (length tbl)) = local_id).
  { unfold idvalue', OS_OBJECT_INDEX_MASK.
    destruct (Z.leb_spec 65535 (idvalue + 1)).
    - split; [lia|]. rewrite Z.mod_small by lia. apply Nat2Z.id.
    - split; [lia|]. reflexivity. }
  destruct (OS_ObjectIdDefined (active_id r)) eqn:Hdef.
  - apply (IH idvalue'); [lia|exact Hrun].
  - injection Hrun as <- <-. destruct Hid' as [Hr1 Hr2].
    split; [exact Hr1|]. split; [exact Hr2|]. eauto.
Qed.

(** What a successful allocate-new leaves behind. *)
Lemma OS_ObjectIdAllocateNew_success name self last_id tbl idx ots :
  0 <= last_id -> Z.of_nat (length tbl) <= 65536 ->
  OS_ObjectIdAllocateNew name self (mk_objtype last_id tbl) = (OS_SUCCESS, idx, ots) ->
  records ots = <[idx := mk_common None OS_OBJECT_ID_RESERVED self 0 0]> tbl
  /\ 0 <= last_id_issued ots <= OS_OBJECT_INDEX_MASK
  /\ Z.to_nat (last_id_issued ots mod Z.of_nat (length tbl)) = idx
  /\ (exists r, tbl !! idx = Some r /\ OS_ObjectIdDefined (active_id r) = false)
  /\ (name <> "" -> OS_ObjectIdSearch (OS_ObjectNameMatch name) 0 tbl = None).
Proof.
  intros Hid Hlen. unfold OS_ObjectIdAllocateNew. cbn [records last_id_issued].
  destruct (negb (String.eqb name "")
            && bool_decide (is_Some (OS_ObjectIdSearch (OS_ObjectNameMatch name) 0 tbl)))
    eqn:Htaken; [discriminate|].
  destruct (OS_ObjectIdFindNext (length tbl) last_id tbl) as [[serial i]|] eqn:Hnext;
    [|discriminate].
  intros Heq. injection Heq as <- <-. cbn [records last_id_issued].
  destruct (OS_ObjectIdFindNext_spec tbl Hlen _ _ _ _ Hid Hnext) as (Hs & Hi & Hfree).
  split; [reflexivity|]. split; [exact Hs|]. split; [exact Hi|]. split; [exact Hfree|].
  intros Hname. apply andb_false_iff in Htaken as [Hn|Hn].
  - apply negb_false_iff, String.eqb_eq in Hn. contradiction.
  - apply bool_decide_eq_false in Hn.
    destruct (OS_ObjectIdSearch _ 0 tbl); [exfalso; apply Hn; eauto|reflexivity].
Qed.

(** The handle of a freshly created object: allocate-new, the wrapper's
    [name_entry] assignment and a successful finalize-new leave, in the
    slot allocated, a record that holds a handle of the type asked for,
    which names that slot. *)
Lemma OS_ObjectId_created name stored self idtype last_id tbl idx ots outid :
  0 <= last_id -> Z.of_nat (length tbl) <= 65536 -> 0 <= idtype < 2 ^ 16 ->
  OS_ObjectIdAllocateNew name self (mk_objtype last_id tbl) = (OS_SUCCESS, idx, ots) ->
  let id := OS_ObjectIdCompose_Impl idtype (last_id_issued ots) in
  OS_ObjectIdFinalizeNew OS_SUCCESS idtype idx (TimeBase.set_name_entry ots idx stored)
    outid
  = (OS_SUCCESS,
     mk_objtype (last_id_issued ots) (<[idx := mk_common (Some stored) id self 0 0]> tbl),
     match outid with Some _ => Some id | None => None end)
  /\ OS_ObjectIdToArrayIndex idtype (length tbl) id = (OS_SUCCESS, idx)
  /\ (idx < length tbl)%nat.
Proof.
  intros Hid Hlen Ht Halloc id.
  destruct (OS_ObjectIdAllocateNew_success _ _ _ _ _ _ Hid Hlen Halloc)
    as (Hrec & Hs & Hi & (r & Hr & _) & _).
  pose proof (lookup_lt_Some _ _ _ Hr) as Hlt.
  split; [|split; [|exact Hlt]].
  - unfold TimeBase.set_name_entry. rewrite Hrec.
    rewrite list_lookup_insert_eq by exact Hlt.
    unfold OS_ObjectIdFinalizeNew. cbn [records last_id_issued active_id creator refcount flags].
    rewrite list_lookup_insert_eq by (rewrite !length_insert; exact Hlt).
    rewrite !list_insert_insert_eq. reflexivity.
  - unfold OS_ObjectIdToArrayIndex, id.
    rewrite OS_ObjectIdCompose_type by assumption. rewrite Z.eqb_refl. cbn [negb].
    destruct (Nat.eqb_spec (length tbl) 0); [lia|].
    rewrite OS_ObjectIdCompose_serial by assumption. rewrite Hi. reflexivity.
Qed.

(** A failed finalize-new gives the slot back: its handle is undefined
    again. *)
Lemma OS_ObjectId_rolled_back name stored self idtype last_id tbl idx ots outid rc :
  0 <= last_id -> Z.of_nat (length tbl) <= 65536 -> rc <> OS_SUCCESS ->
  OS_ObjectIdAllocateNew name self (mk_objtype last_id tbl) = (OS_SUCCESS, idx, ots) ->
  OS_ObjectIdFinalizeNew rc idtype idx (TimeBase.set_name_entry ots idx stored) outid
  = (rc,
     mk_objtype (last_id_issued ots)
       (<[idx := mk_common (Some stored) OS_OBJECT_ID_UNDEFINED self 0 0]> tbl),
     match outid with Some _ => Some OS_OBJECT_ID_UNDEFINED | None => None end)
  /\ active_id <$> <[idx := mk_common (Some stored) OS_OBJECT_ID_UNDEFINED self 0 0]> tbl
     = active_id <$> tbl.
Proof.
  intros Hid Hlen Hrc Halloc.
  destruct (OS_ObjectIdAllocateNew_success _ _ _ _ _ _ Hid Hlen Halloc)
    as (Hrec & Hs & Hi & (r & Hr & Hfree) & _).
  pose proof (lookup_lt_Some _ _ _ Hr) as Hlt.
  split.
  - unfold TimeBase.set_name_entry. rewrite Hrec.
    rewrite list_lookup_insert_eq by exact Hlt.
    unfold OS_ObjectIdFinalizeNew. cbn [records last_id_issued active_id creator refcount flags].
    rewrite list_lookup_insert_eq by (rewrite !length_insert; exact Hlt).
    rewrite !list_insert_insert_eq.
    apply Z.eqb_neq in Hrc. rewrite Hrc. reflexivity.
  - rewrite list_fmap_insert. cbn [active_id].
    apply list_insert_id. rewrite list_lookup_fmap, Hr. cbn.
    unfold OS_ObjectIdDefined in Hfree. apply negb_false_iff, Z.eqb_eq in Hfree.
    now rewrite Hfree.
Qed.

End IdManagerProperties.

Section LookupProperties.

(** What a successful lookup by handle says about the table. *)
Lemma OS_ObjectIdGetById_success lock_mode idtype id tbl idx tbl' :
  OS_ObjectIdGetById lock_mode idtype id tbl = (OS_SUCCESS, idx, tbl') ->
  OS_ObjectIdToArrayIndex idtype (length tbl) id = (OS_SUCCESS, idx)
  /\ (exists r, tbl !! idx = Some r /\ active_id r = id)
  /\ length tbl' = length tbl
  /\ (lock_mode <> OS_LOCK_MODE_REFCOUNT -> tbl' = tbl).
Proof.
  unfold OS_ObjectIdGetById.
  destruct (OS_ObjectIdToArrayIndex idtype (length tbl) id) as [rc i] eqn:Hidx.
  destruct (Z.eqb_spec rc OS_SUCCESS) as [->|Hrc]; cbn [negb]; [|discriminate].
  destruct (tbl !! i) as [r|] eqn:Hr; [|discriminate].
  unfold OS_ObjectIdEqual.
  destruct (Z.eqb_spec (active_id r) id) as [Hid|Hid]; cbn [negb]; [|discriminate].
  destruct (OS_ObjectIdConvertLock lock_mode r) as [rc' r'] eqn:Hlock.
  intros Heq. injection Heq as -> <- <-.
  split; [reflexivity|]. split; [eauto|]. split; [apply length_insert|].
  intros Hmode. destruct lock_mode; cbn in Hlock.
  - injection Hlock as <-. now apply list_insert_id.
  - injection Hlock as <-. now apply list_insert_id.
  - destruct (refcount r =? 0); [|discriminate].
    injection Hlock as <-. now apply list_insert_id.
  - contradiction.
Qed.

(** A handle whose slot holds another handle is rejected, whatever the
    lock mode, and the table is left alone. *)
Lemma OS_ObjectIdGetById_stale lock_mode idtype id tbl idx r :
  OS_ObjectIdToArrayIndex idtype (length tbl) id = (OS_SUCCESS, idx) ->
  tbl !! idx = Some r -> active_id r <> id ->
  OS_ObjectIdGetById lock_mode idtype id tbl = (OS_ERR_INVALID_ID, 0%nat, tbl).
Proof.
  intros Hidx Hr Hid. unfold OS_ObjectIdGetById. rewrite Hidx.
  change (negb (OS_SUCCESS =? OS_SUCCESS)) with false. cbv iota. rewrite Hr.
  unfold OS_ObjectIdEqual. apply Z.eqb_neq in Hid. rewrite Hid. reflexivity.
Qed.

(** A handle that names a slot of a type other than 0 is defined. *)
Lemma OS_ObjectIdToArrayIndex_defined idtype capacity id idx :
  idtype <> 0 ->
  OS_ObjectIdToArrayIndex idtype capacity id = (OS_SUCCESS, idx) -> id <> 0.
Proof.
  intros Ht. unfold OS_ObjectIdToArrayIndex.
  destruct (Z.eqb_spec (OS_ObjectIdToType_Impl id) idtype) as [Heq|]; cbn [negb];
    [|discriminate].
  intros _ ->. apply Ht. rewrite <- Heq. reflexivity.
Qed.

(** After finalize-delete, the handle deleted is no longer accepted. *)
Lemma OS_ObjectIdGetById_deleted lock_mode lock_mode' idtype id tbl idx tbl1 :
  idtype <> 0 ->
  OS_ObjectIdGetById lock_mode idtype id tbl = (OS_SUCCESS, idx, tbl1) ->
  OS_ObjectIdGetById lock_mode' idtype id (<[idx := common_zero]> tbl1)
  = (OS_ERR_INVALID_ID, 0%nat, <[idx := common_zero]> tbl1).
Proof.
  intros Ht Hget.
  destruct (OS_ObjectIdGetById_success _ _ _ _ _ _ Hget) as (Hidx & (r & Hr & Hid) & Hlen & _).
  pose proof (lookup_lt_Some _ _ _ Hr) as Hlt.
  apply (OS_ObjectIdGetById_stale _ _ _ _ idx common_zero).
  - rewrite length_insert, Hlen. exact Hidx.
  - apply list_lookup_insert_eq. lia.
  - cbn. intros Heq. symmetry in Heq. revert Heq.
    apply (OS_ObjectIdToArrayIndex_defined _ _ _ _ Ht Hidx).
Qed.

(** The search of a table in which nothing matched finds the slot that
    has been given an active record that matches. *)
Lemma OS_ObjectIdSearch_insert MatchFunc MatchFunc' r :
  OS_ObjectIdDefined (active_id r) = true ->
  OS_ObjectIdEqual (active_id r) OS_OBJECT_ID_RESERVED = false ->
  forall tbl i idx,
    (idx < length tbl)%nat ->
    OS_ObjectIdSearch MatchFunc i tbl = None ->
    (forall j r', (j <> i + idx)%nat -> MatchFunc' j r' = MatchFunc j r') ->
    MatchFunc' (i + idx)%nat r = true ->
    OS_ObjectIdSearch MatchFunc' i (<[idx := r]> tbl) = Some (i + idx)%nat.
Proof.
  intros Hdef Hres. unfold OS_ObjectIdEqual in Hres.
  induction tbl as [|r0 tbl IH]; intros i idx Hlt Hnone Hsame Hmatch; [simpl in Hlt; lia|].
  destruct idx as [|idx]; cbn [OS_ObjectIdSearch] in *.
  - cbn. rewrite Nat.add_0_r in *. rewrite Hdef, Hres, Hmatch. reflexivity.
  - cbn [insert list_insert]. cbn [OS_ObjectIdSearch].
    rewrite (Hsame i r0) by lia.
    destruct (OS_ObjectIdDefined (active_id r0)
              && negb (active_id r0 =? OS_OBJECT_ID_RESERVED)
              && MatchFunc i r0); [discriminate|].
    replace (i + S idx)%nat with (S i + idx)%nat by lia.
    apply IH.
    + simpl in Hlt. lia.
    + exact Hnone.
    + intros j r' Hj. apply Hsame. lia.
    + replace (S i + idx)%nat with (i + S idx)%nat by lia. exact Hmatch.
Qed.

End LookupProperties.

(** ** A queue from creation to deletion *)

Lemma strncpy_short s n : (String.length s <= n)%nat -> strncpy s n = s.
Proof.
  unfold strncpy. revert n. induction s as [|c s IH]; intros n Hn.
  - destruct n; reflexivity.
  - destruct n; simpl in *; [lia|]. rewrite IH by lia. reflexivity.
Qed.

Section QueueLifecycle.

Import Queue.

Context `{OsConfig} {P : Type} `{QueueAdapter P} `{QueueLifecycleAdapter P}.

Variable OS_QUEUE_MAX_DEPTH : Z.
Variable self : osal_id_t.

(** X3.  A queue that has been created is there: its handle is a queue
    handle, the name finds it, [OS_QueueGetInfo] reports the name and the
    creator, and [OS_QueueGet] checks the size of the caller's buffer
    against the message size given at creation before the adapter of the
    queue's slot sees the call.  The queue's slot is the one that the
    handle names: it holds the handle in the common table and the name,
    the message size and the depth in the queue table. *)
Theorem OS_QueueCreate_then_use
    (q0 : osal_id_t) (name : string) (queue_depth data_size flags last_id : Z)
    (st : State) (p : P) (id : osal_id_t) (last_id' : Z) (st' : State) (p' : P) :
  0 <= last_id ->
  Z.of_nat (length (OS_global_queue_table st)) <= 65536 ->
  length (OS_queue_table st) = length (OS_global_queue_table st) ->
  OS_QueueCreate OS_QUEUE_MAX_DEPTH self (Some q0) (Some name) queue_depth data_size flags
    last_id st p = (OS_SUCCESS, Some id, last_id', st', p') ->
  OS_ObjectIdToType_Impl id = OS_OBJECT_TYPE_OS_QUEUE
  /\ queue_depth <= OS_QUEUE_MAX_DEPTH
  /\ (name <> "" -> OS_QueueGetIdByName (Some q0) (Some name) st' = (OS_SUCCESS, Some id))
  /\ (forall prop,
        OS_QueueGetInfo id (Some prop) st' = (OS_SUCCESS, Some (mk_queue_prop name self)))
  /\ exists local_id,
       OS_ObjectIdToArrayIndex OS_OBJECT_TYPE_OS_QUEUE
         (length (OS_global_queue_table st')) id = (OS_SUCCESS, local_id)
       /\ OS_global_queue_table st' !! local_id = Some (mk_common (Some name) id self 0 0)
       /\ OS_queue_table st' !! local_id = Some (mk_queue name data_size queue_depth)
       /\ forall buf size copied timeout p2,
            OS_QueueGet id (Some buf) size (Some copied) timeout st' p2 =
            if size <? data_size then (OS_QUEUE_INVALID_SIZE, Some buf, Some 0, p2)
            else
              let '(return_code, buf, copied, p2) :=
                OS_QueueGet_Impl local_id buf size copied timeout p2 in
              (return_code, Some buf, Some copied, p2).
Proof.
  intros Hid Hlen Htabs. unfold OS_QueueCreate.
  destruct (Nat.leb_spec OS_MAX_API_NAME (String.length name)) as [|Hname]; [discriminate|].
  destruct (Z.ltb_spec OS_QUEUE_MAX_DEPTH queue_depth) as [|Hdepth]; [discriminate|].
  destruct (OS_ObjectIdAllocateNew name self (mk_objtype last_id (OS_global_queue_table st)))
    as [[rc local_id] ots] eqn:Halloc.
  destruct (Z.eqb_spec rc OS_SUCCESS) as [->|]; [|intros Heq; injection Heq; congruence].
  destruct (OS_QueueCreate_Impl local_id flags _ p) as [rc1 p1].
  destruct (Z.eq_dec rc1 OS_SUCCESS) as [->|Hrc1].
  - destruct (OS_ObjectId_created name name self OS_OBJECT_TYPE_OS_QUEUE last_id
                (OS_global_queue_table st) local_id ots (Some q0) Hid Hlen
                ltac:(unfold OS_OBJECT_TYPE_OS_QUEUE; lia) Halloc) as (-> & Hidx & Hlt).
    destruct (OS_ObjectIdAllocateNew_success _ _ _ _ _ _ Hid Hlen Halloc)
      as (_ & Hserial & _ & _ & Hfresh).
    cbn [records last_id_issued].
    intros Heq. injection Heq as <- <- <- <-.
    set (id := OS_ObjectIdCompose_Impl OS_OBJECT_TYPE_OS_QUEUE (last_id_issued ots)) in *.
    set (r := mk_common (Some name) id self 0 0).
    set (gtbl := <[local_id := r]> (OS_global_queue_table st)).
    assert (Hr : gtbl !! local_id = Some r) by (apply list_lookup_insert_eq; exact Hlt).
    assert (Hidx' : OS_ObjectIdToArrayIndex OS_OBJECT_TYPE_OS_QUEUE (length gtbl) id
                    = (OS_SUCCESS, local_id)).
    { unfold gtbl. rewrite length_insert. exact Hidx. }
    assert (Hfield : 0 <= OS_OBJECT_TYPE_OS_QUEUE < 2 ^ 16) by (unfold OS_OBJECT_TYPE_OS_QUEUE; lia).
    pose proof (OS_ObjectIdCompose_type _ _ Hfield Hserial) as Htype.
    pose proof (OS_ObjectIdCompose_defined _ _ Hfield Hserial) as Hdef.
    pose proof (OS_ObjectIdCompose_not_reserved _ _ Hfield Hserial) as Hres.
    split; [exact Htype|]. split; [exact Hdepth|].
    split; [|split].
    + intros Hne. unfold OS_QueueGetIdByName, OS_ObjectIdFindByName. cbn [OS_global_queue_table].
      fold gtbl.
      assert (Hfound : OS_ObjectIdSearch (OS_ObjectNameMatch name) 0 gtbl = Some local_id).
      { apply (OS_ObjectIdSearch_insert (OS_ObjectNameMatch name) (OS_ObjectNameMatch name) r
                 (Hdef ltac:(unfold OS_OBJECT_TYPE_OS_QUEUE; lia))
                 (Hres ltac:(unfold OS_OBJECT_TYPE_OS_QUEUE; lia))
                 (OS_global_queue_table st) 0%nat local_id Hlt (Hfresh Hne)
                 ltac:(reflexivity)).
        unfold OS_ObjectNameMatch. cbn. now apply bool_decide_eq_true. }
      rewrite Hfound, Hr. reflexivity.
    + intros prop. unfold OS_QueueGetInfo. cbn [OS_global_queue_table]. fold gtbl.
      rewrite (OS_ObjectIdGetById_live OS_LOCK_MODE_GLOBAL _ id gtbl local_id r
                 ltac:(auto) Hidx' Hr eq_refl).
      change (OS_SUCCESS =? OS_SUCCESS) with true. cbv iota. rewrite Hr. cbn -[strncpy].
      rewrite strncpy_short by lia. reflexivity.
    + exists local_id. cbn [OS_global_queue_table OS_queue_table]. fold gtbl.
      split; [exact Hidx'|]. split; [exact Hr|].
      split; [apply list_lookup_insert_eq; lia|].
      intros buf size copied timeout p2.
      unfold OS_QueueGet. cbn [OS_global_queue_table OS_queue_table]. fold gtbl.
      rewrite (OS_ObjectIdGetById_live OS_LOCK_MODE_NONE _ id gtbl local_id r
                 ltac:(auto) Hidx' Hr eq_refl).
      change (OS_SUCCESS =? OS_SUCCESS) with true. cbv iota.
      rewrite list_lookup_insert_eq by lia. cbn [max_size]. reflexivity.
  - destruct (OS_ObjectId_rolled_back name name self OS_OBJECT_TYPE_OS_QUEUE last_id
                (OS_global_queue_table st) local_id ots (Some q0) rc1 Hid Hlen Hrc1 Halloc)
      as (-> & _).
    intros Heq. injection Heq; congruence.
Qed.

(** X4.  What [OS_QueueCreate] does when it does not create.  A NULL
    pointer gives [OS_INVALID_POINTER], a name of [OS_MAX_API_NAME]
    characters or more [OS_ERR_NAME_TOO_LONG], and a depth above
    [OS_QUEUE_MAX_DEPTH] [OS_QUEUE_INVALID_SIZE], each with nothing
    changed.  And a create that fails, for whatever reason (these, no
    free slot, a name taken, a failure of the adapter), leaves no queue
    behind: the handles of the table are the ones that were there, and
    the caller's handle variable is untouched or undefined. *)
Theorem OS_QueueCreate_failure_leaves_no_queue
    (queue_id : option osal_id_t) (queue_name : option string)
    (queue_depth data_size flags last_id : Z)
    (st : State) (p : P) (rc : Z) (queue_id' : option osal_id_t) (last_id' : Z)
    (st' : State) (p' : P) :
  0 <= last_id ->
  Z.of_nat (length (OS_global_queue_table st)) <= 65536 ->
  OS_QueueCreate OS_QUEUE_MAX_DEPTH self queue_id queue_name queue_depth data_size flags
    last_id st p = (rc, queue_id', last_id', st', p') ->
  (queue_name = None \/ queue_id = None ->
   rc = OS_INVALID_POINTER /\ queue_id' = queue_id /\ st' = st /\ p' = p)
  /\ (forall name q0, queue_name = Some name -> queue_id = Some q0 ->
      (OS_MAX_API_NAME <= String.length name)%nat ->
      rc = OS_ERR_NAME_TOO_LONG /\ queue_id' = queue_id /\ st' = st /\ p' = p)
  /\ (forall name q0, queue_name = Some name -> queue_id = Some q0 ->
      (String.length name < OS_MAX_API_NAME)%nat -> OS_QUEUE_MAX_DEPTH < queue_depth ->
      rc = OS_QUEUE_INVALID_SIZE /\ queue_id' = queue_id /\ st' = st /\ p' = p)
  /\ (rc <> OS_SUCCESS ->
      active_id <$> OS_global_queue_table st' = active_id <$> OS_global_queue_table st
      /\ (queue_id' = queue_id \/ queue_id' = Some OS_OBJECT_ID_UNDEFINED)).
Proof.
  intros Hid Hlen. unfold OS_QueueCreate.
  destruct queue_name as [name|], queue_id as [q0|];
    try (intros Heq; injection Heq as <- <- <- <- <-;
         split; [intros _; auto|];
         split; [intros ? ? ? ?; discriminate|];
         split; [intros ? ? ? ?; discriminate|]; intros _; auto).
  destruct (Nat.leb_spec OS_MAX_API_NAME (String.length name)) as [Hlong|Hname].
  { intros Heq. injection Heq as <- <- <- <- <-.
    split; [intros [|]; discriminate|]. split; [auto|].
    split; [intros ? ? [= <-] _ ?; lia|]. intros _; auto. }
  destruct (Z.ltb_spec OS_QUEUE_MAX_DEPTH queue_depth) as [Hdeep|Hdepth].
  { intros Heq. injection Heq as <- <- <- <- <-.
    split; [intros [|]; discriminate|]. split; [intros ? ? [= <-] _ ?; lia|].
    split; [auto|]. intros _; auto. }
  destruct (OS_ObjectIdAllocateNew name self (mk_objtype last_id (OS_global_queue_table st)))
    as [[rc0 local_id] ots] eqn:Halloc.
  destruct (Z.eqb_spec rc0 OS_SUCCESS) as [->|Hrc0].
  - destruct (OS_QueueCreate_Impl local_id flags _ p) as [rc1 p1].
    destruct (Z.eq_dec rc1 OS_SUCCESS) as [->|Hrc1].
    + destruct (OS_ObjectId_created name name self OS_OBJECT_TYPE_OS_QUEUE last_id
                  (OS_global_queue_table st) local_id ots (Some q0) Hid Hlen
                  ltac:(unfold OS_OBJECT_TYPE_OS_QUEUE; lia) Halloc) as (-> & _).
      intros Heq. injection Heq as <- _ _ _ _.
      split; [intros [|]; discriminate|].
      split; [intros ? ? [= <-] _ ?; lia|].
      split; [intros ? ? [= <-] _ ? ?; lia|]. intros Hrc. contradiction.
    + destruct (OS_ObjectId_rolled_back name name self OS_OBJECT_TYPE_OS_QUEUE last_id
                  (OS_global_queue_table st) local_id ots (Some q0) rc1 Hid Hlen Hrc1 Halloc)
        as (-> & Hids).
      cbn [records last_id_issued]. intros Heq. injection Heq as <- <- <- <- <-.
      cbn [OS_global_queue_table].
      split; [intros [|]; discriminate|].
      split; [intros ? ? [= <-] _ ?; lia|].
      split; [intros ? ? [= <-] _ ? ?; lia|]. intros _. split; [exact Hids|auto].
  - intros Heq. injection Heq as <- <- <- <- <-.
    split; [intros [|]; discriminate|].
    split; [intros ? ? [= <-] _ ?; lia|].
    split; [intros ? ? [= <-] _ ? ?; lia|]. intros _. split; [reflexivity|auto].
Qed.

End QueueLifecycle.

(** A platform on which creating and deleting a queue empties its list
    of messages. *)
Definition quiet_queue_lifecycle : Queue.QueueLifecycleAdapter (list (list Z)) :=
  {| Queue.OS_QueueCreate_Impl := fun _ _ _ _ => (OS_SUCCESS, []);
     Queue.OS_QueueDelete_Impl := fun _ _ => (OS_SUCCESS, []) |}.

(** The tables of scenario S2 after a second queue, [r], has been
    created in the free slot. *)
Definition s2_two_queues : Queue.State :=
  Queue.mk_state
    [mk_common (Some "r") (OS_ObjectIdCompose_Impl 2 2) 65537 0 0;
     mk_common (Some "q") (OS_ObjectIdCompose_Impl 2 1) 65537 0 0]
    [Queue.mk_queue "r" 16 4; Queue.mk_queue "q" 8 4].

(** Creating the queue [r], with messages of 16 bytes, beside the queue
    of scenario S2: the name finds it, and a get with a buffer of 8
    bytes is refused. *)
Lemma OS_QueueCreate_then_use_witness :
  @Queue.OS_QueueCreate sample_config _ quiet_queue_lifecycle 10 65537 (Some 0) (Some "r")
    4 16 0 1 s2_queue_state [s2_message]
  = (OS_SUCCESS, Some (OS_ObjectIdCompose_Impl 2 2), 2, s2_two_queues, [])
  /\ Queue.OS_QueueGetIdByName (Some 0) (Some "r") s2_two_queues
     = (OS_SUCCESS, Some (OS_ObjectIdCompose_Impl 2 2))
  /\ OS_ObjectIdToType_Impl (OS_ObjectIdCompose_Impl 2 2) = OS_OBJECT_TYPE_OS_QUEUE.
Proof.
  assert (Hcreate :
    @Queue.OS_QueueCreate sample_config _ quiet_queue_lifecycle 10 65537 (Some 0) (Some "r")
      4 16 0 1 s2_queue_state [s2_message]
    = (OS_SUCCESS, Some (OS_ObjectIdCompose_Impl 2 2), 2, s2_two_queues, []))
    by reflexivity.
  split; [exact Hcreate|].
  destruct (@OS_QueueCreate_then_use sample_config _ fifo_adapter quiet_queue_lifecycle
              10 65537 0 "r" 4 16 0 1 s2_queue_state [s2_message]
              (OS_ObjectIdCompose_Impl 2 2) 2 s2_two_queues []
              ltac:(lia) ltac:(simpl; lia) ltac:(reflexivity) Hcreate)
    as (Htype & _ & Hname & _).
  split; [apply Hname; discriminate|exact Htype].
Defined.

(** A depth of 11 where the limit is 10. *)
Lemma OS_QueueCreate_failure_leaves_no_queue_witness :
  @Queue.OS_QueueCreate sample_config _ quiet_queue_lifecycle 10 65537 (Some 0) (Some "r")
    11 16 0 1 s2_queue_state [s2_message]
  = (OS_QUEUE_INVALID_SIZE, Some 0, 1, s2_queue_state, [s2_message])
  /\ active_id <$> Queue.OS_global_queue_table s2_queue_state
     = active_id <$> Queue.OS_global_queue_table s2_queue_state.
Proof.
  assert (Hcreate :
    @Queue.OS_QueueCreate sample_config _ quiet_queue_lifecycle 10 65537 (Some 0) (Some "r")
      11 16 0 1 s2_queue_state [s2_message]
    = (OS_QUEUE_INVALID_SIZE, Some 0, 1, s2_queue_state, [s2_message]))
    by reflexivity.
  split; [exact Hcreate|].
  destruct (@OS_QueueCreate_failure_leaves_no_queue sample_config _ quiet_queue_lifecycle
              10 65537 (Some 0) (Some "r") 11 16 0 1 s2_queue_state [s2_message]
              OS_QUEUE_INVALID_SIZE (Some 0) 1 s2_queue_state [s2_message]
              ltac:(lia) ltac:(simpl; lia) Hcreate) as (_ & _ & _ & Hfailed).
  apply Hfailed. discriminate.
Defined.

Section DeleteProperties.

(** Clearing the slot of one handle does not change what a lookup
    without lock says about another handle. *)
Lemma OS_ObjectIdGetById_other idtype id id2 tbl idx r :
  idtype <> 0 -> tbl !! idx = Some r -> active_id r = id -> id2 <> id ->
  fst (OS_ObjectIdGetById OS_LOCK_MODE_NONE idtype id2 (<[idx := common_zero]> tbl))
  = fst (OS_ObjectIdGetById OS_LOCK_MODE_NONE idtype id2 tbl).
Proof.
  intros Ht Hr Hid Hne. unfold OS_ObjectIdGetById. rewrite length_insert.
  destruct (OS_ObjectIdToArrayIndex idtype (length tbl) id2) as [rc i] eqn:Hidx.
  destruct (Z.eqb_spec rc OS_SUCCESS) as [->|]; cbn [negb]; [|reflexivity].
  pose proof (OS_ObjectIdToArrayIndex_defined _ _ _ _ Ht Hidx) as Hdef.
  destruct (Nat.eq_dec i idx) as [->|Hi].
  - rewrite list_lookup_insert_eq by (eapply lookup_lt_Some; eauto). rewrite Hr.
    unfold OS_ObjectIdEqual. cbn [active_id common_zero]. rewrite Hid.
    destruct (Z.eqb_spec id id2); [congruence|].
    destruct (Z.eqb_spec OS_OBJECT_ID_UNDEFINED id2);
      [unfold OS_OBJECT_ID_UNDEFINED in *; congruence|].
    reflexivity.
  - rewrite list_lookup_insert_ne by congruence.
    destruct (tbl !! i) as [r2|]; [|reflexivity].
    destruct (negb (OS_ObjectIdEqual (active_id r2) id2)); reflexivity.
Qed.

End DeleteProperties.

Section QueueDelete.

Import Queue.

Context `{OsConfig} {P : Type} `{QueueAdapter P} `{QueueLifecycleAdapter P}.

(** X5.  A queue that has been deleted is gone: get, put, the
    information query and a second delete on its handle fail with
    [OS_ERR_INVALID_ID], and none of them reaches the adapter; a put on
    any other handle does what it did before. *)
Theorem OS_QueueDelete_then_use
    (queue_id : osal_id_t) (st : State) (p : P) (st' : State) (p' : P) :
  OS_QueueDelete queue_id st p = (OS_SUCCESS, st', p') ->
  (forall buf size copied timeout p2,
      OS_QueueGet queue_id (Some buf) size (Some copied) timeout st' p2
      = (OS_ERR_INVALID_ID, Some buf, Some copied, p2))
  /\ (forall buf size flags p2,
        OS_QueuePut queue_id (Some buf) size flags st' p2 = (OS_ERR_INVALID_ID, p2))
  /\ (forall prop,
        OS_QueueGetInfo queue_id (Some prop) st' = (OS_ERR_INVALID_ID, Some queue_prop_zero))
  /\ (forall p2, OS_QueueDelete queue_id st' p2 = (OS_ERR_INVALID_ID, st', p2))
  /\ (forall other buf size flags p2,
        other <> queue_id ->
        OS_QueuePut other (Some buf) size flags st' p2
        = OS_QueuePut other (Some buf) size flags st p2).
Proof.
  unfold OS_QueueDelete.
  destruct (OS_ObjectIdGetById OS_LOCK_MODE_EXCLUSIVE OS_OBJECT_TYPE_OS_QUEUE queue_id
              (OS_global_queue_table st)) as [[rc idx] tbl] eqn:Hget.
  destruct (Z.eqb_spec rc OS_SUCCESS) as [->|Hrc]; [|intros Heq; injection Heq; congruence].
  destruct (OS_QueueDelete_Impl idx p) as [rc1 p1].
  unfold OS_ObjectIdFinalizeDelete.
  destruct (Z.eqb_spec rc1 OS_SUCCESS) as [->|Hrc1]; [|intros Heq; injection Heq; congruence].
  intros Heq. injection Heq as <- <-.
  assert (Ht : OS_OBJECT_TYPE_OS_QUEUE <> 0) by discriminate.
  pose proof (fun m => OS_ObjectIdGetById_deleted _ m _ _ _ _ _ Ht Hget) as Hgone.
  destruct (OS_ObjectIdGetById_success _ _ _ _ _ _ Hget) as (_ & (r & Hr & Hid) & _ & Hsame).
  rewrite (Hsame ltac:(discriminate)) in *.
  split; [|split; [|split; [|split]]].
  - intros. unfold OS_QueueGet. cbn [OS_global_queue_table]. rewrite Hgone. reflexivity.
  - intros. unfold OS_QueuePut. cbn [OS_global_queue_table]. rewrite Hgone. reflexivity.
  - intros. unfold OS_QueueGetInfo. cbn [OS_global_queue_table]. rewrite Hgone. reflexivity.
  - intros. unfold OS_QueueDelete. cbn [OS_global_queue_table OS_queue_table].
    rewrite Hgone. reflexivity.
  - intros other buf size flags p2 Hother. unfold OS_QueuePut. cbn [OS_global_queue_table].
    pose proof (OS_ObjectIdGetById_other OS_OBJECT_TYPE_OS_QUEUE queue_id other
                  (OS_global_queue_table st) idx r Ht Hr Hid Hother) as Hfst.
    destruct (OS_ObjectIdGetById OS_LOCK_MODE_NONE OS_OBJECT_TYPE_OS_QUEUE other
                (<[idx := common_zero]> (OS_global_queue_table st))) as [[rc2 i2] t2].
    destruct (OS_ObjectIdGetById OS_LOCK_MODE_NONE OS_OBJECT_TYPE_OS_QUEUE other
                (OS_global_queue_table st)) as [[rc3 i3] t3].
    cbn [fst] in Hfst. injection Hfst as -> ->. reflexivity.
Qed.

End QueueDelete.

(** The tables of scenario S2 after its queue has been deleted. *)
Definition s2_no_queue : Queue.State :=
  Queue.mk_state [common_zero; common_zero] [Queue.mk_queue "" 0 0; Queue.mk_queue "q" 8 4].

(** Deleting the queue of scenario S2, then putting a message on it. *)
Lemma OS_QueueDelete_then_use_witness :
  @Queue.OS_QueueDelete _ quiet_queue_lifecycle (OS_ObjectIdCompose_Impl 2 1)
    s2_queue_state [s2_message]
  = (OS_SUCCESS, s2_no_queue, [])
  /\ @Queue.OS_QueuePut _ fifo_adapter (OS_ObjectIdCompose_Impl 2 1) (Some s2_message) 8 0
       s2_no_queue []
     = (OS_ERR_INVALID_ID, []).
Proof.
  assert (Hdelete :
    @Queue.OS_QueueDelete _ quiet_queue_lifecycle (OS_ObjectIdCompose_Impl 2 1)
      s2_queue_state [s2_message]
    = (OS_SUCCESS, s2_no_queue, [])) by reflexivity.
  split; [exact Hdelete|].
  destruct (@OS_QueueDelete_then_use sample_config _ fifo_adapter quiet_queue_lifecycle
              (OS_ObjectIdCompose_Impl 2 1) s2_queue_state [s2_message] s2_no_queue []
              Hdelete) as (_ & Hput & _).
  apply Hput.
Defined.

(** ** A time base from creation to deletion *)

Section TimeBaseLifecycle.

Import TimeBase.

Context `{OsConfig} {P : Type} `{TimeBaseAdapter P}.

Variable self : osal_id_t.
Variable MicroSecPerTick : Z.

(** X6.  A time base that has been created is there, and starts from
    nothing: its handle is a time base handle, the name finds it, its
    free-running counter reads zero, and [OS_TimeBaseGetInfo] hands the
    adapter the name, the creator, a nominal interval and a counter of
    zero, and the tick length of the OS timer as the accuracy when there
    is no external sync function. *)
Theorem OS_TimeBaseCreate_then_use
    (t0 : osal_id_t) (name : string) (external_sync : option nat)
    (st : State) (p : P) (id : osal_id_t) (st' : State) (p' : P) :
  0 <= last_id_issued (OS_global_timebase_table st) ->
  Z.of_nat (length (records (OS_global_timebase_table st))) <= 65536 ->
  length (OS_timebase_table st) = length (records (OS_global_timebase_table st)) ->
  OS_TimeBaseCreate self MicroSecPerTick (Some t0) (Some name) external_sync st p
  = (OS_SUCCESS, Some id, st', p') ->
  OS_ObjectIdToType_Impl id = OS_OBJECT_TYPE_OS_TIMEBASE
  /\ (forall v, OS_TimeBaseGetFreeRun id v st' = (OS_SUCCESS, 0))
  /\ (name <> "" -> OS_TimeBaseGetIdByName self (Some t0) (Some name) st'
                    = (OS_SUCCESS, Some id))
  /\ exists local_id,
       forall prop p2,
         OS_TimeBaseGetInfo self id (Some prop) st' p2 =
         let '(return_code, prop) :=
           OS_TimeBaseGetInfo_Impl local_id
             (mk_timebase_prop name self 0 0
                (match external_sync with None => MicroSecPerTick | Some _ => 0 end)) p2 in
         (return_code, Some prop).
Proof.
  intros Hid Hlen Htabs. unfold OS_TimeBaseCreate.
  destruct (Nat.leb_spec OS_MAX_API_NAME (String.length name)) as [|Hname]; [discriminate|].
  destruct (OS_ObjectIdToType_Impl self =? OS_OBJECT_TYPE_OS_TIMEBASE) eqn:Hself;
    [discriminate|].
  destruct (OS_global_timebase_table st) as [last_id tbl] eqn:Hg.
  cbn [last_id_issued records] in *.
  destruct (OS_ObjectIdAllocateNew name self (mk_objtype last_id tbl))
    as [[rc local_id] ots] eqn:Halloc.
  destruct (Z.eqb_spec rc OS_SUCCESS) as [->|]; [|intros Heq; injection Heq; congruence].
  rewrite strncpy_short by lia.
  cbn [OS_global_timebase_table set_timebase_table set_global_timebase_table].
  destruct (OS_TimeBaseCreate_Impl local_id _ p) as [rc1 p1].
  destruct (Z.eq_dec rc1 OS_SUCCESS) as [->|Hrc1].
  - destruct (OS_ObjectId_created name name self OS_OBJECT_TYPE_OS_TIMEBASE last_id
                tbl local_id ots (Some t0) Hid Hlen
                ltac:(unfold OS_OBJECT_TYPE_OS_TIMEBASE; lia) Halloc) as (-> & Hidx & Hlt).
    destruct (OS_ObjectIdAllocateNew_success _ _ _ _ _ _ Hid Hlen Halloc)
      as (_ & Hserial & _ & _ & Hfresh).
    intros Heq. injection Heq as <- <- <-.
    set (id := OS_ObjectIdCompose_Impl OS_OBJECT_TYPE_OS_TIMEBASE (last_id_issued ots)) in *.
    set (r := mk_common (Some name) id self 0 0).
    set (gtbl := <[local_id := r]> tbl).
    assert (Hr : gtbl !! local_id = Some r) by (apply list_lookup_insert_eq; exact Hlt).
    assert (Hidx' : OS_ObjectIdToArrayIndex OS_OBJECT_TYPE_OS_TIMEBASE (length gtbl) id
                    = (OS_SUCCESS, local_id)).
    { unfold gtbl. rewrite length_insert. exact Hidx. }
    assert (Hfield : 0 <= OS_OBJECT_TYPE_OS_TIMEBASE < 2 ^ 16) by (unfold OS_OBJECT_TYPE_OS_TIMEBASE; lia).
    pose proof (OS_ObjectIdCompose_type _ _ Hfield Hserial) as Htype.
    pose proof (OS_ObjectIdCompose_defined _ _ Hfield Hserial) as Hdef.
    pose proof (OS_ObjectIdCompose_not_reserved _ _ Hfield Hserial) as Hres.
    split; [exact Htype|]. split; [|split].
    + intros v. unfold OS_TimeBaseGetFreeRun.
      cbn [OS_global_timebase_table OS_timebase_table set_global_timebase_table set_timebase_table records].
      fold gtbl.
      rewrite (OS_ObjectIdGetById_live OS_LOCK_MODE_NONE _ id gtbl local_id r
                 ltac:(auto) Hidx' Hr eq_refl).
      change (OS_SUCCESS =? OS_SUCCESS) with true. cbv iota.
      rewrite list_lookup_insert_eq by lia. reflexivity.
    + intros Hne. unfold OS_TimeBaseGetIdByName, OS_ObjectIdFindByName. rewrite Hself.
      cbn [OS_global_timebase_table set_global_timebase_table set_timebase_table records]. fold gtbl.
      assert (Hfound : OS_ObjectIdSearch (OS_ObjectNameMatch name) 0 gtbl = Some local_id).
      { apply (OS_ObjectIdSearch_insert (OS_ObjectNameMatch name) (OS_ObjectNameMatch name) r
                 (Hdef ltac:(unfold OS_OBJECT_TYPE_OS_TIMEBASE; lia))
                 (Hres ltac:(unfold OS_OBJECT_TYPE_OS_TIMEBASE; lia))
                 tbl 0%nat local_id Hlt (Hfresh Hne) ltac:(reflexivity)).
        unfold OS_ObjectNameMatch. cbn. now apply bool_decide_eq_true. }
      rewrite Hfound, Hr. reflexivity.
    + exists local_id. intros prop p2. unfold OS_TimeBaseGetInfo. rewrite Hself.
      cbn [OS_global_timebase_table OS_timebase_table set_global_timebase_table set_timebase_table records].
      fold gtbl.
      rewrite (OS_ObjectIdGetById_live OS_LOCK_MODE_GLOBAL _ id gtbl local_id r
                 ltac:(auto) Hidx' Hr eq_refl).
      change (OS_SUCCESS =? OS_SUCCESS) with true. cbv iota. rewrite Hr.
      rewrite list_lookup_insert_eq by lia. cbn -[strncpy].
      rewrite strncpy_short by lia. reflexivity.
  - destruct (OS_ObjectId_rolled_back name name self OS_OBJECT_TYPE_OS_TIMEBASE last_id
                tbl local_id ots (Some t0) rc1 Hid Hlen Hrc1 Halloc) as (-> & _).
    intros Heq. injection Heq; congruence.
Qed.

End TimeBaseLifecycle.

(** The tables of [idle_timebase_state] after a second time base, [tc],
    has been created in the free slot. *)
Definition two_timebases_state : TimeBase.State :=
  TimeBase.mk_state
    (mk_objtype 2
       [mk_common (Some "tc") (OS_ObjectIdCompose_Impl 8 2) 65537 0 0;
        mk_common (Some "tb") (OS_ObjectIdCompose_Impl 8 1) 65537 0 0])
    [TimeBase.mk_timebase "tc" None 1000 OS_OBJECT_ID_UNDEFINED 0 0 0;
     TimeBase.mk_timebase "tb" None 1000 OS_OBJECT_ID_UNDEFINED 0 0 0]
    [] [] [].

(** Task 65537 creates the time base [tc] with a tick of 1000
    microseconds: the name finds it and its counter reads zero. *)
Lemma OS_TimeBaseCreate_then_use_witness :
  @TimeBase.OS_TimeBaseCreate sample_config _ null_timebase_adapter 65537 1000 (Some 0)
    (Some "tc") None idle_timebase_state tt
  = (OS_SUCCESS, Some (OS_ObjectIdCompose_Impl 8 2), two_timebases_state, tt)
  /\ TimeBase.OS_TimeBaseGetFreeRun (OS_ObjectIdCompose_Impl 8 2) 99 two_timebases_state
     = (OS_SUCCESS, 0)
  /\ TimeBase.OS_TimeBaseGetIdByName 65537 (Some 0) (Some "tc") two_timebases_state
     = (OS_SUCCESS, Some (OS_ObjectIdCompose_Impl 8 2)).
Proof.
  assert (Hcreate :
    @TimeBase.OS_TimeBaseCreate sample_config _ null_timebase_adapter 65537 1000 (Some 0)
      (Some "tc") None idle_timebase_state tt
    = (OS_SUCCESS, Some (OS_ObjectIdCompose_Impl 8 2), two_timebases_state, tt))
    by reflexivity.
  split; [exact Hcreate|].
  destruct (@OS_TimeBaseCreate_then_use sample_config _ null_timebase_adapter 65537 1000 0
              "tc" None idle_timebase_state tt (OS_ObjectIdCompose_Impl 8 2)
              two_timebases_state tt
              ltac:(simpl; lia) ltac:(simpl; lia) ltac:(reflexivity) Hcreate)
    as (_ & Hfree & Hname & _).
  split; [apply Hfree|apply Hname; discriminate].
Defined.

(** *** The guard against a sync function that does not wait *)

Section SpinGuard.

Import TimeBase.

Definition is_delay (e : Event) : bool :=
  match e with EvTaskDelay _ => true | _ => false end.

Definition is_warning (e : Event) : bool :=
  match e with EvDebugWarning => true | _ => false end.

(** The number of events of a trace on which [f] holds. *)
Definition count_events (f : Event -> bool) (tr : list Event) : nat :=
  length (List.filter f tr).

(** The spin-loop guard calls no callback. *)
Lemma spin_guard_fired tick spin tr : fired (snd (spin_guard tick spin tr)) = fired tr.
Proof.
  unfold spin_guard. destruct (negb (tick =? 0)); [reflexivity|].
  destruct (spin <? OS_TIMEBASE_SPIN_LIMIT); [reflexivity|].
  destruct (spin =? OS_TIMEBASE_SPIN_LIMIT); reflexivity.
Qed.

(** The inner loop entered from a saved wait time that is not positive
    calls nothing. *)
Lemma timecb_while_quiet fuel id saved :
  saved <= 0 ->
  forall cb tr cb' tr',
    timecb_while fuel id saved cb tr = Some (cb', tr') -> tr' = tr.
Proof.
  intros Hs. induction fuel as [|fuel IH]; intros cb tr cb' tr' Hrun.
  - simpl in Hrun. destruct (negb (wait_time cb <=? 0)); [|discriminate].
    now injection Hrun as _ <-.
  - cbn [timecb_while] in Hrun. destruct (negb (wait_time cb <=? 0)).
    { now injection Hrun as _ <-. }
    destruct (Z.ltb_spec 0 saved); [lia|].
    set (cb1 := if _ <? _ then _ else _) in *.
    assert (Htr : match callback_ptr cb1 with Some _ => tr | None => tr end = tr)
      by (destruct (callback_ptr cb1); reflexivity).
    rewrite Htr in Hrun.
    destruct (interval_time cb1 <=? 0).
    + now injection Hrun as _ <-.
    + eapply IH; eauto.
Qed.

(** A tick of zero calls nothing. *)
Lemma timecb_tick_zero fuel id cb tr cb' tr' :
  timecb_int32 cb ->
  timecb_tick fuel 0 id cb tr = Some (cb', tr') -> tr' = tr.
Proof.
  intros [Hw _]. unfold timecb_tick. rewrite Z.sub_0_r, to_int32_id by exact Hw.
  destruct (Z.lt_ge_cases 0 (wait_time cb)) as [Hpos|Hneg].
  - rewrite timecb_while_pos by (destruct cb; exact Hpos). now intros [= _ <-].
  - apply timecb_while_quiet. lia.
Qed.

Lemma timecb_ring_zero fuel timer_id gtbl :
  forall m curr tbl tr tbl' tr',
    Forall timecb_int32 tbl ->
    timecb_ring (S (S (S fuel))) m 0 timer_id curr gtbl tbl tr = Some (tbl', tr') ->
    tr' = tr.
Proof.
  induction m as [|m IH]; intros curr tbl tr tbl' tr' Hok Hrun; [discriminate|].
  cbn [timecb_ring] in Hrun.
  destruct (gtbl !! curr) as [g|]; [|discriminate].
  destruct (tbl !! curr) as [cb|] eqn:Hcb; [|discriminate].
  cbn [mbind option_bind] in Hrun.
  assert (Hcbok : timecb_int32 cb).
  { rewrite Forall_forall in Hok. apply Hok. eapply list_elem_of_lookup_2; eauto. }
  destruct (timecb_tick_total fuel 0 (active_id g) cb tr Hcbok)
    as (cb1 & tr1 & Htick & _ & Hok1).
  rewrite Htick in Hrun. cbn [mbind option_bind] in Hrun.
  pose proof (timecb_tick_zero _ _ _ _ _ _ Hcbok Htick) as ->.
  destruct (negb (next_ref cb1 =? timer_id)%nat).
  - eapply IH; [|exact Hrun]. apply Forall_insert; assumption.
  - now injection Hrun as _ <-.
Qed.

(** On a tick of zero, the trace of the thread's turn is the trace of
    the spin-loop guard. *)
Lemma OS_TimeBase_CallbackThread_tick_zero fuel timebase_id local_id spin st go spin' st' :
  Forall timecb_int32 (OS_timecb_table st) ->
  OS_TimeBase_CallbackThread_tick (S (S (S fuel))) timebase_id local_id 0 spin st
  = Some (go, spin', st') ->
  (spin', trace st') = spin_guard 0 spin (trace st).
Proof.
  intros Hok. unfold OS_TimeBase_CallbackThread_tick.
  destruct (spin_guard 0 spin (trace st)) as [s1 tr1].
  destruct (records (OS_global_timebase_table st) !! local_id) as [record|]; [|discriminate].
  destruct (OS_timebase_table st !! local_id) as [tb|]; [|discriminate].
  cbn [mbind option_bind].
  destruct (negb (OS_ObjectIdEqual timebase_id (active_id record))).
  { intros [= _ <- <-]. reflexivity. }
  cbn [first_cb set_freerun_time set_timebase_table OS_global_timecb_table OS_timecb_table
       OS_timebase_table].
  destruct (OS_ObjectIdToArrayIndex OS_OBJECT_TYPE_OS_TIMECB
              (length (OS_global_timecb_table st)) (first_cb tb)) as [rc timer_id].
  destruct (rc =? 0).
  - destruct (timecb_ring (S (S (S fuel))) (S (S (S fuel))) 0 timer_id timer_id
                (OS_global_timecb_table st) (OS_timecb_table st) tr1)
      as [[tbl' tr']|] eqn:Hring; [|discriminate].
    cbn [mbind option_bind]. intros [= _ <- <-]. cbn [trace set_trace].
    now rewrite (timecb_ring_zero _ _ _ _ _ _ _ _ _ Hok Hring).
  - intros [= _ <- <-]. reflexivity.
Qed.

(** A run of [n] turns of the guard on ticks of zero. *)
Fixpoint spin_run (n : nat) (spin : Z) (tr : list Event) : Z * list Event :=
  match n with
  | O => (spin, tr)
  | S n' => let '(spin, tr) := spin_guard 0 spin tr in spin_run n' spin tr
  end.

Lemma spin_run_counts n :
  forall spin tr,
    0 <= spin <= 5 ->
    let tr' := snd (spin_run n spin tr) in
    fired tr' = fired tr
    /\ count_events is_delay tr'
       = (count_events is_delay tr + (n - Z.to_nat (4 - spin)%Z))%nat
    /\ count_events is_warning tr'
       = (count_events is_warning tr
          + if (spin <=? 4)%Z && (Z.to_nat (4 - spin)%Z <? n)%nat then 1 else 0)%nat.
Proof.
  induction n as [|n IH]; intros spin tr Hs; cbv zeta.
  - cbn [spin_run snd]. rewrite andb_false_r. split; [reflexivity|]. split; lia.
  - cbn [spin_run]. unfold spin_guard. change (negb (0 =? 0)) with false. cbv iota.
    unfold OS_TIMEBASE_SPIN_LIMIT.
    destruct (Z.ltb_spec spin 4) as [Hlt|Hge].
    + rewrite to_uint32_id by (unfold is_uint32; lia).
      destruct (IH (spin + 1) tr ltac:(lia)) as (Hf & Hd & Hw).
      split; [exact Hf|]. split.
      * rewrite Hd. replace (Z.to_nat (4 - (spin + 1))) with (Z.to_nat (4 - spin) - 1)%nat by lia.
        lia.
      * rewrite Hw. destruct (Z.leb_spec (spin + 1) 4), (Z.leb_spec spin 4); try lia.
        cbn [andb].
        destruct (Nat.ltb_spec (Z.to_nat (4 - (spin + 1))) n),
                 (Nat.ltb_spec (Z.to_nat (4 - spin)) (S n)); lia.
    + destruct (Z.eqb_spec spin 4) as [->|Hne].
      * change (to_uint32 (4 + 1)) with 5.
        destruct (IH 5 (EvDebugWarning :: EvTaskDelay 10 :: tr) ltac:(lia)) as (Hf & Hd & Hw).
        split; [exact Hf|]. split.
        -- rewrite Hd. unfold count_events. simpl. lia.
        -- rewrite Hw. unfold count_events. simpl. lia.
      * assert (spin = 5) as -> by lia.
        destruct (IH 5 (EvTaskDelay 10 :: tr) ltac:(lia)) as (Hf & Hd & Hw).
        split; [exact Hf|]. split.
        -- rewrite Hd. unfold count_events. simpl. lia.
        -- rewrite Hw. unfold count_events. simpl. lia.
Qed.

Lemma OS_TimeBase_CallbackThread_loop_zero fuel timebase_id local_id n :
  forall spin st,
    live_timebase (S (S (S fuel))) timebase_id local_id st ->
    exists st',
      OS_TimeBase_CallbackThread_loop (S (S (S fuel))) timebase_id local_id (repeat 0 n) spin st
      = Some st'
      /\ trace st' = snd (spin_run n spin (trace st))
      /\ freerun_of st' local_id = to_uint32 (freerun_of st local_id).
Proof.
  induction n as [|n IH]; intros spin st Hlive.
  - exists st. split; [reflexivity|]. split; [reflexivity|].
    destruct Hlive as (_ & _ & _ & _ & tb & Htb & Hfr & _).
    unfold freerun_of. rewrite Htb. cbn. now rewrite to_uint32_id.
  - cbn [repeat OS_TimeBase_CallbackThread_loop spin_run].
    destruct (OS_TimeBase_CallbackThread_tick_live fuel timebase_id local_id 0 spin st Hlive)
      as (spin' & st1 & Htick & Hlive1 & Hfree1).
    rewrite Htick. cbn [mbind option_bind].
    assert (Hok : Forall timecb_int32 (OS_timecb_table st)) by apply Hlive.
    pose proof (OS_TimeBase_CallbackThread_tick_zero _ _ _ _ _ _ _ _ Hok Htick) as Hguard.
    destruct (IH spin' st1 Hlive1) as (st' & Hloop & Htr & Hfree).
    exists st'. split; [exact Hloop|]. rewrite <- Hguard. split; [exact Htr|].
    rewrite Hfree, Hfree1, Z.add_0_r. unfold to_uint32. now rewrite Z.mod_mod by lia.
Qed.

(** X9.  A sync function that keeps returning zero: over a run of [n]
    ticks of zero, the servicing thread of a live time base calls no
    callback and leaves the free-running counter alone; it lets the
    first four go, yields with [OS_TaskDelay_Impl (10)] on each of the
    others, and gives the debug warning once, on the fifth. *)
Theorem OS_TimeBase_CallbackThread_spin_guard
    (fuel : nat) (timebase_id : osal_id_t) (local_id : nat) (n : nat) (st : State) :
  live_timebase fuel timebase_id local_id st ->
  (3 <= fuel)%nat ->
  exists st',
    OS_TimeBase_CallbackThread fuel timebase_id (repeat 0 n) st = Some st'
    /\ fired (trace st') = fired (trace st)
    /\ count_events is_delay (trace st')
       = (count_events is_delay (trace st) + (n - 4))%nat
    /\ count_events is_warning (trace st')
       = (count_events is_warning (trace st) + if (4 <? n)%nat then 1 else 0)%nat
    /\ freerun_of st' local_id = freerun_of st local_id.
Proof.
  intros Hlive Hfuel. destruct fuel as [|[|[|fuel]]]; try lia. clear Hfuel.
  destruct (OS_TimeBase_CallbackThread_loop_zero fuel timebase_id local_id n 0 st Hlive)
    as (st' & Hloop & Htr & Hfree).
  exists st'. split.
  - unfold OS_TimeBase_CallbackThread.
    destruct Hlive as (Hidx & (record & Hrec & Hid) & _).
    rewrite (OS_ObjectIdGetById_live OS_LOCK_MODE_GLOBAL _ _ _ _ _ (or_intror eq_refl)
               Hidx Hrec Hid).
    change (negb (OS_SUCCESS =? 0)) with false. cbv iota. exact Hloop.
  - destruct (spin_run_counts n 0 (trace st) ltac:(lia)) as (Hf & Hd & Hw).
    rewrite Htr. split; [exact Hf|]. split; [exact Hd|]. split; [exact Hw|].
    rewrite Hfree. apply to_uint32_id.
    destruct Hlive as (_ & _ & _ & _ & tb & Htb & Hfr & _).
    unfold freerun_of. rewrite Htb. exact Hfr.
Qed.

End SpinGuard.

(** Seven ticks of zero on a time base with one armed timer: the timer
    is not called, three of the ticks end in a delay and one warning is
    given. *)
Lemma OS_TimeBase_CallbackThread_spin_guard_witness :
  exists st',
    TimeBase.OS_TimeBase_CallbackThread 3 (OS_ObjectIdCompose_Impl 8 1) (repeat 0 7)
      (one_timer_state 1000 1000) = Some st'
    /\ TimeBase.fired (TimeBase.trace st') = 0%nat
    /\ count_events is_delay (TimeBase.trace st') = 3%nat
    /\ count_events is_warning (TimeBase.trace st') = 1%nat.
Proof.
  destruct (OS_TimeBase_CallbackThread_spin_guard 3 (OS_ObjectIdCompose_Impl 8 1) 1 7
              (one_timer_state 1000 1000)
              ltac:(apply one_timer_state_live; unfold is_int32; lia) ltac:(lia))
    as (st' & Hrun & Hfired & Hdelay & Hwarn & _).
  exists st'. split; [exact Hrun|]. split; [exact Hfired|].
  split; [exact Hdelay|exact Hwarn].
Defined.

(** *** Deleting a time base, setting its times *)

Section TimeBaseDelete.

Import TimeBase.

Context `{OsConfig} {P : Type} `{TimeBaseAdapter P}.

Variable self : osal_id_t.
Variable MicroSecPerTick : Z.

(** X7.  A time base that has been deleted is gone: its counter can no
    longer be read, a second delete fails with [OS_ERR_INVALID_ID], a
    servicing thread started for it returns at once, and the thread that
    serviced it leaves its loop at the next turn, with no callback
    called, no tick counted and no timer touched. *)
Theorem OS_TimeBaseDelete_then_use
    (timer_id : osal_id_t) (st : State) (p : P) (st' : State) (p' : P) :
  length (OS_timebase_table st) = length (records (OS_global_timebase_table st)) ->
  OS_TimeBaseDelete self timer_id st p = (OS_SUCCESS, st', p') ->
  (forall v, OS_TimeBaseGetFreeRun timer_id v st' = (OS_ERR_INVALID_ID, v))
  /\ (forall p2, OS_TimeBaseDelete self timer_id st' p2 = (OS_ERR_INVALID_ID, st', p2))
  /\ (forall fuel ticks, OS_TimeBase_CallbackThread fuel timer_id ticks st' = Some st')
  /\ exists local_id,
       OS_ObjectIdToArrayIndex OS_OBJECT_TYPE_OS_TIMEBASE
         (length (records (OS_global_timebase_table st))) timer_id = (OS_SUCCESS, local_id)
       /\ forall fuel tick spin,
            exists spin' st'',
              OS_TimeBase_CallbackThread_tick fuel timer_id local_id tick spin st'
              = Some (false, spin', st'')
              /\ fired (trace st'') = fired (trace st')
              /\ OS_timebase_table st'' = OS_timebase_table st'
              /\ OS_timecb_table st'' = OS_timecb_table st'.
Proof.
  intros Htabs Hdel. unfold OS_TimeBaseDelete in Hdel. revert Hdel.
  destruct (OS_ObjectIdToType_Impl self =? OS_OBJECT_TYPE_OS_TIMEBASE) eqn:Hself;
    [discriminate|].
  destruct (OS_ObjectIdGetById OS_LOCK_MODE_EXCLUSIVE OS_OBJECT_TYPE_OS_TIMEBASE timer_id
              (records (OS_global_timebase_table st))) as [[rc idx] tbl] eqn:Hget.
  destruct (Z.eqb_spec rc OS_SUCCESS) as [->|Hrc]; [|intros Heq; injection Heq; congruence].
  destruct (OS_TimeBaseDelete_Impl idx p) as [rc1 p1].
  unfold OS_ObjectIdFinalizeDelete.
  destruct (Z.eqb_spec rc1 OS_SUCCESS) as [->|Hrc1]; [|intros Heq; injection Heq; congruence].
  intros Heq. injection Heq as <- <-.
  assert (Ht : OS_OBJECT_TYPE_OS_TIMEBASE <> 0) by discriminate.
  pose proof (fun m => OS_ObjectIdGetById_deleted _ m _ _ _ _ _ Ht Hget) as Hgone.
  destruct (OS_ObjectIdGetById_success _ _ _ _ _ _ Hget)
    as (Hidx & (r & Hr & Hid) & _ & Hsame).
  rewrite (Hsame ltac:(discriminate)) in *.
  pose proof (lookup_lt_Some _ _ _ Hr) as Hlt.
  pose proof (OS_ObjectIdToArrayIndex_defined _ _ _ _ Ht Hidx) as Hdef.
  split; [|split; [|split]].
  - intros v. unfold OS_TimeBaseGetFreeRun.
    cbn [OS_global_timebase_table set_global_timebase_table records].
    rewrite Hgone. reflexivity.
  - intros p2. unfold OS_TimeBaseDelete. rewrite Hself.
    cbn [OS_global_timebase_table set_global_timebase_table records last_id_issued].
    rewrite Hgone. reflexivity.
  - intros fuel ticks. unfold OS_TimeBase_CallbackThread.
    cbn [OS_global_timebase_table set_global_timebase_table records].
    rewrite Hgone. reflexivity.
  - exists idx. split; [exact Hidx|]. intros fuel tick spin.
    unfold OS_TimeBase_CallbackThread_tick.
    cbn [OS_global_timebase_table OS_timebase_table set_global_timebase_table records trace].
    pose proof (spin_guard_fired tick spin (trace st)) as Hfired.
    destruct (spin_guard tick spin (trace st)) as [spin' tr1].
    rewrite list_lookup_insert_eq by exact Hlt.
    destruct (lookup_lt_is_Some_2 (OS_timebase_table st) idx ltac:(lia)) as [tb ->].
    cbn [mbind option_bind active_id common_zero].
    unfold OS_ObjectIdEqual. destruct (Z.eqb_spec timer_id OS_OBJECT_ID_UNDEFINED) as [He|_].
    { unfold OS_OBJECT_ID_UNDEFINED in He. contradiction. }
    cbn [negb]. do 2 eexists. split; [reflexivity|].
    cbn [trace set_trace OS_timebase_table OS_timecb_table]. auto.
Qed.

(** X8.  [OS_TimeBaseSet] changes the nominal start and interval of the
    time base and nothing else: when it fails the tables are as they
    were, and when it succeeds both values are below 1,000,000,000, they
    are stored in the record of the time base, and the free-running
    counter, the handles, the timers and the trace are as they were. *)
Theorem OS_TimeBaseSet_changes_nominal_times_only
    (timer_id : osal_id_t) (start_time interval_time : Z)
    (st : State) (p : P) (rc : Z) (st' : State) (p' : P) :
  length (OS_timebase_table st) = length (records (OS_global_timebase_table st)) ->
  OS_TimeBaseSet self timer_id start_time interval_time st p = (rc, st', p') ->
  (rc <> OS_SUCCESS -> st' = st)
  /\ (1000000000 <= interval_time \/ 1000000000 <= start_time ->
      rc = OS_TIMER_ERR_INVALID_ARGS /\ p' = p)
  /\ OS_global_timebase_table st' = OS_global_timebase_table st
  /\ OS_global_timecb_table st' = OS_global_timecb_table st
  /\ OS_timecb_table st' = OS_timecb_table st
  /\ trace st' = trace st
  /\ (forall v, OS_TimeBaseGetFreeRun timer_id v st' = OS_TimeBaseGetFreeRun timer_id v st)
  /\ (rc = OS_SUCCESS ->
      start_time < 1000000000 /\ interval_time < 1000000000
      /\ exists local_id tb,
           OS_ObjectIdToArrayIndex OS_OBJECT_TYPE_OS_TIMEBASE
             (length (records (OS_global_timebase_table st))) timer_id
           = (OS_SUCCESS, local_id)
           /\ OS_timebase_table st !! local_id = Some tb
           /\ OS_timebase_table st'
              = <[local_id := set_nominal tb start_time interval_time]> (OS_timebase_table st)).
Proof.
  intros Htabs. unfold OS_TimeBaseSet.
  destruct ((1000000000 <=? interval_time) || (1000000000 <=? start_time)) eqn:Hargs.
  { intros [= <- <- <-]. split; [auto|]. split; [auto|].
    do 5 (split; [reflexivity|]). intros ?; discriminate. }
  apply orb_false_iff in Hargs as [Hi Hs]. apply Z.leb_gt in Hi, Hs.
  destruct (OS_ObjectIdToType_Impl self =? OS_OBJECT_TYPE_OS_TIMEBASE).
  { intros [= <- <- <-]. split; [auto|]. split; [intros [|]; lia|].
    do 5 (split; [reflexivity|]). intros ?; discriminate. }
  destruct (OS_ObjectIdGetById OS_LOCK_MODE_GLOBAL OS_OBJECT_TYPE_OS_TIMEBASE timer_id
              (records (OS_global_timebase_table st))) as [[rc0 idx] tbl] eqn:Hget.
  destruct (Z.eqb_spec rc0 OS_SUCCESS) as [->|Hrc0].
  2: { intros [= <- <- <-]. split; [auto|]. split; [intros [|]; lia|].
       do 5 (split; [reflexivity|]). intros ?; contradiction. }
  destruct (OS_ObjectIdGetById_success _ _ _ _ _ _ Hget)
    as (Hidx & (r & Hr & Hid) & _ & _).
  pose proof (lookup_lt_Some _ _ _ Hr) as Hlt.
  destruct (OS_TimeBaseSet_Impl idx start_time interval_time p) as [rc1 p1].
  destruct (Z.eqb_spec rc1 OS_SUCCESS) as [->|Hrc1].
  2: { intros [= <- <- <-]. split; [auto|]. split; [intros [|]; lia|].
       do 5 (split; [reflexivity|]). intros ?; contradiction. }
  destruct (lookup_lt_is_Some_2 (OS_timebase_table st) idx ltac:(lia)) as [tb Htb].
  rewrite Htb. intros [= <- <- <-].
  split; [intros Hne; exfalso; now apply Hne|].
  split; [intros [|]; lia|].
  split; [reflexivity|]. split; [reflexivity|]. split; [reflexivity|]. split; [reflexivity|].
  split.
  - intros v. unfold OS_TimeBaseGetFreeRun.
    cbn [OS_global_timebase_table OS_timebase_table set_timebase_table].
    rewrite (OS_ObjectIdGetById_live OS_LOCK_MODE_NONE _ _ _ _ _ (or_introl eq_refl)
               Hidx Hr Hid).
    change (OS_SUCCESS =? OS_SUCCESS) with true. cbv iota.
    rewrite list_lookup_insert_eq by lia. rewrite Htb. reflexivity.
  - intros _. split; [exact Hs|]. split; [exact Hi|].
    exists idx, tb. auto.
Qed.

End TimeBaseDelete.

(** The tables of [idle_timebase_state] after its time base has been
    deleted, and after its nominal times have been set. *)
Definition no_timebase_state : TimeBase.State :=
  TimeBase.mk_state (mk_objtype 1 [common_zero; common_zero])
    [TimeBase.timebase_zero; TimeBase.mk_timebase "tb" None 1000 OS_OBJECT_ID_UNDEFINED 0 0 0]
    [] [] [].

Definition set_timebase_state : TimeBase.State :=
  TimeBase.mk_state
    (mk_objtype 1
       [common_zero; mk_common (Some "tb") (OS_ObjectIdCompose_Impl 8 1) 65537 0 0])
    [TimeBase.timebase_zero;
     TimeBase.mk_timebase "tb" None 1000 OS_OBJECT_ID_UNDEFINED 0 500 2000]
    [] [] [].

(** Task 65537 deletes the time base of [idle_timebase_state]; its
    counter can no longer be read and its servicing thread returns. *)
Lemma OS_TimeBaseDelete_then_use_witness :
  @TimeBase.OS_TimeBaseDelete _ null_timebase_adapter 65537 (OS_ObjectIdCompose_Impl 8 1)
    idle_timebase_state tt
  = (OS_SUCCESS, no_timebase_state, tt)
  /\ TimeBase.OS_TimeBaseGetFreeRun (OS_ObjectIdCompose_Impl 8 1) 99 no_timebase_state
     = (OS_ERR_INVALID_ID, 99)
  /\ TimeBase.OS_TimeBase_CallbackThread 3 (OS_ObjectIdCompose_Impl 8 1) [1000; 1000]
       no_timebase_state = Some no_timebase_state.
Proof.
  assert (Hdelete :
    @TimeBase.OS_TimeBaseDelete _ null_timebase_adapter 65537 (OS_ObjectIdCompose_Impl 8 1)
      idle_timebase_state tt
    = (OS_SUCCESS, no_timebase_state, tt)) by reflexivity.
  split; [exact Hdelete|].
  destruct (@OS_TimeBaseDelete_then_use _ null_timebase_adapter 65537
              (OS_ObjectIdCompose_Impl 8 1) idle_timebase_state tt no_timebase_state tt
              ltac:(reflexivity) Hdelete) as (Hfree & _ & Hthread & _).
  split; [apply Hfree|apply Hthread].
Defined.

(** Task 65537 sets a start of 500 and an interval of 2000. *)
Lemma OS_TimeBaseSet_changes_nominal_times_only_witness :
  @TimeBase.OS_TimeBaseSet _ null_timebase_adapter 65537 (OS_ObjectIdCompose_Impl 8 1)
    500 2000 idle_timebase_state tt
  = (OS_SUCCESS, set_timebase_state, tt)
  /\ TimeBase.OS_global_timebase_table set_timebase_state
     = TimeBase.OS_global_timebase_table idle_timebase_state
  /\ TimeBase.OS_TimeBaseGetFreeRun (OS_ObjectIdCompose_Impl 8 1) 99 set_timebase_state
     = TimeBase.OS_TimeBaseGetFreeRun (OS_ObjectIdCompose_Impl 8 1) 99 idle_timebase_state.
Proof.
  assert (Hset :
    @TimeBase.OS_TimeBaseSet _ null_timebase_adapter 65537 (OS_ObjectIdCompose_Impl 8 1)
      500 2000 idle_timebase_state tt
    = (OS_SUCCESS, set_timebase_state, tt)) by reflexivity.
  split; [exact Hset|].
  destruct (@OS_TimeBaseSet_changes_nominal_times_only _ null_timebase_adapter 65537
              (OS_ObjectIdCompose_Impl 8 1) 500 2000 idle_timebase_state tt OS_SUCCESS
              set_timebase_state tt ltac:(reflexivity) Hset)
    as (_ & _ & Hglobal & _ & _ & _ & Hfree & _).
  split; [exact Hglobal|apply Hfree].
Defined.

(** ** Binary semaphores, on VxWorks *)

Section BinSemProperties.

Import BinSem.

Context `{OsConfig} {P : Type} `{BinSemAdapter P} `{BinSemLifecycleAdapter P}.

(** X10.  Give, take, flush and the timed wait never reach the adapter
    with a slot that does not hold the caller's handle: either the
    handle is the one stored in the slot it names, and each call is the
    adapter's call on that slot, or all four fail with
    [OS_ERR_INVALID_ID] and leave the adapter alone. *)
Theorem OS_BinSem_calls_reach_the_slot_of_the_handle
    (sem_id : osal_id_t) (msecs : Z) (st : State) (p : P) :
  (exists local_id r,
      OS_ObjectIdToArrayIndex OS_OBJECT_TYPE_OS_BINSEM (length (OS_global_bin_sem_table st))
        sem_id = (OS_SUCCESS, local_id)
      /\ OS_global_bin_sem_table st !! local_id = Some r
      /\ active_id r = sem_id
      /\ OS_BinSemGive sem_id st p = OS_BinSemGive_Impl local_id p
      /\ OS_BinSemTake sem_id st p = OS_BinSemTake_Impl local_id p
      /\ OS_BinSemFlush sem_id st p = OS_BinSemFlush_Impl local_id p
      /\ OS_BinSemTimedWait sem_id msecs st p = OS_BinSemTimedWait_Impl local_id msecs p)
  \/ (OS_BinSemGive sem_id st p = (OS_ERR_INVALID_ID, p)
      /\ OS_BinSemTake sem_id st p = (OS_ERR_INVALID_ID, p)
      /\ OS_BinSemFlush sem_id st p = (OS_ERR_INVALID_ID, p)
      /\ OS_BinSemTimedWait sem_id msecs st p = (OS_ERR_INVALID_ID, p)).
Proof.
  unfold OS_BinSemGive, OS_BinSemTake, OS_BinSemFlush, OS_BinSemTimedWait.
  destruct (OS_ObjectIdGetById_status OS_LOCK_MODE_NONE OS_OBJECT_TYPE_OS_BINSEM sem_id
              (OS_global_bin_sem_table st) ltac:(auto)) as [Hok| ->].
  - destruct (OS_ObjectIdGetById OS_LOCK_MODE_NONE OS_OBJECT_TYPE_OS_BINSEM sem_id
                (OS_global_bin_sem_table st)) as [[rc idx] tbl] eqn:Hget.
    cbn [fst] in Hok. subst rc.
    destruct (OS_ObjectIdGetById_success _ _ _ _ _ _ Hget) as (Hidx & (r & Hr & Hid) & _).
    left. exists idx, r. change (OS_SUCCESS =? OS_SUCCESS) with true. cbv iota. auto 10.
  - right. change (OS_ERR_INVALID_ID =? OS_SUCCESS) with false. cbv iota. auto.
Qed.

End BinSemProperties.

Section VxWorksBinSem.

Import BinSem VxWorks.

Context `{OsConfig} {K : Type}.

Variable semBInitialize : nat -> Z -> Z -> K -> Z * K.
Variable semFlush : Z -> K -> Z * K.
Variable OS_VxWorks_GenericSemGive : Z -> K -> Z * K.
Variable OS_VxWorks_GenericSemTake : Z -> Z -> K -> Z * K.
Variable SEM_Q_PRIORITY WAIT_FOREVER OK TicksPerSecond : Z.
Variable self : osal_id_t.

Let life : BinSemLifecycleAdapter (ImplState K) :=
  lifecycle_adapter semBInitialize semFlush OS_VxWorks_GenericSemGive
    OS_VxWorks_GenericSemTake SEM_Q_PRIORITY WAIT_FOREVER OK.

Let timed : BinSemAdapter (ImplState K) :=
  adapter OS_VxWorks_GenericSemTake TicksPerSecond.

(** X11.  On VxWorks, a binary semaphore that has been created is the
    kernel semaphore that [semBInitialize] made for its slot, with
    priority queueing and the initial value asked for: give and take on
    its handle are the adapter's common give and take on that kernel
    semaphore, take waiting for ever; flush is [semFlush] on it; and the
    timed wait takes it for the number of ticks that [OS_Milli2Ticks]
    computes, or fails without touching the kernel when that number does
    not fit. *)
Theorem VxWorks_BinSemCreate_then_use
    (s0 : osal_id_t) (name : string) (sem_initial_value options last_id : Z)
    (st : State) (p : ImplState K) (id : osal_id_t) (last_id' : Z) (st' : State)
    (p' : ImplState K) :
  0 <= last_id ->
  Z.of_nat (length (OS_global_bin_sem_table st)) <= 65536 ->
  length (OS_impl_bin_sem_table p) = length (OS_global_bin_sem_table st) ->
  @OS_BinSemCreate _ _ life self (Some s0) (Some name) sem_initial_value options last_id st p
  = (OS_SUCCESS, Some id, last_id', st', p') ->
  exists local_id vxid,
    semBInitialize local_id SEM_Q_PRIORITY sem_initial_value (kernel p) = (vxid, kernel p')
    /\ vxid <> 0
    /\ OS_impl_bin_sem_table p' = <[local_id := vxid]> (OS_impl_bin_sem_table p)
    /\ forall k,
         let q := mk_impl (OS_impl_bin_sem_table p') k in
         @OS_BinSemGive _ life id st' q
         = (let '(status, k) := OS_VxWorks_GenericSemGive vxid k in
            (status, mk_impl (OS_impl_bin_sem_table p') k))
         /\ @OS_BinSemTake _ life id st' q
            = (let '(status, k) := OS_VxWorks_GenericSemTake vxid WAIT_FOREVER k in
               (status, mk_impl (OS_impl_bin_sem_table p') k))
         /\ @OS_BinSemFlush _ life id st' q
            = (let '(status, k) := semFlush vxid k in
               (if negb (status =? OK) then OS_SEM_FAILURE else OS_SUCCESS,
                mk_impl (OS_impl_bin_sem_table p') k))
         /\ forall msecs,
              @OS_BinSemTimedWait _ timed id msecs st' q
              = (let '(status, ticks) := TimeBase.OS_Milli2Ticks TicksPerSecond msecs in
                 if status =? OS_SUCCESS
                 then let '(status, k) := OS_VxWorks_GenericSemTake vxid ticks k in
                      (status, mk_impl (OS_impl_bin_sem_table p') k)
                 else (status, q)).
Proof.
  intros Hid Hlen Htabs Hcreate. unfold OS_BinSemCreate in Hcreate. revert Hcreate.
  destruct (Nat.leb_spec OS_MAX_API_NAME (String.length name)) as [|Hname]; [discriminate|].
  destruct (OS_ObjectIdAllocateNew name self (mk_objtype last_id (OS_global_bin_sem_table st)))
    as [[rc local_id] ots] eqn:Halloc.
  destruct (Z.eqb_spec rc OS_SUCCESS) as [->|]; [|intros Heq; injection Heq; congruence].
  unfold life, lifecycle_adapter. cbn [BinSem.OS_BinSemCreate_Impl].
  unfold VxWorks.OS_BinSemCreate_Impl.
  destruct (semBInitialize local_id SEM_Q_PRIORITY sem_initial_value (kernel p))
    as [vxid k1] eqn:Hinit.
  destruct (Z.eqb_spec vxid 0) as [->|Hvx]; cbv beta iota zeta.
  - destruct (OS_ObjectId_rolled_back name name self OS_OBJECT_TYPE_OS_BINSEM last_id
                (OS_global_bin_sem_table st) local_id ots (Some s0) OS_SEM_FAILURE Hid Hlen
                ltac:(discriminate) Halloc) as (-> & _).
    intros Heq. injection Heq. discriminate.
  - destruct (OS_ObjectId_created name name self OS_OBJECT_TYPE_OS_BINSEM last_id
                (OS_global_bin_sem_table st) local_id ots (Some s0) Hid Hlen
                ltac:(unfold OS_OBJECT_TYPE_OS_BINSEM; lia) Halloc) as (-> & Hidx & Hlt).
    cbn [records last_id_issued]. intros Heq. injection Heq as <- <- <- <-.
    set (id := OS_ObjectIdCompose_Impl OS_OBJECT_TYPE_OS_BINSEM (last_id_issued ots)) in *.
    set (r := mk_common (Some name) id self 0 0).
    set (gtbl := <[local_id := r]> (OS_global_bin_sem_table st)).
    assert (Hr : gtbl !! local_id = Some r) by (apply list_lookup_insert_eq; exact Hlt).
    assert (Hidx' : OS_ObjectIdToArrayIndex OS_OBJECT_TYPE_OS_BINSEM (length gtbl) id
                    = (OS_SUCCESS, local_id)).
    { unfold gtbl. rewrite length_insert. exact Hidx. }
    exists local_id, vxid. cbn [kernel OS_impl_bin_sem_table].
    split; [exact Hinit|]. split; [exact Hvx|]. split; [reflexivity|].
    intros k. cbv zeta.
    set (q := mk_impl (<[local_id := vxid]> (OS_impl_bin_sem_table p)) k).
    assert (Hvxid : default 0 (OS_impl_bin_sem_table q !! local_id) = vxid).
    { unfold q. cbn [OS_impl_bin_sem_table]. rewrite list_lookup_insert_eq by lia.
      reflexivity. }
    unfold OS_BinSemGive, OS_BinSemTake, OS_BinSemFlush, OS_BinSemTimedWait.
    cbn [OS_global_bin_sem_table]. fold gtbl.
    rewrite (OS_ObjectIdGetById_live OS_LOCK_MODE_NONE _ id gtbl local_id r
               ltac:(auto) Hidx' Hr eq_refl).
    change (OS_SUCCESS =? OS_SUCCESS) with true. cbv iota.
    unfold timed, adapter.
    cbn [BinSem.OS_BinSemGive_Impl BinSem.OS_BinSemTake_Impl BinSem.OS_BinSemFlush_Impl
         BinSem.OS_BinSemTimedWait_Impl].
    unfold VxWorks.OS_BinSemGive_Impl, VxWorks.OS_BinSemTake_Impl,
      VxWorks.OS_BinSemFlush_Impl, VxWorks.OS_BinSemTimedWait_Impl.
    rewrite Hvxid. auto.
Qed.

(** X12.  On VxWorks, [OS_BinSemCreate] called with both pointers
    returns one of five codes: [OS_SUCCESS], [OS_ERR_NAME_TOO_LONG],
    [OS_ERR_NAME_TAKEN], [OS_ERR_NO_FREE_IDS], or [OS_SEM_FAILURE] when
    [semBInitialize] gives no semaphore; and a create that fails leaves
    the kernel ids of the adapter and the handles of the table as they
    were. *)
Theorem VxWorks_BinSemCreate_failures
    (s0 : osal_id_t) (name : string) (sem_initial_value options last_id : Z)
    (st : State) (p : ImplState K) (rc : Z) (sem_id' : option osal_id_t) (last_id' : Z)
    (st' : State) (p' : ImplState K) :
  0 <= last_id ->
  Z.of_nat (length (OS_global_bin_sem_table st)) <= 65536 ->
  @OS_BinSemCreate _ _ life self (Some s0) (Some name) sem_initial_value options last_id st p
  = (rc, sem_id', last_id', st', p') ->
  (rc = OS_SUCCESS \/ rc = OS_ERR_NAME_TOO_LONG \/ rc = OS_ERR_NAME_TAKEN
   \/ rc = OS_ERR_NO_FREE_IDS \/ rc = OS_SEM_FAILURE)
  /\ (rc <> OS_SUCCESS ->
      OS_impl_bin_sem_table p' = OS_impl_bin_sem_table p
      /\ active_id <$> OS_global_bin_sem_table st' = active_id <$> OS_global_bin_sem_table st
      /\ (sem_id' = Some s0 \/ sem_id' = Some OS_OBJECT_ID_UNDEFINED)).
Proof.
  intros Hid Hlen Hcreate. unfold OS_BinSemCreate in Hcreate. revert Hcreate.
  destruct (Nat.leb_spec OS_MAX_API_NAME (String.length name)) as [|Hname].
  { intros [= <- <- <- <- <-]. auto 10. }
  destruct (OS_ObjectIdAllocateNew name self (mk_objtype last_id (OS_global_bin_sem_table st)))
    as [[rc0 local_id] ots] eqn:Halloc.
  destruct (Z.eqb_spec rc0 OS_SUCCESS) as [->|Hrc0].
  - unfold life, lifecycle_adapter. cbn [BinSem.OS_BinSemCreate_Impl].
    unfold VxWorks.OS_BinSemCreate_Impl.
    destruct (semBInitialize local_id SEM_Q_PRIORITY sem_initial_value (kernel p))
      as [vxid k1] eqn:Hinit.
    destruct (Z.eqb_spec vxid 0) as [->|Hvx]; cbv beta iota zeta.
    + destruct (OS_ObjectId_rolled_back name name self OS_OBJECT_TYPE_OS_BINSEM last_id
                  (OS_global_bin_sem_table st) local_id ots (Some s0) OS_SEM_FAILURE Hid Hlen
                  ltac:(discriminate) Halloc) as (-> & Hids).
      cbn [records last_id_issued]. intros [= <- <- <- <- <-].
      cbn [OS_global_bin_sem_table OS_impl_bin_sem_table]. auto 10.
    + destruct (OS_ObjectId_created name name self OS_OBJECT_TYPE_OS_BINSEM last_id
                  (OS_global_bin_sem_table st) local_id ots (Some s0) Hid Hlen
                  ltac:(unfold OS_OBJECT_TYPE_OS_BINSEM; lia) Halloc) as (-> & _).
      intros [= <- <- <- <- <-]. split; [auto|]. intros Hne. now exfalso.
  - intros [= <- <- <- <- <-]. split; [|auto].
    revert Halloc Hrc0. unfold OS_ObjectIdAllocateNew.
    destruct (_ && _); [intros [= <- _ _]; auto|].
    destruct (OS_ObjectIdFindNext _ _ _) as [[? ?]|]; intros [= <- _ _]; auto.
Qed.

End VxWorksBinSem.

(** A kernel as the list of the calls made, latest first:
    [semBInitialize] gives slot [i] the semaphore [100 + i], or none at
    all; give and flush record the semaphore they are called with. *)
Definition recording_init (local_id : nat) (options initial : Z) (k : list Z) : Z * list Z :=
  (100 + Z.of_nat local_id, initial :: k).

Definition failing_init (local_id : nat) (options initial : Z) (k : list Z) : Z * list Z :=
  (0, k).

Definition recording_sem (vxid : Z) (k : list Z) : Z * list Z := (0, vxid :: k).

Definition vx_no_sem : VxWorks.ImplState (list Z) := VxWorks.mk_impl [0; 0] [].

Definition no_sem_state : BinSem.State := BinSem.mk_state [common_zero; common_zero].

Definition one_sem_state : BinSem.State :=
  BinSem.mk_state
    [common_zero; mk_common (Some "s") (OS_ObjectIdCompose_Impl 4 1) 65537 0 0].

(** Task 65537 creates the semaphore [s], full, in an empty table. *)
Lemma VxWorks_BinSemCreate_then_use_witness :
  @BinSem.OS_BinSemCreate sample_config _
    (VxWorks.lifecycle_adapter recording_init recording_sem recording_sem recording_take
       1 (-1) 0)
    65537 (Some 0) (Some "s") 1 0 0 no_sem_state vx_no_sem
  = (OS_SUCCESS, Some (OS_ObjectIdCompose_Impl 4 1), 1, one_sem_state,
     VxWorks.mk_impl [0; 101] [1])
  /\ exists local_id vxid,
       recording_init local_id 1 1 [] = (vxid, [1])
       /\ vxid <> 0
       /\ [0; 101] = <[local_id := vxid]> [0; 0].
Proof.
  assert (Hcreate :
    @BinSem.OS_BinSemCreate sample_config _
      (VxWorks.lifecycle_adapter recording_init recording_sem recording_sem recording_take
         1 (-1) 0)
      65537 (Some 0) (Some "s") 1 0 0 no_sem_state vx_no_sem
    = (OS_SUCCESS, Some (OS_ObjectIdCompose_Impl 4 1), 1, one_sem_state,
       VxWorks.mk_impl [0; 101] [1])) by reflexivity.
  split; [exact Hcreate|].
  destruct (@VxWorks_BinSemCreate_then_use sample_config _ recording_init recording_sem
              recording_sem recording_take 1 (-1) 0 100 65537 0 "s" 1 0 0 no_sem_state
              vx_no_sem (OS_ObjectIdCompose_Impl 4 1) 1 one_sem_state
              (VxWorks.mk_impl [0; 101] [1])
              ltac:(lia) ltac:(simpl; lia) ltac:(reflexivity) Hcreate)
    as (local_id & vxid & Hinit & Hvxid & Htable & _).
  exists local_id, vxid. split; [exact Hinit|]. split; [exact Hvxid|exact Htable].
Defined.

(** The same call on a kernel that has no semaphore to give. *)
Lemma VxWorks_BinSemCreate_failures_witness :
  @BinSem.OS_BinSemCreate sample_config _
    (VxWorks.lifecycle_adapter failing_init recording_sem recording_sem recording_take
       1 (-1) 0)
    65537 (Some 0) (Some "s") 1 0 0 no_sem_state vx_no_sem
  = (OS_SEM_FAILURE, Some OS_OBJECT_ID_UNDEFINED, 1,
     BinSem.mk_state [common_zero; mk_common (Some "s") OS_OBJECT_ID_UNDEFINED 65537 0 0],
     vx_no_sem)
  /\ VxWorks.OS_impl_bin_sem_table vx_no_sem = VxWorks.OS_impl_bin_sem_table vx_no_sem.
Proof.
  assert (Hcreate :
    @BinSem.OS_BinSemCreate sample_config _
      (VxWorks.lifecycle_adapter failing_init recording_sem recording_sem recording_take
         1 (-1) 0)
      65537 (Some 0) (Some "s") 1 0 0 no_sem_state vx_no_sem
    = (OS_SEM_FAILURE, Some OS_OBJECT_ID_UNDEFINED, 1,
       BinSem.mk_state [common_zero; mk_common (Some "s") OS_OBJECT_ID_UNDEFINED 65537 0 0],
       vx_no_sem)) by reflexivity.
  split; [exact Hcreate|].
  apply (@VxWorks_BinSemCreate_failures sample_config _ failing_init recording_sem
           recording_sem recording_take 1 (-1) 0 65537 0 "s" 1 0 0 no_sem_state vx_no_sem
           OS_SEM_FAILURE (Some OS_OBJECT_ID_UNDEFINED) 1
           (BinSem.mk_state
              [common_zero; mk_common (Some "s") OS_OBJECT_ID_UNDEFINED 65537 0 0])
           vx_no_sem ltac:(lia) ltac:(simpl; lia) Hcreate).
  discriminate.
Defined.

(** ** The stack of a VxWorks task *)

Section VxWorksTaskProperties.

Import VxWorksTasks.

Context {K : Type}.

Variable LONG_BITS : Z.
Hypothesis LONG_BITS_pos : 1 <= LONG_BITS.

(** [LONG_MAX + 1]. *)
Definition long_limit : Z := 2 ^ (LONG_BITS - 1).

Lemma long_range : 2 ^ LONG_BITS = 2 * long_limit /\ 0 < long_limit.
Proof.
  unfold long_limit. split; [|apply Z.pow_pos_nonneg; lia].
  rewrite <- Z.pow_succ_r by lia. f_equal. lia.
Qed.

Lemma to_long_id z : - long_limit <= z < long_limit -> to_long LONG_BITS z = z.
Proof.
  unfold to_long, long_limit. intros Hz.
  replace (2 ^ LONG_BITS) with (2 * 2 ^ (LONG_BITS - 1)).
  - rewrite Z.mod_small by lia. lia.
  - rewrite <- Z.pow_succ_r by lia. f_equal. lia.
Qed.

(** The conversion to [long] drops multiples of [2 ^ LONG_BITS]. *)
Lemma to_long_add_mul z q : to_long LONG_BITS (z + q * 2 ^ LONG_BITS) = to_long LONG_BITS z.
Proof.
  destruct long_range as [HM HH]. unfold to_long.
  replace (z + q * 2 ^ LONG_BITS + 2 ^ (LONG_BITS - 1))
    with (z + 2 ^ (LONG_BITS - 1) + q * 2 ^ LONG_BITS) by lia.
  rewrite Z.mod_add by lia. reflexivity.
Qed.

Lemma to_long_eqm z : exists q, to_long LONG_BITS z = z + q * 2 ^ LONG_BITS.
Proof.
  destruct long_range as [HM HH]. unfold to_long. fold long_limit.
  exists (- ((z + long_limit) / 2 ^ LONG_BITS)).
  pose proof (Z.div_mod (z + long_limit) (2 ^ LONG_BITS) ltac:(lia)). lia.
Qed.

Lemma to_long_to_long_add a b :
  to_long LONG_BITS (to_long LONG_BITS a + b) = to_long LONG_BITS (a + b).
Proof.
  destruct (to_long_eqm a) as [q ->].
  replace (a + q * 2 ^ LONG_BITS + b) with (a + b + q * 2 ^ LONG_BITS) by lia.
  apply to_long_add_mul.
Qed.

Lemma to_long_0 : to_long LONG_BITS 0 = 0.
Proof. destruct long_range. apply to_long_id. lia. Qed.

(** A [long] of at least five bits: its range is a multiple of the
    alignment. *)
Lemma long_limit_16 : 16 <= long_limit -> exists h, 2 ^ LONG_BITS = h * 16.
Proof.
  intros H16. destruct long_range as [HM _].
  assert (HL : 4 <= LONG_BITS - 1).
  { destruct (Z_lt_le_dec (LONG_BITS - 1) 4) as [Hlt|]; [|assumption].
    pose proof (Z.pow_le_mono_r 2 (LONG_BITS - 1) 3 ltac:(lia) ltac:(lia)) as Hle.
    unfold long_limit in H16. change (2 ^ 3) with 8 in Hle. lia. }
  exists (2 * 2 ^ (LONG_BITS - 1 - 4)). rewrite HM. unfold long_limit.
  replace (LONG_BITS - 1) with (LONG_BITS - 1 - 4 + 4) at 1 by lia.
  rewrite Z.pow_add_r by lia. change (2 ^ 4) with 16. lia.
Qed.

Lemma VX_IMPL_STACK_ROUND_DOWN_val x : VX_IMPL_STACK_ROUND_DOWN x = x / 16 * 16.
Proof.
  unfold VX_IMPL_STACK_ROUND_DOWN, VX_IMPL_STACK_ALIGN_SIZE.
  rewrite <- Z.ldiff_land. change (16 - 1) with (Z.ones 4).
  rewrite Z.ldiff_ones_r by lia.
  rewrite Z.shiftr_div_pow2, Z.shiftl_mul_pow2 by lia. reflexivity.
Qed.

Lemma VX_IMPL_STACK_ROUND_UP_val x :
  - long_limit <= x -> x + 15 < long_limit ->
  VX_IMPL_STACK_ROUND_UP LONG_BITS x = (x + 15) / 16 * 16.
Proof.
  intros Hlo Hhi. unfold VX_IMPL_STACK_ROUND_UP.
  change (VX_IMPL_STACK_ALIGN_SIZE - 1) with 15.
  rewrite to_long_id by lia.
  rewrite <- VX_IMPL_STACK_ROUND_DOWN_val. reflexivity.
Qed.

(** Rounding up where the addition may wrap: the result is the rounded
    value, up to a multiple of [2 ^ LONG_BITS]. *)
Lemma VX_IMPL_STACK_ROUND_UP_eqm x :
  16 <= long_limit ->
  exists q, VX_IMPL_STACK_ROUND_UP LONG_BITS x = (x + 15) / 16 * 16 + q * 2 ^ LONG_BITS.
Proof.
  intros H16. destruct (long_limit_16 H16) as [h Hh].
  unfold VX_IMPL_STACK_ROUND_UP.
  fold (VX_IMPL_STACK_ROUND_DOWN (to_long LONG_BITS (x + (VX_IMPL_STACK_ALIGN_SIZE - 1)))).
  rewrite VX_IMPL_STACK_ROUND_DOWN_val. change (VX_IMPL_STACK_ALIGN_SIZE - 1) with 15.
  destruct (to_long_eqm (x + 15)) as [q ->]. exists q. rewrite Hh.
  replace (x + 15 + q * (h * 16)) with (x + 15 + q * h * 16) by lia.
  rewrite Z.div_add by lia. lia.
Qed.

(** The stack of [size] bytes that ends at the address [top] lies inside
    the block of [capacity] bytes at the address [block], and is aligned
    at both ends.  [top] is the address [block + offset + size] as the
    [long] that is handed to [taskInit]. *)
Definition stack_inside (block capacity top size : Z) : Prop :=
  exists offset,
    0 <= offset /\ offset + size <= capacity
    /\ top = to_long LONG_BITS (block + offset + size)
    /\ top mod 16 = 0 /\ size mod 16 = 0.

Lemma stack_inside_to_long block capacity top size :
  stack_inside (to_long LONG_BITS block) capacity top size ->
  stack_inside block capacity top size.
Proof.
  intros (offset & H0 & H1 & -> & H3 & H4). exists offset.
  split; [exact H0|]. split; [exact H1|]. split; [|split; assumption].
  rewrite <- !Z.add_assoc. apply to_long_to_long_add.
Qed.

Lemma stack_inside_wider block capacity capacity' top size :
  capacity <= capacity' ->
  stack_inside block capacity top size -> stack_inside block capacity' top size.
Proof.
  intros Hle (offset & H0 & H1 & H2 & H3 & H4). exists offset.
  split; [exact H0|]. split; [lia|]. auto.
Qed.

(** The rounding keeps the stack inside the block it is cut from, and
    costs less than two alignment units. *)
Lemma stack_layout_inside base sz :
  16 <= long_limit -> 0 <= sz < long_limit ->
  exists top size,
    stack_layout LONG_BITS base sz = (top, size)
    /\ stack_inside base sz top size
    /\ sz - 31 < size
    /\ (sz mod 16 = 0 -> sz - 16 <= size).
Proof.
  intros H16 Hs. unfold stack_layout.
  destruct (long_limit_16 H16) as [h Hh].
  destruct (VX_IMPL_STACK_ROUND_UP_eqm base H16) as [q ->].
  set (base' := (base + 15) / 16 * 16).
  assert (Hbase' : base <= base' <= base + 15 /\ base' mod 16 = 0).
  { unfold base'. split; [|apply Z.mod_mul; lia].
    pose proof (Z.div_mod (base + 15) 16 ltac:(lia)).
    pose proof (Z.mod_pos_bound (base + 15) 16 ltac:(lia)). lia. }
  replace (base' + q * 2 ^ LONG_BITS - base) with (base' - base + q * 2 ^ LONG_BITS) by lia.
  rewrite to_long_add_mul.
  rewrite (to_long_id (base' - base)) by lia.
  rewrite (to_long_id (sz - (base' - base))) by lia.
  rewrite VX_IMPL_STACK_ROUND_DOWN_val.
  set (size := (sz - (base' - base)) / 16 * 16).
  assert (Hsize : sz - (base' - base) - 15 <= size <= sz - (base' - base)
                  /\ size mod 16 = 0).
  { unfold size. split; [|apply Z.mod_mul; lia].
    pose proof (Z.div_mod (sz - (base' - base)) 16 ltac:(lia)).
    pose proof (Z.mod_pos_bound (sz - (base' - base)) 16 ltac:(lia)). lia. }
  replace (base' + q * 2 ^ LONG_BITS + size) with (base' + size + q * 2 ^ LONG_BITS) by lia.
  rewrite to_long_add_mul.
  exists (to_long LONG_BITS (base' + size)), size. split; [reflexivity|].
  split; [|split].
  - exists (base' - base). split; [lia|]. split; [lia|].
    split; [f_equal; lia|]. split; [|apply Hsize].
    destruct (to_long_eqm (base' + size)) as [q' ->]. rewrite Hh.
    replace (base' + size + q' * (h * 16)) with (base' + size + q' * h * 16) by lia.
    rewrite Z.mod_add by lia.
    rewrite Z.add_mod by lia. destruct Hbase' as [_ ->], Hsize as [_ ->]. reflexivity.
  - lia.
  - intros Hal. unfold size.
    pose proof (Z.div_mod sz 16 ltac:(lia)) as Hsz. rewrite Hal in Hsz.
    pose proof (Z.div_mod base' 16 ltac:(lia)) as Hb'.
    destruct Hbase' as [Hrange Hb0]. rewrite Hb0 in Hb'.
    pose proof (Z.div_mod (sz - (base' - base)) 16 ltac:(lia)).
    pose proof (Z.mod_pos_bound (sz - (base' - base)) 16 ltac:(lia)).
    pose proof (Z.div_mod base 16 ltac:(lia)).
    pose proof (Z.mod_pos_bound base 16 ltac:(lia)).
    lia.
Qed.

Variable malloc : Z -> K -> Z * K.
Variable free : Z -> K -> K.
Variable taskInit : nat -> option string -> Z -> Z -> Z -> Z -> Z -> K -> Z * K.
Variable taskActivate : Z -> K -> K.
Variable tcb_address : nat -> Z.
Variable OK VX_FP_TASK OS_FP_ENABLED : Z.

Let create := OS_TaskCreate_Impl LONG_BITS malloc free taskInit taskActivate tcb_address
                OK VX_FP_TASK OS_FP_ENABLED.

(** What [OS_TaskCreate_Impl] does once the stack is known: [taskInit]
    on the TCB of the slot, with the stack of [size] bytes below [top],
    and [taskActivate] when that went well.  [lrec] is the record of
    the slot, [k] the kernel state. *)
Definition task_started (task_id : nat) (flags : Z) (p : ImplState K)
    (lrec : OS_impl_task_internal_record_t) (top size : Z) (k : K) : Z * ImplState K :=
  let task := default task_zero (OS_task_table p !! task_id) in
  let record := default common_zero (OS_global_task_table p !! task_id) in
  let '(status, k) :=
    taskInit task_id (name_entry record) (to_int32 (priority task))
      (if negb (Z.land flags OS_FP_ENABLED =? 0) then VX_FP_TASK else 0)
      top size (to_int32 (active_id record)) k in
  if negb (status =? OK)
  then (OS_ERROR, set_impl p (<[task_id := lrec]> (OS_impl_task_table p)) k)
  else (OS_SUCCESS,
        set_impl p (<[task_id := set_vxid lrec (tcb_address task_id)]> (OS_impl_task_table p))
          (taskActivate (tcb_address task_id) k)).

(** The size that is asked of [malloc] for a stack of [n] bytes. *)
Definition heap_request (n : Z) : Z := (n + 31) / 16 * 16.

Lemma heap_request_range n : 0 <= n -> n + 16 <= heap_request n <= n + 31.
Proof.
  intros Hn. unfold heap_request.
  pose proof (Z.div_mod (n + 31) 16 ltac:(lia)).
  pose proof (Z.mod_pos_bound (n + 31) 16 ltac:(lia)). lia.
Qed.

Lemma heap_request_aligned n : heap_request n mod 16 = 0.
Proof. unfold heap_request. apply Z.mod_mul. lia. Qed.

Lemma stack_request n :
  0 <= n -> n + 31 < long_limit ->
  VX_IMPL_STACK_ROUND_UP LONG_BITS (to_long LONG_BITS (to_long LONG_BITS n + VX_IMPL_STACK_ALIGN_SIZE))
  = heap_request n.
Proof.
  intros Hn Hfit. unfold VX_IMPL_STACK_ALIGN_SIZE.
  rewrite (to_long_id n) by lia. rewrite (to_long_id (n + 16)) by lia.
  rewrite VX_IMPL_STACK_ROUND_UP_val by lia. unfold heap_request. f_equal. f_equal. lia.
Qed.

(** The three cases of the stack, as the function runs them. *)
Lemma OS_TaskCreate_Impl_run task_id flags p task lrec :
  OS_task_table p !! task_id = Some task ->
  OS_impl_task_table p !! task_id = Some lrec ->
  0 <= stack_size task -> stack_size task + 31 < long_limit ->
  create task_id flags p =
  let '(actualsz, userstackbase, lrec, k) :=
    if to_long LONG_BITS (stack_pointer task) =? 0
    then stack_from_heap LONG_BITS malloc free (stack_size task) lrec (kernel p)
    else (stack_size task, to_long LONG_BITS (stack_pointer task), lrec, kernel p) in
  if userstackbase =? 0
  then (OS_ERROR, set_impl p (<[task_id := lrec]> (OS_impl_task_table p)) k)
  else
    let '(top, size) := stack_layout LONG_BITS userstackbase actualsz in
    task_started task_id flags p lrec top size k.
Proof.
  intros Htask Hlrec Hs Hfit. unfold create, OS_TaskCreate_Impl, task_started.
  cbv zeta. rewrite Htask, Hlrec. cbn [default from_option id].
  assert (Hl : 0 < long_limit) by (unfold long_limit; apply Z.pow_pos_nonneg; lia).
  rewrite (to_long_id (stack_size task)) by lia.
  destruct (to_long LONG_BITS (stack_pointer task) =? 0) eqn:E.
  - destruct (stack_from_heap LONG_BITS malloc free (stack_size task) lrec (kernel p))
      as [[[sz base] lrec'] k'].
    destruct (base =? 0); [reflexivity|].
    destruct (stack_layout LONG_BITS base sz) as [top size].
    rewrite Z.lor_0_l. cbn [vxid set_vxid]. reflexivity.
  - rewrite E.
    destruct (stack_layout LONG_BITS (to_long LONG_BITS (stack_pointer task))
                (stack_size task)) as [top size].
    rewrite Z.lor_0_l. cbn [vxid set_vxid]. reflexivity.
Qed.

(** The heap block of a slot that has none has no size. *)
Definition heap_block_consistent (lrec : OS_impl_task_internal_record_t) : Prop :=
  heap_block lrec = 0 -> heap_block_size lrec = 0.

Lemma stack_from_heap_fresh n lrec k block k1 :
  0 <= n -> n + 31 < long_limit ->
  heap_block_size lrec < heap_request n ->
  malloc (heap_request n) (if heap_block lrec =? 0 then k else free (heap_block lrec) k)
  = (block, k1) ->
  stack_from_heap LONG_BITS malloc free n lrec k
  = (heap_request n, to_long LONG_BITS block,
     mk_impl_task (vxid lrec) block
       (if block =? 0 then (if heap_block lrec =? 0 then heap_block_size lrec else 0)
        else heap_request n),
     k1).
Proof.
  intros Hn Hfit Hsmall Hmalloc. unfold stack_from_heap.
  assert (Hreq := stack_request n Hn Hfit). unfold VX_IMPL_STACK_ALIGN_SIZE in *.
  rewrite (to_long_id n) in Hreq by lia.
  rewrite Hreq. destruct (Z.ltb_spec (heap_block_size lrec) (heap_request n)); [|lia].
  destruct (heap_block lrec =? 0); cbn [negb]; rewrite Hmalloc;
    cbn [heap_block set_heap_block set_heap_block_size vxid heap_block_size];
    destruct (block =? 0);
    cbn [negb heap_block set_heap_block set_heap_block_size vxid heap_block_size];
    reflexivity.
Qed.

(** X13.  A task without a stack of its own, of a stack size up to
    [LONG_MAX - 31], on a slot whose heap block is too small: the old
    block, if there is one, is freed, [malloc] is asked for the stack
    size plus one alignment unit, rounded up, and, when it gives a
    block that is not NULL, wherever that block lies, the stack handed
    to [taskInit] lies inside the new block, is aligned at both ends,
    and is not smaller than the size asked for. *)
Theorem OS_TaskCreate_Impl_allocates_stack
    (task_id : nat) (flags : Z) (p : ImplState K)
    (task : OS_task_internal_record_t) (lrec : OS_impl_task_internal_record_t)
    (block : Z) (k1 : K) :
  OS_task_table p !! task_id = Some task ->
  OS_impl_task_table p !! task_id = Some lrec ->
  stack_pointer task = 0 ->
  0 <= stack_size task -> stack_size task + 31 < long_limit ->
  heap_block_size lrec < heap_request (stack_size task) ->
  malloc (heap_request (stack_size task))
    (if heap_block lrec =? 0 then kernel p else free (heap_block lrec) (kernel p))
  = (block, k1) ->
  to_long LONG_BITS block <> 0 ->
  exists top size,
    create task_id flags p
    = task_started task_id flags p
        (mk_impl_task (vxid lrec) block (heap_request (stack_size task))) top size k1
    /\ stack_inside block (heap_request (stack_size task)) top size
    /\ stack_size task <= size.
Proof.
  intros Htask Hlrec Hsp Hs Hfit Hsmall Hmalloc Hblock.
  pose proof (heap_request_range (stack_size task) Hs) as Hreq.
  rewrite (OS_TaskCreate_Impl_run task_id flags p task lrec Htask Hlrec Hs Hfit).
  rewrite Hsp, to_long_0. change (0 =? 0) with true. cbv iota.
  rewrite (stack_from_heap_fresh _ _ _ _ _ Hs Hfit Hsmall Hmalloc).
  destruct (Z.eqb_spec (to_long LONG_BITS block) 0) as [|_]; [contradiction|].
  destruct (Z.eqb_spec block 0) as [->|_]; [rewrite to_long_0 in Hblock; contradiction|].
  destruct (stack_layout_inside (to_long LONG_BITS block) (heap_request (stack_size task))
              ltac:(lia) ltac:(lia))
    as (top & size & -> & Hin & _ & Hal).
  exists top, size. split; [reflexivity|].
  split; [apply stack_inside_to_long; exact Hin|].
  specialize (Hal (heap_request_aligned _)). lia.
Qed.

(** X14.  A task without a stack of its own, of a stack size up to
    [LONG_MAX - 31], on a slot that has a heap block which is large
    enough: the block is used again, wherever it lies, the kernel is
    not asked for memory, and the stack handed to [taskInit] lies
    inside that block, is aligned at both ends, and is not smaller than
    the size asked for. *)
Theorem OS_TaskCreate_Impl_reuses_heap_block
    (task_id : nat) (flags : Z) (p : ImplState K)
    (task : OS_task_internal_record_t) (lrec : OS_impl_task_internal_record_t) :
  OS_task_table p !! task_id = Some task ->
  OS_impl_task_table p !! task_id = Some lrec ->
  stack_pointer task = 0 ->
  0 <= stack_size task -> stack_size task + 31 < long_limit ->
  heap_request (stack_size task) <= heap_block_size lrec ->
  to_long LONG_BITS (heap_block lrec) <> 0 ->
  exists top size,
    create task_id flags p = task_started task_id flags p lrec top size (kernel p)
    /\ stack_inside (heap_block lrec) (heap_block_size lrec) top size
    /\ stack_size task <= size.
Proof.
  intros Htask Hlrec Hsp Hs Hfit Hbig Hblock.
  pose proof (heap_request_range (stack_size task) Hs) as Hreq.
  rewrite (OS_TaskCreate_Impl_run task_id flags p task lrec Htask Hlrec Hs Hfit).
  rewrite Hsp, to_long_0. change (0 =? 0) with true. cbv iota.
  unfold stack_from_heap.
  assert (Hr := stack_request (stack_size task) Hs Hfit).
  unfold VX_IMPL_STACK_ALIGN_SIZE in *.
  rewrite (to_long_id (stack_size task)) in Hr by lia.
  rewrite Hr. destruct (Z.ltb_spec (heap_block_size lrec) (heap_request (stack_size task)));
    [lia|].
  destruct (Z.eqb_spec (to_long LONG_BITS (heap_block lrec)) 0) as [|_]; [contradiction|].
  destruct (stack_layout_inside (to_long LONG_BITS (heap_block lrec))
              (heap_request (stack_size task)) ltac:(lia) ltac:(lia))
    as (top & size & -> & Hin & _ & Hal).
  exists top, size. split; [reflexivity|]. split.
  - apply stack_inside_to_long. apply (stack_inside_wider _ _ _ _ _ Hbig Hin).
  - specialize (Hal (heap_request_aligned _)). lia.
Qed.


(** X16.  When [malloc] has no memory for the stack, the function
    returns [OS_ERROR] without calling [taskInit], and the slot is left
    without a heap block, of size zero, provided the slot was
    consistent. *)
Theorem OS_TaskCreate_Impl_out_of_memory
    (task_id : nat) (flags : Z) (p : ImplState K)
    (task : OS_task_internal_record_t) (lrec : OS_impl_task_internal_record_t) (k1 : K) :
  OS_task_table p !! task_id = Some task ->
  OS_impl_task_table p !! task_id = Some lrec ->
  heap_block_consistent lrec ->
  stack_pointer task = 0 ->
  0 <= stack_size task -> stack_size task + 31 < long_limit ->
  heap_block_size lrec < heap_request (stack_size task) ->
  malloc (heap_request (stack_size task))
    (if heap_block lrec =? 0 then kernel p else free (heap_block lrec) (kernel p))
  = (0, k1) ->
  create task_id flags p
  = (OS_ERROR,
     set_impl p (<[task_id := mk_impl_task (vxid lrec) 0 0]> (OS_impl_task_table p)) k1).
Proof.
  intros Htask Hlrec Hcons Hsp Hs Hfit Hsmall Hmalloc.
  rewrite (OS_TaskCreate_Impl_run task_id flags p task lrec Htask Hlrec Hs Hfit).
  rewrite Hsp, to_long_0. change (0 =? 0) with true. cbv iota.
  rewrite (stack_from_heap_fresh _ _ _ _ _ Hs Hfit Hsmall Hmalloc).
  rewrite to_long_0. change (0 =? 0) with true. cbv iota.
  destruct (Z.eqb_spec (heap_block lrec) 0) as [Hnone|_]; [|reflexivity].
  rewrite (Hcons Hnone). reflexivity.
Qed.

End VxWorksTaskProperties.

(** *** The delay of a task *)

Section VxWorksTaskDelay.

Import VxWorksTasks.

Context {K : Type}.

Variable taskDelay : Z -> K -> Z * K.
Variable OK TicksPerSecond : Z.

(** X17.  [OS_TaskDelay_Impl] sleeps for the exact ceiling of
    [ms * TicksPerSecond / 1000] ticks, so a delay that is not zero
    never becomes a delay of no tick; when the ceiling does not fit an
    [int] it returns [OS_ERROR] without calling [taskDelay]; and it
    returns nothing but [OS_SUCCESS] and [OS_ERROR]. *)
Theorem OS_TaskDelay_Impl_ticks (milli_second : Z) (k : K) :
  is_uint32 milli_second -> is_uint32 TicksPerSecond ->
  let exact := (milli_second * TicksPerSecond + 999) / 1000 in
  let result := OS_TaskDelay_Impl taskDelay OK TicksPerSecond milli_second k in
  (exact <= INT_MAX ->
   result = (let '(status, k) := taskDelay exact k in
             (if negb (status =? OK) then OS_ERROR else OS_SUCCESS, k)))
  /\ (INT_MAX < exact -> result = (OS_ERROR, k))
  /\ (0 < milli_second -> 0 < TicksPerSecond -> 1 <= exact)
  /\ (fst result = OS_SUCCESS \/ fst result = OS_ERROR).
Proof.
  intros Hms Htps exact result.
  pose proof (num_of_ticks_exact milli_second TicksPerSecond Hms Htps) as Hn.
  fold exact in Hn.
  assert (Hnn : 0 <= exact).
  { unfold exact, is_uint32 in *. apply Z.div_pos; [|lia].
    pose proof (Z.mul_nonneg_nonneg milli_second TicksPerSecond). lia. }
  assert (Hrun : result =
                 if exact <=? INT_MAX
                 then (let '(status, k) := taskDelay exact k in
                       (if negb (status =? OK) then OS_ERROR else OS_SUCCESS, k))
                 else (OS_ERROR, k)).
  { unfold result, OS_TaskDelay_Impl, TimeBase.OS_Milli2Ticks. rewrite Hn.
    destruct (Z.leb_spec exact INT_MAX) as [Hle|Hgt].
    - change (negb (OS_SUCCESS =? OS_SUCCESS)) with false. cbv iota.
      rewrite to_int32_id by (unfold is_int32, INT_MAX in *; lia).
      destruct (taskDelay exact k) as [status k']. destruct (status =? OK); reflexivity.
    - reflexivity. }
  split; [|split; [|split]].
  - intros Hle. rewrite Hrun. destruct (Z.leb_spec exact INT_MAX); [reflexivity|lia].
  - intros Hgt. rewrite Hrun. destruct (Z.leb_spec exact INT_MAX); [lia|reflexivity].
  - intros Hm Ht. unfold exact.
    assert (1 <= milli_second * TicksPerSecond) by nia.
    apply Z.div_le_lower_bound; lia.
  - rewrite Hrun. destruct (exact <=? INT_MAX); [|right; reflexivity].
    destruct (taskDelay exact k) as [status k']. destruct (status =? OK); cbn; auto.
Qed.

End VxWorksTaskDelay.

(** A kernel as the list of the calls made, latest first: [malloc]
    gives the block at a fixed address (none when the address is 0) and
    records the size asked for, [taskInit] records the top and the size
    of the stack it is given, and [taskDelay] the number of ticks. *)
Definition heap_at (block : Z) (n : Z) (k : list Z) : Z * list Z := (block, n :: k).

Definition heap_free (block : Z) (k : list Z) : list Z := k.

Definition recording_taskInit (task_id : nat) (name : option string)
    (priority options top size arg : Z) (k : list Z) : Z * list Z :=
  (0, top :: size :: k).

Definition activate (tid : Z) (k : list Z) : list Z := k.

Definition tcb_of (task_id : nat) : Z := 1000 + Z.of_nat task_id.

Definition recording_delay (ticks : Z) (k : list Z) : Z * list Z := (0, ticks :: k).

(** One slot, holding the task [task] and the adapter's record [lrec]. *)
Definition one_task (task : VxWorksTasks.OS_task_internal_record_t)
    (lrec : VxWorksTasks.OS_impl_task_internal_record_t)
  : VxWorksTasks.ImplState (list Z) :=
  VxWorksTasks.mk_impl [mk_common (Some "t") (OS_ObjectIdCompose_Impl 1 1) 0 0 0]
    [task] [lrec] [].

(** A stack of 1000 bytes on a 32-bit target, with no heap block yet:
    1024 bytes are asked for, and the block holds the stack, at 4096
    as well as at 0xC0000000, in the upper half of the addresses, where
    the [long] is negative. *)
Lemma OS_TaskCreate_Impl_allocates_stack_witness :
  (exists top size,
     VxWorksTasks.OS_TaskCreate_Impl 32 (heap_at 4096) heap_free recording_taskInit activate
       tcb_of 0 8 1 0 0 (one_task (VxWorksTasks.mk_task 10 1000 0) VxWorksTasks.impl_task_zero)
     = task_started recording_taskInit activate tcb_of 0 8 1 0 0
         (one_task (VxWorksTasks.mk_task 10 1000 0) VxWorksTasks.impl_task_zero)
         (VxWorksTasks.mk_impl_task 0 4096 1024) top size [1024]
     /\ stack_inside 32 4096 1024 top size
     /\ 1000 <= size)
  /\ (exists top size,
        VxWorksTasks.OS_TaskCreate_Impl 32 (heap_at 3221225472) heap_free recording_taskInit
          activate tcb_of 0 8 1 0 0
          (one_task (VxWorksTasks.mk_task 10 1000 0) VxWorksTasks.impl_task_zero)
        = task_started recording_taskInit activate tcb_of 0 8 1 0 0
            (one_task (VxWorksTasks.mk_task 10 1000 0) VxWorksTasks.impl_task_zero)
            (VxWorksTasks.mk_impl_task 0 3221225472 1024) top size [1024]
        /\ stack_inside 32 3221225472 1024 top size
        /\ 1000 <= size).
Proof.
  split.
  - apply (@OS_TaskCreate_Impl_allocates_stack (list Z) 32 ltac:(lia) (heap_at 4096) heap_free
             recording_taskInit activate tcb_of 0 8 1 0%nat 0
             (one_task (VxWorksTasks.mk_task 10 1000 0) VxWorksTasks.impl_task_zero)
             (VxWorksTasks.mk_task 10 1000 0) VxWorksTasks.impl_task_zero 4096 [1024]);
      first [reflexivity | vm_compute; discriminate | vm_compute; intros; reflexivity
            | unfold long_limit; simpl; lia].
  - apply (@OS_TaskCreate_Impl_allocates_stack (list Z) 32 ltac:(lia) (heap_at 3221225472)
             heap_free recording_taskInit activate tcb_of 0 8 1 0%nat 0
             (one_task (VxWorksTasks.mk_task 10 1000 0) VxWorksTasks.impl_task_zero)
             (VxWorksTasks.mk_task 10 1000 0) VxWorksTasks.impl_task_zero 3221225472 [1024]);
      first [reflexivity | vm_compute; discriminate | vm_compute; intros; reflexivity
            | unfold long_limit; simpl; lia].
Defined.

(** The same task on a slot that owns a block of 2048 bytes, at 8192 as
    well as at 0xC0002000. *)
Lemma OS_TaskCreate_Impl_reuses_heap_block_witness :
  (exists top size,
     VxWorksTasks.OS_TaskCreate_Impl 32 (heap_at 4096) heap_free recording_taskInit activate
       tcb_of 0 8 1 0 0
       (one_task (VxWorksTasks.mk_task 10 1000 0) (VxWorksTasks.mk_impl_task 0 8192 2048))
     = task_started recording_taskInit activate tcb_of 0 8 1 0 0
         (one_task (VxWorksTasks.mk_task 10 1000 0) (VxWorksTasks.mk_impl_task 0 8192 2048))
         (VxWorksTasks.mk_impl_task 0 8192 2048) top size []
     /\ stack_inside 32 8192 2048 top size
     /\ 1000 <= size)
  /\ (exists top size,
        VxWorksTasks.OS_TaskCreate_Impl 32 (heap_at 4096) heap_free recording_taskInit activate
          tcb_of 0 8 1 0 0
          (one_task (VxWorksTasks.mk_task 10 1000 0)
             (VxWorksTasks.mk_impl_task 0 3221233664 2048))
        = task_started recording_taskInit activate tcb_of 0 8 1 0 0
            (one_task (VxWorksTasks.mk_task 10 1000 0)
               (VxWorksTasks.mk_impl_task 0 3221233664 2048))
            (VxWorksTasks.mk_impl_task 0 3221233664 2048) top size []
        /\ stack_inside 32 3221233664 2048 top size
        /\ 1000 <= size).
Proof.
  split.
  - apply (@OS_TaskCreate_Impl_reuses_heap_block (list Z) 32 ltac:(lia) (heap_at 4096)
             heap_free recording_taskInit activate tcb_of 0 8 1 0%nat 0
             (one_task (VxWorksTasks.mk_task 10 1000 0) (VxWorksTasks.mk_impl_task 0 8192 2048))
             (VxWorksTasks.mk_task 10 1000 0) (VxWorksTasks.mk_impl_task 0 8192 2048));
      first [reflexivity | vm_compute; discriminate | vm_compute; intros; reflexivity
            | unfold long_limit; simpl; lia].
  - apply (@OS_TaskCreate_Impl_reuses_heap_block (list Z) 32 ltac:(lia) (heap_at 4096)
             heap_free recording_taskInit activate tcb_of 0 8 1 0%nat 0
             (one_task (VxWorksTasks.mk_task 10 1000 0)
                (VxWorksTasks.mk_impl_task 0 3221233664 2048))
             (VxWorksTasks.mk_task 10 1000 0) (VxWorksTasks.mk_impl_task 0 3221233664 2048));
      first [reflexivity | vm_compute; discriminate | vm_compute; intros; reflexivity
            | unfold long_limit; simpl; lia].
Defined.


(** The first task again, on a kernel that has no memory. *)
Lemma OS_TaskCreate_Impl_out_of_memory_witness :
  VxWorksTasks.OS_TaskCreate_Impl 32 (heap_at 0) heap_free recording_taskInit activate
    tcb_of 0 8 1 0 0 (one_task (VxWorksTasks.mk_task 10 1000 0) VxWorksTasks.impl_task_zero)
  = (OS_ERROR,
     VxWorksTasks.mk_impl [mk_common (Some "t") (OS_ObjectIdCompose_Impl 1 1) 0 0 0]
       [VxWorksTasks.mk_task 10 1000 0] [VxWorksTasks.mk_impl_task 0 0 0] [1024]).
Proof.
  apply (@OS_TaskCreate_Impl_out_of_memory (list Z) 32 ltac:(lia) (heap_at 0) heap_free
           recording_taskInit activate tcb_of 0 8 1 0%nat 0
           (one_task (VxWorksTasks.mk_task 10 1000 0) VxWorksTasks.impl_task_zero)
           (VxWorksTasks.mk_task 10 1000 0) VxWorksTasks.impl_task_zero [1024]);
    first [reflexivity | vm_compute; discriminate | vm_compute; intros; reflexivity
          | unfold long_limit; simpl; lia].
Defined.

(** A delay of 1 millisecond at 100 ticks per second sleeps one tick. *)
Lemma OS_TaskDelay_Impl_ticks_witness :
  VxWorksTasks.OS_TaskDelay_Impl recording_delay 0 100 1 [] = (OS_SUCCESS, [1]).
Proof.
  destruct (@OS_TaskDelay_Impl_ticks (list Z) recording_delay 0 100 1 []
              ltac:(unfold is_uint32; lia) ltac:(unfold is_uint32; lia)) as (Hrun & _).
  apply Hrun. vm_compute. discriminate.
Defined.

(** ** What a path translates to *)

Section PathProperties.

Import FileSys.

(** *** Strings and buffers *)

Lemma string_from_0 s : string_from 0 s = s.
Proof. unfold string_from. rewrite Nat.sub_0_r. apply substring_all. Qed.

Lemma string_from_S n c s : string_from (S n) (String c s) = string_from n s.
Proof. reflexivity. Qed.

Lemma append_String c a b :
  String.append (String c a) b = String c (String.append a b).
Proof. reflexivity. Qed.

Lemma string_from_app a b : string_from (String.length a) (String.append a b) = b.
Proof.
  induction a as [|c a IH]; [apply string_from_0|].
  cbn [String.length]. rewrite append_String, string_from_S. exact IH.
Qed.

Lemma length_string_from n s : String.length (string_from n s) = (String.length s - n)%nat.
Proof.
  revert n. induction s as [|c s IH]; intros n.
  - destruct n; reflexivity.
  - destruct n; [now rewrite string_from_0|]. rewrite string_from_S, IH. reflexivity.
Qed.

(** A prefix splits the string. *)
Lemma prefix_split p s :
  String.prefix p s = true -> s = String.append p (string_from (String.length p) s).
Proof.
  revert s. induction p as [|c p IH]; intros s Hp.
  - change (String.append "" ?x) with x. cbn [String.length]. now rewrite string_from_0.
  - destruct s as [|d s]; [discriminate|]. cbn [String.prefix] in Hp.
    destruct (Ascii.ascii_dec c d) as [->|]; [|discriminate].
    cbn [String.length]. rewrite append_String, string_from_S. f_equal. now apply IH.
Qed.

Lemma prefix_app p s : String.prefix p (String.append p s) = true.
Proof.
  induction p as [|c p IH]; [destruct s; reflexivity|].
  rewrite append_String. cbn [String.prefix].
  destruct (Ascii.ascii_dec c c); [exact IH|contradiction].
Qed.

Lemma get_app_length p s : String.get (String.length p) (String.append p s) = String.get 0 s.
Proof.
  induction p as [|c p IH]; [reflexivity|].
  rewrite append_String. cbn [String.length String.get]. exact IH.
Qed.

Lemma write_at_0 src buf :
  write_at 0 src buf = String.append src (string_from (String.length src) buf).
Proof. reflexivity. Qed.

Lemma write_at_app pre src tail :
  write_at (String.length pre) src (String.append pre tail)
  = String.append pre (write_at 0 src tail).
Proof.
  induction pre as [|c pre IH]; [reflexivity|].
  rewrite !append_String. cbn [String.length write_at]. now rewrite IH.
Qed.

Lemma cstring_app a b : no_char NUL a -> cstring (String.append a (String NUL b)) = a.
Proof.
  induction a as [|c a IH]; intros Hno.
  - change (String.append "" ?x) with x. cbn [cstring]. now rewrite Ascii.eqb_refl.
  - apply no_char_cons in Hno as [Hc Ha]. rewrite append_String. cbn [cstring].
    destruct (Ascii.eqb_spec c NUL); [contradiction|]. now rewrite IH.
Qed.

Lemma no_char_app c a b : no_char c a -> no_char c b -> no_char c (String.append a b).
Proof.
  induction a as [|d a IH]; intros Ha Hb; [exact Hb|].
  apply no_char_cons in Ha as [Hd Ha]. rewrite append_String. intros [|i]; cbn [String.get].
  - congruence.
  - now apply IH.
Qed.

Lemma no_char_string_from c n s : no_char c s -> no_char c (string_from n s).
Proof.
  revert n. induction s as [|d s IH]; intros n Hs.
  - destruct n; exact Hs.
  - destruct n; [now rewrite string_from_0|]. rewrite string_from_S.
    apply IH. now apply no_char_cons in Hs.
Qed.

Lemma length_app a b :
  String.length (String.append a b) = (String.length a + String.length b)%nat.
Proof.
  induction a as [|c a IH]; [reflexivity|].
  rewrite append_String. cbn [String.length]. now rewrite IH.
Qed.

Lemma app_assoc_string a b c :
  String.append (String.append a b) c = String.append a (String.append b c).
Proof. induction a as [|d a IH]; [reflexivity|]. rewrite !append_String. now rewrite IH. Qed.

(** The output buffer after the two copies and the terminator holds the
    two strings, one after the other. *)
Lemma translated_buffer sys rest lp :
  no_char NUL sys -> no_char NUL rest ->
  cstring (write_at (String.length sys + String.length rest) (String NUL EmptyString)
             (write_at (String.length sys) rest (write_at 0 sys lp)))
  = String.append sys rest.
Proof.
  intros Hsys Hrest. rewrite (write_at_0 sys lp), write_at_app, (write_at_0 rest).
  rewrite <- app_assoc_string, <- length_app, write_at_app, write_at_0.
  apply cstring_app. now apply no_char_app.
Qed.

(** *** The search *)

Lemma OS_ObjectIdSearch_found MatchFunc :
  forall tbl i idx,
    OS_ObjectIdSearch MatchFunc i tbl = Some idx ->
    (i <= idx)%nat
    /\ exists r, tbl !! (idx - i)%nat = Some r /\ MatchFunc idx r = true
                 /\ OS_ObjectIdDefined (active_id r) = true.
Proof.
  induction tbl as [|r tbl IH]; intros i idx Hs; [discriminate|].
  cbn [OS_ObjectIdSearch] in Hs.
  destruct (OS_ObjectIdDefined (active_id r)) eqn:Hdef; cbn [andb] in Hs.
  - destruct (negb (active_id r =? OS_OBJECT_ID_RESERVED) && MatchFunc i r) eqn:Hm.
    + injection Hs as <-. split; [lia|]. exists r. rewrite Nat.sub_diag.
      apply andb_true_iff in Hm as [_ Hm]. auto.
    + destruct (negb (active_id r =? OS_OBJECT_ID_RESERVED)); cbn [andb] in *;
        try rewrite Hm in Hs;
        (apply IH in Hs as (Hle & r' & Hr' & Hrest); split; [lia|]; exists r';
         replace (idx - i)%nat with (S (idx - S i)) by lia; auto).
  - apply IH in Hs as (Hle & r' & Hr' & Hrest). split; [lia|]. exists r'.
    replace (idx - i)%nat with (S (idx - S i)) by lia. auto.
Qed.

(** The handles of the active records name the slots they sit in. *)
Definition handles_name_slots (gtbl : list OS_common_record_t) : Prop :=
  forall i g,
    gtbl !! i = Some g -> OS_ObjectIdDefined (active_id g) = true ->
    OS_ObjectIdToArrayIndex OS_OBJECT_TYPE_OS_FILESYS (length gtbl) (active_id g)
    = (OS_SUCCESS, i).

(** A search that does not ask for a reference finds a record of the
    table, on which the match function holds, and leaves the table
    alone; the slot of the record is the one its handle names. *)
Lemma OS_ObjectIdGetBySearch_found lock_mode MatchFunc gtbl :
  lock_mode = OS_LOCK_MODE_NONE \/ lock_mode = OS_LOCK_MODE_GLOBAL ->
  handles_name_slots gtbl ->
  (exists gidx g,
      OS_ObjectIdGetBySearch lock_mode MatchFunc gtbl = (OS_SUCCESS, gidx, gtbl)
      /\ OS_ObjectIdSearch MatchFunc 0 gtbl = Some gidx
      /\ gtbl !! gidx = Some g /\ MatchFunc gidx g = true
      /\ local_id_of gtbl gidx = gidx)
  \/ (OS_ObjectIdGetBySearch lock_mode MatchFunc gtbl = (OS_ERR_NAME_NOT_FOUND, 0%nat, gtbl)
      /\ OS_ObjectIdSearch MatchFunc 0 gtbl = None).
Proof.
  intros Hmode Hslots. unfold OS_ObjectIdGetBySearch.
  destruct (OS_ObjectIdSearch MatchFunc 0 gtbl) as [gidx|] eqn:Hs; [|right; auto].
  destruct (OS_ObjectIdSearch_found _ _ _ _ Hs) as (_ & g & Hg & Hm & Hdef).
  rewrite Nat.sub_0_r in Hg. rewrite Hg. left. exists gidx, g.
  split; [|split; [reflexivity|split; [exact Hg|split; [exact Hm|]]]].
  - destruct Hmode as [-> | ->]; cbn; rewrite list_insert_id by exact Hg; reflexivity.
  - unfold local_id_of. rewrite Hg. cbn [default from_option id].
    now rewrite (Hslots gidx g Hg Hdef).
Qed.

End PathProperties.

Section TranslateProperties.

Import FileSys.

Context `{OsConfig}.

Lemma strrchr_get s c i : String.get i s = Some c -> exists r, strrchr s c = Some r.
Proof.
  revert i. induction s as [|d s IH]; intros i Hget; [discriminate|].
  cbn [strrchr]. destruct (strrchr s c) as [r|] eqn:Hr; [eauto|].
  destruct i as [|i]; cbn [String.get] in Hget.
  - injection Hget as ->. rewrite Ascii.eqb_refl. eauto.
  - destruct (IH i Hget) as [r Hr']. discriminate.
Qed.

(** What a match of [OS_FileSys_FindVirtMountPoint] says about the
    record of the slot and the path. *)
Lemma OS_FileSys_FindVirtMountPoint_true tbl vp i g :
  OS_FileSys_FindVirtMountPoint tbl vp i g = true ->
  exists local,
    tbl !! i = Some local
    /\ Z.land (flags local) OS_FILESYS_FLAG_IS_MOUNTED_VIRTUAL <> 0
    /\ (0 < String.length (virtual_mountpt local))%nat
    /\ vp = String.append (virtual_mountpt local)
              (string_from (String.length (virtual_mountpt local)) vp)
    /\ (String.get (String.length (virtual_mountpt local)) vp = Some slash
        \/ String.get (String.length (virtual_mountpt local)) vp = None).
Proof.
  unfold OS_FileSys_FindVirtMountPoint. destruct (tbl !! i) as [local|]; [|discriminate].
  destruct (Z.eqb_spec (Z.land (flags local) OS_FILESYS_FLAG_IS_MOUNTED_VIRTUAL) 0);
    [discriminate|].
  intros Hm. apply andb_true_iff in Hm as [Hm Hend]. apply andb_true_iff in Hm as [Hlen Hpre].
  exists local. split; [reflexivity|]. split; [assumption|].
  split; [now apply Nat.ltb_lt|]. split; [now apply prefix_split|].
  destruct (String.get _ vp) as [c|]; [left|now right].
  apply Ascii.eqb_eq in Hend. now subst.
Qed.

(** X18.  A virtual path that passes the checks of [OS_TranslatePath]
    and lies under a virtual mount point is translated by replacing
    that mount point, in the first record of the table that matches,
    by the record's system mount point: the call returns [OS_SUCCESS]
    and the output buffer holds the system mount point followed by the
    rest of the path, provided the record is mounted on the system side
    and the result fits [OS_MAX_LOCAL_PATH_LEN]; it fails with
    [OS_ERR_INCORRECT_OBJ_STATE] when the record is not mounted on the
    system side, and with [OS_FS_ERR_PATH_TOO_LONG] when the result
    does not fit.  [OS_FS_ERR_PATH_INVALID] is not among the outcomes. *)
Theorem OS_TranslatePath_result (vp lp : string) (st : State) (gidx : nat) :
  handles_name_slots (OS_global_filesys_table st) ->
  (String.length vp < OS_MAX_PATH_LEN)%nat ->
  String.get 0 vp = Some slash ->
  (forall name_ptr, strrchr vp slash = Some name_ptr ->
                    (String.length (string_from 1 name_ptr) < OS_MAX_FILE_NAME)%nat) ->
  no_char NUL vp ->
  OS_ObjectIdSearch (OS_FileSys_FindVirtMountPoint (OS_filesys_table st) vp) 0
    (OS_global_filesys_table st) = Some gidx ->
  exists local rest,
    OS_filesys_table st !! gidx = Some local
    /\ vp = String.append (virtual_mountpt local) rest
    /\ (Z.land (flags local) OS_FILESYS_FLAG_IS_MOUNTED_SYSTEM = 0 ->
        OS_TranslatePath (Some vp) (Some lp) st = (OS_ERR_INCORRECT_OBJ_STATE, Some lp))
    /\ (Z.land (flags local) OS_FILESYS_FLAG_IS_MOUNTED_SYSTEM <> 0 ->
        (String.length (system_mountpt local) + String.length rest
         < OS_MAX_LOCAL_PATH_LEN)%nat ->
        no_char NUL (system_mountpt local) ->
        exists buf,
          OS_TranslatePath (Some vp) (Some lp) st = (OS_SUCCESS, Some buf)
          /\ cstring buf = String.append (system_mountpt local) rest)
    /\ (Z.land (flags local) OS_FILESYS_FLAG_IS_MOUNTED_SYSTEM <> 0 ->
        (OS_MAX_LOCAL_PATH_LEN
         <= String.length (system_mountpt local) + String.length rest)%nat ->
        fst (OS_TranslatePath (Some vp) (Some lp) st) = OS_FS_ERR_PATH_TOO_LONG).
Proof.
  intros Hslots Hlen Hslash Hname Hnul Hsearch.
  destruct (OS_ObjectIdGetBySearch_found OS_LOCK_MODE_GLOBAL
              (OS_FileSys_FindVirtMountPoint (OS_filesys_table st) vp)
              (OS_global_filesys_table st) ltac:(auto) Hslots)
    as [(gidx' & g & Hget & Hs' & Hg & Hmatch & Hlocal)|[_ Hnone]]; [|congruence].
  assert (gidx' = gidx) as -> by congruence.
  destruct (OS_FileSys_FindVirtMountPoint_true _ _ _ _ Hmatch)
    as (local & Hloc & Hvirt & Hmp & Hsplit & Hnext).
  set (rest := string_from (String.length (virtual_mountpt local)) vp) in *.
  exists local, rest. split; [exact Hloc|]. split; [exact Hsplit|].
  assert (Hvlen : String.length vp
                  = (String.length (virtual_mountpt local) + String.length rest)%nat).
  { rewrite Hsplit at 1. apply length_app. }
  assert (Hrun : OS_TranslatePath (Some vp) (Some lp) st
                 = let '(return_code, lp) := translate_found vp lp local in
                   (return_code, Some lp)).
  { unfold OS_TranslatePath.
    destruct (Nat.leb_spec OS_MAX_PATH_LEN (String.length vp)); [lia|].
    destruct (strrchr_get vp slash 0 Hslash) as [name_ptr Hr]. rewrite Hr.
    specialize (Hname name_ptr Hr).
    destruct (Nat.leb_spec OS_MAX_FILE_NAME (String.length (string_from 1 name_ptr))); [lia|].
    rewrite bool_decide_eq_true_2 by exact Hslash. cbn [negb].
    rewrite Hget. change (negb (OS_SUCCESS =? OS_SUCCESS)) with false. cbv iota.
    rewrite Hlocal, Hloc. reflexivity. }
  rewrite Hrun. unfold translate_found.
  split; [|split].
  - intros Hsys. rewrite Hsys. reflexivity.
  - intros Hsys Hfit Hnosys.
    destruct (Z.eqb_spec (Z.land (flags local) OS_FILESYS_FLAG_IS_MOUNTED_SYSTEM) 0);
      [contradiction|]. cbn [negb].
    destruct (Nat.ltb_spec (String.length (system_mountpt local)) OS_MAX_LOCAL_PATH_LEN);
      [|lia].
    destruct (Nat.ltb_spec (String.length vp) (String.length (virtual_mountpt local)));
      [lia|].
    replace (String.length vp - String.length (virtual_mountpt local))%nat
      with (String.length rest) by lia.
    destruct (Nat.ltb_spec (String.length (system_mountpt local) + String.length rest)
                OS_MAX_LOCAL_PATH_LEN); [|lia].
    eexists. split; [reflexivity|].
    replace (String.substring (String.length (virtual_mountpt local)) (String.length rest) vp)
      with rest.
    + apply translated_buffer; [exact Hnosys|]. unfold rest. now apply no_char_string_from.
    + assert (Hl : String.length rest
                   = (String.length vp - String.length (virtual_mountpt local))%nat)
        by (unfold rest; apply length_string_from).
      rewrite Hl. reflexivity.
  - intros Hsys Hbig.
    destruct (Z.eqb_spec (Z.land (flags local) OS_FILESYS_FLAG_IS_MOUNTED_SYSTEM) 0);
      [contradiction|]. cbn [negb].
    destruct (Nat.ltb_spec (String.length vp) (String.length (virtual_mountpt local)));
      [lia|].
    replace (String.length vp - String.length (virtual_mountpt local))%nat
      with (String.length rest) by lia.
    destruct (Nat.ltb_spec (String.length (system_mountpt local) + String.length rest)
                OS_MAX_LOCAL_PATH_LEN); [lia|].
    reflexivity.
Qed.

End TranslateProperties.

Lemma s3_handles_name_slots :
  handles_name_slots (FileSys.OS_global_filesys_table s3_mounted_state).
Proof.
  intros [|[|i]] g Hg Hdef; cbn in Hg.
  - injection Hg as <-. discriminate.
  - injection Hg as <-. reflexivity.
  - discriminate.
Qed.

(** Scenario S3: with the RAM disk mounted at [/cf], the path [/cf/x]
    is the file [/ram0/x]. *)
Lemma OS_TranslatePath_result_witness :
  exists buf,
    @FileSys.OS_TranslatePath sample_config (Some "/cf/x") (Some "") s3_mounted_state
    = (OS_SUCCESS, Some buf)
    /\ FileSys.cstring buf = "/ram0/x".
Proof.
  destruct (@OS_TranslatePath_result sample_config "/cf/x" "" s3_mounted_state 1
              s3_handles_name_slots ltac:(simpl; lia) ltac:(reflexivity))
    as (local & rest & Hlocal & Hvp & _ & Hok & _).
  - intros name_ptr Hname. cbn in Hname. injection Hname as <-. simpl. lia.
  - intros i. do 5 (destruct i as [|i]; [simpl; discriminate|]). simpl. discriminate.
  - reflexivity.
  - cbn in Hlocal. injection Hlocal as <-. vm_compute in Hvp. injection Hvp as <-.
    apply Hok.
    + discriminate.
    + simpl. lia.
    + intros i. do 5 (destruct i as [|i]; [simpl; discriminate|]). simpl. discriminate.
Defined.

(** ** Mounting, then unmounting *)

Section MountProperties.

Import FileSys.

Context `{OsConfig} {P : Type} `{FileSysAdapter P}.

Lemma OS_ObjectIdSearch_active MatchFunc :
  forall tbl i idx,
    OS_ObjectIdSearch MatchFunc i tbl = Some idx ->
    exists r, tbl !! (idx - i)%nat = Some r
              /\ OS_ObjectIdDefined (active_id r) = true
              /\ OS_ObjectIdEqual (active_id r) OS_OBJECT_ID_RESERVED = false.
Proof.
  induction tbl as [|r tbl IH]; intros i idx Hs; [discriminate|].
  destruct (OS_ObjectIdSearch_found _ _ _ _ Hs) as (Hle & _).
  cbn [OS_ObjectIdSearch] in Hs.
  destruct (OS_ObjectIdDefined (active_id r)
            && negb (active_id r =? OS_OBJECT_ID_RESERVED) && MatchFunc i r) eqn:Hm.
  - injection Hs as <-. exists r. rewrite Nat.sub_diag.
    apply andb_true_iff in Hm as [Hm _]. apply andb_true_iff in Hm as [Hd Hr].
    apply negb_true_iff in Hr. auto.
  - destruct (OS_ObjectIdSearch_found _ _ _ _ Hs) as (Hle' & _).
    apply IH in Hs as (r' & Hr' & Hrest). exists r'.
    replace (idx - i)%nat with (S (idx - S i)) by lia. auto.
Qed.

Lemma OS_ObjectIdSearch_none MatchFunc :
  (forall i r, MatchFunc i r = false) ->
  forall tbl i, OS_ObjectIdSearch MatchFunc i tbl = None.
Proof.
  intros Hno. induction tbl as [|r tbl IH]; intros i; [reflexivity|].
  cbn [OS_ObjectIdSearch]. rewrite Hno, andb_false_r. apply IH.
Qed.

(** What a successful search that holds no reference says. *)
Lemma OS_ObjectIdGetBySearch_success lock_mode MatchFunc gtbl gidx gtbl' :
  lock_mode <> OS_LOCK_MODE_REFCOUNT ->
  handles_name_slots gtbl ->
  OS_ObjectIdGetBySearch lock_mode MatchFunc gtbl = (OS_SUCCESS, gidx, gtbl') ->
  gtbl' = gtbl
  /\ OS_ObjectIdSearch MatchFunc 0 gtbl = Some gidx
  /\ local_id_of gtbl gidx = gidx
  /\ exists g, gtbl !! gidx = Some g /\ MatchFunc gidx g = true
               /\ (lock_mode = OS_LOCK_MODE_EXCLUSIVE -> refcount g = 0).
Proof.
  intros Hmode Hslots. unfold OS_ObjectIdGetBySearch.
  destruct (OS_ObjectIdSearch MatchFunc 0 gtbl) as [i|] eqn:Hs; [|discriminate].
  destruct (OS_ObjectIdSearch_found _ _ _ _ Hs) as (_ & g & Hg & Hm & Hdef).
  rewrite Nat.sub_0_r in Hg. rewrite Hg.
  assert (Hloc : local_id_of gtbl i = i).
  { unfold local_id_of. rewrite Hg. cbn [default from_option id].
    now rewrite (Hslots i g Hg Hdef). }
  destruct lock_mode; cbn [OS_ObjectIdConvertLock]; try congruence.
  - intros [= <- <-]. rewrite list_insert_id by exact Hg.
    split; [reflexivity|]. split; [reflexivity|]. split; [exact Hloc|].
    exists g. split; [exact Hg|]. split; [exact Hm|]. discriminate.
  - intros [= <- <-]. rewrite list_insert_id by exact Hg.
    split; [reflexivity|]. split; [reflexivity|]. split; [exact Hloc|].
    exists g. split; [exact Hg|]. split; [exact Hm|]. discriminate.
  - destruct (Z.eqb_spec (refcount g) 0) as [Hz|]; [|discriminate].
    intros [= <- <-]. rewrite list_insert_id by exact Hg.
    split; [reflexivity|]. split; [reflexivity|]. split; [exact Hloc|].
    exists g. split; [exact Hg|]. split; [exact Hm|]. intros _. exact Hz.
Qed.

(** *** The flags of a record *)

Lemma land_single_bit a : Z.land a 2 = 0 \/ Z.land a 2 = 2.
Proof.
  destruct (Z.testbit a 1) eqn:Hb; [right|left]; apply Z.bits_inj'; intros n Hn;
    rewrite Z.land_spec; destruct (Z.eq_dec n 1) as [->|Hne].
  - now rewrite Hb.
  - replace (Z.testbit 2 n) with false; [apply andb_false_r|].
    symmetry. change 2 with (2 ^ 1). apply Z.pow2_bits_false. lia.
  - rewrite Hb. reflexivity.
  - rewrite Z.bits_0. replace (Z.testbit 2 n) with false; [apply andb_false_r|].
    symmetry. change 2 with (2 ^ 1). apply Z.pow2_bits_false. lia.
Qed.

(** A record whose flags without the FIXED bit are exactly READY has
    flags 1 or 3. *)
Lemma ready_flags f :
  Z.land f (Z.lnot OS_FILESYS_FLAG_IS_FIXED) = OS_FILESYS_FLAG_IS_READY -> f = 1 \/ f = 3.
Proof.
  unfold OS_FILESYS_FLAG_IS_FIXED, OS_FILESYS_FLAG_IS_READY. intros Hf.
  pose proof (Z.lor_ldiff_and f 2) as Hsplit. rewrite Z.ldiff_land, Hf in Hsplit.
  destruct (land_single_bit f) as [Hb|Hb]; rewrite Hb in Hsplit; cbn in Hsplit; auto.
Qed.


Lemma OS_FileSys_FindVirtMountPoint_empty tbl i r :
  OS_FileSys_FindVirtMountPoint tbl "" i r = false.
Proof.
  unfold OS_FileSys_FindVirtMountPoint. destruct (tbl !! i) as [local|]; [|reflexivity].
  destruct (_ =? 0); [reflexivity|].
  destruct (virtual_mountpt local); reflexivity.
Qed.

Lemma prefix_refl s : String.prefix s s = true.
Proof.
  induction s as [|c s IH]; [reflexivity|]. cbn [String.prefix].
  destruct (Ascii.ascii_dec c c); [exact IH|contradiction].
Qed.

Lemma get_length s : String.get (String.length s) s = None.
Proof. induction s as [|c s IH]; [reflexivity|exact IH]. Qed.

Ltac status_clash :=
  cbv beta iota zeta;
  repeat match goal with
         | H : _ <> OS_SUCCESS |- _ => apply Z.eqb_neq in H; rewrite ?H
         end;
  repeat match goal with
         | |- context [?a =? OS_SUCCESS] =>
             let b := eval vm_compute in (a =? OS_SUCCESS) in
             match b with false => change (a =? OS_SUCCESS) with false end
         end;
  cbv beta iota zeta; cbn [negb];
  let Heq := fresh in intros Heq; injection Heq; discriminate.

(** X19.  A volume that has been mounted: mounting it again fails with
    [OS_ERR_NAME_NOT_FOUND] and changes nothing; unmounting by the
    empty mount point fails in the same way, so a volume mounted at the
    empty mount point cannot be unmounted; and, when the mount point is
    not empty and no other record matched it, [OS_unmount] on that mount
    point reaches the adapter for the same slot and, when the adapter
    succeeds, leaves the record with the flags it had before the
    mount. *)
Theorem OS_mount_then_unmount
    (dev mp : string) (st : State) (p : P) (st' : State) (p' : P) :
  handles_name_slots (OS_global_filesys_table st) ->
  length (OS_filesys_table st) = length (OS_global_filesys_table st) ->
  OS_mount (Some dev) (Some mp) st p = (OS_SUCCESS, st', p') ->
  exists i local,
    OS_filesys_table st !! i = Some local
    /\ (flags local = 1 \/ flags local = 3)
    /\ st' = mk_state (OS_global_filesys_table st)
               (<[i := set_mounted local
                         (Z.lor (flags local)
                            (Z.lor OS_FILESYS_FLAG_IS_MOUNTED_SYSTEM
                               OS_FILESYS_FLAG_IS_MOUNTED_VIRTUAL)) mp]>
                  (OS_filesys_table st))
    /\ (forall mp2 p2,
          (String.length mp2 < OS_MAX_PATH_LEN)%nat ->
          OS_mount (Some dev) (Some mp2) st' p2 = (OS_ERR_NAME_NOT_FOUND, st', p2))
    /\ (forall p2, OS_unmount (Some "") st' p2 = (OS_ERR_NAME_NOT_FOUND, st', p2))
    /\ (mp <> "" ->
        OS_ObjectIdSearch (OS_FileSys_FindVirtMountPoint (OS_filesys_table st) mp) 0
          (OS_global_filesys_table st) = None ->
        forall p2,
          OS_unmount (Some mp) st' p2 =
          let '(return_code, p3) := OS_FileSysUnmountVolume_Impl i st' p2 in
          if return_code =? OS_SUCCESS
          then (OS_SUCCESS,
                mk_state (OS_global_filesys_table st)
                  (<[i := set_mounted local (flags local) mp]> (OS_filesys_table st)),
                p3)
          else (OS_ERR_NAME_NOT_FOUND, st', p3)).
Proof.
  intros Hslots Htabs Hmount. destruct st as [gtbl tbl]. cbn [OS_global_filesys_table
    OS_filesys_table] in *. unfold OS_mount in Hmount. revert Hmount.
  destruct (Nat.leb_spec OS_FS_DEV_NAME_LEN (String.length dev)) as [|Hdev];
    [cbn [orb]; status_clash|].
  destruct (Nat.leb_spec OS_MAX_PATH_LEN (String.length mp)) as [|Hmp];
    [cbn [orb]; status_clash|].
  cbn [orb OS_global_filesys_table OS_filesys_table].
  destruct (OS_ObjectIdGetByName OS_LOCK_MODE_EXCLUSIVE dev gtbl) as [[rc gidx] gtbl'] eqn:Hget.
  destruct (Z.eqb_spec rc OS_SUCCESS) as [->|Hrc]; [|status_clash].
  destruct (OS_ObjectIdGetBySearch_success OS_LOCK_MODE_EXCLUSIVE _ _ _ _ ltac:(discriminate) Hslots Hget)
    as (-> & Hsearch & Hloc & g & Hg & _ & Hrefc).
  specialize (Hrefc eq_refl). rewrite Hloc.
  pose proof (lookup_lt_Some _ _ _ Hg) as Hlt.
  destruct (lookup_lt_is_Some_2 tbl gidx ltac:(lia)) as [local Hlocal]. rewrite Hlocal.
  destruct (Z.eqb_spec (Z.land (flags local) (Z.lnot OS_FILESYS_FLAG_IS_FIXED))
              OS_FILESYS_FLAG_IS_READY) as [Hready|]; cbn [negb]; [|status_clash].
  destruct (String.eqb (system_mountpt local) ""); [status_clash|].
  destruct (OS_FileSysMountVolume_Impl gidx _ p) as [rc1 p1].
  destruct (Z.eqb_spec rc1 OS_SUCCESS) as [->|Hrc1]; cbn [negb];
    [|status_clash].
  intros [= <- <-]. exists gidx, local.
  pose proof (ready_flags _ Hready) as Hflags.
  split; [exact Hlocal|]. split; [exact Hflags|]. split; [reflexivity|].
  set (local' := set_mounted local _ mp).
  set (tbl' := <[gidx := local']> tbl).
  assert (Hlocal' : tbl' !! gidx = Some local') by (apply list_lookup_insert_eq; lia).
  split; [|split].
  - intros mp2 p2 Hmp2. unfold OS_mount.
    destruct (Nat.leb_spec OS_FS_DEV_NAME_LEN (String.length dev)); [lia|].
    destruct (Nat.leb_spec OS_MAX_PATH_LEN (String.length mp2)); [lia|].
    cbn [orb OS_global_filesys_table OS_filesys_table]. rewrite Hget.
    change (OS_SUCCESS =? OS_SUCCESS) with true. cbv iota. rewrite Hloc, Hlocal'.
    replace (Z.land (flags local') (Z.lnot OS_FILESYS_FLAG_IS_FIXED)
             =? OS_FILESYS_FLAG_IS_READY) with false
      by (unfold local'; cbn [flags set_mounted]; destruct Hflags as [-> | ->]; reflexivity).
    reflexivity.
  - intros p2. unfold OS_unmount. cbn [String.length].
    destruct (Nat.leb_spec OS_MAX_PATH_LEN 0); [lia|].
    unfold OS_ObjectIdGetBySearch.
    rewrite OS_ObjectIdSearch_none by apply OS_FileSys_FindVirtMountPoint_empty.
    reflexivity.
  - intros Hne Hnone p2. unfold OS_unmount.
    destruct (Nat.leb_spec OS_MAX_PATH_LEN (String.length mp)); [lia|].
    cbn [OS_global_filesys_table OS_filesys_table].
    destruct (OS_ObjectIdSearch_active _ _ _ _ Hsearch) as (g' & Hg' & Hdef & Hres).
    rewrite Nat.sub_0_r in Hg'. assert (g' = g) as -> by congruence.
    assert (Hfound : OS_ObjectIdSearch (OS_FileSys_FindVirtMountPoint tbl' mp) 0 gtbl
                     = Some gidx).
    { rewrite <- (list_insert_id gtbl gidx g Hg) at 1.
      apply (OS_ObjectIdSearch_insert (OS_FileSys_FindVirtMountPoint tbl mp)
               (OS_FileSys_FindVirtMountPoint tbl' mp) g Hdef Hres gtbl 0%nat gidx Hlt Hnone).
      - intros j r' Hj. unfold OS_FileSys_FindVirtMountPoint, tbl'.
        rewrite list_lookup_insert_ne by (cbn in Hj; congruence). reflexivity.
      - cbn [Nat.add]. unfold OS_FileSys_FindVirtMountPoint. rewrite Hlocal'.
        unfold local'. cbn [flags virtual_mountpt set_mounted].
        replace (Z.land _ OS_FILESYS_FLAG_IS_MOUNTED_VIRTUAL =? 0) with false
          by (destruct Hflags as [-> | ->]; reflexivity).
        rewrite prefix_refl, get_length.
        destruct mp; [contradiction|reflexivity]. }
    unfold OS_ObjectIdGetBySearch. rewrite Hfound, Hg.
    cbn [OS_ObjectIdConvertLock]. rewrite Hrefc. change (0 =? 0) with true. cbv iota.
    rewrite (list_insert_id gtbl gidx g Hg).
    change (OS_SUCCESS =? OS_SUCCESS) with true. cbv iota. rewrite Hloc, Hlocal'.
    replace (Z.land (flags local') (Z.lnot OS_FILESYS_FLAG_IS_FIXED)
             =? Z.lor OS_FILESYS_FLAG_IS_READY
                  (Z.lor OS_FILESYS_FLAG_IS_MOUNTED_SYSTEM OS_FILESYS_FLAG_IS_MOUNTED_VIRTUAL))
      with true
      by (unfold local'; cbn [flags set_mounted]; destruct Hflags as [-> | ->]; reflexivity).
    cbn [negb]. fold tbl'.
    destruct (OS_FileSysUnmountVolume_Impl gidx (mk_state gtbl tbl') p2) as [rc3 p3].
    destruct (Z.eqb_spec rc3 OS_SUCCESS) as [->|Hrc3].
    + change (negb (OS_SUCCESS =? OS_SUCCESS)) with false. cbv iota.
      unfold tbl'. rewrite list_insert_insert_eq. do 3 f_equal.
      unfold local', set_fs_flags, set_mounted. cbn [flags device_name volume_name
        system_mountpt virtual_mountpt address blocksize numblocks fstype].
      f_equal. destruct Hflags as [-> | ->]; reflexivity.
    + apply Z.eqb_neq in Hrc3. rewrite Hrc3. cbn [negb]. reflexivity.
Qed.

End MountProperties.

(** Scenario S3: once the RAM disk is mounted at [/cf], a second mount
    of the device fails, and so does an unmount of the empty mount
    point. *)
Lemma OS_mount_then_unmount_witness :
  @FileSys.OS_mount sample_config _ null_filesys_adapter (Some "ram0") (Some "/cf")
    s3_ready_state tt = (OS_SUCCESS, s3_mounted_state, tt)
  /\ @FileSys.OS_mount sample_config _ null_filesys_adapter (Some "ram0") (Some "/data")
       s3_mounted_state tt = (OS_ERR_NAME_NOT_FOUND, s3_mounted_state, tt)
  /\ @FileSys.OS_unmount sample_config _ null_filesys_adapter (Some "") s3_mounted_state tt
     = (OS_ERR_NAME_NOT_FOUND, s3_mounted_state, tt).
Proof.
  assert (Hmount :
    @FileSys.OS_mount sample_config _ null_filesys_adapter (Some "ram0") (Some "/cf")
      s3_ready_state tt = (OS_SUCCESS, s3_mounted_state, tt)) by reflexivity.
  split; [exact Hmount|].
  destruct (@OS_mount_then_unmount sample_config _ null_filesys_adapter "ram0" "/cf"
              s3_ready_state tt s3_mounted_state tt s3_handles_name_slots
              ltac:(reflexivity) Hmount)
    as (i & local & _ & _ & _ & Hagain & Hempty & _).
  split; [apply Hagain; simpl; lia|apply Hempty].
Defined.

(** ** Free slots reported by [OS_GetFsInfo] *)

Section FsInfoProperties.

Import FileSys.

(** The slots of a common table that hold a handle. *)
Definition slots_in_use (tbl : list OS_common_record_t) : nat :=
  length (List.filter (fun r => OS_ObjectIdDefined (active_id r)) tbl).

Lemma slots_in_use_le tbl : (slots_in_use tbl <= length tbl)%nat.
Proof. apply List.filter_length_le. Qed.

Lemma count_free_spec tbl n :
  0 <= n -> n + Z.of_nat (length tbl) < 2 ^ 32 ->
  count_free tbl n = n + Z.of_nat (length tbl) - Z.of_nat (slots_in_use tbl).
Proof.
  revert n. induction tbl as [|r tbl IH]; intros n Hn Hlen.
  - cbn. lia.
  - cbn [count_free]. pose proof (slots_in_use_le tbl) as Hle.
    cbn [length] in Hlen. unfold slots_in_use in *. cbn [List.filter].
    destruct (OS_ObjectIdDefined (active_id r)); cbn [negb length].
    + rewrite IH by lia. lia.
    + unfold to_uint32. rewrite Z.mod_small by lia. rewrite IH by lia. lia.
Qed.

(** X20.  [OS_GetFsInfo] reports the sizes of the stream table and of
    the file system table and, for each, the number of slots that hold
    no handle: free plus in use is the size, whatever the caller's
    structure held before. *)
Theorem OS_GetFsInfo_counts (old : os_fsinfo_t) (streams : list OS_common_record_t)
    (st : State) :
  Z.of_nat (length streams) < 2 ^ 32 ->
  Z.of_nat (length (OS_global_filesys_table st)) < 2 ^ 32 ->
  exists info,
    OS_GetFsInfo (Some old) streams st = (OS_SUCCESS, Some info)
    /\ MaxFds info = Z.of_nat (length streams)
    /\ MaxVolumes info = Z.of_nat (length (OS_global_filesys_table st))
    /\ FreeFds info + Z.of_nat (slots_in_use streams) = MaxFds info
    /\ FreeVolumes info + Z.of_nat (slots_in_use (OS_global_filesys_table st))
       = MaxVolumes info
    /\ 0 <= FreeFds info <= MaxFds info
    /\ 0 <= FreeVolumes info <= MaxVolumes info.
Proof.
  intros Hs Hv. eexists. split; [reflexivity|]. cbn [MaxFds MaxVolumes FreeFds FreeVolumes].
  rewrite !count_free_spec by lia.
  pose proof (slots_in_use_le streams). pose proof (slots_in_use_le (OS_global_filesys_table st)).
  repeat split; lia.
Qed.

End FsInfoProperties.

(** ** Shutdown request and idle loop *)

Section ShutdownProperties.

Import Common.

Context {T : Type}.
Variable OS_IdleLoop_Impl : World T -> World T.
Variable OS_ApplicationShutdown_Impl : World T -> World T.
Variable OS_SHUTDOWN_MAGIC_NUMBER : Z.

Let idle := OS_IdleLoop OS_IdleLoop_Impl OS_SHUTDOWN_MAGIC_NUMBER.
Let shutdown := OS_ApplicationShutdown OS_ApplicationShutdown_Impl OS_SHUTDOWN_MAGIC_NUMBER.

Lemma OS_IdleLoop_waits fuel w :
  (forall w, ShutdownFlag (OS_SharedGlobalVars (OS_IdleLoop_Impl w))
             = ShutdownFlag (OS_SharedGlobalVars w)) ->
  ShutdownFlag (OS_SharedGlobalVars w) <> OS_SHUTDOWN_MAGIC_NUMBER ->
  idle fuel w = None.
Proof.
  intros Hkeep. revert w. induction fuel as [|fuel IH]; intros w Hw;
    unfold idle in *; cbn [OS_IdleLoop]; apply Z.eqb_neq in Hw; rewrite Hw; cbn [negb].
  - reflexivity.
  - apply IH. rewrite Hkeep. now apply Z.eqb_neq.
Qed.

(** X21.  With a wake hook and an idle primitive that leave the shutdown
    flag alone: after [OS_ApplicationShutdown (true)] the idle loop
    returns at once, without idling; a request with any other flag
    value, nonzero ones included, leaves the flag as it was, and the
    idle loop of a system whose flag is not the magic number does not
    return. *)
Theorem OS_ApplicationShutdown_ends_idle_loop (flag : Z) (fuel : nat) (w : World T) :
  (forall w, ShutdownFlag (OS_SharedGlobalVars (OS_ApplicationShutdown_Impl w))
             = ShutdownFlag (OS_SharedGlobalVars w)) ->
  (forall w, ShutdownFlag (OS_SharedGlobalVars (OS_IdleLoop_Impl w))
             = ShutdownFlag (OS_SharedGlobalVars w)) ->
  idle fuel (shutdown 1 w) = Some (shutdown 1 w)
  /\ (flag <> 1 ->
      ShutdownFlag (OS_SharedGlobalVars (shutdown flag w))
      = ShutdownFlag (OS_SharedGlobalVars w))
  /\ (flag <> 1 ->
      ShutdownFlag (OS_SharedGlobalVars w) <> OS_SHUTDOWN_MAGIC_NUMBER ->
      idle fuel (shutdown flag w) = None).
Proof.
  intros Hhook Hidle.
  assert (Hother : flag <> 1 ->
            ShutdownFlag (OS_SharedGlobalVars (shutdown flag w))
            = ShutdownFlag (OS_SharedGlobalVars w)).
  { intros Hf. unfold shutdown, OS_ApplicationShutdown. apply Z.eqb_neq in Hf.
    rewrite Hf, Hhook. reflexivity. }
  split; [|split].
  - assert (Hset : ShutdownFlag (OS_SharedGlobalVars (shutdown 1 w))
                   = OS_SHUTDOWN_MAGIC_NUMBER).
    { unfold shutdown, OS_ApplicationShutdown. change (1 =? 1) with true. cbv iota.
      rewrite Hhook. reflexivity. }
    unfold idle. destruct fuel; cbn [OS_IdleLoop]; rewrite Hset, Z.eqb_refl; reflexivity.
  - exact Hother.
  - intros Hf Hw. apply OS_IdleLoop_waits; [exact Hidle|]. rewrite Hother by exact Hf.
    exact Hw.
Qed.

End ShutdownProperties.

(** Three stream slots, one of them in use, and the tables of scenario
    S3, with one volume in two slots. *)
Lemma OS_GetFsInfo_counts_witness :
  exists info,
    FileSys.OS_GetFsInfo (Some (FileSys.mk_fsinfo 9 9 9 9))
      [common_zero; mk_common (Some "f") (OS_ObjectIdCompose_Impl 5 2) 65537 0 0; common_zero]
      s3_mounted_state
    = (OS_SUCCESS, Some info)
    /\ FileSys.FreeFds info + 1 = 3
    /\ FileSys.FreeVolumes info + 1 = 2.
Proof.
  destruct (OS_GetFsInfo_counts (FileSys.mk_fsinfo 9 9 9 9)
              [common_zero; mk_common (Some "f") (OS_ObjectIdCompose_Impl 5 2) 65537 0 0;
               common_zero]
              s3_mounted_state ltac:(simpl; lia) ltac:(simpl; lia))
    as (info & Hrun & Hfds & Hvols & Hfree & Hvfree & _).
  exists info. split; [exact Hrun|].
  rewrite Hfds in Hfree. rewrite Hvols in Hvfree. split; [exact Hfree|exact Hvfree].
Defined.

(** A shutdown request on the toy world, with a wake hook and an idle
    primitive that do nothing: the idle loop returns. *)
Lemma OS_ApplicationShutdown_ends_idle_loop_witness :
  Common.OS_IdleLoop (fun w => w) 0xABADC0DE 5
    (Common.OS_ApplicationShutdown (fun w => w) 0xABADC0DE 1 toy_world)
  = Some (Common.OS_ApplicationShutdown (fun w => w) 0xABADC0DE 1 toy_world).
Proof.
  apply (@OS_ApplicationShutdown_ends_idle_loop _ (fun w => w) (fun w => w) 0xABADC0DE 1 5
           toy_world); intros w; reflexivity.
Defined.

(** ** Fixed mappings *)

Lemma OS_ObjectIdFinalizeNew_status rc idtype idx ots outid :
  fst (fst (OS_ObjectIdFinalizeNew rc idtype idx ots outid)) = rc.
Proof. unfold OS_ObjectIdFinalizeNew. destruct (records ots !! idx); reflexivity. Qed.

Section FixedMapProperties.

Import FileSys.

Context `{OsConfig} {P : Type} `{FileSysAdapter P} `{FileSysVolumeAdapter P}.

Variable OS_FS_VOL_NAME_LEN : nat.
Variable OS_FS_PHYS_NAME_LEN : nat.
Variable OS_FILESYS_TYPE_FS_BASED : Z.
Variable self : osal_id_t.

(** The device name of a fixed mapping: what follows the last ['/'] of
    the physical path, or the whole path when it has none. *)
Definition basename (phys : string) : string :=
  match strrchr phys slash with
  | None => phys
  | Some s => string_from 1 s
  end.

(** The record of a fixed mapping that is in place. *)
Definition fixed_map (phys virt : string) : OS_filesys_internal_record_t :=
  mk_filesys (basename phys) (strncpy (basename phys) (OS_FS_VOL_NAME_LEN - 1)) phys virt
    None 0 0
    (Z.lor (Z.lor OS_FILESYS_FLAG_IS_FIXED OS_FILESYS_FLAG_IS_READY)
       (Z.lor OS_FILESYS_FLAG_IS_MOUNTED_SYSTEM OS_FILESYS_FLAG_IS_MOUNTED_VIRTUAL))
    OS_FILESYS_TYPE_FS_BASED.

Lemma or_flags_insert local_id f tbl local :
  (local_id < length tbl)%nat ->
  or_flags local_id f (<[local_id := local]> tbl)
  = <[local_id := set_fs_flags local (Z.lor (flags local) f)]> tbl.
Proof.
  intros Hlt. unfold or_flags. rewrite list_lookup_insert_eq by exact Hlt.
  apply list_insert_insert_eq.
Qed.

(** X22.  With an adapter whose start operation leaves the records
    alone, a successful [OS_FileSysAddFixedMap] leaves one new record, in
    the slot of the new handle: the device name is the base name of the
    physical path, the physical and the virtual path are its two mount
    points, and it is FIXED, READY and mounted on both sides.  From
    then on a search by virtual mount point that found nothing before
    finds that slot for every path under the virtual path, and
    [OS_FS_GetPhysDriveName] of the virtual path gives the physical
    path. *)
Theorem OS_FileSysAddFixedMap_then_use
    (filesys_id : option osal_id_t) (phys virt : string) (last_id : Z)
    (st : State) (p : P) (filesys_id' : option osal_id_t) (last_id' : Z)
    (st' : State) (p' : P) :
  0 <= last_id ->
  Z.of_nat (length (OS_global_filesys_table st)) <= 65536 ->
  length (OS_filesys_table st) = length (OS_global_filesys_table st) ->
  (forall i s q, snd (fst (OS_FileSysStartVolume_Impl i s q)) = OS_filesys_table s) ->
  OS_FileSysAddFixedMap OS_FS_VOL_NAME_LEN OS_FILESYS_TYPE_FS_BASED self filesys_id
    (Some phys) (Some virt) last_id st p
  = (OS_SUCCESS, filesys_id', last_id', st', p') ->
  let id := OS_ObjectIdCompose_Impl OS_OBJECT_TYPE_OS_FILESYS last_id' in
  exists local_id,
    filesys_id' = match filesys_id with Some _ => Some id | None => None end
    /\ OS_ObjectIdToType_Impl id = OS_OBJECT_TYPE_OS_FILESYS
    /\ (String.length phys < OS_MAX_LOCAL_PATH_LEN)%nat
    /\ (String.length virt < OS_MAX_PATH_LEN)%nat
    /\ st' = mk_state
               (<[local_id := mk_common (Some (basename phys)) id self 0 0]>
                  (OS_global_filesys_table st))
               (<[local_id := fixed_map phys virt]> (OS_filesys_table st))
    /\ (forall vp,
          OS_FileSys_FindVirtMountPoint [fixed_map phys virt] vp 0 common_zero = true ->
          OS_ObjectIdSearch (OS_FileSys_FindVirtMountPoint (OS_filesys_table st) vp) 0
            (OS_global_filesys_table st) = None ->
          OS_ObjectIdSearch (OS_FileSys_FindVirtMountPoint (OS_filesys_table st') vp) 0
            (OS_global_filesys_table st') = Some local_id)
    /\ (virt <> "" ->
        OS_ObjectIdSearch (OS_FileSys_FindVirtMountPoint (OS_filesys_table st) virt) 0
          (OS_global_filesys_table st) = None ->
        forall buf,
          OS_FS_GetPhysDriveName OS_FS_PHYS_NAME_LEN (Some buf) (Some virt) st'
          = (OS_SUCCESS, Some (strncpy phys (OS_FS_PHYS_NAME_LEN - 1)))).
Proof.
  intros Hid Hlen Htabs Hstart Hadd. destruct st as [gtbl tbl].
  cbn [OS_global_filesys_table OS_filesys_table] in *.
  unfold OS_FileSysAddFixedMap in Hadd. revert Hadd.
  destruct (Nat.leb_spec OS_MAX_LOCAL_PATH_LEN (String.length phys)) as [|Hphys];
    [discriminate|].
  destruct (Nat.leb_spec OS_MAX_PATH_LEN (String.length virt)) as [|Hvirt];
    [discriminate|].
  cbn [orb]. fold (basename phys).
  destruct (Nat.leb_spec OS_FS_DEV_NAME_LEN (String.length (basename phys))) as [|Hdev];
    [discriminate|].
  cbn [OS_global_filesys_table OS_filesys_table].
  destruct (OS_ObjectIdAllocateNew (basename phys) self (mk_objtype last_id gtbl))
    as [[rc local_id] ots] eqn:Halloc.
  destruct (Z.eqb_spec rc OS_SUCCESS) as [->|Hrc]; [|intros Heq; injection Heq; congruence].
  rewrite (strncpy_short (basename phys)) by lia.
  rewrite (strncpy_short phys), (strncpy_short virt) by lia.
  cbn [device_name].
  set (ots1 := TimeBase.set_name_entry ots local_id (basename phys)).
  assert (Hfield : 0 <= OS_OBJECT_TYPE_OS_FILESYS < 2 ^ 16)
    by (unfold OS_OBJECT_TYPE_OS_FILESYS; lia).
  destruct (OS_ObjectId_created (basename phys) (basename phys) self
              OS_OBJECT_TYPE_OS_FILESYS last_id gtbl local_id ots filesys_id Hid Hlen
              Hfield Halloc) as (Hfin & Hidx & Hlt).
  destruct (OS_ObjectIdAllocateNew_success _ _ _ _ _ _ Hid Hlen Halloc)
    as (_ & Hserial & _).
  fold ots1 in Hfin.
  match goal with
  | |- context [OS_FileSysStartVolume_Impl local_id ?s p] =>
      pose proof (Hstart local_id s p) as Htbl;
      destruct (OS_FileSysStartVolume_Impl local_id s p) as [[rc1 tbl1] p1]
  end.
  cbn [fst snd OS_filesys_table] in Htbl. subst tbl1.
  destruct (Z.eqb_spec rc1 OS_SUCCESS) as [->|Hrc1].
  2: { apply Z.eqb_neq in Hrc1. cbv beta iota zeta. rewrite ?Hrc1.
       match goal with
       | |- context [OS_ObjectIdFinalizeNew ?a ?b ?c ?d ?e] =>
           pose proof (OS_ObjectIdFinalizeNew_status a b c d e) as Hst;
           destruct (OS_ObjectIdFinalizeNew a b c d e) as [[s0 o0] f0]
       end.
       cbn [fst] in Hst. subst s0. apply Z.eqb_neq in Hrc1.
       intros Heq. injection Heq. congruence. }
  rewrite or_flags_insert by lia.
  match goal with
  | |- context [OS_FileSysMountVolume_Impl local_id ?s p1] =>
      destruct (OS_FileSysMountVolume_Impl local_id s p1) as [rc2 p2]
  end.
  destruct (Z.eqb_spec rc2 OS_SUCCESS) as [->|Hrc2].
  2: { apply Z.eqb_neq in Hrc2. cbv beta iota zeta. rewrite ?Hrc2.
       match goal with
       | |- context [OS_ObjectIdFinalizeNew ?a ?b ?c ?d ?e] =>
           pose proof (OS_ObjectIdFinalizeNew_status a b c d e) as Hst;
           destruct (OS_ObjectIdFinalizeNew a b c d e) as [[s0 o0] f0]
       end.
       cbn [fst] in Hst. subst s0. apply Z.eqb_neq in Hrc2.
       intros Heq. injection Heq. congruence. }
  cbv beta iota zeta. change (OS_SUCCESS =? OS_SUCCESS) with true. cbv iota.
  cbn [OS_filesys_table]. rewrite or_flags_insert by lia.
  rewrite Hfin. cbn [records last_id_issued flags set_fs_flags device_name volume_name
    system_mountpt virtual_mountpt address blocksize numblocks fstype].
  intros Heq. injection Heq as <- <- <- <-.
  set (id := OS_ObjectIdCompose_Impl OS_OBJECT_TYPE_OS_FILESYS (last_id_issued ots)) in *.
  set (r := mk_common (Some (basename phys)) id self 0 0).
  set (gtbl' := <[local_id := r]> gtbl).
  match goal with
  | |- context [<[local_id := ?x]> tbl] => change x with (fixed_map phys virt)
  end.
  set (tbl' := <[local_id := fixed_map phys virt]> tbl).
  assert (Hdef : OS_ObjectIdDefined (active_id r) = true)
    by (apply OS_ObjectIdCompose_defined; [exact Hfield|exact Hserial|reflexivity]).
  assert (Hres : OS_ObjectIdEqual (active_id r) OS_OBJECT_ID_RESERVED = false)
    by (apply OS_ObjectIdCompose_not_reserved; [exact Hfield|exact Hserial|reflexivity]).
  assert (Hr : gtbl' !! local_id = Some r) by (apply list_lookup_insert_eq; exact Hlt).
  assert (Hlocal : tbl' !! local_id = Some (fixed_map phys virt))
    by (apply list_lookup_insert_eq; lia).
  assert (Hfound : forall vp,
            OS_FileSys_FindVirtMountPoint [fixed_map phys virt] vp 0 common_zero = true ->
            OS_ObjectIdSearch (OS_FileSys_FindVirtMountPoint tbl vp) 0 gtbl = None ->
            OS_ObjectIdSearch (OS_FileSys_FindVirtMountPoint tbl' vp) 0 gtbl'
            = Some local_id).
  { intros vp Hm Hnone.
    apply (OS_ObjectIdSearch_insert (OS_FileSys_FindVirtMountPoint tbl vp)
             (OS_FileSys_FindVirtMountPoint tbl' vp) r Hdef Hres gtbl 0%nat local_id Hlt
             Hnone).
    - intros j r' Hj. unfold OS_FileSys_FindVirtMountPoint, tbl'.
      rewrite list_lookup_insert_ne by (cbn in Hj; congruence). reflexivity.
    - cbn [Nat.add]. unfold OS_FileSys_FindVirtMountPoint in *. rewrite Hlocal.
      exact Hm. }
  exists local_id. split; [reflexivity|].
  split; [apply OS_ObjectIdCompose_type; [exact Hfield|exact Hserial]|].
  split; [exact Hphys|]. split; [exact Hvirt|]. split; [reflexivity|].
  split; [exact Hfound|].
  intros Hne Hnone buf. unfold OS_FS_GetPhysDriveName.
  destruct (Nat.leb_spec OS_MAX_PATH_LEN (String.length virt)); [lia|].
  cbn [OS_global_filesys_table OS_filesys_table]. fold gtbl' tbl'.
  unfold OS_ObjectIdGetBySearch. rewrite (Hfound virt); [|clear Hfound|exact Hnone].
  - rewrite Hr. cbn [OS_ObjectIdConvertLock]. rewrite (list_insert_id gtbl' local_id r Hr).
    change (OS_SUCCESS =? OS_SUCCESS) with true. cbv iota.
    unfold local_id_of. rewrite Hr. cbn [default from_option id active_id].
    unfold gtbl'. rewrite length_insert.
    change (active_id (Datatypes.id r)) with id. rewrite Hidx. cbn [snd].
    fold gtbl'. rewrite Hlocal. reflexivity.
  - unfold OS_FileSys_FindVirtMountPoint. cbn [lookup list_lookup fixed_map flags
      virtual_mountpt].
    rewrite prefix_refl, get_length. destruct virt; [contradiction|reflexivity].
Qed.

End FixedMapProperties.

(** An adapter whose volume operations always succeed and leave the
    records alone; every volume has 100 free blocks of 512 bytes. *)
Definition null_volume_adapter : FileSys.FileSysVolumeAdapter unit :=
  {| FileSys.OS_FileSysStartVolume_Impl :=
       fun _ s p => (OS_SUCCESS, FileSys.OS_filesys_table s, p);
     FileSys.OS_FileSysStopVolume_Impl := fun _ _ p => (OS_SUCCESS, p);
     FileSys.OS_FileSysFormatVolume_Impl := fun _ _ p => (OS_SUCCESS, p);
     FileSys.OS_FileSysStatVolume_Impl :=
       fun _ _ p => (OS_SUCCESS, FileSys.mk_statvfs 512 200 100, p);
     FileSys.OS_FileSysCheckVolume_Impl := fun _ _ _ p => (OS_SUCCESS, p) |}.

(** Scenario S3 with the directory [/mnt/nv] mapped at [/nv] beside the
    RAM disk. *)
Lemma OS_FileSysAddFixedMap_then_use_witness :
  exists st',
    @FileSys.OS_FileSysAddFixedMap sample_config _ null_filesys_adapter null_volume_adapter
      32 2 65537 (Some 0) (Some "/mnt/nv") (Some "/nv") 1 s3_mounted_state tt
    = (OS_SUCCESS, Some (OS_ObjectIdCompose_Impl 11 2), 2, st', tt)
    /\ @FileSys.OS_FS_GetPhysDriveName sample_config 64 (Some "") (Some "/nv") st'
       = (OS_SUCCESS, Some "/mnt/nv").
Proof.
  eexists. split; [reflexivity|].
  destruct (@OS_FileSysAddFixedMap_then_use sample_config _ null_filesys_adapter
              null_volume_adapter 32 64 2 65537 (Some 0) "/mnt/nv" "/nv" 1
              s3_mounted_state tt (Some (OS_ObjectIdCompose_Impl 11 2)) 2 _ tt
              ltac:(lia) ltac:(simpl; lia) ltac:(reflexivity)
              ltac:(intros; reflexivity) ltac:(reflexivity))
    as (local_id & _ & _ & _ & _ & _ & _ & Hname).
  apply Hname; [discriminate|reflexivity].
Defined.

(** ** Making a file system *)

Section MakeFileSystem.

Import FileSys.

Context `{OsConfig} {P : Type} `{FileSysVolumeAdapter P}.

Variable OS_FS_VOL_NAME_LEN : nat.
Variable OS_FILESYS_TYPE_UNKNOWN : Z.
Variable OS_FILESYS_TYPE_VOLATILE_DISK : Z.
Variable self : osal_id_t.

Let initialize :=
  OS_FileSys_Initialize OS_FS_VOL_NAME_LEN OS_FILESYS_TYPE_UNKNOWN
    OS_FILESYS_TYPE_VOLATILE_DISK self.

Lemma ready_bit_set f : Z.land (Z.lor f OS_FILESYS_FLAG_IS_READY) OS_FILESYS_FLAG_IS_READY <> 0.
Proof.
  intros Hz. apply (f_equal (fun z => Z.testbit z 0)) in Hz.
  rewrite Z.land_spec, Z.lor_spec, Z.bits_0 in Hz.
  change (Z.testbit OS_FILESYS_FLAG_IS_READY 0) with true in Hz.
  rewrite orb_true_r in Hz. discriminate.
Qed.

Lemma device_not_free_codes rc :
  device_not_free rc <> OS_ERR_INCORRECT_OBJ_STATE
  /\ device_not_free rc <> OS_ERR_NO_FREE_IDS
  /\ (device_not_free rc = OS_SUCCESS <-> rc = OS_SUCCESS).
Proof.
  unfold device_not_free.
  destruct (Z.eqb_spec rc OS_ERR_INCORRECT_OBJ_STATE) as [->|H1]; cbn [orb].
  { repeat split; intros; discriminate. }
  destruct (Z.eqb_spec rc OS_ERR_NO_FREE_IDS) as [->|H2].
  { repeat split; intros; discriminate. }
  repeat split; auto.
Qed.

(** What [OS_FileSys_Initialize] leaves behind. *)
Lemma OS_FileSys_Initialize_outcomes
    (address : option Z) (dev vol : string) (blocksize numblocks : Z) (should_format : bool)
    (last_id : Z) (st : State) (p : P) (rc last_id' : Z) (st' : State) (p' : P) :
  0 <= last_id ->
  Z.of_nat (length (OS_global_filesys_table st)) <= 65536 ->
  length (OS_filesys_table st) = length (OS_global_filesys_table st) ->
  (forall i s q, length (snd (fst (OS_FileSysStartVolume_Impl i s q)))
                 = length (OS_filesys_table s)) ->
  initialize address (Some dev) (Some vol) blocksize numblocks should_format last_id st p
  = (rc, last_id', st', p') ->
  (dev = "" \/ vol = "" -> rc = OS_FS_ERR_PATH_INVALID /\ st' = st /\ p' = p)
  /\ (dev <> "" -> vol <> "" ->
      (OS_FS_DEV_NAME_LEN <= String.length dev)%nat
      \/ (OS_FS_VOL_NAME_LEN <= String.length vol)%nat ->
      rc = OS_FS_ERR_PATH_TOO_LONG /\ st' = st /\ p' = p)
  /\ (rc <> OS_SUCCESS ->
      active_id <$> OS_global_filesys_table st' = active_id <$> OS_global_filesys_table st)
  /\ (rc = OS_SUCCESS ->
      exists local_id local,
        OS_global_filesys_table st'
        = <[local_id := mk_common (Some dev)
                          (OS_ObjectIdCompose_Impl OS_OBJECT_TYPE_OS_FILESYS last_id')
                          self 0 0]> (OS_global_filesys_table st)
        /\ OS_filesys_table st' !! local_id = Some local
        /\ Z.land (flags local) OS_FILESYS_FLAG_IS_READY <> 0).
Proof.
  intros Hid Hlen Htabs Hstart. destruct st as [gtbl tbl].
  cbn [OS_global_filesys_table OS_filesys_table] in *.
  unfold initialize, OS_FileSys_Initialize.
  destruct (String.eqb_spec dev "") as [->|Hdev].
  { cbn [orb]. intros [= <- <- <- <-].
    split; [auto|]. split; [congruence|]. split; [reflexivity|discriminate]. }
  destruct (String.eqb_spec vol "") as [->|Hvol].
  { cbn [orb]. intros [= <- <- <- <-].
    split; [auto|]. split; [congruence|]. split; [reflexivity|discriminate]. }
  cbn [orb].
  destruct (Nat.leb_spec OS_FS_DEV_NAME_LEN (String.length dev)) as [|Hdlen].
  { cbn [orb]. intros [= <- <- <- <-].
    split; [intros [|]; congruence|]. split; [auto|]. split; [reflexivity|discriminate]. }
  destruct (Nat.leb_spec OS_FS_VOL_NAME_LEN (String.length vol)) as [|Hvlen].
  { cbn [orb]. intros [= <- <- <- <-].
    split; [intros [|]; congruence|]. split; [auto|]. split; [reflexivity|discriminate]. }
  cbn [orb OS_global_filesys_table OS_filesys_table].
  destruct (OS_ObjectIdAllocateNew dev self (mk_objtype last_id gtbl))
    as [[rc0 local_id] ots] eqn:Halloc.
  destruct (Z.eqb_spec rc0 OS_SUCCESS) as [->|Hrc0].
  2: { intros [= <- <- <- <-]. split; [intros [|]; congruence|].
       split; [intros _ _ [|]; lia|]. split; [reflexivity|congruence]. }
  set (ots1 := TimeBase.set_name_entry ots local_id dev).
  assert (Hfield : 0 <= OS_OBJECT_TYPE_OS_FILESYS < 2 ^ 16)
    by (unfold OS_OBJECT_TYPE_OS_FILESYS; lia).
  destruct (OS_ObjectId_created dev dev self OS_OBJECT_TYPE_OS_FILESYS last_id gtbl
              local_id ots None Hid Hlen Hfield Halloc) as (Hfin & _ & Hlt).
  fold ots1 in Hfin.
  assert (Hfinal : forall rcF tblF pF,
            (rcF = OS_SUCCESS ->
             exists local, tblF !! local_id = Some local
                           /\ Z.land (flags local) OS_FILESYS_FLAG_IS_READY <> 0) ->
            (let '(rc2, ots0, _) :=
               OS_ObjectIdFinalizeNew rcF OS_OBJECT_TYPE_OS_FILESYS local_id ots1 None in
             (rc2, last_id_issued ots0, mk_state (records ots0) tblF, pF))
            = (rc, last_id', st', p') ->
            (dev = "" \/ vol = "" ->
             rc = OS_FS_ERR_PATH_INVALID /\ st' = mk_state gtbl tbl /\ p' = p)
            /\ (dev <> "" -> vol <> "" ->
                (OS_FS_DEV_NAME_LEN <= String.length dev)%nat
                \/ (OS_FS_VOL_NAME_LEN <= String.length vol)%nat ->
                rc = OS_FS_ERR_PATH_TOO_LONG /\ st' = mk_state gtbl tbl /\ p' = p)
            /\ (rc <> OS_SUCCESS ->
                active_id <$> OS_global_filesys_table st' = active_id <$> gtbl)
            /\ (rc = OS_SUCCESS ->
                exists local_id local,
                  OS_global_filesys_table st'
                  = <[local_id := mk_common (Some dev)
                                    (OS_ObjectIdCompose_Impl OS_OBJECT_TYPE_OS_FILESYS
                                       last_id')
                                    self 0 0]> gtbl
                  /\ OS_filesys_table st' !! local_id = Some local
                  /\ Z.land (flags local) OS_FILESYS_FLAG_IS_READY <> 0)).
  { intros rcF tblF pF Hready. destruct (Z.eq_dec rcF OS_SUCCESS) as [->|HrcF].
    - rewrite Hfin. intros [= <- <- <- <-]. cbn [records last_id_issued
        OS_global_filesys_table OS_filesys_table].
      split; [intros [|]; congruence|]. split; [intros _ _ [|]; lia|].
      split; [congruence|]. intros _. destruct (Hready eq_refl) as (local & Hl & Hbit).
      exists local_id, local. split; [reflexivity|]. split; [exact Hl|exact Hbit].
    - destruct (OS_ObjectId_rolled_back dev dev self OS_OBJECT_TYPE_OS_FILESYS last_id gtbl
                  local_id ots None rcF Hid Hlen HrcF Halloc) as (Hroll & Hids).
      fold ots1 in Hroll. rewrite Hroll. intros [= <- <- <- <-].
      cbn [records last_id_issued OS_global_filesys_table OS_filesys_table].
      split; [intros [|]; congruence|]. split; [intros _ _ [|]; lia|].
      split; [intros _; exact Hids|congruence]. }
  match goal with
  | |- context [OS_FileSysStartVolume_Impl local_id ?s p] =>
      pose proof (Hstart local_id s p) as Hl1;
      destruct (OS_FileSysStartVolume_Impl local_id s p) as [[rc1 tbl1] p1]
  end.
  cbn [fst snd OS_filesys_table] in Hl1. rewrite length_insert in Hl1.
  cbv beta iota zeta.
  assert (Hready : exists local,
            or_flags local_id OS_FILESYS_FLAG_IS_READY tbl1 !! local_id = Some local
            /\ Z.land (flags local) OS_FILESYS_FLAG_IS_READY <> 0).
  { destruct (lookup_lt_is_Some_2 tbl1 local_id ltac:(lia)) as [l Hl].
    unfold or_flags. rewrite Hl. eexists. split.
    - apply list_lookup_insert_eq. lia.
    - cbn [flags set_fs_flags]. apply ready_bit_set. }
  destruct (Z.eqb_spec rc1 OS_SUCCESS) as [->|Hrc1].
  2: { apply (Hfinal rc1 tbl1 p1). intros; contradiction. }
  destruct should_format.
  - match goal with
    | |- context [OS_FileSysFormatVolume_Impl local_id ?s p1] =>
        destruct (OS_FileSysFormatVolume_Impl local_id s p1) as [rc2 p2]
    end.
    destruct (Z.eqb_spec rc2 OS_SUCCESS) as [->|Hrc2].
    + apply (Hfinal OS_SUCCESS (or_flags local_id OS_FILESYS_FLAG_IS_READY tbl1) p2).
      intros _. exact Hready.
    + match goal with
      | |- context [OS_FileSysStopVolume_Impl local_id ?s p2] =>
          apply (Hfinal rc2 tbl1 (snd (OS_FileSysStopVolume_Impl local_id s p2)))
      end.
      intros; contradiction.
  - change (OS_SUCCESS =? OS_SUCCESS) with true. cbv iota.
    apply (Hfinal OS_SUCCESS (or_flags local_id OS_FILESYS_FLAG_IS_READY tbl1) p1).
    intros _. exact Hready.
Qed.

(** X23.  [OS_mkfs] and [OS_initfs], with an adapter whose start
    operation keeps the size of the record table.  Neither returns
    [OS_ERR_INCORRECT_OBJ_STATE] or [OS_ERR_NO_FREE_IDS]; a NULL name
    gives [OS_INVALID_POINTER], an empty name [OS_FS_ERR_PATH_INVALID]
    and a name that does not fit its buffer [OS_FS_ERR_PATH_TOO_LONG],
    each with nothing changed; a call that fails leaves the handles of
    the table as they were; and a call that succeeds leaves one new
    handle, of the file system type and under the device name, on a
    record that has the READY flag. *)
Theorem OS_mkfs_initfs_outcomes
    (format : bool) (address : option Z) (devname volname : option string)
    (blocksize numblocks last_id : Z) (st : State) (p : P)
    (rc last_id' : Z) (st' : State) (p' : P) :
  0 <= last_id ->
  Z.of_nat (length (OS_global_filesys_table st)) <= 65536 ->
  length (OS_filesys_table st) = length (OS_global_filesys_table st) ->
  (forall i s q, length (snd (fst (OS_FileSysStartVolume_Impl i s q)))
                 = length (OS_filesys_table s)) ->
  (if format
   then OS_mkfs OS_FS_VOL_NAME_LEN OS_FILESYS_TYPE_UNKNOWN OS_FILESYS_TYPE_VOLATILE_DISK self
   else OS_initfs OS_FS_VOL_NAME_LEN OS_FILESYS_TYPE_UNKNOWN OS_FILESYS_TYPE_VOLATILE_DISK
          self)
    address devname volname blocksize numblocks last_id st p
  = (rc, last_id', st', p') ->
  rc <> OS_ERR_INCORRECT_OBJ_STATE
  /\ rc <> OS_ERR_NO_FREE_IDS
  /\ (devname = None \/ volname = None -> rc = OS_INVALID_POINTER /\ st' = st /\ p' = p)
  /\ (forall dev vol, devname = Some dev -> volname = Some vol ->
      (dev = "" \/ vol = "" -> rc = OS_FS_ERR_PATH_INVALID /\ st' = st /\ p' = p)
      /\ (dev <> "" -> vol <> "" ->
          (OS_FS_DEV_NAME_LEN <= String.length dev)%nat
          \/ (OS_FS_VOL_NAME_LEN <= String.length vol)%nat ->
          rc = OS_FS_ERR_PATH_TOO_LONG /\ st' = st /\ p' = p)
      /\ (rc = OS_SUCCESS ->
          exists local_id local,
            OS_global_filesys_table st'
            = <[local_id := mk_common (Some dev)
                              (OS_ObjectIdCompose_Impl OS_OBJECT_TYPE_OS_FILESYS last_id')
                              self 0 0]> (OS_global_filesys_table st)
            /\ OS_filesys_table st' !! local_id = Some local
            /\ Z.land (flags local) OS_FILESYS_FLAG_IS_READY <> 0))
  /\ (rc <> OS_SUCCESS ->
      active_id <$> OS_global_filesys_table st' = active_id <$> OS_global_filesys_table st).
Proof.
  intros Hid Hlen Htabs Hstart Hrun.
  assert (Hinit : exists rc0,
            initialize address devname volname blocksize numblocks format last_id st p
            = (rc0, last_id', st', p') /\ rc = device_not_free rc0).
  { destruct format; unfold OS_mkfs, OS_initfs in Hrun; fold initialize in Hrun;
      destruct (initialize address devname volname blocksize numblocks _ last_id st p)
        as [[[rc0 l] s] q];
      injection Hrun as <- <- <- <-; exists rc0; split; reflexivity. }
  clear Hrun. destruct Hinit as (rc0 & Hinit & ->).
  destruct (device_not_free_codes rc0) as (Hstate & Hids & Hok).
  split; [exact Hstate|]. split; [exact Hids|].
  destruct devname as [dev|], volname as [vol|];
    try (unfold initialize, OS_FileSys_Initialize in Hinit; injection Hinit as <- <- <- <-;
         split; [intros _; auto|]; split; [intros ? ? ? ?; discriminate|reflexivity]).
  destruct (OS_FileSys_Initialize_outcomes address dev vol blocksize numblocks format
              last_id st p rc0 last_id' st' p' Hid Hlen Htabs Hstart Hinit)
    as (Hempty & Hlong & Hfail & Hdone).
  split; [intros [|]; discriminate|]. split.
  - intros dev' vol' [= <-] [= <-]. split; [|split].
    + intros Hno. destruct (Hempty Hno) as (-> & -> & ->). auto.
    + intros Hd Hv Hl. destruct (Hlong Hd Hv Hl) as (-> & -> & ->). auto.
    + intros Hrc. apply Hdone, Hok, Hrc.
  - intros Hrc. apply Hfail. intros ->. apply Hrc. reflexivity.
Qed.

End MakeFileSystem.

(** Scenario S3 with a second RAM disk made beside the first. *)
Lemma OS_mkfs_initfs_outcomes_witness :
  exists last_id' st',
    @FileSys.OS_mkfs sample_config _ null_volume_adapter 32 0 1 65537 None (Some "ram1")
      (Some "RAM1") 512 100 1 s3_mounted_state tt
    = (OS_SUCCESS, last_id', st', tt)
    /\ exists local_id local,
         FileSys.OS_filesys_table st' !! local_id = Some local
         /\ Z.land (FileSys.flags local) FileSys.OS_FILESYS_FLAG_IS_READY <> 0.
Proof.
  eexists. eexists. split; [reflexivity|].
  destruct (@OS_mkfs_initfs_outcomes sample_config _ null_volume_adapter 32 0 1 65537 true
              None (Some "ram1") (Some "RAM1") 512 100 1 s3_mounted_state tt OS_SUCCESS
              _ _ tt ltac:(lia) ltac:(simpl; lia) ltac:(reflexivity)
              ltac:(intros; reflexivity) ltac:(reflexivity))
    as (_ & _ & _ & Hnames & _).
  destruct (Hnames "ram1" "RAM1" eq_refl eq_refl) as (_ & _ & Hdone).
  destruct (Hdone eq_refl) as (local_id & local & _ & Hlocal & Hbit).
  exists local_id, local. split; [exact Hlocal|exact Hbit].
Defined.

(** ** Removing a file system *)

Lemma slots_in_use_cleared tbl i r r' :
  tbl !! i = Some r ->
  OS_ObjectIdDefined (active_id r) = true ->
  OS_ObjectIdDefined (active_id r') = false ->
  S (slots_in_use (<[i := r']> tbl)) = slots_in_use tbl.
Proof.
  unfold slots_in_use. revert i. induction tbl as [|r0 tbl IH]; intros i Hr Hdef Hun;
    [discriminate|].
  destruct i as [|i]; cbn [insert list_insert List.filter].
  - cbn in Hr. injection Hr as ->. rewrite Hdef, Hun. reflexivity.
  - cbn in Hr. cbn [list_insert]. destruct (OS_ObjectIdDefined (active_id r0)); cbn [length].
    + f_equal. apply IH; assumption.
    + apply IH; assumption.
Qed.

Section RemoveFileSystem.

Import FileSys.

Context `{OsConfig} {P : Type} `{FileSysVolumeAdapter P}.

(** X24.  [OS_rmfs] of a device name that no record carries returns
    [OS_ERR_NAME_NOT_FOUND] and calls nothing.  When it succeeds, it
    has stopped the volume of the first record of that name and
    cleared the handle of that record, and nothing else: the internal
    records are as they were, the old handle names no file system any
    more, and [OS_GetFsInfo] counts one more free volume. *)
Theorem OS_rmfs_frees_the_slot (dev : string) (st : State) (p : P) :
  handles_name_slots (OS_global_filesys_table st) ->
  Z.of_nat (length (OS_global_filesys_table st)) < 2 ^ 32 ->
  (String.length dev < OS_MAX_API_NAME)%nat ->
  (OS_ObjectIdSearch (OS_ObjectNameMatch dev) 0 (OS_global_filesys_table st) = None ->
   OS_rmfs (Some dev) st p = (OS_ERR_NAME_NOT_FOUND, st, p))
  /\ (forall st' p',
        OS_rmfs (Some dev) st p = (OS_SUCCESS, st', p') ->
        exists gidx g,
          OS_ObjectIdSearch (OS_ObjectNameMatch dev) 0 (OS_global_filesys_table st)
          = Some gidx
          /\ OS_global_filesys_table st !! gidx = Some g
          /\ OS_FileSysStopVolume_Impl gidx st p = (OS_SUCCESS, p')
          /\ st' = mk_state
                     (<[gidx := set_active_id g OS_OBJECT_ID_UNDEFINED]>
                        (OS_global_filesys_table st))
                     (OS_filesys_table st)
          /\ (forall lock_mode,
                OS_ObjectIdGetById lock_mode OS_OBJECT_TYPE_OS_FILESYS (active_id g)
                  (OS_global_filesys_table st')
                = (OS_ERR_INVALID_ID, 0%nat, OS_global_filesys_table st'))
          /\ (forall old streams info info',
                OS_GetFsInfo (Some old) streams st = (OS_SUCCESS, Some info) ->
                OS_GetFsInfo (Some old) streams st' = (OS_SUCCESS, Some info') ->
                FreeVolumes info' = FreeVolumes info + 1
                /\ FreeFds info' = FreeFds info)).
Proof.
  intros Hslots Hlen Hdev. destruct st as [gtbl tbl].
  cbn [OS_global_filesys_table OS_filesys_table] in *. split.
  - intros Hnone. unfold OS_rmfs.
    destruct (Nat.leb_spec OS_MAX_API_NAME (String.length dev)); [lia|].
    cbn [OS_global_filesys_table OS_filesys_table].
    unfold OS_ObjectIdGetByName, OS_ObjectIdGetBySearch. rewrite Hnone. reflexivity.
  - intros st' p'. unfold OS_rmfs.
    destruct (Nat.leb_spec OS_MAX_API_NAME (String.length dev)); [lia|].
    cbn [OS_global_filesys_table OS_filesys_table].
    destruct (OS_ObjectIdGetByName OS_LOCK_MODE_EXCLUSIVE dev gtbl)
      as [[rc gidx] gtbl1] eqn:Hget.
    destruct (Z.eqb_spec rc OS_SUCCESS) as [->|Hrc]; [|discriminate].
    destruct (OS_ObjectIdGetBySearch_success OS_LOCK_MODE_EXCLUSIVE _ _ _ _
                ltac:(discriminate) Hslots Hget)
      as (-> & Hsearch & Hloc & g & Hg & _ & _).
    rewrite Hloc.
    destruct (OS_FileSysStopVolume_Impl gidx (mk_state gtbl tbl) p) as [rc1 p1] eqn:Hstop.
    destruct (Z.eqb_spec rc1 OS_SUCCESS) as [->|Hrc1];
      [|intros Heq; injection Heq; congruence].
    rewrite Hg. intros [= <- <-]. exists gidx, g.
    destruct (OS_ObjectIdSearch_active _ _ _ _ Hsearch) as (g' & Hg' & Hdef & _).
    rewrite Nat.sub_0_r in Hg'. assert (g' = g) as -> by congruence.
    pose proof (lookup_lt_Some _ _ _ Hg) as Hlt.
    split; [exact Hsearch|]. split; [exact Hg|]. split; [exact Hstop|].
    split; [reflexivity|]. cbn [OS_global_filesys_table]. split.
    + intros lock_mode.
      apply (OS_ObjectIdGetById_stale _ _ _ _ gidx (set_active_id g OS_OBJECT_ID_UNDEFINED)).
      * rewrite length_insert. apply (Hslots gidx g Hg Hdef).
      * apply list_lookup_insert_eq. exact Hlt.
      * cbn [active_id set_active_id]. intros Heq. rewrite <- Heq in Hdef. discriminate.
    + intros old streams info info'. unfold OS_GetFsInfo.
      cbn [OS_global_filesys_table]. intros [= <-] [= <-].
      cbn [FreeVolumes FreeFds]. split; [|reflexivity].
      rewrite !count_free_spec by (rewrite ?length_insert; lia).
      rewrite length_insert.
      pose proof (slots_in_use_cleared gtbl gidx g (set_active_id g OS_OBJECT_ID_UNDEFINED)
                    Hg Hdef eq_refl).
      lia.
Qed.

End RemoveFileSystem.

(** Scenario S3: removing the RAM disk frees its slot. *)
Lemma OS_rmfs_frees_the_slot_witness :
  exists st',
    @FileSys.OS_rmfs sample_config _ null_volume_adapter (Some "ram0") s3_ready_state tt
    = (OS_SUCCESS, st', tt)
    /\ OS_ObjectIdGetById OS_LOCK_MODE_NONE OS_OBJECT_TYPE_OS_FILESYS
         (OS_ObjectIdCompose_Impl 11 1) (FileSys.OS_global_filesys_table st')
       = (OS_ERR_INVALID_ID, 0%nat, FileSys.OS_global_filesys_table st').
Proof.
  eexists. split; [reflexivity|].
  destruct (@OS_rmfs_frees_the_slot sample_config _ null_volume_adapter "ram0"
              s3_ready_state tt s3_handles_name_slots ltac:(simpl; lia) ltac:(simpl; lia))
    as (_ & Hdone).
  destruct (Hdone _ tt eq_refl) as (gidx & g & Hsearch & Hg & _ & _ & Hgone & _).
  vm_compute in Hsearch. injection Hsearch as <-. cbn in Hg. injection Hg as <-.
  apply Hgone.
Defined.

(** ** Free space *)

Section FreeSpace.

Import FileSys.

Context `{OsConfig} {P : Type} `{FileSysVolumeAdapter P}.

(** X25.  [OS_fsBlocksFree] and [OS_fsBytesFree] on a path of valid
    length.  When no mounted volume matches the path both return
    [OS_FS_ERR_PATH_INVALID] without calling the adapter, and
    [*bytes_free] is not written.  Otherwise both ask the adapter for
    the statistics of the slot of the first volume that matches; when
    that fails both return its status; when it succeeds
    [OS_fsBlocksFree] returns the free block count through its [int32]
    result, which is the count itself below 2^31 and a negative number
    from there up to 2^32, and [OS_fsBytesFree] stores the count times
    the block size, which is exact for counts and sizes of 32 bits. *)
Theorem OS_fsBlocksFree_and_OS_fsBytesFree
    (name : string) (bytes_free : Z) (st : State) (p : P) :
  handles_name_slots (OS_global_filesys_table st) ->
  (String.length name < OS_MAX_PATH_LEN)%nat ->
  (OS_ObjectIdSearch (OS_FileSys_FindVirtMountPoint (OS_filesys_table st) name) 0
     (OS_global_filesys_table st) = None
   /\ OS_fsBlocksFree (Some name) st p = (OS_FS_ERR_PATH_INVALID, p)
   /\ OS_fsBytesFree (Some name) (Some bytes_free) st p
      = (OS_FS_ERR_PATH_INVALID, Some bytes_free, p))
  \/ (exists gidx return_code statfs p1,
        OS_ObjectIdSearch (OS_FileSys_FindVirtMountPoint (OS_filesys_table st) name) 0
          (OS_global_filesys_table st) = Some gidx
        /\ OS_FileSysStatVolume_Impl gidx st p = (return_code, statfs, p1)
        /\ (return_code <> OS_SUCCESS ->
            OS_fsBlocksFree (Some name) st p = (return_code, p1)
            /\ OS_fsBytesFree (Some name) (Some bytes_free) st p
               = (return_code, Some bytes_free, p1))
        /\ (return_code = OS_SUCCESS ->
            OS_fsBlocksFree (Some name) st p = (to_int32 (blocks_free statfs), p1)
            /\ (0 <= blocks_free statfs < 2 ^ 31 ->
                to_int32 (blocks_free statfs) = blocks_free statfs)
            /\ (2 ^ 31 <= blocks_free statfs < 2 ^ 32 ->
                to_int32 (blocks_free statfs) < 0)
            /\ exists bytes,
                 OS_fsBytesFree (Some name) (Some bytes_free) st p
                 = (OS_SUCCESS, Some bytes, p1)
                 /\ (is_uint32 (blocks_free statfs) -> is_uint32 (block_size statfs) ->
                     bytes = blocks_free statfs * block_size statfs))).
Proof.
  intros Hslots Hname. unfold OS_fsBlocksFree, OS_fsBytesFree.
  destruct (Nat.leb_spec OS_MAX_PATH_LEN (String.length name)); [lia|].
  destruct (OS_ObjectIdGetBySearch_found OS_LOCK_MODE_GLOBAL
              (OS_FileSys_FindVirtMountPoint (OS_filesys_table st) name)
              (OS_global_filesys_table st) (or_intror eq_refl) Hslots)
    as [(gidx & g & -> & Hsearch & _ & _ & Hloc) | (-> & Hnone)].
  - right. change (OS_SUCCESS =? OS_SUCCESS) with true. cbv iota. rewrite Hloc.
    destruct (OS_FileSysStatVolume_Impl gidx st p) as [[rc statfs] p1] eqn:Hstat.
    exists gidx, rc, statfs, p1. split; [exact Hsearch|]. split; [exact Hstat|].
    destruct (Z.eqb_spec rc OS_SUCCESS) as [->|Hrc].
    + split; [congruence|]. intros _. split; [reflexivity|].
      split; [intros Hb; apply to_int32_id; unfold is_int32; lia|].
      split.
      * intros Hb. unfold to_int32.
        replace (blocks_free statfs + 2 ^ 31)
          with (blocks_free statfs - 2 ^ 31 + 1 * 2 ^ 32) by lia.
        rewrite Z.mod_add by lia. rewrite Z.mod_small by lia. lia.
      * eexists. split; [reflexivity|]. unfold is_uint32, to_uint64. intros Hb Hs.
        rewrite (Z.mod_small (blocks_free statfs)), (Z.mod_small (block_size statfs)) by lia.
        apply Z.mod_small. split; [apply Z.mul_nonneg_nonneg; lia|].
        apply Z.le_lt_trans with ((2 ^ 32 - 1) * (2 ^ 32 - 1)); [|reflexivity].
        apply Z.mul_le_mono_nonneg; lia.
    + split; [|congruence]. intros _. split; reflexivity.
  - left. change (OS_ERR_NAME_NOT_FOUND =? OS_SUCCESS) with false. cbv iota. auto.
Qed.

End FreeSpace.

(** Scenario S3: 100 free blocks of 512 bytes under [/cf]. *)
Lemma OS_fsBlocksFree_and_OS_fsBytesFree_witness :
  @FileSys.OS_fsBlocksFree sample_config _ null_volume_adapter (Some "/cf/x")
    s3_mounted_state tt = (100, tt)
  /\ @FileSys.OS_fsBytesFree sample_config _ null_volume_adapter (Some "/cf/x") (Some 0)
       s3_mounted_state tt = (OS_SUCCESS, Some 51200, tt).
Proof.
  destruct (@OS_fsBlocksFree_and_OS_fsBytesFree sample_config _ null_volume_adapter "/cf/x"
              0 s3_mounted_state tt s3_handles_name_slots ltac:(simpl; lia))
    as [(Hnone & _) | (gidx & rc & statfs & p1 & _ & Hstat & _ & Hok)].
  - vm_compute in Hnone. discriminate.
  - cbn in Hstat. injection Hstat as <- <- <-.
    destruct (Hok eq_refl) as (Hblocks & _ & _ & bytes & Hbytes & Hexact).
    split; [exact Hblocks|]. rewrite Hbytes.
    rewrite (Hexact ltac:(unfold is_uint32; simpl; lia) ltac:(unfold is_uint32; simpl; lia)).
    reflexivity.
Defined.
